(** * cloudflare-blog backend: dispatcher, authorization gate and CRUD handlers

    A shallow embedding of the Workers backend (backend/src): the response
    envelope (utils/response.ts), the JWT wrapper (utils/jwt.ts), the
    authorization gate (middleware/auth.ts), the rate limiter and body-size
    check (middleware/security.ts), the dispatcher (index.ts) and the
    article, category, upload and login handlers; then the CORS and
    security-header middleware, the Worker's [fetch], and the remaining
    article, category and tag handlers.

    Conventions.
    - A JavaScript string is a [string] of code units; header values, paths
      and query parameters are byte strings, so a code unit is an [ascii].
      The strings of a JSON body are covered as far as their code units are
      below 256; [String.length] then is the [length] of the code.
    - A JavaScript number that the code only ever uses as an integer is a
      [number]: [NaN], an infinity, or [Num z] for the double of value
      [z].  [parseInt], [-] and [*] round to the nearest double
      ([toDouble]), so they are exact up to 2^53 and not beyond.  The sign
      of zero is not kept: the code never observes it.
    - [Date.now()] is an explicit argument, one per call site.
    - The D1 database is a record of tables, each a list of rows in rowid
      order; a statement is a function on that record, D1 itself never
      fails, and the integers a table holds are below 2^53.  A number
      bound where SQLite needs an integer (LIMIT, OFFSET) is refused
      unless it is a 64-bit integer; where it is compared with a column
      it equals no value unless it is finite.  ORDER BY keeps rows with
      equal keys in rowid order.
    - The libraries the code imports (jose, bcryptjs) are interfaces; the
      calls that can reject say so. *)

From Stdlib Require Import ZArith NArith String Ascii List Lia Bool.
From stdpp Require Import gmap strings list pretty sorting.

Local Open Scope string_scope.
Local Open Scope Z_scope.

(** ** JavaScript primitives *)

Module JS.

(** WhiteSpace and LineTerminator code units below 256: TAB, LF, VT, FF,
    CR, SP and NBSP. *)
Definition isWhiteSpace (c : ascii) : bool :=
  let n := N_of_ascii c in
  ((9 <=? n) && (n <=? 13) || (n =? 32) || (n =? 160))%N.

Fixpoint trimStart (s : string) : string :=
  match s with
  | EmptyString => EmptyString
  | String c s' => if isWhiteSpace c then trimStart s' else s
  end.

Fixpoint trimEnd (s : string) : string :=
  match s with
  | EmptyString => EmptyString
  | String c s' =>
      match trimEnd s' with
      | EmptyString => if isWhiteSpace c then EmptyString else String c EmptyString
      | t => String c t
      end
  end.

(** [String.prototype.trim] *)
Definition trim (s : string) : string := trimEnd (trimStart s).

(** [s.startsWith(p)] *)
Fixpoint startsWith (s p : string) {struct p} : bool :=
  match p with
  | EmptyString => true
  | String c p' =>
      match s with
      | EmptyString => false
      | String d s' => Ascii.eqb c d && startsWith s' p'
      end
  end.

(** [s.slice(n)] for [0 <= n] *)
Fixpoint slice (n : nat) (s : string) : string :=
  match n, s with
  | O, _ => s
  | S _, EmptyString => EmptyString
  | S n', String _ s' => slice n' s'
  end.

(** [s.includes(sub)] *)
Fixpoint includes (s sub : string) : bool :=
  startsWith s sub ||
  match s with
  | EmptyString => false
  | String _ s' => includes s' sub
  end.

(** [s.split(sep)[0]] for a one-character separator *)
Fixpoint splitHead (sep : ascii) (s : string) : string :=
  match s with
  | EmptyString => EmptyString
  | String c s' => if Ascii.eqb c sep then EmptyString else String c (splitHead sep s')
  end.

(** [arr.join(sep)] *)
Fixpoint join (sep : string) (l : list string) : string :=
  match l with
  | [] => EmptyString
  | [x] => x
  | x :: rest => x +:+ sep +:+ join sep rest
  end.

Definition lowerChar (c : ascii) : ascii :=
  let n := N_of_ascii c in
  if ((65 <=? n) && (n <=? 90))%N then ascii_of_N (n + 32) else c.

Fixpoint toLowerCase (s : string) : string :=
  match s with
  | EmptyString => EmptyString
  | String c s' => String (lowerChar c) (toLowerCase s')
  end.

(** Truthiness of a string: the empty string is falsy. *)
Definition truthy (s : string) : bool := negb (String.eqb s "").

(** Numbers: an integer-valued double, an infinity, or [NaN]. *)
Inductive number : Type :=
| NaN
| Num (z : Z)
| Infinity
| NegInfinity.

Definition number_eq_dec (a b : number) : {a = b} + {a <> b}.
Proof. decide equality. apply Z.eq_dec. Defined.

(** The double nearest to the integer [z], ties to the even significand:
    exact up to 2^53 in magnitude, then a multiple of the unit in the last
    of 53 binary places, and an infinity from 2^1024 - 2^970 on. *)
Definition toDouble (z : Z) : number :=
  if Z.log2 (Z.abs z) <? 53 then Num z
  else
    let a := Z.abs z in
    let k := Z.log2 a - 52 in
    let q := a / 2 ^ k in
    let r := a mod 2 ^ k in
    let half := 2 ^ (k - 1) in
    let q' := if (half <? r) || ((r =? half) && Z.odd q) then q + 1 else q in
    if 2 ^ 1024 <=? q' * 2 ^ k
    then (if z <? 0 then NegInfinity else Infinity)
    else Num (Z.sgn z * (q' * 2 ^ k)).

(** [a < b], [a > b], [a <= b]: every comparison with [NaN] is false. *)
Definition lt (a b : number) : bool :=
  match a, b with
  | Num x, Num y => x <? y
  | NegInfinity, (Num _ | Infinity) => true
  | Num _, Infinity => true
  | _, _ => false
  end.
Definition gt (a b : number) : bool := lt b a.
Definition le (a b : number) : bool :=
  match a, b with
  | Num x, Num y => x <=? y
  | NaN, _ | _, NaN => false
  | NegInfinity, _ | _, Infinity => true
  | _, _ => false
  end.

(** Truthiness of a number: [0] and [NaN] are falsy. *)
Definition truthyNum (a : number) : bool :=
  match a with NaN => false | Num z => negb (z =? 0) | _ => true end.

Definition negative (a : number) : bool :=
  match a with Num z => z <? 0 | NegInfinity => true | _ => false end.

(** [a - b] and [a * b]: the exact result, rounded. *)
Definition sub (a b : number) : number :=
  match a, b with
  | Num x, Num y => toDouble (x - y)
  | Infinity, (Num _ | NegInfinity) | Num _, NegInfinity => Infinity
  | NegInfinity, (Num _ | Infinity) | Num _, Infinity => NegInfinity
  | _, _ => NaN
  end.
Definition mul (a b : number) : number :=
  match a, b with
  | Num x, Num y => toDouble (x * y)
  | NaN, _ | _, NaN => NaN
  | _, _ =>
      if negb (truthyNum a && truthyNum b) then NaN
      else if xorb (negative a) (negative b) then NegInfinity else Infinity
  end.

(** [String(n)]; for an integer, below 10^21 in magnitude. *)
Definition numberToString (a : number) : string :=
  match a with
  | NaN => "NaN"
  | Num z => pretty z
  | Infinity => "Infinity"
  | NegInfinity => "-Infinity"
  end.

(** Value of a digit in radix up to 36. *)
Definition digitValue (c : ascii) : option Z :=
  let n := Z.of_N (N_of_ascii c) in
  if (48 <=? n) && (n <=? 57) then Some (n - 48)
  else if (97 <=? n) && (n <=? 122) then Some (n - 87)
  else if (65 <=? n) && (n <=? 90) then Some (n - 55)
  else None.

(** The longest prefix of radix-[R] digits, as an integer; [acc] is [None]
    until a digit has been read. *)
Fixpoint parseDigits (R : Z) (s : string) (acc : option Z) : option Z :=
  match s with
  | EmptyString => acc
  | String c s' =>
      match digitValue c with
      | Some d =>
          if d <? R
          then parseDigits R s' (Some (match acc with Some a => a * R + d | None => d end))
          else acc
      | None => acc
      end
  end.

(** [parseInt(s, radix)]; [radix = None] is the one-argument call.  The
    digits are read exactly and the result is the nearest double, which is
    what V8 returns in radix 10 and 16. *)
Definition parseInt (s : string) (radix : option Z) : number :=
  let s1 := trimStart s in
  let '(sign, s2) :=
    match s1 with
    | String "-"%char r => (-1, r)
    | String "+"%char r => (1, r)
    | _ => (1, s1)
    end in
  let R0 := match radix with Some r => r | None => 0 end in
  if (R0 =? 0) || ((2 <=? R0) && (R0 <=? 36)) then
    let stripPrefix := (R0 =? 0) || (R0 =? 16) in
    let R1 := if R0 =? 0 then 10 else R0 in
    let '(R, s3) :=
      if stripPrefix && (startsWith s2 "0x" || startsWith s2 "0X")
      then (16, slice 2 s2) else (R1, s2) in
    match parseDigits R s3 None with
    | Some m => toDouble (sign * m)
    | None => NaN
    end
  else NaN.

(** [Math.ceil(x / 1000)] for an integer [x]. *)
Definition ceilDiv1000 (x : Z) : Z := - ((- x) / 1000).

(** [Math.floor(x / 1000)] for an integer [x]. *)
Definition floorDiv1000 (x : Z) : Z := x / 1000.

(** [^\d+$] *)
Definition isDigit (c : ascii) : bool :=
  let n := N_of_ascii c in ((48 <=? n) && (n <=? 57))%N.

Fixpoint allDigits (s : string) : bool :=
  match s with
  | EmptyString => true
  | String c s' => isDigit c && allDigits s'
  end.

Definition isDigits1 (s : string) : bool :=
  match s with EmptyString => false | _ => allDigits s end.

(** JSON values as [request.json()] returns them. *)
#[warnings="-register-all"]
Inductive JSON : Type :=
| JNull
| JBool (b : bool)
| JNumber (n : Z)
| JString (s : string)
| JArray (items : list JSON)
| JObject (fields : list (string * JSON)).

End JS.

(** ** HTTP requests (the parts of the Fetch API the backend reads) *)

Module Http.

Record ArrayBuffer : Type := {
  byteLength : N;
  (** the bytes; the backend only measures and stores them *)
  contents : string
}.

Record File : Type := {
  file_type : string;
  file_buffer : ArrayBuffer
}.

(** [file.size] *)
Definition file_size (f : File) : N := byteLength (file_buffer f).

Inductive FormDataEntryValue : Type :=
| EntryFile (f : File)
| EntryString (s : string).

(** What each body reader of the platform returns for a request body;
    [None] is a rejected promise. *)
Record Body : Type := {
  (** [request.json()] *)
  json : option JS.JSON;
  (** [request.formData()], then [formData.get('file')] *)
  formData : option (option FormDataEntryValue);
  (** [request.arrayBuffer()] *)
  arrayBuffer : option ArrayBuffer
}.

Record Request : Type := {
  method : string;
  pathname : string;
  (** [url.searchParams], in order of appearance *)
  searchParams : list (string * string);
  headers : list (string * string);
  body : Body
}.

Fixpoint assoc (k : string) (l : list (string * string)) : option string :=
  match l with
  | [] => None
  | (k', v) :: rest => if String.eqb k k' then Some v else assoc k rest
  end.

(** [url.searchParams.get(name)]: first value, names are case-sensitive. *)
Definition searchParams_get (r : Request) (name : string) : option string :=
  assoc name (searchParams r).

(** [request.headers.get(name)]: names are case-insensitive. *)
Fixpoint headers_lookup (name : string) (l : list (string * string)) : option string :=
  match l with
  | [] => None
  | (k, v) :: rest =>
      if String.eqb (JS.toLowerCase k) (JS.toLowerCase name) then Some v
      else headers_lookup name rest
  end.

Definition headers_get (r : Request) (name : string) : option string :=
  headers_lookup name (headers r).

End Http.

(** ** utils/response.ts: the uniform envelope *)

Module Response.

Import JS.

(** models/types.ts: the rows the API returns. *)
Inductive ArticleStatus : Type := draft | published.

Definition ArticleStatus_eqb (a b : ArticleStatus) : bool :=
  match a, b with
  | draft, draft | published, published => true
  | _, _ => false
  end.

Definition statusToString (s : ArticleStatus) : string :=
  match s with draft => "draft" | published => "published" end.

Record Category : Type := {
  c_id : Z;
  c_name : string;
  c_slug : string;
  c_description : option string;
  c_created_at : string
}.

Record Tag : Type := {
  t_id : Z;
  t_name : string;
  t_slug : string;
  t_created_at : string
}.

(** The columns every article query selects. *)
Record Article : Type := {
  id : Z;
  title : string;
  content : string;
  cover : option string;
  category_id : option Z;
  description : option string;
  keywords : option string;
  status : ArticleStatus;
  view_count : Z;
  like_count : Z;
  created_at : string;
  updated_at : string
}.

(** The columns of the related-articles query. *)
Record RelatedArticle : Type := {
  r_id : Z;
  r_title : string;
  r_cover : option string;
  r_description : option string;
  r_view_count : Z;
  r_created_at : string
}.

(** [{ ...article, category, tags }] *)
Record ArticleWithRelations : Type := {
  article : Article;
  category : option Category;
  tags : list Tag
}.

Record PaginatedResponse (T : Type) : Type := {
  data : list T;
  total : Z;
  page : number;
  pageSize : number
}.
Arguments data {T} _.
Arguments total {T} _.
Arguments page {T} _.
Arguments pageSize {T} _.

Record JWTPayload : Type := {
  sub : string;
  username : string;
  iat : Z;
  exp : Z
}.

(** The [data] member of a success envelope, one constructor per call of
    [success] in the modelled handlers. *)
Inductive Data : Type :=
| DArticles (p : PaginatedResponse ArticleWithRelations)
| DAdminArticles (p : PaginatedResponse Article)
| DArticle (a : ArticleWithRelations) (relatedArticles : list RelatedArticle)
| DLike (liked : bool) (like_count : Z)
| DDeleted
| DUpload (url filename : string)
| DLogin (token : string) (expiresAt : Z)
| DHealth (timestamp : Z).

(** [ApiResponse]: [{success: true, data}] or [{success: false, error}]. *)
Inductive ApiResponse : Type :=
| Success (d : Data)
| Failure (code message : string).

Record Response : Type := {
  r_status : Z;
  r_headers : list (string * string);
  r_body : ApiResponse
}.

Definition success (d : Data) (status : Z) : Response :=
  {| r_status := status;
     r_headers := [("Content-Type", "application/json")];
     r_body := Success d |}.

Definition error (code message : string) (status : Z) : Response :=
  {| r_status := status;
     r_headers := [("Content-Type", "application/json")];
     r_body := Failure code message |}.

Definition unauthorized (message : string) : Response := error "UNAUTHORIZED" message 401.
Definition notFound (message : string) : Response := error "NOT_FOUND" message 404.
Definition badRequest (message : string) : Response := error "BAD_REQUEST" message 400.
Definition conflict (message : string) : Response := error "CONFLICT" message 409.
Definition internalError (message : string) : Response := error "INTERNAL_ERROR" message 500.
Definition payloadTooLarge (message : string) : Response := error "PAYLOAD_TOO_LARGE" message 413.

(** [headers.set(name, value)] on a fresh copy of the headers. *)
Fixpoint headers_set (name value : string) (l : list (string * string))
  : list (string * string) :=
  match l with
  | [] => [(name, value)]
  | (k, v) :: rest =>
      if String.eqb (toLowerCase k) (toLowerCase name) then (k, value) :: rest
      else (k, v) :: headers_set name value rest
  end.

(** [tooManyRequests(message, retryAfter)]: the header is set when
    [retryAfter] is truthy. *)
Definition tooManyRequests (message : string) (retryAfter : option number) : Response :=
  let response := error "TOO_MANY_REQUESTS" message 429 in
  match retryAfter with
  | Some n =>
      if truthyNum n
      then {| r_status := 429;
              r_headers := headers_set "Retry-After" (numberToString n) (r_headers response);
              r_body := r_body response |}
      else response
  | None => response
  end.

(** [response.headers.get(name)] *)
Definition header (r : Response) (name : string) : option string :=
  Http.headers_lookup name (r_headers r).

End Response.

(** ** The bindings of the Worker: D1 tables, R2 bucket, signing secret *)

Module Env.

Import Response.

Record Admin : Type := {
  ad_id : Z;
  ad_username : string;
  ad_password_hash : string;
  ad_created_at : string
}.

(** A row of [articles]: the selected columns and [is_pinned]. *)
Record ArticleRow : Type := {
  cols : Article;
  is_pinned : Z
}.

Record ArticleTag : Type := {
  article_id : Z;
  tag_id : Z
}.

(** schema.sql *)
Record D1Database : Type := {
  admins : list Admin;
  categories : list Category;
  tags_table : list Tag;
  articles : list ArticleRow;
  article_tags : list ArticleTag
}.

Record R2Object : Type := {
  o_body : Http.ArrayBuffer;
  o_contentType : string
}.

Record Env : Type := {
  DB : D1Database;
  BUCKET : gmap string R2Object;
  JWT_SECRET : string
}.

Definition with_DB (env : Env) (db : D1Database) : Env :=
  {| DB := db; BUCKET := BUCKET env; JWT_SECRET := JWT_SECRET env |}.

Definition with_articles (db : D1Database) (rows : list ArticleRow) : D1Database :=
  {| admins := admins db; categories := categories db; tags_table := tags_table db;
     articles := rows; article_tags := article_tags db |}.

Definition with_categories (db : D1Database) (rows : list Category) : D1Database :=
  {| admins := admins db; categories := rows; tags_table := tags_table db;
     articles := articles db; article_tags := article_tags db |}.

End Env.

(** ** utils/jwt.ts over the jose library *)

Module Jwt.

Import JS Response.

(** A claim as [typeof] sees it: a string, a number, or anything else. *)
Inductive Claim : Type :=
| CString (s : string)
| CNumber (n : Z)
| COther.

(** The four claims [verifyToken] reads from a verified payload. *)
Record JosePayload : Type := {
  j_sub : Claim;
  j_username : Claim;
  j_iat : Claim;
  j_exp : Claim
}.

(** The two entry points of jose that utils/jwt.ts calls. *)
Class Jose : Type := {
  (** [new SignJWT(..).setProtectedHeader({alg:'HS256'}).setIssuedAt(..)
      .setExpirationTime(..).sign(key)] *)
  jose_sign : JosePayload -> string -> string;
  (** whether [sign] resolves with that token: it rejects when the
      platform does not import the key (WebCrypto refuses an HMAC key of
      length zero) *)
  jose_signs : string -> bool;
  (** [jwtVerify(token, key, {algorithms:['HS256']})] when jose reads the
      clock at [nowMs]; [None] when it throws. *)
  jose_verify : string -> string -> Z -> option JosePayload
}.

(** What the code relies on from jose, with HS256 idealised: a token
    verifies under the key that signed it until its [exp] second, and
    never under another key; a compact JWS is a non-empty string without
    surrounding white space. *)
Class JoseLaws (J : Jose) : Prop := {
  verify_signed : forall p k e nowMs,
    j_exp p = CNumber e -> floorDiv1000 nowMs < e ->
    jose_verify (jose_sign p k) k nowMs = Some p;
  verify_expired : forall p k e nowMs,
    j_exp p = CNumber e -> e <= floorDiv1000 nowMs ->
    jose_verify (jose_sign p k) k nowMs = None;
  verify_other_key : forall p k k' nowMs,
    k <> k' -> jose_verify (jose_sign p k) k' nowMs = None;
  sign_compact : forall p k,
    trim (jose_sign p k) = jose_sign p k /\ jose_sign p k <> ""
}.

Definition TOKEN_EXPIRATION_SECONDS : Z := 24 * 60 * 60.

(** [signToken(payload, secret)]; [dateNow] is its [Date.now()].  [None]
    is the rejection of [sign], which [signToken] passes on. *)
Definition signToken `{Jose} (sub username : string) (secret : string) (dateNow : Z)
  : option string :=
  let now := floorDiv1000 dateNow in
  if jose_signs secret
  then Some (jose_sign {| j_sub := CString sub;
                          j_username := CString username;
                          j_iat := CNumber now;
                          j_exp := CNumber (now + TOKEN_EXPIRATION_SECONDS) |} secret)
  else None.

(** [verifyToken(token, secret)]: [null] on a throw or a missing field. *)
Definition verifyToken `{Jose} (token secret : string) (dateNow : Z)
  : option JWTPayload :=
  match jose_verify token secret dateNow with
  | None => None
  | Some payload =>
      match j_sub payload, j_username payload, j_iat payload, j_exp payload with
      | CString s, CString u, CNumber i, CNumber e =>
          Some {| sub := s; username := u; iat := i; exp := e |}
      | _, _, _, _ => None
      end
  end.

Definition getTokenExpirationSeconds : Z := TOKEN_EXPIRATION_SECONDS.

End Jwt.

(** ** middleware/auth.ts: the authorization gate *)

Module Auth.

Import JS Response Jwt.

Definition extractBearerToken (authHeader : option string) : option string :=
  match authHeader with
  | None => None
  | Some authHeader =>
      if negb (truthy authHeader) then None
      else
        let bearerPrefix := "Bearer " in
        if negb (startsWith authHeader bearerPrefix) then None
        else
          let token := trim (slice (String.length bearerPrefix) authHeader) in
          if negb (truthy token) then None else Some token
  end.

(** [{ user: JWTPayload } | Response] *)
Inductive AuthResult : Type :=
| User (user : JWTPayload)
| Rejected (response : Response).

(** [dateNow] is the clock jose reads while verifying. *)
Definition authMiddleware `{Jose} (request : Http.Request) (env : Env.Env) (dateNow : Z)
  : AuthResult :=
  let authHeader := Http.headers_get request "Authorization" in
  match extractBearerToken authHeader with
  | None => Rejected (unauthorized "Missing or invalid authorization header")
  | Some token =>
      match verifyToken token (Env.JWT_SECRET env) dateNow with
      | None => Rejected (unauthorized "Invalid or expired token")
      | Some payload => User payload
      end
  end.

Definition isAuthSuccess (result : AuthResult) : bool :=
  match result with User _ => true | Rejected _ => false end.

End Auth.

(** ** middleware/security.ts: body size and rate limit *)

Module Security.

Import JS.

Definition MAX_REQUEST_BODY_SIZE : Z := 1024 * 1024.
Definition MAX_UPLOAD_SIZE : Z := 10 * 1024 * 1024.

(** [INPUT_LIMITS], the two fields the modelled handlers use. *)
Inductive LimitedField : Type := f_username | f_password.

Definition fieldName (f : LimitedField) : string :=
  match f with f_username => "username" | f_password => "password" end.

Definition INPUT_LIMITS (f : LimitedField) : Z * Z :=
  match f with f_username => (1, 50) | f_password => (6, 100) end.

(** [validateStringLength(value, field)]: [None] is [{valid: true}].
    [value.length] counts code units. *)
Definition validateStringLength (value : string) (field : LimitedField) : option string :=
  let '(min, max) := INPUT_LIMITS field in
  let length := Z.of_nat (String.length value) in
  if length <? min
  then Some (fieldName field +:+ " must be at least " +:+ pretty min +:+ " characters")
  else if max <? length
  then Some (fieldName field +:+ " must not exceed " +:+ pretty max +:+ " characters")
  else None.

Record BodyCheck : Type := {
  valid : bool;
  size : number
}.

Definition checkRequestBodySize (request : Http.Request) (maxSize : Z) : BodyCheck :=
  match Http.headers_get request "Content-Length" with
  | Some contentLength =>
      if truthy contentLength
      then let size := parseInt contentLength (Some 10) in
           {| valid := le size (Num maxSize); size := size |}
      else {| valid := true; size := Num 0 |}
  | None => {| valid := true; size := Num 0 |}
  end.

Record RateLimitConfig : Type := {
  maxRequests : Z;
  windowMs : Z
}.

Record RateLimitRecord : Type := {
  count : Z;
  resetTime : Z
}.

Record RateLimitResult : Type := {
  allowed : bool;
  remaining : Z;
  rl_resetTime : Z
}.

(** [checkRateLimit(key, config)] on the module-level [rateLimitStore];
    [now] is its [Date.now()]. *)
Definition checkRateLimit (key : string) (config : RateLimitConfig) (now : Z)
    (rateLimitStore : gmap string RateLimitRecord)
  : RateLimitResult * gmap string RateLimitRecord :=
  let store :=
    match rateLimitStore !! key with
    | Some record => if resetTime record <? now then delete key rateLimitStore
                     else rateLimitStore
    | None => rateLimitStore
    end in
  match store !! key with
  | None =>
      let resetTime := now + windowMs config in
      ({| allowed := true; remaining := maxRequests config - 1; rl_resetTime := resetTime |},
       <[key := {| count := 1; resetTime := resetTime |}]> store)
  | Some existing =>
      if maxRequests config <=? count existing
      then ({| allowed := false; remaining := 0; rl_resetTime := resetTime existing |},
            store)
      else
        let existing' := {| count := count existing + 1; resetTime := resetTime existing |} in
        ({| allowed := true;
            remaining := maxRequests config - count existing';
            rl_resetTime := resetTime existing' |},
         <[key := existing']> store)
  end.

(** [a || b] on nullable strings *)
Definition orString (a : option string) (b : option string) : option string :=
  match a with
  | Some s => if truthy s then Some s else b
  | None => b
  end.

Definition getClientIP (request : Http.Request) : string :=
  let forwarded :=
    match Http.headers_get request "X-Forwarded-For" with
    | Some v => Some (trim (splitHead ","%char v))
    | None => None
    end in
  match orString (orString (Http.headers_get request "CF-Connecting-IP") forwarded)
                 (Some "unknown") with
  | Some ip => ip
  | None => "unknown"
  end.

End Security.

(** ** handlers/articles.ts *)

Module Articles.

Import JS Response Env.

Definition DEFAULT_PAGE_SIZE : Z := 10.

#[global] Instance ArticleStatus_eq_dec : EqDecision ArticleStatus.
Proof. solve_decision. Defined.

#[global] Instance Article_eq_dec : EqDecision Article.
Proof. solve_decision. Defined.

#[global] Instance RelatedArticle_eq_dec : EqDecision RelatedArticle.
Proof. solve_decision. Defined.

(** [a || d] on a nullable string *)
Definition orDefault (a : option string) (d : string) : string :=
  match a with
  | Some s => if truthy s then s else d
  | None => d
  end.

(** [v ? parseInt(v) : undefined] *)
Definition optionalInt (v : option string) : option number :=
  match v with
  | Some s => if truthy s then Some (parseInt s None) else None
  | None => None
  end.

(** [v || undefined] *)
Definition optionalString (v : option string) : option string :=
  match v with
  | Some s => if truthy s then Some s else None
  | None => None
  end.

(** [if (params.x)] on an optional number: the bound value when truthy. *)
Definition activeFilter (v : option number) : option number :=
  match v with
  | Some n => if truthyNum n then Some n else None
  | None => None
  end.

(** [column = ?] on an integer column: a bound number that is not finite
    equals no integer. *)
Definition bound (n : number) (test : Z -> bool) : bool :=
  match n with Num z => test z | _ => false end.

Record ArticleListParams : Type := {
  p_page : number;
  p_pageSize : number;
  p_categoryId : option number;
  p_tagId : option number;
  p_status : option string
}.

(** The two corrections applied to [params] after parsing. *)
Definition validatePage (page : number) : number :=
  if lt page (Num 1) then Num 1 else page.

Definition validatePageSize (pageSize : number) : number :=
  if lt pageSize (Num 1) || gt pageSize (Num 100) then Num DEFAULT_PAGE_SIZE else pageSize.

Definition publicParams (request : Http.Request) : ArticleListParams :=
  let get := Http.searchParams_get request in
  {| p_page := validatePage (parseInt (orDefault (get "page") "1") None);
     p_pageSize :=
       validatePageSize (parseInt (orDefault (get "pageSize") (pretty DEFAULT_PAGE_SIZE)) None);
     p_categoryId := optionalInt (get "categoryId");
     p_tagId := optionalInt (get "tagId");
     p_status := None |}.

Definition adminParams (request : Http.Request) : ArticleListParams :=
  let get := Http.searchParams_get request in
  {| p_page := validatePage (parseInt (orDefault (get "page") "1") None);
     p_pageSize :=
       validatePageSize (parseInt (orDefault (get "pageSize") (pretty DEFAULT_PAGE_SIZE)) None);
     p_categoryId := optionalInt (get "categoryId");
     p_tagId := None;
     p_status := optionalString (get "status") |}.

(** [(params.page - 1) * params.pageSize] *)
Definition offsetOf (params : ArticleListParams) : number :=
  JS.mul (JS.sub (p_page params) (Num 1)) (p_pageSize params).

(** *** The SQL the handlers issue *)

(** [FROM articles a LEFT JOIN article_tags at ON a.id = at.article_id] *)
Definition leftJoinTags (db : D1Database) : list (ArticleRow * option ArticleTag) :=
  flat_map
    (fun a =>
       match List.filter (fun at' => article_id at' =? id (cols a)) (article_tags db) with
       | [] => [(a, None)]
       | matches => map (fun at' => (a, Some at')) matches
       end)
    (articles db).

(** [FROM articles a] *)
Definition fromArticles (db : D1Database) : list (ArticleRow * option ArticleTag) :=
  map (fun a => (a, None)) (articles db).

Definition isPublished (a : Article) : bool := ArticleStatus_eqb (status a) published.

(** [at.tag_id = ?]; a NULL never compares equal. *)
Definition tagIs (t : Z) (at' : option ArticleTag) : bool :=
  match at' with Some x => tag_id x =? t | None => false end.

(** [a.category_id = ?] *)
Definition categoryIs (c : Z) (a : Article) : bool :=
  match category_id a with Some x => x =? c | None => false end.

Definition whenSome {A} (f : option A) (test : A -> bool) : bool :=
  match f with Some x => test x | None => true end.

(** The WHERE clause of the public list: [a.status = 'published'], then
    the tag and category conditions that were pushed. *)
Definition publicWhere (params : ArticleListParams)
    (r : ArticleRow * option ArticleTag) : bool :=
  isPublished (cols (fst r))
  && whenSome (activeFilter (p_tagId params)) (fun t => bound t (fun z => tagIs z (snd r)))
  && whenSome (activeFilter (p_categoryId params))
       (fun c => bound c (fun z => categoryIs z (cols (fst r)))).

(** The WHERE clause of the admin list. *)
Definition adminWhere (params : ArticleListParams) (a : ArticleRow) : bool :=
  whenSome (activeFilter (p_categoryId params))
    (fun c => bound c (fun z => categoryIs z (cols a)))
  && whenSome (p_status params) (fun s => String.eqb (statusToString (status (cols a))) s).

(** [ORDER BY created_at DESC] *)
Definition createdDesc (a b : Article) : Prop :=
  String.leb (created_at b) (created_at a) = true.

#[global] Instance createdDesc_dec : RelDecision createdDesc.
Proof. intros a b. unfold createdDesc. apply _. Defined.

(** [ORDER BY]: a row goes before the rows it may precede, so rows with
    equal keys stay in the order of the scan, which is rowid order. *)
Fixpoint insertBy {A} (R : A -> A -> Prop) `{!RelDecision R} (x : A) (l : list A)
  : list A :=
  match l with
  | [] => [x]
  | y :: l' => if decide (R x y) then x :: y :: l' else y :: insertBy R x l'
  end.

Definition orderBy {A} (R : A -> A -> Prop) `{!RelDecision R} (l : list A) : list A :=
  foldr (insertBy R) [] l.

(** A bound number where SQLite must have an integer: one that is not a
    64-bit integer is refused with a datatype mismatch. *)
Definition sqlInteger (n : number) : option Z :=
  match n with
  | Num z => if (- 2 ^ 63 <? z) && (z <? 2 ^ 63) then Some z else None
  | _ => None
  end.

(** [LIMIT ? OFFSET ?]: [None] when SQLite refuses a bound; a negative
    limit is no limit and a negative offset is zero. *)
Definition limitOffset {A} (limit offset : number) (rows : list A) : option (list A) :=
  match sqlInteger limit, sqlInteger offset with
  | Some l, Some o =>
      let rest := drop (Z.to_nat o) rows in
      Some (if l <? 0 then rest else take (Z.to_nat l) rest)
  | _, _ => None
  end.

(** The rows the public data query matches, before LIMIT and OFFSET. *)
Definition publicMatches (db : D1Database) (params : ArticleListParams)
  : list (ArticleRow * option ArticleTag) :=
  List.filter (publicWhere params)
    (match activeFilter (p_tagId params) with
     | Some _ => leftJoinTags db
     | None => fromArticles db
     end).

(** [SELECT DISTINCT a.id, ... ORDER BY a.created_at DESC] *)
Definition publicRows (db : D1Database) (params : ArticleListParams) : list Article :=
  orderBy createdDesc (remove_dups (map (fun r => cols (fst r)) (publicMatches db params))).

(** [COUNT(DISTINCT a.id)] with a tag filter, [COUNT( * )] without. *)
Definition publicCount (db : D1Database) (params : ArticleListParams) : Z :=
  match activeFilter (p_tagId params) with
  | Some _ =>
      Z.of_nat (length (remove_dups (map (fun r => id (cols (fst r))) (publicMatches db params))))
  | None => Z.of_nat (length (publicMatches db params))
  end.

Definition adminMatches (db : D1Database) (params : ArticleListParams) : list ArticleRow :=
  List.filter (adminWhere params) (articles db).

Definition adminRows (db : D1Database) (params : ArticleListParams) : list Article :=
  orderBy createdDesc (map cols (adminMatches db params)).

Definition adminCount (db : D1Database) (params : ArticleListParams) : Z :=
  Z.of_nat (length (adminMatches db params)).

(** [article.category_id ? SELECT ... FROM categories WHERE id = ? : null] *)
Definition categoryOf (db : D1Database) (a : Article) : option Category :=
  match category_id a with
  | Some c => if c =? 0 then None else List.find (fun k => c_id k =? c) (categories db)
  | None => None
  end.

(** [SELECT t.* FROM tags t JOIN article_tags at ON t.id = at.tag_id
    WHERE at.article_id = ?] *)
Definition tagsOf (db : D1Database) (articleId : Z) : list Tag :=
  flat_map
    (fun t =>
       map (fun _ => t)
         (List.filter (fun at' => (t_id t =? tag_id at') && (article_id at' =? articleId))
            (article_tags db)))
    (tags_table db).

Definition withRelations (db : D1Database) (a : Article) : ArticleWithRelations :=
  {| article := a; category := categoryOf db a; tags := tagsOf db (id a) |}.

(** [count || 0] *)
Definition orZero (n : Z) : Z := if n =? 0 then 0 else n.

(** *** GET /api/articles *)
Definition handleGetArticles (request : Http.Request) (env : Env) : Response :=
  let params := publicParams request in
  let db := DB env in
  match limitOffset (p_pageSize params) (offsetOf params) (publicRows db params) with
  | None => internalError "Failed to fetch articles"
  | Some results =>
      success (DArticles {| data := map (withRelations db) results;
                            total := orZero (publicCount db params);
                            page := p_page params;
                            pageSize := p_pageSize params |}) 200
  end.

(** *** GET /api/admin/articles *)
Definition handleGetAdminArticles (request : Http.Request) (env : Env) : Response :=
  let params := adminParams request in
  let db := DB env in
  match limitOffset (p_pageSize params) (offsetOf params) (adminRows db params) with
  | None => internalError "Failed to fetch articles"
  | Some results =>
      success (DAdminArticles {| data := results;
                                 total := orZero (adminCount db params);
                                 page := p_page params;
                                 pageSize := p_pageSize params |}) 200
  end.

(** *** GET /api/article/:id *)

Definition setViewCount (a : Article) (n : Z) : Article :=
  {| id := id a; title := title a; content := content a; cover := cover a;
     category_id := category_id a; description := description a;
     keywords := keywords a; status := status a; view_count := n;
     like_count := like_count a; created_at := created_at a;
     updated_at := updated_at a |}.

Definition setLikeCount (a : Article) (n : Z) : Article :=
  {| id := id a; title := title a; content := content a; cover := cover a;
     category_id := category_id a; description := description a;
     keywords := keywords a; status := status a; view_count := view_count a;
     like_count := n; created_at := created_at a;
     updated_at := updated_at a |}.

Definition updateCols (f : Article -> Article) (r : ArticleRow) : ArticleRow :=
  {| cols := f (cols r); is_pinned := is_pinned r |}.

(** [UPDATE articles SET view_count = view_count + 1
    WHERE id = ? AND status = 'published'] *)
Definition incrementViews (i : Z) (db : D1Database) : D1Database :=
  with_articles db
    (map (fun r =>
            if (id (cols r) =? i) && isPublished (cols r)
            then updateCols (fun a => setViewCount a (view_count a + 1)) r
            else r)
       (articles db)).

(** [SELECT ... FROM articles WHERE id = ? AND status = 'published'],
    [.first()] *)
Definition selectPublished (i : Z) (db : D1Database) : option Article :=
  option_map cols
    (List.find (fun r => (id (cols r) =? i) && isPublished (cols r)) (articles db)).

(** [SELECT ... FROM articles WHERE id = ?], [.first()] *)
Definition selectArticle (i : Z) (db : D1Database) : option ArticleRow :=
  List.find (fun r => id (cols r) =? i) (articles db).

Definition toRelated (a : Article) : RelatedArticle :=
  {| r_id := id a; r_title := title a; r_cover := cover a;
     r_description := description a; r_view_count := view_count a;
     r_created_at := created_at a |}.

(** [ORDER BY a.view_count DESC, a.created_at DESC] *)
Definition relatedOrder (a b : RelatedArticle) : Prop :=
  r_view_count b < r_view_count a \/
  (r_view_count a = r_view_count b /\ String.leb (r_created_at b) (r_created_at a) = true).

#[global] Instance relatedOrder_dec : RelDecision relatedOrder.
Proof. intros a b. unfold relatedOrder. apply _. Defined.

(** The related-articles query, bound to [(id, category_id || 0, id)]. *)
Definition relatedArticlesOf (db : D1Database) (i : Z) (a : Article) : list RelatedArticle :=
  let c := match category_id a with Some x => x | None => 0 end in
  let ownTags :=
    map tag_id (List.filter (fun at' => article_id at' =? i) (article_tags db)) in
  let matching :=
    List.filter
      (fun r =>
         negb (id (cols (fst r)) =? i)
         && isPublished (cols (fst r))
         && (categoryIs c (cols (fst r))
             || match snd r with
                | Some at' => existsb (Z.eqb (tag_id at')) ownTags
                | None => false
                end))
      (leftJoinTags db) in
  take 4 (orderBy relatedOrder
            (remove_dups (map (fun r => toRelated (cols (fst r))) matching))).

Definition handleGetArticle (env : Env) (i : Z) : Response * Env :=
  let db := incrementViews i (DB env) in
  let env' := with_DB env db in
  match selectPublished i db with
  | None => (notFound "Article not found", env')
  | Some a =>
      (success (DArticle {| article := a;
                            category := categoryOf db a;
                            tags := tagsOf db i |}
                         (relatedArticlesOf db i a)) 200,
       env')
  end.

(** *** POST /api/article/:id/like *)

Fixpoint property (name : string) (fields : list (string * JSON)) : option JSON :=
  match fields with
  | [] => None
  | (k, v) :: rest => if String.eqb k name then Some v else property name rest
  end.

(** The [action] the handler settles on: ['like'] unless the body parses
    and its [action] is the string ['unlike']. Reading [action] of [null]
    throws inside the same [try]. *)
Definition requestedAction (request : Http.Request) : string :=
  match Http.json (Http.body request) with
  | Some (JObject fields) =>
      match property "action" fields with
      | Some (JString s) => if String.eqb s "unlike" then "unlike" else "like"
      | _ => "like"
      end
  | _ => "like"
  end.

(** [UPDATE articles SET like_count = ? WHERE id = ?] *)
Definition setLikes (i n : Z) (db : D1Database) : D1Database :=
  with_articles db
    (map (fun r => if id (cols r) =? i then updateCols (fun a => setLikeCount a n) r else r)
       (articles db)).

(** [UPDATE articles SET like_count = like_count + 1 WHERE id = ?] *)
Definition incrementLikes (i : Z) (db : D1Database) : D1Database :=
  with_articles db
    (map (fun r =>
            if id (cols r) =? i
            then updateCols (fun a => setLikeCount a (like_count a + 1)) r
            else r)
       (articles db)).

Definition handleLikeArticle (request : Http.Request) (env : Env) (i : Z) : Response * Env :=
  let action := requestedAction request in
  match selectPublished i (DB env) with
  | None => (notFound "Article not found", env)
  | Some a =>
      let currentLikes := orZero (like_count a) in
      if String.eqb action "unlike"
      then
        let newLikeCount := Z.max 0 (currentLikes - 1) in
        (success (DLike (String.eqb action "like") newLikeCount) 200,
         with_DB env (setLikes i newLikeCount (DB env)))
      else
        let newLikeCount := currentLikes + 1 in
        (success (DLike (String.eqb action "like") newLikeCount) 200,
         with_DB env (incrementLikes i (DB env)))
  end.

End Articles.

(** ** handlers/categories.ts: deletion *)

Module Categories.

Import JS Response Env.

(** [SELECT id FROM categories WHERE id = ?], [.first()] *)
Definition selectCategory (i : Z) (db : D1Database) : option Category :=
  List.find (fun c => c_id c =? i) (categories db).

(** [SELECT COUNT( * ) as count FROM articles WHERE category_id = ?] *)
Definition countArticles (i : Z) (db : D1Database) : Z :=
  Z.of_nat (length (List.filter (fun r => Articles.categoryIs i (cols r)) (articles db))).

(** [DELETE FROM categories WHERE id = ?] *)
Definition deleteCategory (i : Z) (db : D1Database) : D1Database :=
  with_categories db (List.filter (fun c => negb (c_id c =? i)) (categories db)).

Definition handleDeleteCategory (env : Env) (i : Z) : Response * Env :=
  match selectCategory i (DB env) with
  | None => (notFound "Category not found", env)
  | Some _ =>
      let count := countArticles i (DB env) in
      if 0 <? count
      then (conflict ("Cannot delete category: " +:+ pretty count
                      +:+ " article(s) are using this category"), env)
      else (success DDeleted 200, with_DB env (deleteCategory i (DB env)))
  end.

End Categories.

(** ** handlers/upload.ts *)

Module Upload.

Import JS Response Env.

Definition ALLOWED_MIME_TYPES : list string :=
  ["image/jpeg"; "image/png"; "image/gif"; "image/webp"; "image/svg+xml"].

Definition MAX_FILE_SIZE : Z := 10 * 1024 * 1024.

Definition MIME_TO_EXT : list (string * string) :=
  [("image/jpeg", ".jpg"); ("image/png", ".png"); ("image/gif", ".gif");
   ("image/webp", ".webp"); ("image/svg+xml", ".svg")].

(** What [MIME_TO_EXT] inherits from [Object.prototype], as a template
    literal writes it: [MIME_TO_EXT[mimeType]] finds these too. *)
Definition nativeFunction (name : string) : string * string :=
  (name, "function " +:+ name +:+ "() { [native code] }").

Definition INHERITED : list (string * string) :=
  map nativeFunction
    ["constructor"; "__defineGetter__"; "__defineSetter__"; "hasOwnProperty";
     "__lookupGetter__"; "__lookupSetter__"; "isPrototypeOf"; "propertyIsEnumerable";
     "toString"; "valueOf"; "toLocaleString"]
  ++ [("__proto__", "[object Object]")].

(** [timestamp] is [Date.now()], [random] is [generateSecureToken(16)]. *)
Definition generateUniqueFilename (mimeType : string) (timestamp : Z) (random : string)
  : string :=
  let ext :=
    Articles.orDefault (Http.assoc mimeType (MIME_TO_EXT ++ INHERITED)) ".bin" in
  pretty timestamp +:+ "-" +:+ random +:+ ext.

Definition isValidImageType (mimeType : string) : bool :=
  existsb (String.eqb mimeType) ALLOWED_MIME_TYPES.

Definition isValidFileSize (size : Z) : bool :=
  (0 <? size) && (size <=? MAX_FILE_SIZE).

Definition invalidTypeMessage : string :=
  "Invalid file type. Allowed types: " +:+ join ", " ALLOWED_MIME_TYPES.

Definition tooLargeMessage : string :=
  "File too large. Maximum size: " +:+ pretty (MAX_FILE_SIZE / 1024 / 1024) +:+ "MB".

(** [env.BUCKET.put(filename, arrayBuffer, {httpMetadata: {contentType}})] *)
Definition put (env : Env) (filename : string) (buffer : Http.ArrayBuffer)
    (contentType : string) : Env :=
  {| DB := DB env;
     BUCKET := <[filename := {| o_body := buffer; o_contentType := contentType |}]> (BUCKET env);
     JWT_SECRET := JWT_SECRET env |}.

Definition store (env : Env) (mimeType : string) (buffer : Http.ArrayBuffer)
    (timestamp : Z) (random : string) : Response * Env :=
  let filename := generateUniqueFilename mimeType timestamp random in
  (success (DUpload ("/uploads/" +:+ filename) filename) 201,
   put env filename buffer mimeType).

Definition handleUpload (request : Http.Request) (env : Env) (timestamp : Z) (random : string)
  : Response * Env :=
  if negb (String.eqb (Http.method request) "POST")
  then (badRequest "Method not allowed", env)
  else
    let contentType := Articles.orDefault (Http.headers_get request "Content-Type") "" in
    if includes contentType "multipart/form-data"
    then
      match Http.formData (Http.body request) with
      | None => (internalError "Failed to upload file", env)
      | Some None => (badRequest "No file provided", env)
      | Some (Some (Http.EntryString s)) =>
          if negb (truthy s) then (badRequest "No file provided", env)
          else (badRequest invalidTypeMessage, env)
      | Some (Some (Http.EntryFile file)) =>
          if negb (isValidImageType (Http.file_type file))
          then (badRequest invalidTypeMessage, env)
          else if negb (isValidFileSize (Z.of_N (Http.file_size file)))
          then (badRequest tooLargeMessage, env)
          else store env (Http.file_type file) (Http.file_buffer file) timestamp random
      end
    else
      let mimeType := trim (splitHead ";"%char contentType) in
      if negb (isValidImageType mimeType)
      then (badRequest invalidTypeMessage, env)
      else
        match Http.arrayBuffer (Http.body request) with
        | None => (internalError "Failed to upload file", env)
        | Some buffer =>
            if negb (isValidFileSize (Z.of_N (Http.byteLength buffer)))
            then (badRequest tooLargeMessage, env)
            else store env mimeType buffer timestamp random
        end.

Definition getAllowedMimeTypes : list string := ALLOWED_MIME_TYPES.
Definition getMaxFileSize : Z := MAX_FILE_SIZE.

End Upload.

(** ** handlers/auth.ts: login *)

Module Login.

Import JS Response Env Jwt Security.

(** bcryptjs: [compare(password, hash)]; [None] when the promise rejects
    (a hash of the right length whose salt does not parse). *)
Class Bcrypt : Type := {
  compare : string -> string -> option bool
}.

(** [SELECT id, username, password_hash FROM admins WHERE username = ?],
    [.first()] *)
Definition selectAdmin (name : string) (db : D1Database) : option Admin :=
  List.find (fun a => String.eqb (ad_username a) name) (admins db).

(** A required string field: present, a string, and not empty. *)
Definition requiredString (name : string) (fields : list (string * JSON)) : option string :=
  match Articles.property name fields with
  | Some (JString s) => if truthy s then Some s else None
  | _ => None
  end.

(** [handleLogin(request, env)]; [signedAt] is the [Date.now()] inside
    [signToken], [expiryAt] the one that computes [expiresAt].  [None] is
    an exception that no [try] of the handler catches: reading a field
    of a [null] body.  A rejection of [compare] or of [signToken] is
    caught and answered 500. *)
Definition handleLogin `{Jose} `{Bcrypt} (request : Http.Request) (env : Env)
    (signedAt expiryAt : Z) : option Response :=
  if negb (String.eqb (Http.method request) "POST")
  then Some (badRequest "Method not allowed")
  else
    match Http.json (Http.body request) with
    | None => Some (badRequest "Invalid JSON body")
    | Some JNull => None
    | Some body =>
        let fields := match body with JObject fs => fs | _ => [] end in
        match requiredString "username" fields with
        | None => Some (badRequest "Username is required")
        | Some username =>
            match requiredString "password" fields with
            | None => Some (badRequest "Password is required")
            | Some password =>
                match validateStringLength username f_username with
                | Some message =>
                    Some (badRequest (Articles.orDefault (Some message) "Invalid username"))
                | None =>
                    match validateStringLength password f_password with
                    | Some message =>
                        Some (badRequest (Articles.orDefault (Some message) "Invalid password"))
                    | None =>
                        match selectAdmin username (DB env) with
                        | None => Some (unauthorized "Invalid username or password")
                        | Some result =>
                            match compare password (ad_password_hash result) with
                            | None => Some (internalError "An error occurred during login")
                            | Some false =>
                                Some (unauthorized "Invalid username or password")
                            | Some true =>
                                match signToken (pretty (ad_id result)) (ad_username result)
                                        (JWT_SECRET env) signedAt with
                                | None =>
                                    Some (internalError "An error occurred during login")
                                | Some token =>
                                    let expiresAt :=
                                      floorDiv1000 expiryAt + getTokenExpirationSeconds in
                                    Some (success (DLogin token expiresAt) 200)
                                end
                            end
                        end
                    end
                end
            end
        end
    end.

End Login.

(** ** index.ts: the dispatcher *)

Module Index.

Import JS Response Env Jwt Auth Security.

(** The handlers [handleRequest] delegates to, with the id it extracted. *)
Inductive Handler : Type :=
| HLogin
| HGetArticles
| HGetArticle (id : number)
| HLikeArticle (id : number)
| HGetCategories
| HGetCategory (id : number)
| HGetTags
| HGetTag (id : number)
| HUpload
| HGetAdminArticles
| HCreateArticle
| HGetAdminArticle (id : number)
| HUpdateArticle (id : number)
| HDeleteArticle (id : number)
| HPinArticle (id : number)
| HCreateCategory
| HUpdateCategory (id : number)
| HDeleteCategory (id : number)
| HCreateTag
| HDeleteTag (id : number).

(** What [handleRequest] does with a request: answer it itself, or
    return the result of one handler. *)
Inductive Outcome : Type :=
| Respond (response : Response)
| Invoke (handler : Handler).

(** The readings of the clock along one run of [handleRequest]. *)
Record Clock : Type := {
  (** [Date.now()] in [checkRateLimit] *)
  atRateLimit : Z;
  (** [Date.now()] in the [retryAfter] computation *)
  atRetryAfter : Z;
  (** the clock jose reads in [jwtVerify] *)
  atVerify : Z;
  (** [new Date()] of the health check *)
  atHealth : Z
}.

(** [pathname.match(new RegExp(`^${prefix}/(\\d+)$`))], then [parseInt]. *)
Definition extractIdFromPath (pathname prefix : string) : option number :=
  if startsWith pathname (prefix +:+ "/")
  then
    let digits := slice (String.length prefix + 1) pathname in
    if isDigits1 digits then Some (parseInt digits (Some 10)) else None
  else None.

(** The longest run of digits at the head of [s], and what follows. *)
Fixpoint spanDigits (s : string) : string * string :=
  match s with
  | EmptyString => (EmptyString, EmptyString)
  | String c s' =>
      if isDigit c
      then let '(d, rest) := spanDigits s' in (String c d, rest)
      else (EmptyString, s)
  end.

(** [pathname.match(/^<prefix>\/(\d+)<suffix>$/)], then [parseInt]. *)
Definition matchIdWithSuffix (pathname prefix suffix : string) : option number :=
  if startsWith pathname (prefix +:+ "/")
  then
    let '(digits, rest) := spanDigits (slice (String.length prefix + 1) pathname) in
    if truthy digits && String.eqb rest suffix
    then Some (parseInt digits (Some 10)) else None
  else None.

Definition same (a b : string) : bool := String.eqb a b.

(** One [if (...) return handler(...)] of the route table; the first
    route that matches wins. *)
Definition route (matches : bool) (o : Outcome) : option Outcome :=
  if matches then Some o else None.

Definition routeId (matched : option number) (methodOk : bool) (h : number -> Handler)
  : option Outcome :=
  match matched with
  | Some i => if methodOk then Some (Invoke (h i)) else None
  | None => None
  end.

Definition otherwise (a b : option Outcome) : option Outcome :=
  match a with Some _ => a | None => b end.

Infix "<||>" := otherwise (at level 60, right associativity).

(** The public routes after the login route. *)
Definition publicRoutes (request : Http.Request) : option Outcome :=
  let pathname := Http.pathname request in
  let method := Http.method request in
  route (same pathname "/api/articles" && same method "GET") (Invoke HGetArticles)
  <||> routeId (extractIdFromPath pathname "/api/article") (same method "GET") HGetArticle
  <||> routeId (matchIdWithSuffix pathname "/api/article" "/like") (same method "POST")
         HLikeArticle
  <||> route (same pathname "/api/categories" && same method "GET") (Invoke HGetCategories)
  <||> routeId (extractIdFromPath pathname "/api/category") (same method "GET") HGetCategory
  <||> route (same pathname "/api/tags" && same method "GET") (Invoke HGetTags)
  <||> routeId (extractIdFromPath pathname "/api/tag") (same method "GET") HGetTag.

(** The routes inside the [/api/admin/] and [/api/upload] block, once the
    gate has let the request through. *)
Definition protectedRoutes (request : Http.Request) : option Outcome :=
  let pathname := Http.pathname request in
  let method := Http.method request in
  let adminArticleId := extractIdFromPath pathname "/api/admin/article" in
  let adminCategoryId := extractIdFromPath pathname "/api/admin/category" in
  route (same pathname "/api/upload" && same method "POST")
    (if negb (valid (checkRequestBodySize request MAX_UPLOAD_SIZE))
     then Respond (payloadTooLarge "File too large. Maximum size: 10MB")
     else Invoke HUpload)
  <||> route (same pathname "/api/admin/articles" && same method "GET")
         (Invoke HGetAdminArticles)
  <||> route (same pathname "/api/admin/article" && same method "POST")
         (Invoke HCreateArticle)
  <||> routeId adminArticleId (same method "GET") HGetAdminArticle
  <||> routeId adminArticleId (same method "PUT") HUpdateArticle
  <||> routeId adminArticleId (same method "DELETE") HDeleteArticle
  <||> routeId (matchIdWithSuffix pathname "/api/admin/article" "/pin")
         (same method "POST") HPinArticle
  <||> route (same pathname "/api/admin/category" && same method "POST")
         (Invoke HCreateCategory)
  <||> routeId adminCategoryId (same method "PUT") HUpdateCategory
  <||> routeId adminCategoryId (same method "DELETE") HDeleteCategory
  <||> route (same pathname "/api/admin/tag" && same method "POST") (Invoke HCreateTag)
  <||> routeId (extractIdFromPath pathname "/api/admin/tag") (same method "DELETE")
         HDeleteTag.

(** The health check and the final 404. *)
Definition fallThrough (request : Http.Request) (clock : Clock) : Outcome :=
  if same (Http.pathname request) "/api/health" && same (Http.method request) "GET"
  then Respond (success (DHealth (atHealth clock)) 200)
  else Respond (notFound "Endpoint not found").

(** Whether the path is behind the gate. *)
Definition isProtectedPath (pathname : string) : bool :=
  startsWith pathname "/api/admin/" || same pathname "/api/upload".

(** POST /api/login: rate limit, body size, then the handler. *)
Definition loginRoute (request : Http.Request) (clock : Clock)
    (rateLimitStore : gmap string RateLimitRecord)
  : Outcome * gmap string RateLimitRecord :=
  let clientIP := getClientIP request in
  let rateLimitKey := "login:" +:+ clientIP in
  let '(rateLimit, store) :=
    checkRateLimit rateLimitKey {| maxRequests := 5; windowMs := 60000 |}
      (atRateLimit clock) rateLimitStore in
  if negb (allowed rateLimit)
  then
    let retryAfter := ceilDiv1000 (rl_resetTime rateLimit - atRetryAfter clock) in
    (Respond (tooManyRequests "Too many login attempts. Please try again later."
                (Some (Num retryAfter))), store)
  else if negb (valid (checkRequestBodySize request MAX_REQUEST_BODY_SIZE))
  then (Respond (payloadTooLarge "Request body too large"), store)
  else (Invoke HLogin, store).

(** [handleRequest(request, env)] on the rate-limit store of the isolate. *)
Definition handleRequest `{Jose} (request : Http.Request) (env : Env) (clock : Clock)
    (rateLimitStore : gmap string RateLimitRecord)
  : Outcome * gmap string RateLimitRecord :=
  if same (Http.pathname request) "/api/login" && same (Http.method request) "POST"
  then loginRoute request clock rateLimitStore
  else
    (match publicRoutes request with
     | Some o => o
     | None =>
         if isProtectedPath (Http.pathname request)
         then
           match authMiddleware request env (atVerify clock) with
           | Rejected response => Respond response
           | User _ =>
               match protectedRoutes request with
               | Some o => o
               | None => fallThrough request clock
               end
           end
         else fallThrough request clock
     end,
     rateLimitStore).

(** What the handlers read from the platform besides the request. *)
Record Reads : Type := {
  (** [Date.now()] and [generateSecureToken(16)] of [generateUniqueFilename] *)
  uploadTimestamp : Z;
  uploadRandom : string;
  (** [Date.now()] of [signToken] and of the [expiresAt] computation *)
  signedAt : Z;
  expiryAt : Z
}.

(** The result of running a handler: a response and the bindings after
    it, an exception nobody catches, or a handler that is outside this
    development. *)
Inductive Run : Type :=
| Answered (response : Response) (env : Env)
| Uncaught
| Elsewhere.

Definition answered (r : Response * Env) : Run := Answered (fst r) (snd r).

(** A handler called with an id: how D1 binds an id that is not finite is
    outside this development. *)
Definition withId (i : number) (k : Z -> Run) : Run :=
  match i with Num z => k z | _ => Elsewhere end.

Definition perform `{Jose} `{Login.Bcrypt} (h : Handler) (request : Http.Request)
    (env : Env) (reads : Reads) : Run :=
  match h with
  | HLogin =>
      match Login.handleLogin request env (signedAt reads) (expiryAt reads) with
      | Some response => Answered response env
      | None => Uncaught
      end
  | HGetArticles => Answered (Articles.handleGetArticles request env) env
  | HGetAdminArticles => Answered (Articles.handleGetAdminArticles request env) env
  | HGetArticle i => withId i (fun z => answered (Articles.handleGetArticle env z))
  | HLikeArticle i => withId i (fun z => answered (Articles.handleLikeArticle request env z))
  | HDeleteCategory i => withId i (fun z => answered (Categories.handleDeleteCategory env z))
  | HUpload =>
      answered (Upload.handleUpload request env (uploadTimestamp reads) (uploadRandom reads))
  | _ => Elsewhere
  end.

(** [handleRequest] with the handler it delegates to run to completion. *)
Definition serve `{Jose} `{Login.Bcrypt} (request : Http.Request) (env : Env)
    (clock : Clock) (reads : Reads) (rateLimitStore : gmap string RateLimitRecord)
  : Run * gmap string RateLimitRecord :=
  match handleRequest request env clock rateLimitStore with
  | (Respond response, store) => (Answered response env, store)
  | (Invoke h, store) => (perform h request env reads, store)
  end.

End Index.

(** ** A reference implementation of the library interfaces

    A transparent token format and a transparent password hash.  They
    show that [JoseLaws] can be met, and they let the handlers be run on
    concrete requests. *)

Module Reference.

Import JS Jwt.

(** Binary digits of a positive number, least significant first, closed
    by a dot. *)
Fixpoint encPos (p : positive) : string :=
  match p with
  | xH => "."
  | xO q => String "0" (encPos q)
  | xI q => String "1" (encPos q)
  end.

Fixpoint decPos (s : string) : option (positive * string) :=
  match s with
  | String "." rest => Some (xH, rest)
  | String "0" s' =>
      match decPos s' with Some (q, rest) => Some (xO q, rest) | None => None end
  | String "1" s' =>
      match decPos s' with Some (q, rest) => Some (xI q, rest) | None => None end
  | _ => None
  end.

Definition encZ (z : Z) : string :=
  match z with
  | Z0 => "z"
  | Zpos p => String "p" (encPos p)
  | Zneg p => String "n" (encPos p)
  end.

Definition decZ (s : string) : option (Z * string) :=
  match s with
  | String "z" rest => Some (Z0, rest)
  | String "p" s' =>
      match decPos s' with Some (p, rest) => Some (Zpos p, rest) | None => None end
  | String "n" s' =>
      match decPos s' with Some (p, rest) => Some (Zneg p, rest) | None => None end
  | _ => None
  end.

(** The first [n] code units and the rest, when there are that many. *)
Fixpoint splitAt (n : nat) (s : string) : option (string * string) :=
  match n, s with
  | O, _ => Some (EmptyString, s)
  | S _, EmptyString => None
  | S n', String c s' =>
      match splitAt n' s' with
      | Some (a, b) => Some (String c a, b)
      | None => None
      end
  end.

(** A string is written as its length and its code units. *)
Definition encString (s : string) : string :=
  encZ (Z.of_nat (String.length s)) +:+ s.

Definition decString (s : string) : option (string * string) :=
  match decZ s with
  | Some (n, rest) => splitAt (Z.to_nat n) rest
  | None => None
  end.

Definition encClaim (c : Claim) : string :=
  match c with
  | CString s => String "s" (encString s)
  | CNumber n => String "i" (encZ n)
  | COther => "o"
  end.

Definition decClaim (s : string) : option (Claim * string) :=
  match s with
  | String "s" s' =>
      match decString s' with Some (v, rest) => Some (CString v, rest) | None => None end
  | String "i" s' =>
      match decZ s' with Some (n, rest) => Some (CNumber n, rest) | None => None end
  | String "o" rest => Some (COther, rest)
  | _ => None
  end.

(** A token: the mark [J], the key, the four claims, the mark [~]. *)
Definition encode (p : JosePayload) (key : string) : string :=
  String "J"
    (encString key +:+ encClaim (j_sub p) +:+ encClaim (j_username p)
     +:+ encClaim (j_iat p) +:+ encClaim (j_exp p) +:+ "~").

Definition decode (token : string) : option (string * JosePayload) :=
  match token with
  | String "J" s0 =>
      match decString s0 with
      | Some (key, s1) =>
          match decClaim s1 with
          | Some (c1, s2) =>
              match decClaim s2 with
              | Some (c2, s3) =>
                  match decClaim s3 with
                  | Some (c3, s4) =>
                      match decClaim s4 with
                      | Some (c4, rest) =>
                          if String.eqb rest "~"
                          then Some (key, {| j_sub := c1; j_username := c2;
                                             j_iat := c3; j_exp := c4 |})
                          else None
                      | None => None
                      end
                  | None => None
                  end
              | None => None
              end
          | None => None
          end
      | None => None
      end
  | _ => None
  end.

(** Verification: the token decodes, the key is the signing key, and an
    [exp] claim is a number in the future. *)
Definition check (token key : string) (nowMs : Z) : option JosePayload :=
  match decode token with
  | Some (k, p) =>
      if String.eqb k key
      then match j_exp p with
           | CNumber e => if floorDiv1000 nowMs <? e then Some p else None
           | CString _ => None
           | COther => Some p
           end
      else None
  | None => None
  end.

#[export] Instance jose : Jose :=
  {| jose_sign := encode; jose_signs := truthy; jose_verify := check |}.

(** A password hash that verifies by recomputation; a hash without the
    mark is the one [compare] rejects. *)
Definition hash (password : string) : string := "h$" +:+ password.

#[export] Instance bcrypt : Login.Bcrypt :=
  {| Login.compare := fun password h =>
       if startsWith h "h$" then Some (String.eqb (hash password) h) else None |}.

End Reference.

(** ** Vocabulary of the statements *)

Module Spec.

Import JS Response Env.

(** [n] spaces *)
Fixpoint spaces (n : nat) : string :=
  match n with O => EmptyString | S n' => String " " (spaces n') end.

(** The request carries [Authorization: Bearer <token>]. *)
Definition bearer (request : Http.Request) (token : string) : Prop :=
  Http.headers_get request "Authorization" = Some ("Bearer " +:+ token).

(** The payload has the four claims [verifyToken] asks for, and expires
    at second [e]. *)
Definition completeClaims (p : Jwt.JosePayload) (e : Z) : Prop :=
  exists s u i,
    p = {| Jwt.j_sub := Jwt.CString s; Jwt.j_username := Jwt.CString u;
           Jwt.j_iat := Jwt.CNumber i; Jwt.j_exp := Jwt.CNumber e |}.

(** The same request without any [Authorization] header. *)
Definition withoutAuthorization (request : Http.Request) : Http.Request :=
  {| Http.method := Http.method request;
     Http.pathname := Http.pathname request;
     Http.searchParams := Http.searchParams request;
     Http.headers :=
       List.filter
         (fun kv => negb (String.eqb (toLowerCase (fst kv)) "authorization"))
         (Http.headers request);
     Http.body := Http.body request |}.

(** The dispatcher answered 401 UNAUTHORIZED itself: no handler ran and
    the rate-limit store is as it was. *)
Definition rejected (result : Index.Outcome * gmap string Security.RateLimitRecord)
    (store : gmap string Security.RateLimitRecord) : Prop :=
  exists message, result = (Index.Respond (unauthorized message), store).

(** The outcome is not a 401 of the dispatcher: a handler runs, or the
    dispatcher answers with another status. *)
Definition not401 (o : Index.Outcome) : Prop :=
  match o with
  | Index.Invoke _ => True
  | Index.Respond response => r_status response <> 401
  end.

(** The row test of the guarded UPDATE and of the SELECT that follows it. *)
Definition visible (i : Z) (r : ArticleRow) : bool :=
  (id (cols r) =? i) && Articles.isPublished (cols r).

(** The row after one more view. *)
Definition viewed (r : ArticleRow) : ArticleRow :=
  Articles.updateCols (fun a => Articles.setViewCount a (view_count a + 1)) r.

(** The body parses to an object whose [action] is the string ['unlike']. *)
Definition asksUnlike (request : Http.Request) : Prop :=
  exists fields,
    Http.json (Http.body request) = Some (JObject fields)
    /\ Articles.property "action" fields = Some (JString "unlike").

(** The file an upload request carries: the [file] part of a multipart
    body with its own type, or the raw body with the type named by
    [Content-Type]. *)
Definition uploadedFile (request : Http.Request) : option (string * Http.ArrayBuffer) :=
  let contentType := Articles.orDefault (Http.headers_get request "Content-Type") "" in
  if includes contentType "multipart/form-data"
  then
    match Http.formData (Http.body request) with
    | Some (Some (Http.EntryFile f)) => Some (Http.file_type f, Http.file_buffer f)
    | _ => None
    end
  else
    match Http.arrayBuffer (Http.body request) with
    | Some buffer => Some (trim (splitHead ";"%char contentType), buffer)
    | None => None
    end.

(** [FOREIGN KEY (category_id) REFERENCES categories(id)] of [articles]. *)
Definition categoryForeignKey (db : D1Database) : Prop :=
  forall r c, In r (articles db) -> category_id (cols r) = Some c ->
              exists k, In k (categories db) /\ c_id k = c.

(** [id INTEGER PRIMARY KEY] of [articles]. *)
Definition primaryKey (db : D1Database) : Prop :=
  NoDup (map (fun r => id (cols r)) (articles db)).

(** What [parseInt] makes of the [page] and [pageSize] parameters; an
    absent or empty parameter reads as ["1"] and ["10"]. *)
Definition requestedPage (request : Http.Request) : number :=
  parseInt (Articles.orDefault (Http.searchParams_get request "page") "1") None.

Definition requestedSize (request : Http.Request) : number :=
  parseInt (Articles.orDefault (Http.searchParams_get request "pageSize") "10") None.

(** The page, page size and offset in force for integers [n] and [m]. *)
Definition effectivePage (n : Z) : Z := Z.max 1 n.

Definition effectiveSize (m : Z) : Z :=
  if (1 <=? m) && (m <=? 100) then m else 10.

Definition effectiveOffset (n m : Z) : Z := (effectivePage n - 1) * effectiveSize m.

(** A page of [size] rows starting at row [offset]. *)
Definition pageOfRows {A} (size offset : Z) (rows : list A) : list A :=
  take (Z.to_nat size) (drop (Z.to_nat offset) rows).

(** Requests handled one after the other by the same isolate, each with
    its own readings of the clock. *)
Fixpoint handleAll `{Jwt.Jose} (env : Env) (requests : list (Http.Request * Index.Clock))
    (store : gmap string Security.RateLimitRecord)
  : list Index.Outcome * gmap string Security.RateLimitRecord :=
  match requests with
  | [] => ([], store)
  | (request, clock) :: rest =>
      let '(o, store1) := Index.handleRequest request env clock store in
      let '(os, store2) := handleAll env rest store1 in
      (o :: os, store2)
  end.

(** Calls of [checkRateLimit] for one key at the given times. *)
Fixpoint checkAll (key : string) (config : Security.RateLimitConfig) (times : list Z)
    (store : gmap string Security.RateLimitRecord)
  : list Security.RateLimitResult * gmap string Security.RateLimitRecord :=
  match times with
  | [] => ([], store)
  | now :: rest =>
      let '(r, store1) := Security.checkRateLimit key config now store in
      let '(rs, store2) := checkAll key config rest store1 in
      (r :: rs, store2)
  end.

(** How many of the calls were allowed. *)
Definition allowedCount (results : list Security.RateLimitResult) : Z :=
  Z.of_nat (length (List.filter Security.allowed results)).

End Spec.

(** ** A small blog to run the handlers on *)

Module Sample.

Import JS Response Env.

Definition tech : Category :=
  {| c_id := 1; c_name := "Tech"; c_slug := "tech"; c_description := None;
     c_created_at := "2024-01-01 00:00:00" |}.

Definition misc : Category :=
  {| c_id := 2; c_name := "Misc"; c_slug := "misc"; c_description := None;
     c_created_at := "2024-01-01 00:00:00" |}.

Definition rocq : Tag :=
  {| t_id := 7; t_name := "Rocq"; t_slug := "rocq"; t_created_at := "2024-01-01 00:00:00" |}.

Definition post (i : Z) (s : ArticleStatus) (c : option Z) (likes : Z) (created : string)
  : ArticleRow :=
  {| cols := {| id := i; title := "Post " +:+ pretty i; content := "Body";
                cover := None; category_id := c; description := None;
                keywords := None; status := s; view_count := 0;
                like_count := likes; created_at := created; updated_at := created |};
     is_pinned := 0 |}.

Definition hello : ArticleRow := post 1 published (Some 1) 0 "2024-01-01 10:00:00".
Definition notes : ArticleRow := post 2 draft None 0 "2024-01-02 10:00:00".
Definition news : ArticleRow := post 3 published (Some 1) 4 "2024-01-03 10:00:00".

Definition root : Admin :=
  {| ad_id := 1; ad_username := "admin";
     ad_password_hash := Reference.hash "admin123";
     ad_created_at := "2024-01-01 00:00:00" |}.

Definition db : D1Database :=
  {| admins := [root];
     categories := [tech; misc];
     tags_table := [rocq];
     articles := [hello; notes; news];
     article_tags := [ {| article_id := 1; tag_id := 7 |}; {| article_id := 3; tag_id := 7 |} ] |}.

Definition env : Env := {| DB := db; BUCKET := ∅; JWT_SECRET := "s3cret" |}.

Definition noBody : Http.Body :=
  {| Http.json := None; Http.formData := None; Http.arrayBuffer := None |}.

Definition jsonBody (v : JSON) : Http.Body :=
  {| Http.json := Some v; Http.formData := None; Http.arrayBuffer := None |}.

Definition binaryBody (size : N) : Http.Body :=
  {| Http.json := None; Http.formData := None;
     Http.arrayBuffer := Some {| Http.byteLength := size; Http.contents := "image" |} |}.

Definition request (method pathname : string) (query headers : list (string * string))
    (body : Http.Body) : Http.Request :=
  {| Http.method := method; Http.pathname := pathname; Http.searchParams := query;
     Http.headers := headers; Http.body := body |}.

(** The token the login of [admin] issues at 1 000 000 ms. *)
Definition token : string :=
  match Jwt.signToken (H := Reference.jose) "1" "admin" "s3cret" 1000000 with
  | Some token => token
  | None => ""
  end.

(** Every reading of the clock is [t]. *)
Definition at_ (t : Z) : Index.Clock :=
  {| Index.atRateLimit := t; Index.atRetryAfter := t; Index.atVerify := t;
     Index.atHealth := t |}.

Definition reads : Index.Reads :=
  {| Index.uploadTimestamp := 1700000000000; Index.uploadRandom := "00112233445566778899aabbccddeeff";
     Index.signedAt := 1000000; Index.expiryAt := 1000000 |}.

(** A raw upload by the logged-in administrator. *)
Definition upload (contentType : string) (size : N) (more : list (string * string))
  : Http.Request :=
  request "POST" "/api/upload" []
    ([("Authorization", "Bearer " +:+ token); ("Content-Type", contentType)] ++ more)
    (binaryBody size).

Definition login (ip : string) : Http.Request :=
  request "POST" "/api/login" [] [("CF-Connecting-IP", ip)]
    (jsonBody (JObject [("username", JString "admin"); ("password", JString "admin123")])).

End Sample.

(** ** Replies with any payload

    The handlers below answer with payloads that [Response.Data] has no
    constructor for, and a preflight answer has no body at all. *)

Module Reply.

Import JS Response.

(** The [data] member of a success envelope. *)
Inductive Payload : Type :=
| PData (d : Data)
| PAdminArticle (a : Article) (tags : list Tag)
| PPinned (pinned : bool) (message : string)
| PCategory (c : Category)
| PCategories (rows : list Category)
| PTag (t : Tag)
| PTags (rows : list Tag)
| PNull.

(** The body of a [Response]: [null], or an [ApiResponse]. *)
Inductive Body : Type :=
| NoBody
| Ok (p : Payload)
| Err (code message : string).

Record Reply : Type := {
  rp_status : Z;
  rp_headers : list (string * string);
  rp_body : Body
}.

(** A response of the handlers above, as a reply. *)
Definition ofResponse (r : Response) : Reply :=
  {| rp_status := r_status r;
     rp_headers := r_headers r;
     rp_body := match r_body r with
                | Success d => Ok (PData d)
                | Failure code message => Err code message
                end |}.

(** [success(data, status)] of utils/response.ts *)
Definition success (p : Payload) (status : Z) : Reply :=
  {| rp_status := status;
     rp_headers := [("Content-Type", "application/json")];
     rp_body := Ok p |}.

(** [response.headers.get(name)] *)
Definition header (r : Reply) (name : string) : option string :=
  Http.headers_lookup name (rp_headers r).

(** [for (const [key, value] of Object.entries(record)) headers.set(key, value)] *)
Definition setAll (entries headers : list (string * string)) : list (string * string) :=
  fold_left (fun h kv => headers_set (fst kv) (snd kv) h) entries headers.

(** What awaiting a handler gives in world [W]: a reply, an exception, or
    a handler that is outside this development. *)
Inductive Awaited (W : Type) : Type :=
| Replied (reply : Reply) (world : W)
| Thrown (world : W)
| Unmodelled.
Arguments Replied {W} _ _.
Arguments Thrown {W} _.
Arguments Unmodelled {W}.

End Reply.

(** ** middleware/security.ts: response headers, sanitising, random tokens *)

Module Hardening.

Import JS Response Reply.

Definition SECURITY_HEADERS : list (string * string) :=
  [("X-Content-Type-Options", "nosniff");
   ("X-Frame-Options", "DENY");
   ("X-XSS-Protection", "1; mode=block");
   ("Referrer-Policy", "strict-origin-when-cross-origin");
   ("Content-Security-Policy",
    "default-src 'self'; script-src 'self' 'unsafe-inline'; style-src 'self' 'unsafe-inline'; img-src 'self' data: https:; font-src 'self' https://fonts.gstatic.com");
   ("Permissions-Policy", "camera=(), microphone=(), geolocation=()")].

Definition addSecurityHeaders (response : Reply) : Reply :=
  {| rp_status := rp_status response;
     rp_headers := setAll SECURITY_HEADERS (rp_headers response);
     rp_body := rp_body response |}.

(** [securityMiddleware(request, handler)] *)
Definition securityMiddleware {W} (request : Http.Request) (handler : W -> Awaited W)
    (w : W) : Awaited W :=
  match handler w with
  | Replied response w' => Replied (addSecurityHeaders response) w'
  | Thrown w' => Thrown w'
  | Unmodelled => Unmodelled
  end.

(** [s.replace(/c/g, by)] for a one-character pattern *)
Fixpoint replaceAll (c : ascii) (by_ : string) (s : string) : string :=
  match s with
  | EmptyString => EmptyString
  | String d s' =>
      if Ascii.eqb d c then by_ +:+ replaceAll c by_ s'
      else String d (replaceAll c by_ s')
  end.

Definition sanitizeString (input : string) : string :=
  replaceAll "/" "&#x2F;"
    (replaceAll "'" "&#x27;"
       (replaceAll "034" "&quot;"
          (replaceAll ">" "&gt;"
             (replaceAll "<" "&lt;" input)))).

Definition hexDigit (n : N) : ascii :=
  ascii_of_N (if (n <? 10)%N then 48 + n else 87 + n).

(** [byte.toString(16)] for an element of a [Uint8Array] *)
Definition toString16 (b : Byte.byte) : string :=
  let n := Byte.to_N b in
  if (n <? 16)%N then String (hexDigit n) EmptyString
  else String (hexDigit (n / 16)) (String (hexDigit (n mod 16)) EmptyString).

Fixpoint repeatChar (n : nat) (c : ascii) : string :=
  match n with O => EmptyString | S n' => String c (repeatChar n' c) end.

(** [s.padStart(targetLength, fill)] for a one-character [fill] *)
Definition padStart (targetLength : nat) (fill : ascii) (s : string) : string :=
  repeatChar (targetLength - String.length s) fill +:+ s.

(** [generateSecureToken(length)]; [array] is the [Uint8Array] of that
    length after [crypto.getRandomValues]. *)
Definition generateSecureToken (array : list Byte.byte) : string :=
  join "" (map (fun b => padStart 2 "0" (toString16 b)) array).

(** [clearRateLimitStore()] *)
Definition clearRateLimitStore (rateLimitStore : gmap string Security.RateLimitRecord)
  : gmap string Security.RateLimitRecord := ∅.

End Hardening.

(** ** middleware/cors.ts *)

Module Cors.

Import JS Response Reply.

Record CORSConfig : Type := {
  allowOrigins : list string;
  allowMethods : list string;
  allowHeaders : list string;
  maxAge : option number;
  allowCredentials : option bool
}.

Definition defaultCORSConfig : CORSConfig :=
  {| allowOrigins := ["*"];
     allowMethods := ["GET"; "POST"; "PUT"; "DELETE"; "OPTIONS"];
     allowHeaders := ["Content-Type"; "Authorization"];
     maxAge := Some (Num 86400);
     allowCredentials := Some false |}.

(** [arr.includes(s)] *)
Definition listIncludes (l : list string) (s : string) : bool :=
  existsb (String.eqb s) l.

(** [getCORSHeaders(origin, config)]: the entries of the record it
    builds, in insertion order. *)
Definition getCORSHeaders (origin : option string) (config : CORSConfig)
  : list (string * string) :=
  (if listIncludes (allowOrigins config) "*"
   then [("Access-Control-Allow-Origin", "*")]
   else match origin with
        | Some o =>
            if truthy o && listIncludes (allowOrigins config) o
            then [("Access-Control-Allow-Origin", o); ("Vary", "Origin")]
            else []
        | None => []
        end)
  ++ [("Access-Control-Allow-Methods", join ", " (allowMethods config));
      ("Access-Control-Allow-Headers", join ", " (allowHeaders config))]
  ++ (match maxAge config with
      | Some n => [("Access-Control-Max-Age", numberToString n)]
      | None => []
      end)
  ++ (match allowCredentials config with
      | Some true => [("Access-Control-Allow-Credentials", "true")]
      | _ => []
      end).

Definition handlePreflight (request : Http.Request) (config : CORSConfig) : Reply :=
  let origin := Http.headers_get request "Origin" in
  let corsHeaders := getCORSHeaders origin config in
  {| rp_status := 204; rp_headers := corsHeaders; rp_body := NoBody |}.

Definition addCORSHeaders (response : Reply) (request : Http.Request) (config : CORSConfig)
  : Reply :=
  let origin := Http.headers_get request "Origin" in
  let corsHeaders := getCORSHeaders origin config in
  {| rp_status := rp_status response;
     rp_headers := setAll corsHeaders (rp_headers response);
     rp_body := rp_body response |}.

Definition corsMiddleware {W} (request : Http.Request) (handler : W -> Awaited W)
    (config : CORSConfig) (w : W) : Awaited W :=
  if String.eqb (Http.method request) "OPTIONS"
  then Replied (handlePreflight request config) w
  else
    match handler w with
    | Replied response w' => Replied (addCORSHeaders response request config) w'
    | Thrown w' => Thrown w'
    | Unmodelled => Unmodelled
    end.

End Cors.

(** ** handlers/articles.ts: the administrator's detail, delete and pin *)

Module AdminArticles.

Import JS Response Env Reply.

(** *** GET /api/admin/article/:id *)
Definition handleGetAdminArticle (env : Env) (i : Z) : Reply :=
  match Articles.selectArticle i (DB env) with
  | None => ofResponse (notFound "Article not found")
  | Some article =>
      success (PAdminArticle (cols article) (Articles.tagsOf (DB env) i)) 200
  end.

(** [DELETE FROM articles WHERE id = ?]; the rows of [article_tags] that
    reference the article go with it ([ON DELETE CASCADE]). *)
Definition deleteArticle (i : Z) (db : D1Database) : D1Database :=
  {| admins := admins db;
     categories := categories db;
     tags_table := tags_table db;
     articles := List.filter (fun r => negb (id (cols r) =? i)) (articles db);
     article_tags := List.filter (fun at' => negb (article_id at' =? i)) (article_tags db) |}.

(** *** DELETE /api/admin/article/:id *)
Definition handleDeleteArticle (env : Env) (i : Z) : Reply * Env :=
  match Articles.selectArticle i (DB env) with
  | None => (ofResponse (notFound "Article not found"), env)
  | Some _ => (success (PData DDeleted) 200, with_DB env (deleteArticle i (DB env)))
  end.

(** [UPDATE articles SET is_pinned = ? WHERE id = ?] *)
Definition setPinned (i n : Z) (db : D1Database) : D1Database :=
  with_articles db
    (map (fun r => if id (cols r) =? i then {| cols := cols r; is_pinned := n |} else r)
       (articles db)).

(** *** POST /api/admin/article/:id/pin *)
Definition handlePinArticle (env : Env) (i : Z) : Reply * Env :=
  match Articles.selectArticle i (DB env) with
  | None => (ofResponse (notFound "Article not found"), env)
  | Some article =>
      let newPinned := if truthyNum (Num (is_pinned article)) then 0 else 1 in
      (success (PPinned (newPinned =? 1)
                  (if truthyNum (Num newPinned) then "Article pinned" else "Article unpinned"))
         200,
       with_DB env (setPinned i newPinned (DB env)))
  end.

End AdminArticles.

(** ** handlers/categories.ts: list, detail, create and update *)

Module CategoryHandlers.

Import JS Response Env Reply.

(** [ORDER BY created_at DESC] *)
Definition createdDesc (a b : Category) : Prop :=
  String.leb (c_created_at b) (c_created_at a) = true.

#[global] Instance createdDesc_dec : RelDecision createdDesc.
Proof. intros a b. unfold createdDesc. apply _. Defined.

(** *** GET /api/categories *)
Definition handleGetCategories (env : Env) : Reply :=
  success (PCategories (Articles.orderBy createdDesc (categories (DB env)))) 200.

(** *** GET /api/category/:id *)
Definition handleGetCategory (env : Env) (i : Z) : Reply :=
  match Categories.selectCategory i (DB env) with
  | None => ofResponse (notFound "Category not found")
  | Some category => success (PCategory category) 200
  end.

(** A required field: a string that is not empty and not blank. *)
Definition requiredText (name : string) (fields : list (string * JSON)) : option string :=
  match Articles.property name fields with
  | Some (JString s) =>
      if truthy s && negb (String.eqb (trim s) "") then Some s else None
  | _ => None
  end.

(** [description?.trim() || null]; [None] is the [TypeError] of calling
    [trim] on a value that is neither a string, [null] nor [undefined]. *)
Definition descriptionOf (fields : list (string * JSON)) : option (option string) :=
  match Articles.property "description" fields with
  | None => Some None
  | Some JNull => Some None
  | Some (JString s) => Some (Articles.optionalString (Some (trim s)))
  | Some _ => None
  end.

(** [SELECT id FROM categories WHERE slug = ?], [.first()] *)
Definition selectBySlug (slug : string) (db : D1Database) : option Category :=
  List.find (fun c => String.eqb (c_slug c) slug) (categories db).

(** [SELECT id FROM categories WHERE slug = ? AND id != ?], [.first()] *)
Definition selectOtherBySlug (slug : string) (i : Z) (db : D1Database) : option Category :=
  List.find (fun c => String.eqb (c_slug c) slug && negb (c_id c =? i)) (categories db).

(** [INSERT INTO categories (name, slug, description) VALUES (?, ?, ?)
    RETURNING ...]; [rowid] is the id AUTOINCREMENT assigns and [now] is
    CURRENT_TIMESTAMP.  [None] when [slug TEXT NOT NULL UNIQUE] fails. *)
Definition insertCategory (name slug : string) (description : option string)
    (rowid : Z) (now : string) (db : D1Database) : option (Category * D1Database) :=
  match selectBySlug slug db with
  | Some _ => None
  | None =>
      let row := {| c_id := rowid; c_name := name; c_slug := slug;
                    c_description := description; c_created_at := now |} in
      Some (row, with_categories db (categories db ++ [row]))
  end.

(** [UPDATE categories SET name = ?, slug = ?, description = ? WHERE id = ?
    RETURNING ...], [.first()]; the outer [None] is the failure of the
    UNIQUE constraint on [slug]. *)
Definition updateCategory (name slug : string) (description : option string) (i : Z)
    (db : D1Database) : option (option Category * D1Database) :=
  match selectOtherBySlug slug i db with
  | Some _ =>
      match Categories.selectCategory i db with
      | Some _ => None
      | None => Some (None, db)
      end
  | None =>
      let set (c : Category) :=
        {| c_id := c_id c; c_name := name; c_slug := slug;
           c_description := description; c_created_at := c_created_at c |} in
      Some (option_map set (Categories.selectCategory i db),
            with_categories db
              (map (fun c => if c_id c =? i then set c else c) (categories db)))
  end.

(** *** POST /api/admin/category; [None] is the exception of reading a
    field of a [null] body, which no [try] catches. *)
Definition handleCreateCategory (request : Http.Request) (env : Env) (rowid : Z)
    (now : string) : option (Reply * Env) :=
  match Http.json (Http.body request) with
  | None => Some (ofResponse (badRequest "Invalid JSON body"), env)
  | Some JNull => None
  | Some body =>
      let fields := match body with JObject fs => fs | _ => [] end in
      match requiredText "name" fields with
      | None => Some (ofResponse (badRequest "Name is required"), env)
      | Some name =>
          match requiredText "slug" fields with
          | None => Some (ofResponse (badRequest "Slug is required"), env)
          | Some slug =>
              match selectBySlug slug (DB env) with
              | Some _ =>
                  Some (ofResponse (conflict "Category with this slug already exists"), env)
              | None =>
                  match descriptionOf fields with
                  | None => Some (ofResponse (internalError "Failed to create category"), env)
                  | Some description =>
                      match insertCategory (trim name) (trim slug) description rowid now
                              (DB env) with
                      | None =>
                          Some (ofResponse (internalError "Failed to create category"), env)
                      | Some (result, db) =>
                          Some (success (PCategory result) 201, with_DB env db)
                      end
                  end
              end
          end
      end
  end.

(** *** PUT /api/admin/category/:id *)
Definition handleUpdateCategory (request : Http.Request) (env : Env) (i : Z)
  : option (Reply * Env) :=
  match Http.json (Http.body request) with
  | None => Some (ofResponse (badRequest "Invalid JSON body"), env)
  | Some JNull => None
  | Some body =>
      let fields := match body with JObject fs => fs | _ => [] end in
      match requiredText "name" fields with
      | None => Some (ofResponse (badRequest "Name is required"), env)
      | Some name =>
          match requiredText "slug" fields with
          | None => Some (ofResponse (badRequest "Slug is required"), env)
          | Some slug =>
              match Categories.selectCategory i (DB env) with
              | None => Some (ofResponse (notFound "Category not found"), env)
              | Some _ =>
                  match selectOtherBySlug slug i (DB env) with
                  | Some _ =>
                      Some (ofResponse (conflict "Category with this slug already exists"),
                            env)
                  | None =>
                      match descriptionOf fields with
                      | None =>
                          Some (ofResponse (internalError "Failed to update category"), env)
                      | Some description =>
                          match updateCategory (trim name) (trim slug) description i
                                  (DB env) with
                          | None =>
                              Some (ofResponse (internalError "Failed to update category"),
                                    env)
                          | Some (result, db) =>
                              Some (success (match result with
                                             | Some row => PCategory row
                                             | None => PNull
                                             end) 200,
                                    with_DB env db)
                          end
                      end
                  end
              end
          end
      end
  end.

End CategoryHandlers.

(** ** handlers/tags.ts *)

Module Tags.

Import JS Response Env Reply.

(** [ORDER BY created_at DESC] *)
Definition createdDesc (a b : Tag) : Prop :=
  String.leb (t_created_at b) (t_created_at a) = true.

#[global] Instance createdDesc_dec : RelDecision createdDesc.
Proof. intros a b. unfold createdDesc. apply _. Defined.

(** *** GET /api/tags *)
Definition handleGetTags (env : Env) : Reply :=
  success (PTags (Articles.orderBy createdDesc (tags_table (DB env)))) 200.

(** [SELECT id, name, slug, created_at FROM tags WHERE id = ?], [.first()] *)
Definition selectTag (i : Z) (db : D1Database) : option Tag :=
  List.find (fun t => t_id t =? i) (tags_table db).

(** *** GET /api/tag/:id *)
Definition handleGetTag (env : Env) (i : Z) : Reply :=
  match selectTag i (DB env) with
  | None => ofResponse (notFound "Tag not found")
  | Some tag => success (PTag tag) 200
  end.

(** [SELECT id FROM tags WHERE slug = ?], [.first()] *)
Definition selectBySlug (slug : string) (db : D1Database) : option Tag :=
  List.find (fun t => String.eqb (t_slug t) slug) (tags_table db).

Definition with_tags (db : D1Database) (rows : list Tag) : D1Database :=
  {| admins := admins db; categories := categories db; tags_table := rows;
     articles := articles db; article_tags := article_tags db |}.

(** [INSERT INTO tags (name, slug) VALUES (?, ?) RETURNING ...]; [rowid]
    is the id AUTOINCREMENT assigns and [now] is CURRENT_TIMESTAMP.
    [None] when [slug TEXT NOT NULL UNIQUE] fails. *)
Definition insertTag (name slug : string) (rowid : Z) (now : string) (db : D1Database)
  : option (Tag * D1Database) :=
  match selectBySlug slug db with
  | Some _ => None
  | None =>
      let row := {| t_id := rowid; t_name := name; t_slug := slug; t_created_at := now |} in
      Some (row, with_tags db (tags_table db ++ [row]))
  end.

(** *** POST /api/admin/tag; [None] is the exception of reading a field
    of a [null] body, which no [try] catches. *)
Definition handleCreateTag (request : Http.Request) (env : Env) (rowid : Z) (now : string)
  : option (Reply * Env) :=
  match Http.json (Http.body request) with
  | None => Some (ofResponse (badRequest "Invalid JSON body"), env)
  | Some JNull => None
  | Some body =>
      let fields := match body with JObject fs => fs | _ => [] end in
      match CategoryHandlers.requiredText "name" fields with
      | None => Some (ofResponse (badRequest "Name is required"), env)
      | Some name =>
          match CategoryHandlers.requiredText "slug" fields with
          | None => Some (ofResponse (badRequest "Slug is required"), env)
          | Some slug =>
              match selectBySlug slug (DB env) with
              | Some _ => Some (ofResponse (conflict "Tag with this slug already exists"), env)
              | None =>
                  match insertTag (trim name) (trim slug) rowid now (DB env) with
                  | None => Some (ofResponse (internalError "Failed to create tag"), env)
                  | Some (result, db) => Some (success (PTag result) 201, with_DB env db)
                  end
              end
          end
      end
  end.

(** [DELETE FROM tags WHERE id = ?]; the rows of [article_tags] that
    reference the tag go with it ([ON DELETE CASCADE]). *)
Definition deleteTag (i : Z) (db : D1Database) : D1Database :=
  {| admins := admins db;
     categories := categories db;
     tags_table := List.filter (fun t => negb (t_id t =? i)) (tags_table db);
     articles := articles db;
     article_tags := List.filter (fun at' => negb (tag_id at' =? i)) (article_tags db) |}.

(** *** DELETE /api/admin/tag/:id *)
Definition handleDeleteTag (env : Env) (i : Z) : Reply * Env :=
  match selectTag i (DB env) with
  | None => (ofResponse (notFound "Tag not found"), env)
  | Some _ => (success (PData DDeleted) 200, with_DB env (deleteTag i (DB env)))
  end.

End Tags.

(** ** index.ts: the Worker's [fetch] *)

Module Worker.

Import JS Response Env Reply Index.

(** What the handlers read from the platform besides the request. *)
Record Reads : Type := {
  handlerReads : Index.Reads;
  (** the id AUTOINCREMENT assigns to an inserted row *)
  rowid : Z;
  (** CURRENT_TIMESTAMP of an inserted row *)
  currentTimestamp : string
}.

(** The bindings and the rate-limit store of the isolate. *)
Definition World : Type := Env * gmap string Security.RateLimitRecord.

Definition replied (store : gmap string Security.RateLimitRecord) (r : Reply * Env)
  : Awaited World :=
  Replied (fst r) (snd r, store).

Definition repliedOrThrown (env : Env) (store : gmap string Security.RateLimitRecord)
    (r : option (Reply * Env)) : Awaited World :=
  match r with
  | Some r => replied store r
  | None => Thrown (env, store)
  end.

Definition withId (i : number) (k : Z -> Awaited World) : Awaited World :=
  match i with Num z => k z | _ => Unmodelled end.

(** The handler [handleRequest] delegates to, run to completion. *)
Definition perform `{Jwt.Jose} `{Login.Bcrypt} (h : Handler) (request : Http.Request)
    (env : Env) (reads : Reads) (store : gmap string Security.RateLimitRecord)
  : Awaited World :=
  match h with
  | HGetCategories => replied store (CategoryHandlers.handleGetCategories env, env)
  | HGetCategory i =>
      withId i (fun z => replied store (CategoryHandlers.handleGetCategory env z, env))
  | HGetTags => replied store (Tags.handleGetTags env, env)
  | HGetTag i => withId i (fun z => replied store (Tags.handleGetTag env z, env))
  | HGetAdminArticle i =>
      withId i (fun z => replied store (AdminArticles.handleGetAdminArticle env z, env))
  | HDeleteArticle i =>
      withId i (fun z => replied store (AdminArticles.handleDeleteArticle env z))
  | HPinArticle i => withId i (fun z => replied store (AdminArticles.handlePinArticle env z))
  | HCreateCategory =>
      repliedOrThrown env store
        (CategoryHandlers.handleCreateCategory request env (rowid reads)
           (currentTimestamp reads))
  | HUpdateCategory i =>
      withId i (fun z =>
        repliedOrThrown env store (CategoryHandlers.handleUpdateCategory request env z))
  | HCreateTag =>
      repliedOrThrown env store
        (Tags.handleCreateTag request env (rowid reads) (currentTimestamp reads))
  | HDeleteTag i => withId i (fun z => replied store (Tags.handleDeleteTag env z))
  | _ =>
      match Index.perform h request env (handlerReads reads) with
      | Answered response env' => Replied (ofResponse response) (env', store)
      | Uncaught => Thrown (env, store)
      | Elsewhere => Unmodelled
      end
  end.

(** [handleRequest(request, env)], awaited. *)
Definition handleRequest `{Jwt.Jose} `{Login.Bcrypt} (request : Http.Request)
    (clock : Clock) (reads : Reads) (w : World) : Awaited World :=
  match Index.handleRequest request (fst w) clock (snd w) with
  | (Respond response, store) => Replied (ofResponse response) (fst w, store)
  | (Invoke h, store) => perform h request (fst w) reads store
  end.

(** [export default { fetch }] *)
Definition fetch `{Jwt.Jose} `{Login.Bcrypt} (request : Http.Request) (clock : Clock)
    (reads : Reads) : World -> Awaited World :=
  Cors.corsMiddleware request
    (fun w =>
       match handleRequest request clock reads w with
       | Replied response w' =>
           Hardening.securityMiddleware request (fun w'' => Replied response w'') w'
       | Thrown w' => Thrown w'
       | Unmodelled => Unmodelled
       end)
    Cors.defaultCORSConfig.

End Worker.

(** ** Vocabulary of the further statements *)

Module Terms.

Import JS Response Env Reply.

(** The characters [sanitizeString] replaces. *)
Definition special (c : ascii) : bool :=
  existsb (Ascii.eqb c) ["<"; ">"; "034"; "'"; "/"]%char.

(** What one character becomes. *)
Definition escape (c : ascii) : string :=
  if Ascii.eqb c "<" then "&lt;"
  else if Ascii.eqb c ">" then "&gt;"
  else if Ascii.eqb c "034" then "&quot;"
  else if Ascii.eqb c "'" then "&#x27;"
  else if Ascii.eqb c "/" then "&#x2F;"
  else String c EmptyString.

(** Every character replaced on its own, in one pass. *)
Fixpoint escapeAll (s : string) : string :=
  match s with
  | EmptyString => EmptyString
  | String c s' => escape c +:+ escapeAll s'
  end.

(** The value of a lower-case hexadecimal digit. *)
Definition hexValue (c : ascii) : option N :=
  let n := N_of_ascii c in
  if ((48 <=? n) && (n <=? 57))%N then Some (n - 48)%N
  else if ((97 <=? n) && (n <=? 102))%N then Some (n - 87)%N
  else None.

(** The bytes a string of two-digit lower-case hexadecimal numbers spells. *)
Fixpoint parseHex (s : string) : option (list Byte.byte) :=
  match s with
  | EmptyString => Some []
  | String a (String b rest) =>
      match hexValue a, hexValue b with
      | Some x, Some y =>
          match Byte.of_N (16 * x + y), parseHex rest with
          | Some byte, Some bytes => Some (byte :: bytes)
          | _, _ => None
          end
      | _, _ => None
      end
  | String _ EmptyString => None
  end.

(** What holds of every record of the rate-limit store, given the
    requests handled so far. *)
Definition recorded (seen : list (Http.Request * Index.Clock))
    (store : gmap string Security.RateLimitRecord) : Prop :=
  forall k r,
    store !! k = Some r ->
    1 <= Security.count r <= 5
    /\ exists request clock,
         In (request, clock) seen
         /\ Http.pathname request = "/api/login" /\ Http.method request = "POST"
         /\ k = "login:" +:+ Security.getClientIP request
         /\ Security.resetTime r = Index.atRateLimit clock + 60000.

(** The method of the route that leads to a handler. *)
Definition methodOf (h : Index.Handler) : string :=
  match h with
  | Index.HGetArticles | Index.HGetArticle _ | Index.HGetCategories
  | Index.HGetCategory _ | Index.HGetTags | Index.HGetTag _
  | Index.HGetAdminArticles | Index.HGetAdminArticle _ => "GET"
  | Index.HLogin | Index.HLikeArticle _ | Index.HUpload | Index.HCreateArticle
  | Index.HPinArticle _ | Index.HCreateCategory | Index.HCreateTag => "POST"
  | Index.HUpdateArticle _ | Index.HUpdateCategory _ => "PUT"
  | Index.HDeleteArticle _ | Index.HDeleteCategory _ | Index.HDeleteTag _ => "DELETE"
  end.

(** The id a handler is called with. *)
Definition idOf (h : Index.Handler) : option number :=
  match h with
  | Index.HGetArticle i | Index.HLikeArticle i | Index.HGetCategory i | Index.HGetTag i
  | Index.HGetAdminArticle i | Index.HUpdateArticle i | Index.HDeleteArticle i
  | Index.HPinArticle i | Index.HUpdateCategory i | Index.HDeleteCategory i
  | Index.HDeleteTag i => Some i
  | _ => None
  end.

(** The path of the route that leads to a handler: what comes before the
    id and what comes after it. *)
Definition pathOf (h : Index.Handler) : string * string :=
  match h with
  | Index.HLogin => ("/api/login", "")
  | Index.HGetArticles => ("/api/articles", "")
  | Index.HGetArticle _ => ("/api/article/", "")
  | Index.HLikeArticle _ => ("/api/article/", "/like")
  | Index.HGetCategories => ("/api/categories", "")
  | Index.HGetCategory _ => ("/api/category/", "")
  | Index.HGetTags => ("/api/tags", "")
  | Index.HGetTag _ => ("/api/tag/", "")
  | Index.HUpload => ("/api/upload", "")
  | Index.HGetAdminArticles => ("/api/admin/articles", "")
  | Index.HCreateArticle => ("/api/admin/article", "")
  | Index.HGetAdminArticle _ | Index.HUpdateArticle _ | Index.HDeleteArticle _ =>
      ("/api/admin/article/", "")
  | Index.HPinArticle _ => ("/api/admin/article/", "/pin")
  | Index.HCreateCategory => ("/api/admin/category", "")
  | Index.HUpdateCategory _ | Index.HDeleteCategory _ => ("/api/admin/category/", "")
  | Index.HCreateTag => ("/api/admin/tag", "")
  | Index.HDeleteTag _ => ("/api/admin/tag/", "")
  end.

(** The integer a run of decimal digits spells, after [acc]. *)
Fixpoint decimalFrom (acc : Z) (digits : string) : Z :=
  match digits with
  | EmptyString => acc
  | String c rest => decimalFrom (10 * acc + (Z.of_N (N_of_ascii c) - 48)) rest
  end.

Definition decimal (digits : string) : Z := decimalFrom 0 digits.

(** The request is on the route of the handler: the handler's method, and
    the handler's path with, in the place of the id, a non-empty run of
    decimal digits; the id is the double nearest to the integer they
    spell. *)
Definition onRouteOf (request : Http.Request) (h : Index.Handler) : Prop :=
  Http.method request = methodOf h
  /\ match idOf h with
     | None => Http.pathname request = fst (pathOf h)
     | Some i =>
         exists digits,
           Http.pathname request = fst (pathOf h) +:+ digits +:+ snd (pathOf h)
           /\ isDigits1 digits = true
           /\ i = toDouble (decimal digits)
     end.

(** The same request without the query parameter [name]. *)
Definition withoutParam (name : string) (request : Http.Request) : Http.Request :=
  {| Http.method := Http.method request;
     Http.pathname := Http.pathname request;
     Http.searchParams :=
       List.filter (fun kv => negb (String.eqb (fst kv) name)) (Http.searchParams request);
     Http.headers := Http.headers request;
     Http.body := Http.body request |}.

(** Two rows that differ at most in [view_count] and [like_count]. *)
Definition sameButCounters (r r' : ArticleRow) : Prop :=
  is_pinned r' = is_pinned r
  /\ id (cols r') = id (cols r)
  /\ title (cols r') = title (cols r)
  /\ content (cols r') = content (cols r)
  /\ cover (cols r') = cover (cols r)
  /\ category_id (cols r') = category_id (cols r)
  /\ description (cols r') = description (cols r)
  /\ keywords (cols r') = keywords (cols r)
  /\ status (cols r') = status (cols r)
  /\ created_at (cols r') = created_at (cols r)
  /\ updated_at (cols r') = updated_at (cols r).

(** Two states of the bindings that differ at most in the view and like
    counters of the articles. *)
Definition onlyCountersChange (env env' : Env) : Prop :=
  BUCKET env' = BUCKET env
  /\ JWT_SECRET env' = JWT_SECRET env
  /\ admins (DB env') = admins (DB env)
  /\ categories (DB env') = categories (DB env)
  /\ tags_table (DB env') = tags_table (DB env)
  /\ article_tags (DB env') = article_tags (DB env)
  /\ Forall2 sameButCounters (articles (DB env)) (articles (DB env')).

End Terms.

(** ** More of the small blog *)

Module Fixtures.

Import JS.

Definition reads : Worker.Reads :=
  {| Worker.handlerReads := Sample.reads; Worker.rowid := 3;
     Worker.currentTimestamp := "2024-02-01 00:00:00" |}.

(** The body of a category or tag form. *)
Definition form (name slug : string) : Http.Request :=
  Sample.request "POST" "/api/admin/category" []
    [("Authorization", "Bearer " +:+ Sample.token)]
    (Sample.jsonBody (JObject [("name", JString name); ("slug", JString slug)])).

End Fixtures.

(** * Properties *)

(** ** The unit tests of the repository, replayed on the model *)

Section RepositoryTests.

Import JS Response Env Security.

(** middleware/security.test.ts, "Rate Limiting" *)
Example rate_limit_first_call :
  fst (checkRateLimit "test-key" {| maxRequests := 5; windowMs := 60000 |} 0 ∅)
  = {| allowed := true; remaining := 4; rl_resetTime := 60000 |}.
Proof. reflexivity. Qed.

Example rate_limit_tracks_count :
  fst (Spec.checkAll "test-key" {| maxRequests := 3; windowMs := 60000 |} [0; 1; 2] ∅)
  = [ {| allowed := true; remaining := 2; rl_resetTime := 60000 |};
      {| allowed := true; remaining := 1; rl_resetTime := 60000 |};
      {| allowed := true; remaining := 0; rl_resetTime := 60000 |} ].
Proof. vm_compute. reflexivity. Qed.

Example rate_limit_blocks :
  fst (Spec.checkAll "test-key" {| maxRequests := 2; windowMs := 60000 |} [0; 1; 2] ∅)
  = [ {| allowed := true; remaining := 1; rl_resetTime := 60000 |};
      {| allowed := true; remaining := 0; rl_resetTime := 60000 |};
      {| allowed := false; remaining := 0; rl_resetTime := 60000 |} ].
Proof. vm_compute. reflexivity. Qed.

Example rate_limit_keys_are_separate :
  let config := {| maxRequests := 1; windowMs := 60000 |} in
  allowed (fst (checkRateLimit "key2" config 1 (snd (checkRateLimit "key1" config 0 ∅))))
  = true.
Proof. vm_compute. reflexivity. Qed.

(** middleware/security.test.ts, "getClientIP" and "checkRequestBodySize" *)
Example client_ip_from_cloudflare :
  getClientIP (Sample.request "GET" "/" [] [("CF-Connecting-IP", "1.2.3.4")] Sample.noBody)
  = "1.2.3.4".
Proof. reflexivity. Qed.

Example client_ip_forwarded :
  getClientIP
    (Sample.request "GET" "/" [] [("X-Forwarded-For", "5.6.7.8, 9.10.11.12")] Sample.noBody)
  = "5.6.7.8".
Proof. reflexivity. Qed.

Example client_ip_unknown :
  getClientIP (Sample.request "GET" "/" [] [] Sample.noBody) = "unknown".
Proof. reflexivity. Qed.

Example body_size_within_limit :
  checkRequestBodySize
    (Sample.request "POST" "/" [] [("Content-Length", "1000")] Sample.noBody)
    MAX_REQUEST_BODY_SIZE
  = {| valid := true; size := Num 1000 |}.
Proof. reflexivity. Qed.

Example body_size_over_limit :
  valid (checkRequestBodySize
           (Sample.request "POST" "/" [] [("Content-Length", "1048577")] Sample.noBody)
           MAX_REQUEST_BODY_SIZE)
  = false.
Proof. reflexivity. Qed.

Example body_size_undeclared :
  valid (checkRequestBodySize (Sample.request "POST" "/" [] [] Sample.noBody)
           MAX_REQUEST_BODY_SIZE)
  = true.
Proof. reflexivity. Qed.

(** middleware/auth.test.ts, "extractBearerToken" *)
Example bearer_token_extracted :
  Auth.extractBearerToken (Some "Bearer eyJhbGciOiJIUzI1NiIsInR5cCI6IkpXVCJ9.test")
  = Some "eyJhbGciOiJIUzI1NiIsInR5cCI6IkpXVCJ9.test".
Proof. reflexivity. Qed.

Example bearer_null_header : Auth.extractBearerToken None = None.
Proof. reflexivity. Qed.

Example bearer_basic_scheme : Auth.extractBearerToken (Some "Basic dXNlcjpwYXNz") = None.
Proof. reflexivity. Qed.

Example bearer_without_token : Auth.extractBearerToken (Some "Bearer ") = None.
Proof. reflexivity. Qed.

Example bearer_keyword_only : Auth.extractBearerToken (Some "Bearer") = None.
Proof. reflexivity. Qed.

Example bearer_surrounding_spaces :
  Auth.extractBearerToken (Some "Bearer   eyJhbGciOiJIUzI1NiJ9.test   ")
  = Some "eyJhbGciOiJIUzI1NiJ9.test".
Proof. reflexivity. Qed.

(** handlers/upload.test.ts *)
Example upload_size_checks :
  Upload.isValidFileSize (5 * 1024 * 1024) = true
  /\ Upload.isValidFileSize (10 * 1024 * 1024) = true
  /\ Upload.isValidFileSize (11 * 1024 * 1024) = false
  /\ Upload.isValidFileSize 0 = false
  /\ Upload.isValidFileSize (-1) = false.
Proof. repeat split. Qed.

Example upload_type_checks :
  Upload.isValidImageType "image/jpeg" = true
  /\ Upload.isValidImageType "image/svg+xml" = true
  /\ Upload.isValidImageType "application/pdf" = false
  /\ Upload.isValidImageType "text/plain" = false.
Proof. repeat split. Qed.

Example upload_filename_extension :
  Upload.generateUniqueFilename "image/png" 1700000000000 "ab" = "1700000000000-ab.png"
  /\ Upload.generateUniqueFilename "unknown/type" 1700000000000 "ab"
     = "1700000000000-ab.bin".
Proof. split; reflexivity. Qed.

Example upload_binary_png :
  fst (Upload.handleUpload
         (Sample.request "POST" "/api/upload" [] [("Content-Type", "image/png")]
            (Sample.binaryBody 4)) Sample.env 1700000000000 "ab")
  = success (DUpload "/uploads/1700000000000-ab.png" "1700000000000-ab.png") 201.
Proof. reflexivity. Qed.

Example upload_pdf_refused :
  fst (Upload.handleUpload
         (Sample.request "POST" "/api/upload" [] [("Content-Type", "application/pdf")]
            (Sample.binaryBody 4)) Sample.env 1700000000000 "ab")
  = badRequest
      "Invalid file type. Allowed types: image/jpeg, image/png, image/gif, image/webp, image/svg+xml".
Proof. reflexivity. Qed.

Example upload_too_large :
  fst (Upload.handleUpload
         (Sample.request "POST" "/api/upload" [] [("Content-Type", "image/png")]
            (Sample.binaryBody (11 * 1024 * 1024))) Sample.env 1700000000000 "ab")
  = badRequest "File too large. Maximum size: 10MB".
Proof. reflexivity. Qed.

(** handlers/auth.test.ts *)
Example login_unknown_user :
  Login.handleLogin (H := Reference.jose) (H0 := Reference.bcrypt)
    (Sample.request "POST" "/api/login" [] []
       (Sample.jsonBody
          (JObject [("username", JString "nonexistent"); ("password", JString "password")])))
    Sample.env 0 0
  = Some (unauthorized "Invalid username or password").
Proof. reflexivity. Qed.

Example login_wrong_password :
  Login.handleLogin (H := Reference.jose) (H0 := Reference.bcrypt)
    (Sample.request "POST" "/api/login" [] []
       (Sample.jsonBody
          (JObject [("username", JString "admin"); ("password", JString "wrongpassword")])))
    Sample.env 0 0
  = Some (unauthorized "Invalid username or password").
Proof. reflexivity. Qed.

Example login_missing_fields :
  Login.handleLogin (H := Reference.jose) (H0 := Reference.bcrypt)
    (Sample.request "POST" "/api/login" [] []
       (Sample.jsonBody (JObject [("password", JString "admin123")]))) Sample.env 0 0
  = Some (badRequest "Username is required")
  /\ Login.handleLogin (H := Reference.jose) (H0 := Reference.bcrypt)
       (Sample.request "POST" "/api/login" [] []
          (Sample.jsonBody (JObject [("username", JString "admin")]))) Sample.env 0 0
     = Some (badRequest "Password is required")
  /\ Login.handleLogin (H := Reference.jose) (H0 := Reference.bcrypt)
       (Sample.request "POST" "/api/login" [] [] Sample.noBody) Sample.env 0 0
     = Some (badRequest "Invalid JSON body").
Proof. repeat split. Qed.

(** handlers/articles.test.ts *)
Example articles_paging_parameters :
  exists rows total,
    Articles.handleGetArticles
      (Sample.request "GET" "/api/articles" [("page", "2"); ("pageSize", "5")] []
         Sample.noBody) Sample.env
    = success (DArticles {| data := rows; total := total;
                            page := Num 2; pageSize := Num 5 |}) 200.
Proof. do 2 eexists. vm_compute. reflexivity. Qed.

Example article_detail_missing :
  fst (Articles.handleGetArticle Sample.env 999) = notFound "Article not found".
Proof. reflexivity. Qed.

End RepositoryTests.

(** ** Strings *)

Section StringFacts.

Import JS Spec.

Lemma truthy_false (s : string) : truthy s = false <-> s = "".
Proof.
  unfold truthy. rewrite negb_false_iff. apply String.eqb_eq.
Qed.

Lemma truthy_true (s : string) : truthy s = true <-> s <> "".
Proof.
  unfold truthy. rewrite negb_true_iff. apply String.eqb_neq.
Qed.

Lemma append_cons (c : ascii) (a b : string) : String c a +:+ b = String c (a +:+ b).
Proof. reflexivity. Qed.

Lemma append_empty (b : string) : "" +:+ b = b.
Proof. reflexivity. Qed.

Lemma append_assoc (a b c : string) : (a +:+ b) +:+ c = a +:+ (b +:+ c).
Proof.
  induction a as [|x a IH]; [reflexivity|].
  rewrite !append_cons. now rewrite IH.
Qed.

Lemma startsWith_app (s p : string) :
  startsWith s p = true <-> exists rest, s = p +:+ rest.
Proof.
  revert s. induction p as [|c p IH]; intros s; simpl.
  - split; [intros _; now exists s | reflexivity].
  - destruct s as [|d s].
    + split; [discriminate | intros [rest Hr]; discriminate].
    + rewrite andb_true_iff, Ascii.eqb_eq, IH. split.
      * intros [-> [rest ->]]. now exists rest.
      * intros [rest Hr]. injection Hr as -> ->. split; [reflexivity | now exists rest].
Qed.

Lemma slice_app (p rest : string) : slice (String.length p) (p +:+ rest) = rest.
Proof. induction p as [|c p IH]; simpl; [now destruct rest | exact IH]. Qed.

Lemma trimStart_spaces (n : nat) : trimStart (spaces n) = "".
Proof. induction n as [|n IH]; simpl; [reflexivity | exact IH]. Qed.

Lemma trimEnd_marked (s : string) (c : ascii) :
  isWhiteSpace c = false -> trimEnd (s +:+ String c "") = s +:+ String c "".
Proof.
  intros Hc. induction s as [|d s IH]; simpl.
  - now rewrite Hc.
  - rewrite IH. now destruct s.
Qed.

End StringFacts.

(** ** The authorization gate *)

Lemma extractBearerToken_Some (authHeader : option string) (token : string) :
  Auth.extractBearerToken authHeader = Some token <->
  exists h, authHeader = Some h /\ JS.startsWith h "Bearer " = true
            /\ token = JS.trim (JS.slice 7 h) /\ token <> "".
Proof.
  unfold Auth.extractBearerToken. destruct authHeader as [h|].
  - change (String.length "Bearer ") with 7%nat.
    destruct (JS.truthy h) eqn:Hh; cbn [negb].
    + destruct (JS.startsWith h "Bearer ") eqn:Hp; cbn [negb].
      * destruct (JS.truthy (JS.trim (JS.slice 7 h))) eqn:Ht; cbn [negb].
        -- apply truthy_true in Ht. split.
           ++ intros Heq. injection Heq as Heq. subst token. exists h. auto.
           ++ intros (h' & Heq & _ & Htok & _). injection Heq as Heq.
              subst h' token. reflexivity.
        -- apply truthy_false in Ht. split; [discriminate|].
           intros (h' & Heq & _ & Htok & Hne). injection Heq as Heq.
           subst h' token. contradiction.
      * split; [discriminate|]. intros (h' & Heq & Hp' & _).
        injection Heq as Heq. subst h'. congruence.
    + apply truthy_false in Hh. subst h. split; [discriminate|].
      intros (h' & Heq & Hp' & _). injection Heq as Heq. subst h'. discriminate.
  - split; [discriminate|]. intros (h & Hh & _). discriminate.
Qed.

Lemma extractBearerToken_spaces (n : nat) :
  Auth.extractBearerToken (Some ("Bearer" +:+ Spec.spaces n)) = None.
Proof.
  destruct n as [|n]; [reflexivity|].
  unfold Auth.extractBearerToken.
  change ("Bearer" +:+ Spec.spaces (S n)) with ("Bearer " +:+ Spec.spaces n).
  change (String.length "Bearer ") with 7%nat.
  change (JS.slice 7 ("Bearer " +:+ Spec.spaces n)) with (Spec.spaces n).
  unfold JS.trim. rewrite trimStart_spaces. reflexivity.
Qed.

(** C10. [extractBearerToken] returns a token exactly when the header
    starts with the literal, case-sensitive prefix ["Bearer "] and what
    follows is not empty once trimmed; the token is that trimmed rest.
    A lowercase ["bearer "] scheme, a ["Basic "] scheme and ["Bearer"]
    followed only by spaces give [null], and with [null] the gate answers
    401 UNAUTHORIZED. *)
Theorem extractBearerToken_literal_prefix (J : Jwt.Jose) :
  (forall (authHeader : option string) (token : string),
      Auth.extractBearerToken authHeader = Some token <->
      exists h, authHeader = Some h /\ JS.startsWith h "Bearer " = true
                /\ token = JS.trim (JS.slice 7 h) /\ token <> "")
  /\ (forall t, Auth.extractBearerToken (Some ("bearer " +:+ t)) = None)
  /\ (forall c, Auth.extractBearerToken (Some ("Basic " +:+ c)) = None)
  /\ (forall n, Auth.extractBearerToken (Some ("Bearer" +:+ Spec.spaces n)) = None)
  /\ (forall request env now,
         Auth.extractBearerToken (Http.headers_get request "Authorization") = None ->
         exists response,
           Auth.authMiddleware request env now = Auth.Rejected response
           /\ Response.r_status response = 401
           /\ Response.r_body response
              = Response.Failure "UNAUTHORIZED" "Missing or invalid authorization header").
Proof.
  split; [exact extractBearerToken_Some|].
  split; [reflexivity|].
  split; [reflexivity|].
  split; [exact extractBearerToken_spaces|].
  intros request env now Hnone. unfold Auth.authMiddleware. rewrite Hnone.
  eexists. split; [reflexivity|]. split; reflexivity.
Qed.

(** ** The reference interfaces meet the laws *)

Section ReferenceFacts.

Import JS Jwt Reference.

Lemma decPos_encPos (p : positive) (rest : string) :
  decPos (encPos p +:+ rest) = Some (p, rest).
Proof.
  induction p as [q IH|q IH|]; simpl; rewrite ?append_cons; simpl;
    try rewrite IH; reflexivity.
Qed.

Lemma decZ_encZ (z : Z) (rest : string) : decZ (encZ z +:+ rest) = Some (z, rest).
Proof.
  destruct z as [|p|p]; simpl; rewrite ?append_cons; simpl;
    try rewrite decPos_encPos; reflexivity.
Qed.

Lemma splitAt_length (s rest : string) :
  splitAt (String.length s) (s +:+ rest) = Some (s, rest).
Proof.
  induction s as [|c s IH]; [reflexivity|].
  rewrite append_cons. simpl. now rewrite IH.
Qed.

Lemma decString_encString (s rest : string) :
  decString (encString s +:+ rest) = Some (s, rest).
Proof.
  unfold decString, encString. rewrite append_assoc, decZ_encZ, Nat2Z.id.
  apply splitAt_length.
Qed.

Lemma decClaim_encClaim (c : Claim) (rest : string) :
  decClaim (encClaim c +:+ rest) = Some (c, rest).
Proof.
  destruct c as [s|n|]; simpl; rewrite ?append_cons; simpl.
  - now rewrite decString_encString.
  - now rewrite decZ_encZ.
  - reflexivity.
Qed.

Lemma decode_encode (p : JosePayload) (key : string) :
  decode (encode p key) = Some (key, p).
Proof.
  unfold decode, encode.
  rewrite decString_encString. rewrite !decClaim_encClaim.
  rewrite String.eqb_refl. now destruct p.
Qed.

Lemma trimEnd_append (a b : string) :
  trimEnd b = b -> b <> "" -> trimEnd (a +:+ b) = a +:+ b.
Proof.
  intros Hb Hne. induction a as [|c a IH]; [exact Hb|].
  rewrite append_cons. simpl. rewrite IH. destruct (a +:+ b) eqn:Hab; [|reflexivity].
  destruct a; [contradiction | discriminate].
Qed.

Lemma append_nonempty (a b : string) : b <> "" -> a +:+ b <> "".
Proof. destruct a; [auto | discriminate]. Qed.

Lemma encode_compact (p : JosePayload) (key : string) :
  trim (encode p key) = encode p key /\ encode p key <> "".
Proof.
  split; [|discriminate].
  unfold trim, encode.
  change (trimStart (String "J" ?s)) with (String "J" s).
  change (String "J" ?s) with ("J" +:+ s).
  assert (Hend : "~" <> "") by discriminate.
  repeat (apply trimEnd_append; [|repeat apply append_nonempty; exact Hend]).
  reflexivity.
Qed.

Lemma reference_laws : JoseLaws Reference.jose.
Proof.
  split; simpl; unfold check.
  - intros p k e nowMs He Hlt. rewrite decode_encode, String.eqb_refl, He.
    apply Z.ltb_lt in Hlt. now rewrite Hlt.
  - intros p k e nowMs He Hle. rewrite decode_encode, String.eqb_refl, He.
    apply Z.ltb_ge in Hle. now rewrite Hle.
  - intros p k k' nowMs Hne. rewrite decode_encode.
    apply String.eqb_neq in Hne. now rewrite Hne.
  - apply encode_compact.
Qed.

End ReferenceFacts.

(** ** The dispatcher and the gate *)

Section Dispatcher.

Import JS Response Env Jwt Auth Security Index Spec.

Context {J : Jose}.

Lemma protected_path_cases (pathname : string) :
  isProtectedPath pathname = true ->
  (exists rest, pathname = "/api/admin/" +:+ rest) \/ pathname = "/api/upload".
Proof.
  unfold isProtectedPath, same. rewrite orb_true_iff, startsWith_app, String.eqb_eq.
  tauto.
Qed.

Lemma protected_is_not_login (request : Http.Request) :
  isProtectedPath (Http.pathname request) = true ->
  same (Http.pathname request) "/api/login" = false.
Proof.
  intros Hp. destruct (protected_path_cases _ Hp) as [[rest ->] | ->]; reflexivity.
Qed.

Lemma protected_has_no_public_route (request : Http.Request) :
  isProtectedPath (Http.pathname request) = true -> publicRoutes request = None.
Proof.
  intros Hp. destruct request as [m p q h b]. simpl in Hp.
  destruct (protected_path_cases _ Hp) as [[rest ->] | ->]; reflexivity.
Qed.

(** Behind the gate, the request is decided by [authMiddleware] first. *)
Lemma handleRequest_protected request env clock store :
  isProtectedPath (Http.pathname request) = true ->
  handleRequest request env clock store =
  (match authMiddleware request env (atVerify clock) with
   | Rejected response => Respond response
   | User _ =>
       match protectedRoutes request with
       | Some o => o
       | None => fallThrough request clock
       end
   end, store).
Proof.
  intros Hp. unfold handleRequest.
  rewrite (protected_is_not_login _ Hp), (protected_has_no_public_route _ Hp), Hp.
  reflexivity.
Qed.

Lemma route_Some (b : bool) (o o' : Outcome) : route b o = Some o' -> o' = o.
Proof. unfold route. destruct b; congruence. Qed.

Lemma routeId_Some matched ok h o :
  routeId matched ok h = Some o -> exists i, o = Invoke (h i).
Proof.
  unfold routeId. destruct matched as [i|]; [|discriminate].
  destruct ok; [|discriminate]. intros [= <-]. now exists i.
Qed.

Lemma otherwise_Some (a b : option Outcome) (o : Outcome) :
  otherwise a b = Some o -> a = Some o \/ b = Some o.
Proof. unfold otherwise. destruct a; auto. Qed.

Ltac split_routes H :=
  repeat (apply otherwise_Some in H; destruct H as [H | H]).

Lemma protectedRoutes_not401 (request : Http.Request) (o : Outcome) :
  protectedRoutes request = Some o -> not401 o.
Proof.
  unfold protectedRoutes. intros H. split_routes H;
    try (apply routeId_Some in H; destruct H as [i ->]; exact I);
    try (apply route_Some in H; subst o; try exact I).
  destruct (negb _); simpl; [discriminate | exact I].
Qed.

Lemma publicRoutes_not401 (request : Http.Request) (o : Outcome) :
  publicRoutes request = Some o -> not401 o.
Proof.
  unfold publicRoutes. intros H. split_routes H;
    try (apply routeId_Some in H; destruct H as [i ->]; exact I);
    try (apply route_Some in H; subst o; exact I).
Qed.

Lemma fallThrough_not401 request clock : not401 (fallThrough request clock).
Proof. unfold fallThrough. destruct (_ && _); simpl; discriminate. Qed.

Lemma tooManyRequests_status message retryAfter :
  r_status (tooManyRequests message retryAfter) = 429.
Proof.
  unfold tooManyRequests. destruct retryAfter as [n|]; [|reflexivity].
  destruct (truthyNum n); reflexivity.
Qed.

Lemma loginRoute_not401 request clock store : not401 (fst (loginRoute request clock store)).
Proof.
  unfold loginRoute. destruct (checkRateLimit _ _ _ _) as [rateLimit store'].
  destruct (negb (allowed rateLimit)); cbn [fst not401].
  - rewrite tooManyRequests_status. discriminate.
  - destruct (negb _); cbn [fst not401]; [discriminate | exact I].
Qed.

(** Dropping the [Authorization] header leaves every other header. *)
Lemma headers_get_withoutAuthorization (request : Http.Request) (name : string) :
  toLowerCase name <> "authorization" ->
  Http.headers_get (withoutAuthorization request) name = Http.headers_get request name.
Proof.
  intros Hname. unfold Http.headers_get, withoutAuthorization. simpl.
  induction (Http.headers request) as [|[k v] hs IH]; [reflexivity|].
  simpl. destruct (String.eqb (toLowerCase k) "authorization") eqn:Hk; simpl.
  - apply String.eqb_eq in Hk. rewrite Hk.
    destruct (String.eqb "authorization" (toLowerCase name)) eqn:Hn.
    + apply String.eqb_eq in Hn. congruence.
    + exact IH.
  - destruct (String.eqb (toLowerCase k) (toLowerCase name)); [reflexivity | exact IH].
Qed.

Lemma getClientIP_withoutAuthorization (request : Http.Request) :
  getClientIP (withoutAuthorization request) = getClientIP request.
Proof.
  unfold getClientIP.
  rewrite !headers_get_withoutAuthorization by (vm_compute; discriminate).
  reflexivity.
Qed.

Lemma checkRequestBodySize_withoutAuthorization (request : Http.Request) (maxSize : Z) :
  checkRequestBodySize (withoutAuthorization request) maxSize
  = checkRequestBodySize request maxSize.
Proof.
  unfold checkRequestBodySize.
  rewrite headers_get_withoutAuthorization by (vm_compute; discriminate).
  reflexivity.
Qed.

Lemma handleRequest_public_ignores_authorization request env clock store :
  isProtectedPath (Http.pathname request) = false ->
  handleRequest request env clock store
  = handleRequest (withoutAuthorization request) env clock store.
Proof.
  intros Hp. unfold handleRequest.
  change (Http.pathname (withoutAuthorization request)) with (Http.pathname request).
  change (Http.method (withoutAuthorization request)) with (Http.method request).
  change (publicRoutes (withoutAuthorization request)) with (publicRoutes request).
  change (fallThrough (withoutAuthorization request) clock) with (fallThrough request clock).
  rewrite Hp. unfold loginRoute.
  rewrite getClientIP_withoutAuthorization, checkRequestBodySize_withoutAuthorization.
  reflexivity.
Qed.

Lemma handleRequest_public_not401 request env clock store :
  isProtectedPath (Http.pathname request) = false ->
  not401 (fst (handleRequest request env clock store)).
Proof.
  intros Hp. unfold handleRequest. rewrite Hp.
  destruct (_ && _); [apply loginRoute_not401|]. simpl.
  destruct (publicRoutes request) as [o|] eqn:Ho.
  - eapply publicRoutes_not401; eassumption.
  - apply fallThrough_not401.
Qed.

End Dispatcher.

Section Gate.

Import JS Response Env Jwt Auth Security Index Spec.

Context {J : Jose}.

Lemma extractBearerToken_compact (token : string) :
  trim token = token -> token <> "" ->
  extractBearerToken (Some ("Bearer " +:+ token)) = Some token.
Proof.
  intros Htrim Hne. apply extractBearerToken_Some. exists ("Bearer " +:+ token).
  split; [reflexivity|]. split; [apply startsWith_app; now exists token|].
  change 7%nat with (String.length "Bearer "). rewrite slice_app. auto.
Qed.

Lemma authMiddleware_no_token request env now :
  extractBearerToken (Http.headers_get request "Authorization") = None ->
  authMiddleware request env now
  = Rejected (unauthorized "Missing or invalid authorization header").
Proof. intros H. unfold authMiddleware. now rewrite H. Qed.

Lemma authMiddleware_bad_token request env now token :
  extractBearerToken (Http.headers_get request "Authorization") = Some token ->
  verifyToken token (JWT_SECRET env) now = None ->
  authMiddleware request env now = Rejected (unauthorized "Invalid or expired token").
Proof. intros H1 H2. unfold authMiddleware. now rewrite H1, H2. Qed.

Lemma verifyToken_refused token secret now :
  jose_verify token secret now = None -> verifyToken token secret now = None.
Proof. intros H. unfold verifyToken. now rewrite H. Qed.

Lemma rejected_by_gate request env clock store response :
  isProtectedPath (Http.pathname request) = true ->
  authMiddleware request env (atVerify clock) = Rejected response ->
  handleRequest request env clock store = (Respond response, store).
Proof. intros Hp Ha. rewrite (handleRequest_protected _ _ _ _ Hp), Ha. reflexivity. Qed.

Context {L : JoseLaws J}.

Lemma bearer_signed_extracts request p k :
  bearer request (jose_sign p k) ->
  extractBearerToken (Http.headers_get request "Authorization") = Some (jose_sign p k).
Proof.
  unfold bearer. intros ->. destruct (sign_compact p k) as [Htrim Hne].
  now apply extractBearerToken_compact.
Qed.

Lemma authMiddleware_accepts request env now p e :
  bearer request (jose_sign p (JWT_SECRET env)) ->
  completeClaims p e -> floorDiv1000 now < e ->
  exists user, authMiddleware request env now = User user.
Proof.
  intros Hb (s & u & i & ->) Hlt. unfold authMiddleware.
  rewrite (bearer_signed_extracts _ _ _ Hb). unfold verifyToken.
  rewrite (verify_signed _ _ e) by (reflexivity || assumption).
  simpl. eauto.
Qed.

End Gate.

(** C1. For a request whose path starts with [/api/admin/] or is
    [/api/upload], [handleRequest] consults the gate before any handler.
    With a bearer token signed under the configured secret that carries the
    four claims and has not expired, the outcome is not a 401.  Without an
    Authorization header, with a header the extractor refuses, with a token
    signed under another secret, with an expired token, or with any token
    the verifier refuses, the dispatcher itself answers 401 UNAUTHORIZED
    and no handler runs.  For every other path the outcome is the same as
    for the request without its Authorization header, and it is never a
    401 of the dispatcher. *)
Theorem gate_before_protected_handlers (J : Jwt.Jose) (L : Jwt.JoseLaws J)
    (request : Http.Request) (env : Env.Env) (clock : Index.Clock)
    (store : gmap string Security.RateLimitRecord) :
  let secret := Env.JWT_SECRET env in
  let now := Index.atVerify clock in
  let header := Http.headers_get request "Authorization" in
  let result := Index.handleRequest request env clock store in
  (Index.isProtectedPath (Http.pathname request) = true ->
   (forall p e, Spec.bearer request (Jwt.jose_sign p secret) ->
                Spec.completeClaims p e -> JS.floorDiv1000 now < e ->
                Spec.not401 (fst result))
   /\ (header = None -> Spec.rejected result store)
   /\ (Auth.extractBearerToken header = None -> Spec.rejected result store)
   /\ (forall p k, Spec.bearer request (Jwt.jose_sign p k) -> k <> secret ->
                   Spec.rejected result store)
   /\ (forall p e, Spec.bearer request (Jwt.jose_sign p secret) ->
                   Jwt.j_exp p = Jwt.CNumber e -> e <= JS.floorDiv1000 now ->
                   Spec.rejected result store)
   /\ (forall token, Auth.extractBearerToken header = Some token ->
                     Jwt.verifyToken token secret now = None ->
                     Spec.rejected result store))
  /\ (Index.isProtectedPath (Http.pathname request) = false ->
      result = Index.handleRequest (Spec.withoutAuthorization request) env clock store
      /\ Spec.not401 (fst result)).
Proof.
  intros secret now header result. split.
  - intros Hp.
    assert (Hno : Auth.extractBearerToken header = None -> Spec.rejected result store).
    { intros H. eexists. apply rejected_by_gate; [exact Hp|].
      now apply authMiddleware_no_token. }
    assert (Hbad : forall token, Auth.extractBearerToken header = Some token ->
                     Jwt.verifyToken token secret now = None ->
                     Spec.rejected result store).
    { intros token H1 H2. eexists. apply rejected_by_gate; [exact Hp|].
      now apply authMiddleware_bad_token with token. }
    repeat split.
    + intros p e Hb Hc Hlt.
      destruct (authMiddleware_accepts request env now p e Hb Hc Hlt) as [user Hu].
      subst result. rewrite (handleRequest_protected _ _ _ _ Hp).
      fold now. rewrite Hu. cbn [fst].
      destruct (Index.protectedRoutes request) as [o|] eqn:Ho.
      * eapply protectedRoutes_not401; eassumption.
      * apply fallThrough_not401.
    + intros Hh. apply Hno. subst header. now rewrite Hh.
    + exact Hno.
    + intros p k Hb Hk. apply (Hbad (Jwt.jose_sign p k)).
      * now apply bearer_signed_extracts.
      * apply verifyToken_refused. now apply Jwt.verify_other_key.
    + intros p e Hb He Hle. apply (Hbad (Jwt.jose_sign p secret)).
      * now apply bearer_signed_extracts.
      * apply verifyToken_refused. now apply Jwt.verify_expired with e.
    + exact Hbad.
  - intros Hp. split.
    + now apply handleRequest_public_ignores_authorization.
    + now apply handleRequest_public_not401.
Qed.

Lemma gate_before_protected_handlers_witness :
  Spec.not401
    (fst (Index.handleRequest (H := Reference.jose)
            (Sample.request "GET" "/api/admin/articles" []
               [("Authorization", "Bearer " +:+ Sample.token)] Sample.noBody)
            Sample.env (Sample.at_ 2000000) ∅))
  /\ Spec.rejected
       (Index.handleRequest (H := Reference.jose)
          (Sample.request "POST" "/api/admin/article" [] [] Sample.noBody)
          Sample.env (Sample.at_ 2000000) ∅) ∅
  /\ Spec.not401
       (fst (Index.handleRequest (H := Reference.jose)
               (Sample.request "GET" "/api/articles" [] [] Sample.noBody)
               Sample.env (Sample.at_ 2000000) ∅)).
Proof.
  split; [|split].
  - destruct (gate_before_protected_handlers Reference.jose reference_laws
                (Sample.request "GET" "/api/admin/articles" []
                   [("Authorization", "Bearer " +:+ Sample.token)] Sample.noBody)
                Sample.env (Sample.at_ 2000000) ∅) as [Hprotected _].
    destruct (Hprotected eq_refl) as (Haccept & _).
    apply (Haccept {| Jwt.j_sub := Jwt.CString "1"; Jwt.j_username := Jwt.CString "admin";
                      Jwt.j_iat := Jwt.CNumber 1000; Jwt.j_exp := Jwt.CNumber 87400 |} 87400).
    + reflexivity.
    + exists "1", "admin", 1000. reflexivity.
    + vm_compute. reflexivity.
  - destruct (gate_before_protected_handlers Reference.jose reference_laws
                (Sample.request "POST" "/api/admin/article" [] [] Sample.noBody)
                Sample.env (Sample.at_ 2000000) ∅) as [Hprotected _].
    destruct (Hprotected eq_refl) as (_ & Habsent & _).
    apply Habsent. reflexivity.
  - destruct (gate_before_protected_handlers Reference.jose reference_laws
                (Sample.request "GET" "/api/articles" [] [] Sample.noBody)
                Sample.env (Sample.at_ 2000000) ∅) as [_ Hpublic].
    destruct (Hpublic eq_refl) as [_ Hok]. exact Hok.
Defined.

Lemma extractBearerToken_literal_prefix_witness :
  Auth.extractBearerToken (Some "Bearer   eyJhbGciOiJIUzI1NiJ9.test   ")
  = Some "eyJhbGciOiJIUzI1NiJ9.test"
  /\ exists response,
       Auth.authMiddleware (H := Reference.jose)
         (Sample.request "GET" "/api/admin/articles" []
            [("Authorization", "bearer " +:+ Sample.token)] Sample.noBody)
         Sample.env 2000000 = Auth.Rejected response
       /\ Response.r_status response = 401.
Proof.
  destruct (extractBearerToken_literal_prefix Reference.jose) as (Hiff & _ & _ & _ & Hgate).
  split.
  - apply Hiff. eexists. split; [reflexivity|]. split; [reflexivity|].
    split; [reflexivity | discriminate].
  - destruct (Hgate (Sample.request "GET" "/api/admin/articles" []
                       [("Authorization", "bearer " +:+ Sample.token)] Sample.noBody)
                Sample.env 2000000 eq_refl) as (response & Hauth & Hstatus & _).
    exists response. split; assumption.
Defined.

(** ** The rate limiter *)

Section RateLimit.

Import JS Response Security Index Spec.

Variable key : string.
Variable config : RateLimitConfig.

(** Inside a window whose count has reached the maximum, the call is
    refused and nothing changes. *)
Lemma checkRateLimit_blocked (now : Z) (store : gmap string RateLimitRecord)
    (r : RateLimitRecord) :
  store !! key = Some r -> now <= resetTime r -> maxRequests config <= count r ->
  checkRateLimit key config now store
  = ({| allowed := false; remaining := 0; rl_resetTime := resetTime r |}, store).
Proof.
  intros Hr Hnow Hmax. unfold checkRateLimit. rewrite Hr.
  replace (resetTime r <? now) with false by (symmetry; apply Z.ltb_ge; lia).
  rewrite Hr.
  replace (maxRequests config <=? count r) with true by (symmetry; apply Z.leb_le; lia).
  reflexivity.
Qed.

(** Inside a window below the maximum, the call is allowed and counted. *)
Lemma checkRateLimit_counted (now : Z) (store : gmap string RateLimitRecord)
    (r : RateLimitRecord) :
  store !! key = Some r -> now <= resetTime r -> count r < maxRequests config ->
  checkRateLimit key config now store
  = ({| allowed := true; remaining := maxRequests config - (count r + 1);
        rl_resetTime := resetTime r |},
     <[key := {| count := count r + 1; resetTime := resetTime r |}]> store).
Proof.
  intros Hr Hnow Hmax. unfold checkRateLimit. rewrite Hr.
  replace (resetTime r <? now) with false by (symmetry; apply Z.ltb_ge; lia).
  rewrite Hr.
  replace (maxRequests config <=? count r) with false by (symmetry; apply Z.leb_gt; lia).
  reflexivity.
Qed.

(** Once [resetTime] has passed, or for a key never seen, the call is
    allowed and opens a new window. *)
Lemma checkRateLimit_new_window (now : Z) (store : gmap string RateLimitRecord) :
  (store !! key = None \/ exists r, store !! key = Some r /\ resetTime r < now) ->
  exists store',
    checkRateLimit key config now store
    = ({| allowed := true; remaining := maxRequests config - 1;
          rl_resetTime := now + windowMs config |}, store')
    /\ store' !! key = Some {| count := 1; resetTime := now + windowMs config |}.
Proof.
  intros [Hnone | (r & Hr & Hpast)]; unfold checkRateLimit.
  - rewrite Hnone, Hnone. eexists. split; [reflexivity|]. apply lookup_insert_eq.
  - rewrite Hr. replace (resetTime r <? now) with true by (symmetry; apply Z.ltb_lt; lia).
    rewrite lookup_delete_eq. eexists. split; [reflexivity|]. apply lookup_insert_eq.
Qed.

(** Within one window, the calls allowed are those that fit below the
    maximum: with [c] already counted, [min n (max 0 (maxRequests - c))]
    of [n] calls. *)
Lemma window_admits (times : list Z) (store : gmap string RateLimitRecord)
    (r : RateLimitRecord) :
  store !! key = Some r ->
  Forall (fun now => now <= resetTime r) times ->
  allowedCount (fst (checkAll key config times store))
  = Z.min (Z.of_nat (length times)) (Z.max 0 (maxRequests config - count r)).
Proof.
  revert store r. induction times as [|now times IH]; intros store r Hr Htimes.
  - unfold allowedCount. simpl. lia.
  - apply Forall_cons in Htimes as [Hnow Htimes]. cbn [checkAll].
    destruct (Z_le_gt_dec (maxRequests config) (count r)) as [Hfull | Hroom].
    + rewrite (checkRateLimit_blocked now store r Hr Hnow Hfull).
      specialize (IH store r Hr Htimes).
      destruct (checkAll key config times store) as [rs store2].
      unfold allowedCount in *. cbn [fst List.filter allowed] in *.
      rewrite length_cons. lia.
    + rewrite (checkRateLimit_counted now store r Hr Hnow ltac:(lia)).
      specialize (IH (<[key := {| count := count r + 1; resetTime := resetTime r |}]> store)
                     {| count := count r + 1; resetTime := resetTime r |}
                     (lookup_insert_eq _ _ _) Htimes).
      destruct (checkAll key config times _) as [rs store2].
      unfold allowedCount in *. cbn [fst List.filter allowed count resetTime] in *.
      rewrite !length_cons. lia.
Qed.

End RateLimit.

(** A window opened by a first call admits at most [maxRequests] calls,
    the first included, however many follow before [resetTime] passes. *)
Lemma fresh_window_admits_at_most_max (key : string) (config : Security.RateLimitConfig)
    (t0 : Z) (times : list Z) (store : gmap string Security.RateLimitRecord) :
  1 <= Security.maxRequests config ->
  (store !! key = None
   \/ exists r, store !! key = Some r /\ Security.resetTime r < t0) ->
  Forall (fun now => now <= t0 + Security.windowMs config) times ->
  Spec.allowedCount (fst (Spec.checkAll key config (t0 :: times) store))
  = Z.min (Z.of_nat (length (t0 :: times))) (Security.maxRequests config).
Proof.
  intros Hmax Hfresh Htimes. cbn [Spec.checkAll].
  destruct (checkRateLimit_new_window key config t0 store Hfresh) as (store' & -> & Hk).
  pose proof (window_admits key config times store' _ Hk Htimes) as Hw.
  destruct (Spec.checkAll key config times store') as [rs store2].
  unfold Spec.allowedCount in *.
  cbn [fst List.filter Security.allowed Security.count Security.resetTime] in *.
  rewrite !length_cons. lia.
Qed.

Section LoginLimit.

Import JS Response Security Index Spec.

Lemma ceilDiv1000_positive (x : Z) : 0 < x -> 1 <= ceilDiv1000 x.
Proof.
  intros Hx. unfold ceilDiv1000.
  assert (- x / 1000 < 0) by (apply Z.div_lt_upper_bound; lia). lia.
Qed.

Lemma retryAfter_header (message : string) (n : Z) :
  n <> 0 ->
  header (tooManyRequests message (Some (Num n))) "Retry-After" = Some (pretty n).
Proof.
  intros Hn. unfold tooManyRequests, truthyNum.
  apply Z.eqb_neq in Hn. rewrite Hn. reflexivity.
Qed.

(** A refused login is answered 429 by the dispatcher, and while time
    remains on the second reading of the clock the [Retry-After] header is
    the remaining time in seconds, rounded up. *)
Lemma loginRoute_refused (request : Http.Request) (clock : Clock)
    (store : gmap string RateLimitRecord) (r : RateLimitRecord) :
  store !! ("login:" +:+ getClientIP request) = Some r ->
  atRateLimit clock <= resetTime r -> 5 <= count r ->
  exists response,
    loginRoute request clock store = (Respond response, store)
    /\ r_status response = 429
    /\ r_body response
       = Failure "TOO_MANY_REQUESTS" "Too many login attempts. Please try again later."
    /\ (atRetryAfter clock < resetTime r ->
        header response "Retry-After"
        = Some (pretty (ceilDiv1000 (resetTime r - atRetryAfter clock)))).
Proof.
  intros Hr Hnow Hcount. unfold loginRoute.
  rewrite (checkRateLimit_blocked _ {| maxRequests := 5; windowMs := 60000 |}
             (atRateLimit clock) store r Hr Hnow Hcount).
  cbn [allowed negb rl_resetTime]. eexists. split; [reflexivity|].
  split; [apply tooManyRequests_status|]. split.
  - unfold tooManyRequests. destruct (truthyNum _); reflexivity.
  - intros Hleft. apply retryAfter_header.
    pose proof (ceilDiv1000_positive (resetTime r - atRetryAfter clock)). lia.
Qed.

End LoginLimit.

(** Six logins in a row: the sixth is refused and told to retry in the 60
    seconds that remain of the window. *)
Example sixth_login_inside_window :
  let attempt t := (Sample.login "203.0.113.7", Sample.at_ t) in
  exists response,
    nth_error
      (fst (Spec.handleAll (H := Reference.jose) Sample.env
              [attempt 0; attempt 10; attempt 20; attempt 30; attempt 40; attempt 50] ∅)) 5
    = Some (Index.Respond response)
    /\ Response.r_status response = 429
    /\ Response.header response "Retry-After" = Some "60".
Proof. eexists. split; [vm_compute; reflexivity|]. split; reflexivity. Qed.

(** C4, at the end of the window. Five logins from one client are let
    through to the handler; a sixth that arrives exactly at the window's
    [resetTime], 60 000 ms after the first, is still refused with 429
    TOO_MANY_REQUESTS, and its response carries no [Retry-After] header:
    the remaining time rounds to 0, which [tooManyRequests] takes for a
    missing argument. *)
Theorem sixth_login_at_window_end_lacks_retry_after :
  let attempt t := (Sample.login "203.0.113.7", Sample.at_ t) in
  exists response,
    fst (Spec.handleAll (H := Reference.jose) Sample.env
           [attempt 0; attempt 10; attempt 20; attempt 30; attempt 40; attempt 60000] ∅)
    = [Index.Invoke Index.HLogin; Index.Invoke Index.HLogin; Index.Invoke Index.HLogin;
       Index.Invoke Index.HLogin; Index.Invoke Index.HLogin; Index.Respond response]
    /\ Response.r_status response = 429
    /\ Response.r_body response
       = Response.Failure "TOO_MANY_REQUESTS" "Too many login attempts. Please try again later."
    /\ Response.header response "Retry-After" = None.
Proof.
  eexists. split; [vm_compute; reflexivity|]. repeat split.
Qed.

(** ** Doubles *)

Section Doubles.

Import JS.

Lemma toDouble_exact (z : Z) : Z.abs z <= 2 ^ 53 -> toDouble z = Num z.
Proof.
  intros Hz. destruct (Z.eq_dec (Z.abs z) (2 ^ 53)) as [Heq | Hne].
  - assert (Hcases : z = 2 ^ 53 \/ z = - 2 ^ 53) by lia.
    destruct Hcases as [-> | ->]; vm_compute; reflexivity.
  - unfold toDouble.
    replace (Z.log2 (Z.abs z) <? 53) with true; [reflexivity|].
    symmetry. apply Z.ltb_lt.
    destruct (Z.eq_dec (Z.abs z) 0) as [-> | Hpos]; [reflexivity|].
    apply Z.log2_lt_pow2; lia.
Qed.

(** A non-negative integer rounds to a non-negative double that keeps its
    order of magnitude, or to [Infinity]. *)
Lemma toDouble_nonneg (z : Z) :
  0 <= z ->
  toDouble z = Infinity
  \/ exists z', toDouble z = Num z' /\ 0 <= z' /\ z <= 2 * z'
                /\ forall p, 0 <= p -> 2 ^ p <= z -> 2 ^ p <= z'.
Proof.
  intros Hz. unfold toDouble. rewrite (Z.abs_eq z Hz).
  destruct (Z.log2 z <? 53) eqn:He.
  - right. exists z. repeat split; auto; lia.
  - apply Z.ltb_ge in He.
    assert (Hpos : 0 < z).
    { destruct (Z.eq_dec z 0) as [-> | Hne]; [discriminate He || (cbn in He; lia) | lia]. }
    destruct (Z.log2_spec z Hpos) as [Hlow Hhigh]. cbv zeta.
    set (e := Z.log2 z) in *. set (k := e - 52).
    assert (Hk : 0 < 2 ^ k) by (apply Z.pow_pos_nonneg; lia).
    assert (He52 : 2 ^ e = 2 ^ 52 * 2 ^ k).
    { unfold k. rewrite <- Z.pow_add_r by lia. f_equal. lia. }
    assert (Hq : 2 ^ 52 <= z / 2 ^ k).
    { apply Z.div_le_lower_bound; [exact Hk|]. rewrite Z.mul_comm. lia. }
    set (q := z / 2 ^ k) in *.
    match goal with
    | |- context [if ?c then q + 1 else q] => set (q' := if c then q + 1 else q)
    end.
    assert (Hq' : q <= q') by (unfold q'; destruct (_ || _); lia).
    assert (Hz' : 2 ^ e <= q' * 2 ^ k) by nia.
    destruct (2 ^ 1024 <=? q' * 2 ^ k).
    + left. replace (z <? 0) with false by (symmetry; apply Z.ltb_ge; lia). reflexivity.
    + right. exists (q' * 2 ^ k). rewrite (Z.sgn_pos z Hpos), Z.mul_1_l.
      split; [reflexivity|]. split; [lia|]. split.
      * replace (Z.succ e) with (e + 1) in Hhigh by lia.
        rewrite Z.pow_add_r in Hhigh by lia. lia.
      * intros p Hp Hpz. assert (p <= e).
        { destruct (Z.le_gt_cases p e) as [H|H]; [exact H|].
          assert (2 ^ (Z.succ e) <= 2 ^ p) by (apply Z.pow_le_mono_r; lia). lia. }
        assert (2 ^ p <= 2 ^ e) by (apply Z.pow_le_mono_r; lia). lia.
Qed.

(** Roundings of the platform, for comparison. *)
Example toDouble_rounds_to_even :
  toDouble 9007199254740993 = Num 9007199254740992
  /\ toDouble 9007199254740995 = Num 9007199254740996
  /\ toDouble (- 9007199254740993) = Num (- 9007199254740992)
  /\ toDouble (10 ^ 23) = Num 99999999999999991611392
  /\ toDouble 123456789012345678901234567890 = Num 123456789012345677877719597056
  /\ toDouble (2 ^ 63 - 513) = Num 9223372036854774784
  /\ toDouble (2 ^ 63 - 512) = Num (2 ^ 63).
Proof. vm_compute. repeat split. Qed.

Example toDouble_overflows :
  toDouble (2 ^ 1024 - 2 ^ 970 - 1) = Num (2 ^ 1024 - 2 ^ 971)
  /\ toDouble (2 ^ 1024 - 2 ^ 970) = Infinity
  /\ toDouble (- 2 ^ 1024) = NegInfinity.
Proof. vm_compute. repeat split. Qed.

Example parseInt_reads_a_prefix :
  parseInt "42abc" None = Num 42
  /\ parseInt " -7" None = Num (-7)
  /\ parseInt "0x1F" None = Num 31
  /\ parseInt "0x1F" (Some 10) = Num 0
  /\ parseInt "abc" None = NaN
  /\ parseInt "9007199254740993" (Some 10) = Num 9007199254740992
  /\ parseInt "9999999999999999999999" None = Num (10 ^ 22)
  /\ parseInt (Hardening.repeatChar 309 "9") (Some 10) = Infinity
  /\ parseInt (String "-" (Hardening.repeatChar 309 "9")) None = NegInfinity.
Proof. vm_compute. repeat split. Qed.

Example arithmetic_in_doubles :
  JS.sub (Num (10 ^ 22)) (Num 1) = Num (10 ^ 22)
  /\ JS.mul (Num (10 ^ 22)) (Num 10) = Num 99999999999999991611392
  /\ JS.mul Infinity (Num 10) = Infinity
  /\ JS.mul Infinity (Num 0) = NaN
  /\ JS.sub Infinity Infinity = NaN
  /\ JS.lt NegInfinity (Num 1) = true
  /\ JS.gt Infinity (Num 100) = true
  /\ JS.le (Num 5) NaN = false.
Proof. vm_compute. repeat split. Qed.

End Doubles.

(** ** ORDER BY *)

Section Ordering.

Import Articles.

Context {A : Type} (R : A -> A -> Prop) `{!RelDecision R}.

Lemma insertBy_Permutation (x : A) (l : list A) : insertBy R x l ≡ₚ x :: l.
Proof.
  induction l as [|y l IH]; [reflexivity|]. cbn [insertBy].
  destruct (decide (R x y)); [reflexivity|].
  rewrite IH. apply Permutation_swap.
Qed.

Lemma orderBy_Permutation (l : list A) : orderBy R l ≡ₚ l.
Proof.
  induction l as [|x l IH]; [reflexivity|].
  unfold orderBy in *. cbn [foldr]. now rewrite insertBy_Permutation, IH.
Qed.

Lemma Sorted_insertBy (x : A) (l : list A) :
  Total R -> Sorted R l -> Sorted R (insertBy R x l).
Proof.
  intros Htotal. induction l as [|y l IH]; intros Hsorted; cbn [insertBy].
  - repeat constructor.
  - destruct (decide (R x y)) as [Hxy|Hxy].
    + constructor; [exact Hsorted | now constructor].
    + apply Sorted_inv in Hsorted as [Hl Hhd]. constructor; [now apply IH|].
      destruct l as [|z l]; cbn [insertBy].
      * constructor. now destruct (Htotal x y).
      * destruct (decide (R x z)); constructor.
        -- now destruct (Htotal x y).
        -- now apply HdRel_inv in Hhd.
Qed.

Lemma Sorted_orderBy : Total R -> forall l, Sorted R (orderBy R l).
Proof.
  intros Htotal l. induction l as [|x l IH]; [constructor|].
  unfold orderBy in *. cbn [foldr]. now apply Sorted_insertBy.
Qed.

End Ordering.

(** Rows with equal keys keep the order of the table. *)
Example orderBy_keeps_ties :
  map Response.c_id
    (Articles.orderBy CategoryHandlers.createdDesc
       [Sample.tech; Sample.misc;
        {| Response.c_id := 3; Response.c_name := "New"; Response.c_slug := "new";
           Response.c_description := None;
           Response.c_created_at := "2024-03-01 00:00:00" |}])
  = [3; 1; 2].
Proof. vm_compute. reflexivity. Qed.

(** ** Article lists *)

Section Pagination.

Import JS Response Env Articles Spec.

Lemma orZero_id (n : Z) : orZero n = n.
Proof. unfold orZero. destruct (n =? 0) eqn:H; [apply Z.eqb_eq in H; lia | reflexivity]. Qed.

Lemma filter_sublist {A} (f : A -> bool) (l : list A) : List.filter f l `sublist_of` l.
Proof.
  induction l as [|x l IH]; simpl; [constructor|].
  destruct (f x); now constructor.
Qed.

Lemma NoDup_inj_on {A B} (f : A -> B) (l : list A) (x y : A) :
  NoDup (f <$> l) -> x ∈ l -> y ∈ l -> f x = f y -> x = y.
Proof.
  induction l as [|a l IH]; intros Hnd Hx Hy Hf; [now apply elem_of_nil in Hx|].
  rewrite fmap_cons in Hnd. apply NoDup_cons in Hnd as [Hfresh Hnd].
  apply elem_of_cons in Hx as [-> | Hx]; apply elem_of_cons in Hy as [-> | Hy].
  - reflexivity.
  - destruct Hfresh. rewrite Hf. now apply list_elem_of_fmap_2.
  - destruct Hfresh. rewrite <- Hf. now apply list_elem_of_fmap_2.
  - now apply IH.
Qed.

Lemma remove_dups_length_NoDup {A} `{EqDecision A} (l : list A) :
  NoDup l -> length (remove_dups l) = length l.
Proof.
  intros Hnd. apply Permutation_length, NoDup_Permutation.
  - apply NoDup_remove_dups.
  - exact Hnd.
  - intros x. apply elem_of_remove_dups.
Qed.

Lemma remove_dups_length_inj {A B} `{EqDecision A} `{EqDecision B} (f : A -> B)
    (l : list A) :
  (forall x y, x ∈ l -> y ∈ l -> f x = f y -> x = y) ->
  length (remove_dups (f <$> l)) = length (remove_dups l).
Proof.
  intros Hinj. rewrite <- (length_fmap f (remove_dups l)).
  apply Permutation_length, NoDup_Permutation.
  - apply NoDup_remove_dups.
  - apply NoDup_fmap_2_strong; [|apply NoDup_remove_dups].
    intros x y Hx Hy. apply Hinj; now apply elem_of_remove_dups.
  - intros b. rewrite elem_of_remove_dups, !list_elem_of_fmap.
    split; intros (a & -> & Ha); exists a; (split; [reflexivity|]);
      now apply elem_of_remove_dups.
Qed.

Lemma leftJoinTags_rows (db : D1Database) (r : ArticleRow * option ArticleTag) :
  In r (leftJoinTags db) -> In (fst r) (articles db).
Proof.
  unfold leftJoinTags. rewrite in_flat_map. intros (a & Ha & Hr).
  destruct (List.filter _ (article_tags db)) as [|t ts].
  - destruct Hr as [<- | []]. exact Ha.
  - apply in_map_iff in Hr as (x & <- & _). exact Ha.
Qed.

Lemma publicMatches_rows (db : D1Database) (params : ArticleListParams)
    (r : ArticleRow * option ArticleTag) :
  In r (publicMatches db params) -> In (fst r) (articles db).
Proof.
  unfold publicMatches. rewrite filter_In. intros [Hr _].
  destruct (activeFilter (p_tagId params)).
  - now apply leftJoinTags_rows.
  - unfold fromArticles in Hr. apply in_map_iff in Hr as (a & <- & Ha). exact Ha.
Qed.

(** Without LIMIT and OFFSET the data query returns as many rows as the
    count query counts. *)
Lemma publicCount_is_length (db : D1Database) (params : ArticleListParams) :
  primaryKey db ->
  publicCount db params = Z.of_nat (length (publicRows db params)).
Proof.
  intros Hpk. unfold publicRows.
  rewrite (Permutation_length (orderBy_Permutation _ _)).
  assert (Hinj : forall x y : Article,
             x ∈ ((fun r => cols (fst r)) <$> publicMatches db params) ->
             y ∈ ((fun r => cols (fst r)) <$> publicMatches db params) ->
             id x = id y -> x = y).
  { intros x y Hx Hy. apply (NoDup_inj_on id (cols <$> articles db)).
    - unfold primaryKey in Hpk. now rewrite <- list_fmap_compose.
    - apply list_elem_of_fmap in Hx as (r & -> & Hr). apply list_elem_of_fmap_2.
      apply list_elem_of_In. apply (publicMatches_rows db params). now apply list_elem_of_In.
    - apply list_elem_of_fmap in Hy as (r & -> & Hr). apply list_elem_of_fmap_2.
      apply list_elem_of_In. apply (publicMatches_rows db params). now apply list_elem_of_In. }
  unfold publicCount. destruct (activeFilter (p_tagId params)) as [t|] eqn:Htag.
  - f_equal. rewrite <- (remove_dups_length_inj id _ Hinj).
    now rewrite <- list_fmap_compose.
  - f_equal. rewrite remove_dups_length_NoDup; [now rewrite length_map|].
    apply (NoDup_fmap_1 id). rewrite <- list_fmap_compose.
    unfold publicMatches. rewrite Htag.
    eapply sublist_NoDup;
      [|apply fmap_sublist, filter_sublist].
    unfold fromArticles. rewrite <- list_fmap_compose. exact Hpk.
Qed.

Lemma adminCount_is_length (db : D1Database) (params : ArticleListParams) :
  adminCount db params = Z.of_nat (length (adminRows db params)).
Proof.
  unfold adminCount, adminRows.
  now rewrite (Permutation_length (orderBy_Permutation _ _)), length_map.
Qed.

Lemma validatePage_number (n : Z) : validatePage (Num n) = Num (effectivePage n).
Proof.
  unfold validatePage, lt, effectivePage. destruct (n <? 1) eqn:H.
  - apply Z.ltb_lt in H. f_equal. lia.
  - apply Z.ltb_ge in H. f_equal. lia.
Qed.

Lemma validatePageSize_number (n : Z) :
  validatePageSize (Num n)
  = Num (if (1 <=? n) && (n <=? 100) then n else DEFAULT_PAGE_SIZE).
Proof.
  unfold validatePageSize, gt, lt.
  destruct (n <? 1) eqn:H1; destruct (100 <? n) eqn:H2;
    destruct (1 <=? n) eqn:H3; destruct (n <=? 100) eqn:H4; cbn [orb andb];
    try reflexivity;
    try apply Z.ltb_lt in H1; try apply Z.ltb_ge in H1;
    try apply Z.ltb_lt in H2; try apply Z.ltb_ge in H2;
    try apply Z.leb_le in H3; try apply Z.leb_gt in H3;
    try apply Z.leb_le in H4; try apply Z.leb_gt in H4; lia.
Qed.

Lemma effectiveSize_range (m : Z) :
  1 <= effectiveSize m <= 100.
Proof.
  unfold effectiveSize.
  destruct (1 <=? m) eqn:H3; destruct (m <=? 100) eqn:H4; cbn [andb];
    try apply Z.leb_le in H3; try apply Z.leb_le in H4; lia.
Qed.

Lemma pageOfRows_length {A} (size offset : Z) (rows : list A) :
  0 <= size -> Z.of_nat (length (pageOfRows size offset rows)) <= size.
Proof.
  intros Hsize. unfold pageOfRows. rewrite length_take. lia.
Qed.

Lemma sqlInteger_Some (n : number) (z : Z) :
  sqlInteger n = Some z <-> n = Num z /\ - 2 ^ 63 < z < 2 ^ 63.
Proof.
  unfold sqlInteger. destruct n as [|x| |]; try (split; [discriminate | intros [[=] _]]).
  destruct (- 2 ^ 63 <? x) eqn:H1; destruct (x <? 2 ^ 63) eqn:H2; cbn [andb];
    try apply Z.ltb_lt in H1; try apply Z.ltb_ge in H1;
    try apply Z.ltb_lt in H2; try apply Z.ltb_ge in H2;
    (split; [intros [= <-] | intros [[= <-] Hr]]); auto; try discriminate; lia.
Qed.

Lemma limitOffset_Some {A} (limit offset : number) (rows results : list A) :
  limitOffset limit offset rows = Some results ->
  exists l o,
    results = if l <? 0 then drop (Z.to_nat o) rows
              else take (Z.to_nat l) (drop (Z.to_nat o) rows).
Proof.
  unfold limitOffset. destruct (sqlInteger limit) as [l|]; [|discriminate].
  destruct (sqlInteger offset) as [o|]; [|discriminate]. intros [= <-]. now exists l, o.
Qed.

(** The offset [(page - 1) * pageSize] as the code computes it, in
    doubles: exact while the product is at most 2^53, never negative, and
    at least 2^63 or infinite once the product reaches 2^64. *)
Lemma offset_in_doubles (page size : Z) :
  1 <= page -> 1 <= size ->
  let offset := JS.mul (JS.sub (Num page) (Num 1)) (Num size) in
  (offset = Infinity \/ exists o, offset = Num o /\ 0 <= o)
  /\ ((page - 1) * size <= 2 ^ 53 -> offset = Num ((page - 1) * size))
  /\ (2 ^ 64 <= (page - 1) * size ->
      offset = Infinity \/ exists o, offset = Num o /\ 2 ^ 63 <= o).
Proof.
  intros Hpage Hsize offset. subst offset. cbn [JS.sub].
  assert (Hinf : JS.mul Infinity (Num size) = Infinity).
  { cbn. replace (size =? 0) with false by (symmetry; apply Z.eqb_neq; lia).
    replace (size <? 0) with false by (symmetry; apply Z.ltb_ge; lia). reflexivity. }
  assert (Hsmall_page : (page - 1) * size <= 2 ^ 53 -> toDouble (page - 1) = Num (page - 1)).
  { intros Hsmall. apply toDouble_exact. rewrite Z.abs_eq by lia.
    apply Z.le_trans with ((page - 1) * size); [nia | exact Hsmall]. }
  assert (Hsmall_offset : (page - 1) * size <= 2 ^ 53 ->
            toDouble ((page - 1) * size) = Num ((page - 1) * size)).
  { intros Hsmall. apply toDouble_exact. rewrite Z.abs_eq by nia. exact Hsmall. }
  destruct (toDouble_nonneg (page - 1)) as [Hx | (x & Hx & Hx0 & Hhalf & _)]; [lia| |].
  - rewrite Hx, Hinf. split; [now left|]. split; [|now left].
    intros Hsmall. rewrite (Hsmall_page Hsmall) in Hx. discriminate.
  - rewrite Hx. cbn [JS.mul].
    destruct (toDouble_nonneg (x * size)) as [Ho | (o & Ho & Ho0 & _ & Hpow)]; [nia| |].
    + rewrite Ho. split; [now left|]. split; [|now left].
      intros Hsmall. rewrite (Hsmall_page Hsmall) in Hx. injection Hx as <-.
      rewrite (Hsmall_offset Hsmall) in Ho. discriminate.
    + rewrite Ho. split; [right; eauto|]. split.
      * intros Hsmall. rewrite (Hsmall_page Hsmall) in Hx. injection Hx as <-.
        rewrite (Hsmall_offset Hsmall) in Ho. symmetry. exact Ho.
      * intros Hbig. right. exists o. split; [reflexivity|]. apply Hpow; [lia|].
        assert (Hdouble : (page - 1) * size <= 2 * (x * size)) by nia.
        change (2 ^ 64) with (2 * 2 ^ 63) in Hbig. lia.
Qed.

Lemma public_list_pages (request : Http.Request) (env : Env) (n m : Z) :
  requestedPage request = Num n -> requestedSize request = Num m ->
  primaryKey (DB env) ->
  let rows := publicRows (DB env) (publicParams request) in
  let page := effectivePage n in
  let size := effectiveSize m in
  offsetOf (publicParams request) = JS.mul (JS.sub (Num page) (Num 1)) (Num size)
  /\ (forall o, offsetOf (publicParams request) = Num o -> 0 <= o ->
      handleGetArticles request env
      = if o <? 2 ^ 63
        then success
               (DArticles
                  {| data := map (withRelations (DB env)) (pageOfRows size o rows);
                     total := Z.of_nat (length rows);
                     page := Num page; pageSize := Num size |}) 200
        else internalError "Failed to fetch articles")
  /\ (offsetOf (publicParams request) = Infinity ->
      handleGetArticles request env = internalError "Failed to fetch articles").
Proof.
  intros Hn Hm Hpk rows page size. pose proof (effectiveSize_range m) as Hrange.
  fold size in Hrange.
  assert (Hp : p_page (publicParams request) = Num page).
  { unfold publicParams. cbn [p_page]. unfold requestedPage in Hn.
    now rewrite Hn, validatePage_number. }
  assert (Hs : p_pageSize (publicParams request) = Num size).
  { unfold publicParams. cbn [p_pageSize]. unfold requestedSize in Hm.
    change (pretty DEFAULT_PAGE_SIZE) with "10". now rewrite Hm, validatePageSize_number. }
  assert (Hlimit : sqlInteger (Num size) = Some size) by (apply sqlInteger_Some; split; [reflexivity | lia]).
  split; [unfold offsetOf; now rewrite Hp, Hs|]. split.
  - intros o Ho Ho0. unfold handleGetArticles. rewrite Hs, Ho. unfold limitOffset.
    rewrite Hlimit. destruct (o <? 2 ^ 63) eqn:Hfit.
    + apply Z.ltb_lt in Hfit.
      replace (sqlInteger (Num o)) with (Some o)
        by (symmetry; apply sqlInteger_Some; split; [reflexivity | lia]).
      replace (size <? 0) with false by (symmetry; apply Z.ltb_ge; lia).
      rewrite Hp, orZero_id, (publicCount_is_length _ _ Hpk). reflexivity.
    + apply Z.ltb_ge in Hfit. destruct (sqlInteger (Num o)) as [z|] eqn:Hz; [|reflexivity].
      apply sqlInteger_Some in Hz as [[= <-] Hz]. lia.
  - intros Ho. unfold handleGetArticles. rewrite Hs, Ho. unfold limitOffset.
    now rewrite Hlimit.
Qed.

Lemma admin_list_pages (request : Http.Request) (env : Env) (n m : Z) :
  requestedPage request = Num n -> requestedSize request = Num m ->
  let rows := adminRows (DB env) (adminParams request) in
  let page := effectivePage n in
  let size := effectiveSize m in
  offsetOf (adminParams request) = JS.mul (JS.sub (Num page) (Num 1)) (Num size)
  /\ (forall o, offsetOf (adminParams request) = Num o -> 0 <= o ->
      handleGetAdminArticles request env
      = if o <? 2 ^ 63
        then success
               (DAdminArticles
                  {| data := pageOfRows size o rows;
                     total := Z.of_nat (length rows);
                     page := Num page; pageSize := Num size |}) 200
        else internalError "Failed to fetch articles")
  /\ (offsetOf (adminParams request) = Infinity ->
      handleGetAdminArticles request env = internalError "Failed to fetch articles").
Proof.
  intros Hn Hm rows page size. pose proof (effectiveSize_range m) as Hrange.
  fold size in Hrange.
  assert (Hp : p_page (adminParams request) = Num page).
  { unfold adminParams. cbn [p_page]. unfold requestedPage in Hn.
    now rewrite Hn, validatePage_number. }
  assert (Hs : p_pageSize (adminParams request) = Num size).
  { unfold adminParams. cbn [p_pageSize]. unfold requestedSize in Hm.
    change (pretty DEFAULT_PAGE_SIZE) with "10". now rewrite Hm, validatePageSize_number. }
  assert (Hlimit : sqlInteger (Num size) = Some size) by (apply sqlInteger_Some; split; [reflexivity | lia]).
  split; [unfold offsetOf; now rewrite Hp, Hs|]. split.
  - intros o Ho Ho0. unfold handleGetAdminArticles. rewrite Hs, Ho. unfold limitOffset.
    rewrite Hlimit. destruct (o <? 2 ^ 63) eqn:Hfit.
    + apply Z.ltb_lt in Hfit.
      replace (sqlInteger (Num o)) with (Some o)
        by (symmetry; apply sqlInteger_Some; split; [reflexivity | lia]).
      replace (size <? 0) with false by (symmetry; apply Z.ltb_ge; lia).
      rewrite Hp, orZero_id, adminCount_is_length. reflexivity.
    + apply Z.ltb_ge in Hfit. destruct (sqlInteger (Num o)) as [z|] eqn:Hz; [|reflexivity].
      apply sqlInteger_Some in Hz as [[= <-] Hz]. lia.
  - intros Ho. unfold handleGetAdminArticles. rewrite Hs, Ho. unfold limitOffset.
    now rewrite Hlimit.
Qed.

End Pagination.

(** C5, as stated, fails. [pageSize=500] is not clamped to 100: the
    effective page size is the default 10.  And [page=abc] or
    [pageSize=abc] is not brought into range at all: [parseInt] yields
    [NaN], both range tests are false for [NaN], the offset is [NaN] too and
    the request ends in 500 INTERNAL_ERROR, on the public and on the admin
    list.  A page as large as [9999999999999999999999] ends in 500 as
    well: the offset is 10^23 as a double, which SQLite refuses. *)
Lemma list_parameters_are_not_clamped :
  let big := Sample.request "GET" "/api/articles" [("pageSize", "500")] [] Sample.noBody in
  let byPage := Sample.request "GET" "/api/articles" [("page", "abc")] [] Sample.noBody in
  let bySize := Sample.request "GET" "/api/articles" [("pageSize", "abc")] [] Sample.noBody in
  let admin := Sample.request "GET" "/api/admin/articles" [("page", "abc")] [] Sample.noBody in
  let beyond :=
    Sample.request "GET" "/api/articles" [("page", "9999999999999999999999")] []
      Sample.noBody in
  Articles.p_pageSize (Articles.publicParams big) = JS.Num 10
  /\ Z.min 100 (Z.max 1 500) = 100
  /\ Articles.p_page (Articles.publicParams byPage) = JS.NaN
  /\ Articles.offsetOf (Articles.publicParams byPage) = JS.NaN
  /\ Articles.handleGetArticles byPage Sample.env
     = Response.internalError "Failed to fetch articles"
  /\ Articles.p_pageSize (Articles.publicParams bySize) = JS.NaN
  /\ Articles.handleGetArticles bySize Sample.env
     = Response.internalError "Failed to fetch articles"
  /\ Articles.p_page (Articles.adminParams admin) = JS.NaN
  /\ Articles.handleGetAdminArticles admin Sample.env
     = Response.internalError "Failed to fetch articles"
  /\ Articles.p_page (Articles.publicParams beyond) = JS.Num (10 ^ 22)
  /\ Articles.offsetOf (Articles.publicParams beyond) = JS.Num 99999999999999991611392
  /\ Articles.handleGetArticles beyond Sample.env
     = Response.internalError "Failed to fetch articles".
Proof. vm_compute. repeat split. Qed.

(** C5, as the code has it. For a public or admin list request whose
    [page] and [pageSize] parameters parse as integers (an absent
    parameter counts as 1 and 10): the effective page is the requested one
    raised to at least 1; the effective page size is the requested one
    when it lies in 1..100 and the default 10 otherwise, so it always lies
    in 1..100.  The offset is (page - 1) * pageSize computed in doubles:
    it is that very product while the product is at most 2^53, and it is
    never negative.  When the offset is below 2^63 the answer is 200, the
    data query starts at the offset, the data array holds at most pageSize
    rows, and the total is the number of rows the same filter matches
    without LIMIT and OFFSET.  When the offset is 2^63 or more, or
    infinite, which is the case for every product from 2^64 on, SQLite
    refuses the bound and the answer is 500 INTERNAL_ERROR.  For the
    public list the total rests on [id] being the primary key of
    [articles]. *)
Theorem list_pagination_on_integers (request : Http.Request) (env : Env.Env) (n m : Z) :
  Spec.requestedPage request = JS.Num n ->
  Spec.requestedSize request = JS.Num m ->
  Spec.primaryKey (Env.DB env) ->
  let page := Spec.effectivePage n in
  let size := Spec.effectiveSize m in
  let rows := Articles.publicRows (Env.DB env) (Articles.publicParams request) in
  let adminRows := Articles.adminRows (Env.DB env) (Articles.adminParams request) in
  let paged (offset : Z) :=
    Articles.handleGetArticles request env
    = Response.success
        (Response.DArticles
           {| Response.data := map (Articles.withRelations (Env.DB env))
                                 (Spec.pageOfRows size offset rows);
              Response.total := Z.of_nat (length rows);
              Response.page := JS.Num page; Response.pageSize := JS.Num size |}) 200
    /\ Z.of_nat (length (map (Articles.withRelations (Env.DB env))
                           (Spec.pageOfRows size offset rows))) <= size
    /\ Articles.handleGetAdminArticles request env
       = Response.success
           (Response.DAdminArticles
              {| Response.data := Spec.pageOfRows size offset adminRows;
                 Response.total := Z.of_nat (length adminRows);
                 Response.page := JS.Num page; Response.pageSize := JS.Num size |}) 200
    /\ Z.of_nat (length (Spec.pageOfRows size offset adminRows)) <= size in
  let refused :=
    Articles.handleGetArticles request env
    = Response.internalError "Failed to fetch articles"
    /\ Articles.handleGetAdminArticles request env
       = Response.internalError "Failed to fetch articles" in
  page = Z.max 1 n
  /\ size = (if (1 <=? m) && (m <=? 100) then m else 10)
  /\ 1 <= page /\ 1 <= size <= 100
  /\ (Http.searchParams_get request "pageSize" = None -> size = 10)
  /\ Articles.offsetOf (Articles.adminParams request)
     = Articles.offsetOf (Articles.publicParams request)
  /\ (Articles.offsetOf (Articles.publicParams request) = JS.Infinity
      \/ exists offset,
           Articles.offsetOf (Articles.publicParams request) = JS.Num offset /\ 0 <= offset)
  /\ ((page - 1) * size <= 2 ^ 53 ->
      Articles.offsetOf (Articles.publicParams request) = JS.Num ((page - 1) * size)
      /\ paged ((page - 1) * size))
  /\ (forall offset,
        Articles.offsetOf (Articles.publicParams request) = JS.Num offset ->
        (offset < 2 ^ 63 -> paged offset) /\ (2 ^ 63 <= offset -> refused))
  /\ (Articles.offsetOf (Articles.publicParams request) = JS.Infinity -> refused)
  /\ (2 ^ 64 <= (page - 1) * size -> refused).
Proof.
  intros Hn Hm Hpk page size rows adminRows paged refused.
  pose proof (effectiveSize_range m) as Hrange. fold size in Hrange.
  assert (Hpage : 1 <= page) by (subst page; unfold Spec.effectivePage; lia).
  destruct (public_list_pages request env n m Hn Hm Hpk) as (Hoff & Hpublic & Hpublic').
  destruct (admin_list_pages request env n m Hn Hm) as (Hoff' & Hadmin & Hadmin').
  fold page size in Hoff, Hoff'. fold page size rows in Hpublic. fold page size adminRows in Hadmin.
  destruct (offset_in_doubles page size Hpage ltac:(lia)) as (Hsign & Hexact & Hbig).
  rewrite <- Hoff in Hsign, Hexact, Hbig.
  assert (Hsame : Articles.offsetOf (Articles.adminParams request)
                  = Articles.offsetOf (Articles.publicParams request)) by congruence.
  rewrite Hsame in Hadmin, Hadmin'.
  assert (Hnonneg : forall o, Articles.offsetOf (Articles.publicParams request) = JS.Num o ->
                              0 <= o).
  { intros o Ho. destruct Hsign as [Hi | (o' & Ho' & Hpos)]; congruence. }
  assert (Hpaged : forall o, Articles.offsetOf (Articles.publicParams request) = JS.Num o ->
                             o < 2 ^ 63 -> paged o).
  { intros o Ho Hfit. pose proof (Hnonneg o Ho) as Ho0.
    specialize (Hpublic o Ho Ho0). specialize (Hadmin o Ho Ho0).
    replace (o <? 2 ^ 63) with true in Hpublic, Hadmin by (symmetry; now apply Z.ltb_lt).
    subst paged. cbv beta. split; [exact Hpublic|]. split.
    { rewrite length_map. apply pageOfRows_length. lia. }
    split; [exact Hadmin|]. apply pageOfRows_length. lia. }
  assert (Hrefused : forall o, Articles.offsetOf (Articles.publicParams request) = JS.Num o ->
                               2 ^ 63 <= o -> refused).
  { intros o Ho Hfit. pose proof (Hnonneg o Ho) as Ho0.
    specialize (Hpublic o Ho Ho0). specialize (Hadmin o Ho Ho0).
    replace (o <? 2 ^ 63) with false in Hpublic, Hadmin by (symmetry; now apply Z.ltb_ge).
    split; assumption. }
  split; [reflexivity|]. split; [reflexivity|]. split; [exact Hpage|]. split; [exact Hrange|].
  split.
  { intros Hnone. unfold Spec.requestedSize in Hm. rewrite Hnone in Hm.
    cbn [Articles.orDefault] in Hm. vm_compute in Hm. injection Hm as <-. reflexivity. }
  split; [exact Hsame|]. split; [exact Hsign|]. split.
  { intros Hsmall. split; [now apply Hexact|]. apply Hpaged; [now apply Hexact | lia]. }
  split; [intros o Ho; split; [now apply Hpaged | now apply Hrefused]|].
  split; [intros Hinf; split; [now apply Hpublic' | apply Hadmin'; congruence]|].
  intros Hlarge. destruct (Hbig Hlarge) as [Hinf | (o & Ho & Hfit)].
  - split; [now apply Hpublic' | now apply Hadmin'].
  - now apply (Hrefused o).
Qed.

Lemma list_pagination_on_integers_witness :
  let request :=
    Sample.request "GET" "/api/articles" [("page", "2"); ("pageSize", "1")] []
      Sample.noBody in
  let beyond :=
    Sample.request "GET" "/api/articles" [("page", "9999999999999999999999")] []
      Sample.noBody in
  (exists a,
      Articles.handleGetArticles request Sample.env
      = Response.success
          (Response.DArticles
             {| Response.data := [a]; Response.total := 2;
                Response.page := JS.Num 2; Response.pageSize := JS.Num 1 |}) 200
      /\ Response.id (Response.article a) = 1)
  /\ Articles.handleGetArticles beyond Sample.env
     = Response.internalError "Failed to fetch articles".
Proof.
  intros request beyond.
  assert (Hpk : Spec.primaryKey (Env.DB Sample.env)).
  { unfold Spec.primaryKey. apply (bool_decide_unpack _). vm_compute. exact I. }
  split.
  - destruct (list_pagination_on_integers request Sample.env 2 1 eq_refl eq_refl Hpk)
      as (_ & _ & _ & _ & _ & _ & _ & Hexact & _).
    destruct Hexact as (_ & Hpublic & _); [vm_compute; discriminate|].
    eexists. split; [rewrite Hpublic; vm_compute; reflexivity | reflexivity].
  - destruct (list_pagination_on_integers beyond Sample.env (10 ^ 22) 10
                ltac:(vm_compute; reflexivity) eq_refl Hpk)
      as (_ & _ & _ & _ & _ & _ & _ & _ & _ & _ & Hlarge).
    apply Hlarge. vm_compute. discriminate.
Defined.

Section Lists.

Import JS Response Env Articles.

Lemma limitOffset_elem_of {A} (limit offset : number) (rows results : list A) (x : A) :
  limitOffset limit offset rows = Some results -> x ∈ results -> x ∈ rows.
Proof.
  intros Hq Hx. apply limitOffset_Some in Hq as (l & o & ->).
  destruct (l <? 0).
  - eapply elem_of_sublist; [exact Hx | apply sublist_drop].
  - eapply elem_of_sublist; [exact Hx|].
    etransitivity; [apply sublist_take | apply sublist_drop].
Qed.

Lemma publicMatches_published (db : D1Database) (params : ArticleListParams)
    (r : ArticleRow * option ArticleTag) :
  In r (publicMatches db params) -> status (cols (fst r)) = published.
Proof.
  unfold publicMatches. rewrite filter_In. intros [_ Hw].
  unfold publicWhere in Hw. apply andb_true_iff in Hw as [Hw _].
  apply andb_true_iff in Hw as [Hw _]. unfold isPublished in Hw.
  now destruct (status (cols (fst r))).
Qed.

Lemma publicRows_elem_of (db : D1Database) (params : ArticleListParams) (a : Article) :
  a ∈ publicRows db params <->
  exists r, In r (publicMatches db params) /\ a = cols (fst r).
Proof.
  unfold publicRows. rewrite orderBy_Permutation, elem_of_remove_dups.
  rewrite list_elem_of_In, in_map_iff. split; intros (r & H1 & H2); exists r; auto.
Qed.

Lemma publicRows_published (db : D1Database) (params : ArticleListParams) (a : Article) :
  a ∈ publicRows db params -> status a = published.
Proof.
  rewrite publicRows_elem_of. intros (r & Hr & ->). now apply publicMatches_published with db params.
Qed.

End Lists.

(** C2. Whatever the page, pageSize, categoryId and tagId parameters, every
    article in the [data] array of a public list response has status
    [published]. *)
Theorem public_list_only_published (request : Http.Request) (env : Env.Env)
    (p : Response.PaginatedResponse Response.ArticleWithRelations) :
  Response.r_body (Articles.handleGetArticles request env)
  = Response.Success (Response.DArticles p) ->
  Forall (fun a => Response.status (Response.article a) = Response.published)
    (Response.data p).
Proof.
  unfold Articles.handleGetArticles.
  destruct (Articles.limitOffset _ _ _) as [results|] eqn:Hq; [|discriminate].
  cbn [Response.r_body Response.success]. intros [= <-]. cbn [Response.data].
  apply Forall_forall. intros a Ha. apply list_elem_of_In, in_map_iff in Ha.
  destruct Ha as (x & <- & Hx). cbn [Articles.withRelations Response.article].
  apply (publicRows_published (Env.DB env) (Articles.publicParams request)).
  eapply limitOffset_elem_of; [exact Hq|]. now apply list_elem_of_In.
Qed.

Lemma public_list_only_published_witness :
  exists p,
    Response.r_body
      (Articles.handleGetArticles
         (Sample.request "GET" "/api/articles" [("page", "1"); ("pageSize", "5")] []
            Sample.noBody) Sample.env)
    = Response.Success (Response.DArticles p)
    /\ length (Response.data p) = 2%nat
    /\ Forall (fun a => Response.status (Response.article a) = Response.published)
         (Response.data p).
Proof.
  eexists. split; [vm_compute; reflexivity|]. split; [reflexivity|].
  eapply (public_list_only_published
            (Sample.request "GET" "/api/articles" [("page", "1"); ("pageSize", "5")] []
               Sample.noBody) Sample.env).
  vm_compute. reflexivity.
Defined.

(** ** Category deletion *)

Section CategoryDeletion.

Import JS Response Env Categories.

Lemma categoryIs_true (i : Z) (a : Article) :
  Articles.categoryIs i a = true <-> category_id a = Some i.
Proof.
  unfold Articles.categoryIs. destruct (category_id a) as [x|].
  - rewrite Z.eqb_eq. split; [now intros -> | now intros [= ->]].
  - split; discriminate.
Qed.

Lemma filter_length_pos {A} (f : A -> bool) (l : list A) :
  0 < Z.of_nat (length (List.filter f l)) <-> exists x, In x l /\ f x = true.
Proof.
  split.
  - intros Hpos. destruct (List.filter f l) as [|x rest] eqn:Hf; [simpl in Hpos; lia|].
    exists x. apply filter_In. rewrite Hf. now left.
  - intros (x & Hx & Hfx). assert (Hin : In x (List.filter f l)) by now apply filter_In.
    destruct (List.filter f l); [contradiction | simpl; lia].
Qed.

Lemma countArticles_pos (i : Z) (db : D1Database) :
  0 < countArticles i db <->
  exists r, In r (articles db) /\ category_id (cols r) = Some i.
Proof.
  unfold countArticles. rewrite filter_length_pos.
  split; intros (r & Hr & H); exists r; (split; [exact Hr|]); now apply categoryIs_true.
Qed.

Lemma selectCategory_Some (i : Z) (db : D1Database) :
  (exists c, selectCategory i db = Some c) <->
  exists c, In c (categories db) /\ c_id c = i.
Proof.
  unfold selectCategory. split.
  - intros (c & Hc). apply find_some in Hc as [Hin Hid]. exists c.
    split; [exact Hin | now apply Z.eqb_eq].
  - intros (c & Hin & Hid).
    destruct (List.find _ (categories db)) as [c'|] eqn:Hf; [now exists c'|].
    apply (find_none _ _ Hf) in Hin. apply Z.eqb_neq in Hin. contradiction.
Qed.

Lemma find_after_delete (i j : Z) (l : list Category) :
  List.find (fun c => c_id c =? j) (List.filter (fun c => negb (c_id c =? i)) l)
  = if j =? i then None else List.find (fun c => c_id c =? j) l.
Proof.
  induction l as [|c l IH]; simpl.
  - now destruct (j =? i).
  - destruct (c_id c =? i) eqn:Hci; simpl.
    + rewrite IH. destruct (j =? i) eqn:Hji; [reflexivity|].
      apply Z.eqb_eq in Hci. apply Z.eqb_neq in Hji.
      replace (c_id c =? j) with false by (symmetry; apply Z.eqb_neq; lia). reflexivity.
    + rewrite IH. destruct (j =? i) eqn:Hji; [|reflexivity].
      apply Z.eqb_eq in Hji. subst j. now rewrite Hci.
Qed.

End CategoryDeletion.

(** C3. Deleting a category that exists and that at least one article
    references through [category_id] answers 409 CONFLICT, the message
    carries the number of referencing articles, and the bindings are left
    as they were, so the category row is still there.  Deleting a category
    that exists and that no article references answers 200, removes that
    row and no other, and leaves the articles alone.  Deleting an id that
    has no row answers 404.  Under the foreign key of the schema a
    referenced category always exists. *)
Theorem delete_category_blocked_by_articles (env : Env.Env) (i : Z) :
  let db := Env.DB env in
  let referencing r := In r (Env.articles db) /\ Response.category_id (Env.cols r) = Some i in
  let exists_ := exists c, In c (Env.categories db) /\ Response.c_id c = i in
  (exists_ -> (exists r, referencing r) ->
   0 < Categories.countArticles i db
   /\ Categories.handleDeleteCategory env i
      = (Response.conflict
           ("Cannot delete category: " +:+ pretty (Categories.countArticles i db)
            +:+ " article(s) are using this category"), env)
   /\ Response.r_status (fst (Categories.handleDeleteCategory env i)) = 409)
  /\ (exists_ -> (forall r, ~ referencing r) ->
      exists env',
        Categories.handleDeleteCategory env i = (Response.success Response.DDeleted 200, env')
        /\ Categories.selectCategory i (Env.DB env') = None
        /\ (forall j, j <> i ->
              Categories.selectCategory j (Env.DB env') = Categories.selectCategory j db)
        /\ Env.articles (Env.DB env') = Env.articles db)
  /\ (~ exists_ ->
      Categories.handleDeleteCategory env i
      = (Response.notFound "Category not found", env)
      /\ Response.r_status (fst (Categories.handleDeleteCategory env i)) = 404)
  /\ (Spec.categoryForeignKey db -> (exists r, referencing r) -> exists_).
Proof.
  intros db referencing exists_. unfold Categories.handleDeleteCategory. fold db.
  split; [|split; [|split]]; cycle 3.
  { intros Hfk (r & Hin & Hcat). exact (Hfk r i Hin Hcat). }
  - intros Hex Href. apply selectCategory_Some in Hex as [c Hc]. rewrite Hc.
    apply countArticles_pos in Href.
    assert (Hpos : (0 <? Categories.countArticles i db) = true) by now apply Z.ltb_lt.
    rewrite Hpos. auto.
  - intros Hex Hnone. apply selectCategory_Some in Hex as [c Hc]. rewrite Hc.
    assert (Hzero : (0 <? Categories.countArticles i db) = false).
    { apply Z.ltb_ge. destruct (Z_lt_le_dec 0 (Categories.countArticles i db)) as [H|H];
        [|exact H]. apply countArticles_pos in H as [r Hr]. now destruct (Hnone r). }
    rewrite Hzero. eexists. split; [reflexivity|].
    unfold Categories.selectCategory, Categories.deleteCategory. cbn.
    split; [|split; [|reflexivity]].
    + rewrite find_after_delete. now rewrite Z.eqb_refl.
    + intros j Hj. rewrite find_after_delete.
      now replace (j =? i) with false by (symmetry; now apply Z.eqb_neq).
  - intros Hno.
    destruct (Categories.selectCategory i db) as [c|] eqn:Hc; [|auto].
    destruct Hno. apply selectCategory_Some. now exists c.
Qed.

Lemma delete_category_blocked_by_articles_witness :
  Categories.handleDeleteCategory Sample.env 1
  = (Response.conflict "Cannot delete category: 2 article(s) are using this category",
     Sample.env)
  /\ (exists env',
        Categories.handleDeleteCategory Sample.env 2
        = (Response.success Response.DDeleted 200, env')
        /\ Categories.selectCategory 2 (Env.DB env') = None)
  /\ Categories.handleDeleteCategory Sample.env 9
     = (Response.notFound "Category not found", Sample.env).
Proof.
  destruct (delete_category_blocked_by_articles Sample.env 1) as (Hblocked & _ & _ & _).
  destruct (delete_category_blocked_by_articles Sample.env 2) as (_ & Hfree & _ & _).
  destruct (delete_category_blocked_by_articles Sample.env 9) as (_ & _ & Habsent & _).
  split; [|split].
  - refine (proj1 (proj2 (Hblocked _ _))).
    + exists Sample.tech. split; [left; reflexivity | reflexivity].
    + exists Sample.hello. split; [left; reflexivity | reflexivity].
  - destruct Hfree as (env' & Hdel & Hgone & _).
    + exists Sample.misc. split; [right; left; reflexivity | reflexivity].
    + intros r [Hin Hcat]. cbn in Hin.
      destruct Hin as [<- | [<- | [<- | []]]]; discriminate.
    + exists env'. split; assumption.
  - refine (proj1 (Habsent _)). intros (c & Hin & Hid). cbn in Hin.
    destruct Hin as [<- | [<- | []]]; discriminate.
Defined.

(** ** Article detail and the view counter *)

Section Views.

Import JS Response Env Articles Spec.

Lemma find_map_stable {A} (test : A -> bool) (g : A -> A) (l : list A) :
  (forall x, test (g x) = test x) ->
  List.find test (map g l) = option_map g (List.find test l).
Proof.
  intros Hg. induction l as [|x l IH]; [reflexivity|]. simpl.
  rewrite Hg. destruct (test x); [reflexivity | exact IH].
Qed.

Lemma with_DB_same (env : Env) : with_DB env (DB env) = env.
Proof. now destruct env. Qed.

Lemma with_articles_same (db : D1Database) : with_articles db (articles db) = db.
Proof. now destruct db. Qed.

Lemma map_unless {A} (test : A -> bool) (g : A -> A) (l : list A) :
  List.find test l = None -> map (fun x => if test x then g x else x) l = l.
Proof.
  intros Hnone. induction l as [|x l IH]; [reflexivity|]. simpl in *.
  destruct (test x); [discriminate|]. now rewrite IH.
Qed.

Lemma selectPublished_incrementViews (i : Z) (db : D1Database) :
  selectPublished i (incrementViews i db)
  = option_map (fun a => setViewCount a (view_count a + 1)) (selectPublished i db).
Proof.
  unfold selectPublished, incrementViews. cbn [articles with_articles].
  change (fun r => (id (cols r) =? i) && isPublished (cols r)) with (visible i).
  change (fun r => if visible i r then updateCols _ r else r)
    with (fun r => if visible i r then viewed r else r).
  rewrite find_map_stable.
  - destruct (List.find (visible i) (articles db)) as [r|] eqn:Hr; [|reflexivity].
    apply find_some in Hr as [_ Hv]. cbn [option_map]. unfold visible in Hv.
    now rewrite Hv.
  - intros r. unfold visible.
    destruct ((id (cols r) =? i) && isPublished (cols r)) eqn:Hv; exact Hv.
Qed.

Lemma selectPublished_None (i : Z) (db : D1Database) :
  selectPublished i db = None <->
  forall r, In r (articles db) -> id (cols r) = i -> status (cols r) = draft.
Proof.
  unfold selectPublished. split.
  - intros Hnone r Hin Hid.
    destruct (List.find _ (articles db)) as [x|] eqn:Hf; [discriminate|].
    apply (find_none _ _ Hf) in Hin. rewrite Hid, Z.eqb_refl in Hin.
    unfold isPublished in Hin. now destruct (status (cols r)).
  - intros Hall. destruct (List.find _ (articles db)) as [x|] eqn:Hf; [|reflexivity].
    apply find_some in Hf as [Hin Hv]. apply andb_true_iff in Hv as [Hid Hp].
    apply Z.eqb_eq in Hid. unfold isPublished in Hp.
    rewrite (Hall x Hin Hid) in Hp. discriminate.
Qed.

Lemma incrementViews_unseen (i : Z) (db : D1Database) :
  selectPublished i db = None -> incrementViews i db = db.
Proof.
  unfold selectPublished, incrementViews. intros Hnone.
  destruct (List.find _ (articles db)) eqn:Hf; [discriminate|].
  change (fun r => (id (cols r) =? i) && isPublished (cols r)) with (visible i) in Hf.
  change (fun r => if (id (cols r) =? i) && isPublished (cols r) then updateCols _ r else r)
    with (fun r => if visible i r then viewed r else r).
  rewrite (map_unless (visible i) viewed _ Hf). apply with_articles_same.
Qed.

End Views.

(** C6. A public fetch of article [i] adds exactly 1 to [view_count] of
    every row that has id [i] and status [published], and changes no other
    column, no other row, no other table and no other binding.  When such
    a row exists the answer is 200 with the first such article, its
    [view_count] one more than it was stored.  When none exists, that is
    when every row with id [i] is a draft or there is no row with id [i],
    the answer is 404 NOT_FOUND, the bindings are untouched, and the
    response is the same value whichever of the two reasons applies. *)
Theorem public_detail_counts_views (env : Env.Env) (i : Z) :
  let db := Env.DB env in
  let result := Articles.handleGetArticle env i in
  let db' := Env.DB (snd result) in
  let viewed (a : Response.Article) :=
    {| Response.id := Response.id a; Response.title := Response.title a;
       Response.content := Response.content a; Response.cover := Response.cover a;
       Response.category_id := Response.category_id a;
       Response.description := Response.description a;
       Response.keywords := Response.keywords a; Response.status := Response.status a;
       Response.view_count := Response.view_count a + 1;
       Response.like_count := Response.like_count a;
       Response.created_at := Response.created_at a;
       Response.updated_at := Response.updated_at a |} in
  (forall k row, Env.articles db !! k = Some row ->
      Env.articles db' !! k
      = Some (if Response.id (Env.cols row) =? i
              then match Response.status (Env.cols row) with
                   | Response.published =>
                       {| Env.cols := viewed (Env.cols row);
                          Env.is_pinned := Env.is_pinned row |}
                   | Response.draft => row
                   end
              else row))
  /\ length (Env.articles db') = length (Env.articles db)
  /\ Env.categories db' = Env.categories db
  /\ Env.tags_table db' = Env.tags_table db
  /\ Env.article_tags db' = Env.article_tags db
  /\ Env.admins db' = Env.admins db
  /\ Env.BUCKET (snd result) = Env.BUCKET env
  /\ Env.JWT_SECRET (snd result) = Env.JWT_SECRET env
  /\ (forall a, Articles.selectPublished i db = Some a ->
        (exists row, In row (Env.articles db) /\ Env.cols row = a)
        /\ Response.id a = i
        /\ Response.status a = Response.published
        /\ exists category tags related,
             fst result
             = Response.success
                 (Response.DArticle
                    {| Response.article := viewed a;
                       Response.category := category; Response.tags := tags |} related) 200)
  /\ (Articles.selectPublished i db = None <->
      forall r, In r (Env.articles db) -> Response.id (Env.cols r) = i ->
                Response.status (Env.cols r) = Response.draft)
  /\ (Articles.selectPublished i db = None ->
        result = (Response.notFound "Article not found", env)
        /\ Response.r_status (fst result) = 404)
  /\ (forall env2 i2,
        Articles.selectPublished i db = None ->
        Articles.selectPublished i2 (Env.DB env2) = None ->
        fst (Articles.handleGetArticle env2 i2) = fst result).
Proof.
  intros db result db' viewed.
  assert (Hmiss : forall e j, Articles.selectPublished j (Env.DB e) = None ->
            Articles.handleGetArticle e j = (Response.notFound "Article not found", e)).
  { intros e j Hnone. unfold Articles.handleGetArticle.
    rewrite (incrementViews_unseen _ _ Hnone), Hnone. now rewrite with_DB_same. }
  assert (Henv' : snd result = Env.with_DB env (Articles.incrementViews i db)).
  { subst result. unfold Articles.handleGetArticle.
    destruct (Articles.selectPublished i _); reflexivity. }
  assert (Hdb' : db' = Articles.incrementViews i db) by (subst db'; now rewrite Henv').
  split; [|split; [|split; [|split; [|split; [|split; [|split; [|split; [|split;
    [|split; [|split]]]]]]]]]].
  - intros k row Hk. rewrite Hdb'. unfold Articles.incrementViews.
    cbn [Env.articles Env.with_articles]. rewrite list_lookup_fmap. fold db.
    rewrite Hk. cbn [fmap option_fmap option_map]. f_equal.
    destruct (Response.id (Env.cols row) =? i); [|reflexivity].
    unfold Articles.isPublished.
    destruct (Response.status (Env.cols row)) eqn:Hs;
      cbn [andb Response.ArticleStatus_eqb]; [reflexivity|].
    unfold Articles.updateCols, Articles.setViewCount, viewed. cbn [Env.cols Env.is_pinned].
    now rewrite Hs.
  - rewrite Hdb'. unfold Articles.incrementViews. cbn [Env.articles Env.with_articles].
    apply length_map.
  - now rewrite Hdb'.
  - now rewrite Hdb'.
  - now rewrite Hdb'.
  - now rewrite Hdb'.
  - now rewrite Henv'.
  - now rewrite Henv'.
  - intros a Ha.
    assert (Hrow : exists row, In row (Env.articles db) /\ Env.cols row = a
                               /\ Response.id a = i
                               /\ Response.status a = Response.published).
    { unfold Articles.selectPublished in Ha.
      destruct (List.find _ (Env.articles db)) as [row|] eqn:Hfind; [|discriminate].
      injection Ha as <-. apply find_some in Hfind as [Hin Hv].
      apply andb_true_iff in Hv as [Hid Hp]. apply Z.eqb_eq in Hid.
      exists row. repeat split; auto. unfold Articles.isPublished in Hp.
      now destruct (Response.status (Env.cols row)). }
    destruct Hrow as (row & Hin & Hcols & Hid & Hstatus).
    split; [eauto|]. split; [exact Hid|]. split; [exact Hstatus|].
    subst result. unfold Articles.handleGetArticle.
    rewrite selectPublished_incrementViews. fold db. rewrite Ha. cbn [option_map fst].
    eauto.
  - apply selectPublished_None.
  - intros Hnone. subst result. rewrite (Hmiss env i Hnone). auto.
  - intros env2 i2 Hnone Hnone2. subst result.
    now rewrite (Hmiss env i Hnone), (Hmiss env2 i2 Hnone2).
Qed.

Lemma public_detail_counts_views_witness :
  (exists a category tags related,
      fst (Articles.handleGetArticle Sample.env 1)
      = Response.success
          (Response.DArticle
             {| Response.article := a;
                Response.category := category; Response.tags := tags |} related) 200
      /\ Response.id a = 1 /\ Response.view_count a = 1)
  /\ option_map (fun row => Response.view_count (Env.cols row))
       (Env.articles (Env.DB (snd (Articles.handleGetArticle Sample.env 1))) !! 0%nat)
     = Some 1
  /\ Articles.handleGetArticle Sample.env 2
     = (Response.notFound "Article not found", Sample.env)
  /\ fst (Articles.handleGetArticle Sample.env 99)
     = fst (Articles.handleGetArticle Sample.env 2).
Proof.
  destruct (public_detail_counts_views Sample.env 1)
    as (Hrows & _ & _ & _ & _ & _ & _ & _ & Hfound & _).
  destruct (public_detail_counts_views Sample.env 2)
    as (_ & _ & _ & _ & _ & _ & _ & _ & _ & _ & Hdraft & Hsame).
  split; [|split; [|split]].
  - destruct (Hfound (Env.cols Sample.hello) eq_refl)
      as (_ & _ & _ & category & tags & related & Hanswer).
    do 4 eexists. split; [exact Hanswer|]. split; reflexivity.
  - rewrite (Hrows 0%nat Sample.hello eq_refl). reflexivity.
  - apply Hdraft. reflexivity.
  - apply Hsame; reflexivity.
Defined.

(** ** Likes *)

Section Likes.

Import JS Response Env Articles Spec.

Lemma requestedAction_unlike (request : Http.Request) :
  requestedAction request = "unlike" <-> asksUnlike request.
Proof.
  unfold requestedAction, asksUnlike.
  destruct (Http.json (Http.body request)) as [[| | | | |fields]|];
    try (split; [discriminate | intros (fs & [=] & _)]).
  - destruct (property "action" fields) as [[| | |s| |]|] eqn:Hp;
      try (split; [discriminate | intros (fs & [= <-] & Hfs); congruence]).
    destruct (String.eqb s "unlike") eqn:Hs.
    + apply String.eqb_eq in Hs. subst s. split; [|reflexivity].
      intros _. now exists fields.
    + apply String.eqb_neq in Hs. split; [discriminate|].
      intros (fs & [= <-] & Hfs). congruence.
Qed.

Lemma asksUnlike_or_not (request : Http.Request) :
  asksUnlike request \/ ~ asksUnlike request.
Proof.
  destruct (string_dec (requestedAction request) "unlike") as [H | H].
  - left. now apply requestedAction_unlike.
  - right. intros Hyes. now apply requestedAction_unlike in Hyes.
Qed.

Lemma requestedAction_like (request : Http.Request) :
  ~ asksUnlike request -> requestedAction request = "like".
Proof.
  intros Hno. pose proof (requestedAction_unlike request) as Hiff.
  unfold requestedAction in *.
  destruct (Http.json (Http.body request)) as [[| | | | |fields]|]; try reflexivity.
  destruct (property "action" fields) as [[| | |s| |]|]; try reflexivity.
  destruct (String.eqb s "unlike"); [|reflexivity]. now destruct Hno; apply Hiff.
Qed.

Lemma selectPublished_relike (i : Z) (db : D1Database) (g : Article -> Article) :
  (forall a, id (g a) = id a /\ status (g a) = status a) ->
  selectPublished i
    (with_articles db
       (map (fun r => if id (cols r) =? i then updateCols g r else r) (articles db)))
  = option_map g (selectPublished i db).
Proof.
  intros Hg. unfold selectPublished. cbn [articles with_articles].
  rewrite find_map_stable.
  - destruct (List.find _ (articles db)) as [r|] eqn:Hr; [|reflexivity].
    apply find_some in Hr as [_ Hv]. apply andb_true_iff in Hv as [Hid _].
    cbn [option_map]. now rewrite Hid.
  - intros r. destruct (id (cols r) =? i) eqn:Hid; cbn beta iota; [|now rewrite Hid].
    cbn [cols updateCols]. destruct (Hg (cols r)) as [-> Hs].
    unfold isPublished. now rewrite Hs, Hid.
Qed.

End Likes.

(** C9. Against an existing published article, [POST /api/article/:id/like]
    decrements [like_count], not below zero, exactly when the body parses
    to an object whose [action] is the string ["unlike"]; with any other
    body (none, malformed JSON, another [action], no [action]) it adds 1.
    The answer is 200 either way, never 400, and reports the new count.
    In the table, the row with the id has its [like_count] raised by 1, or
    set to the decremented count, every other column of it is as it was,
    and rows with another id, the other tables and the other bindings are
    left alone. *)
Theorem like_unless_unlike (request : Http.Request) (env : Env.Env) (i : Z)
    (a : Response.Article) :
  Articles.selectPublished i (Env.DB env) = Some a ->
  let result := Articles.handleLikeArticle request env i in
  let db' := Env.DB (snd result) in
  let likes := Response.like_count a in
  let withLikes (row : Env.ArticleRow) (n : Z) :=
    {| Env.cols :=
         {| Response.id := Response.id (Env.cols row);
            Response.title := Response.title (Env.cols row);
            Response.content := Response.content (Env.cols row);
            Response.cover := Response.cover (Env.cols row);
            Response.category_id := Response.category_id (Env.cols row);
            Response.description := Response.description (Env.cols row);
            Response.keywords := Response.keywords (Env.cols row);
            Response.status := Response.status (Env.cols row);
            Response.view_count := Response.view_count (Env.cols row);
            Response.like_count := n;
            Response.created_at := Response.created_at (Env.cols row);
            Response.updated_at := Response.updated_at (Env.cols row) |};
       Env.is_pinned := Env.is_pinned row |} in
  (exists row, In row (Env.articles (Env.DB env)) /\ Env.cols row = a
               /\ Response.id a = i /\ Response.status a = Response.published)
  /\ (~ Spec.asksUnlike request ->
      fst result = Response.success (Response.DLike true (likes + 1)) 200
      /\ forall k row, Env.articles (Env.DB env) !! k = Some row ->
           Response.id (Env.cols row) = i ->
           Env.articles db' !! k
           = Some (withLikes row (Response.like_count (Env.cols row) + 1)))
  /\ (Spec.asksUnlike request ->
      fst result = Response.success (Response.DLike false (Z.max 0 (likes - 1))) 200
      /\ forall k row, Env.articles (Env.DB env) !! k = Some row ->
           Response.id (Env.cols row) = i ->
           Env.articles db' !! k = Some (withLikes row (Z.max 0 (likes - 1))))
  /\ (Http.json (Http.body request) = None -> ~ Spec.asksUnlike request)
  /\ Response.r_status (fst result) = 200
  /\ (forall k row, Env.articles (Env.DB env) !! k = Some row ->
        Response.id (Env.cols row) <> i -> Env.articles db' !! k = Some row)
  /\ length (Env.articles db') = length (Env.articles (Env.DB env))
  /\ Env.categories db' = Env.categories (Env.DB env)
  /\ Env.tags_table db' = Env.tags_table (Env.DB env)
  /\ Env.article_tags db' = Env.article_tags (Env.DB env)
  /\ Env.admins db' = Env.admins (Env.DB env)
  /\ Env.BUCKET (snd result) = Env.BUCKET env
  /\ Env.JWT_SECRET (snd result) = Env.JWT_SECRET env.
Proof.
  intros Ha result db' likes withLikes.
  assert (Hlike : ~ Spec.asksUnlike request ->
            result = (Response.success (Response.DLike true (likes + 1)) 200,
                      Env.with_DB env (Articles.incrementLikes i (Env.DB env)))).
  { intros Hno. subst result. unfold Articles.handleLikeArticle.
    rewrite Ha, (requestedAction_like _ Hno), orZero_id. reflexivity. }
  assert (Hunlike : Spec.asksUnlike request ->
            result = (Response.success (Response.DLike false (Z.max 0 (likes - 1))) 200,
                      Env.with_DB env
                        (Articles.setLikes i (Z.max 0 (likes - 1)) (Env.DB env)))).
  { intros Hyes. subst result. unfold Articles.handleLikeArticle.
    apply requestedAction_unlike in Hyes. rewrite Ha, Hyes, orZero_id. reflexivity. }
  assert (Hcases : (exists g, snd result
                              = Env.with_DB env
                                  (Env.with_articles (Env.DB env)
                                     (map g (Env.articles (Env.DB env)))))).
  { destruct (asksUnlike_or_not request) as [Hyes | Hno].
    - rewrite (Hunlike Hyes). eexists. reflexivity.
    - rewrite (Hlike Hno). eexists. reflexivity. }
  split.
  { unfold Articles.selectPublished in Ha.
    destruct (List.find _ (Env.articles (Env.DB env))) as [row|] eqn:Hfind; [|discriminate].
    injection Ha as <-. apply find_some in Hfind as [Hin Hv].
    apply andb_true_iff in Hv as [Hid Hp]. apply Z.eqb_eq in Hid.
    exists row. repeat split; auto. unfold Articles.isPublished in Hp.
    now destruct (Response.status (Env.cols row)). }
  split.
  { intros Hno. subst db'. rewrite (Hlike Hno). split; [reflexivity|].
    intros k row Hk Hid. cbn [snd Env.DB Env.with_DB]. unfold Articles.incrementLikes.
    cbn [Env.articles Env.with_articles]. rewrite list_lookup_fmap, Hk.
    cbn [fmap option_fmap option_map]. apply Z.eqb_eq in Hid. now rewrite Hid. }
  split.
  { intros Hyes. subst db'. rewrite (Hunlike Hyes). split; [reflexivity|].
    intros k row Hk Hid. cbn [snd Env.DB Env.with_DB]. unfold Articles.setLikes.
    cbn [Env.articles Env.with_articles]. rewrite list_lookup_fmap, Hk.
    cbn [fmap option_fmap option_map]. apply Z.eqb_eq in Hid. now rewrite Hid. }
  split; [intros Hnone (fields & Hjson & _); congruence|].
  split.
  { destruct (asksUnlike_or_not request) as [Hyes | Hno].
    - now rewrite (Hunlike Hyes).
    - now rewrite (Hlike Hno). }
  split.
  { intros k row Hk Hid. subst db'.
    apply Z.eqb_neq in Hid.
    destruct (asksUnlike_or_not request) as [Hyes | Hno].
    - rewrite (Hunlike Hyes). cbn [snd Env.DB Env.with_DB]. unfold Articles.setLikes.
      cbn [Env.articles Env.with_articles]. rewrite list_lookup_fmap, Hk. cbn.
      now rewrite Hid.
    - rewrite (Hlike Hno). cbn [snd Env.DB Env.with_DB]. unfold Articles.incrementLikes.
      cbn [Env.articles Env.with_articles]. rewrite list_lookup_fmap, Hk. cbn.
      now rewrite Hid. }
  destruct Hcases as [g Hg]. subst db'. rewrite Hg.
  cbn [Env.DB Env.with_DB Env.articles Env.with_articles Env.categories Env.tags_table
       Env.article_tags Env.admins Env.BUCKET Env.JWT_SECRET].
  split; [apply length_map|]. repeat split.
Qed.

Lemma like_unless_unlike_witness :
  (fst (Articles.handleLikeArticle
          (Sample.request "POST" "/api/article/3/like" [] [] Sample.noBody) Sample.env 3)
   = Response.success (Response.DLike true 5) 200
   /\ option_map (fun row => Response.like_count (Env.cols row))
        (Env.articles
           (Env.DB (snd (Articles.handleLikeArticle
                           (Sample.request "POST" "/api/article/3/like" [] [] Sample.noBody)
                           Sample.env 3))) !! 2%nat)
      = Some 5)
  /\ fst (Articles.handleLikeArticle
            (Sample.request "POST" "/api/article/1/like" [] []
               (Sample.jsonBody (JS.JObject [("action", JS.JString "unlike")])))
            Sample.env 1)
     = Response.success (Response.DLike false 0) 200.
Proof.
  split.
  - destruct (like_unless_unlike
                (Sample.request "POST" "/api/article/3/like" [] [] Sample.noBody)
                Sample.env 3 (Env.cols Sample.news) eq_refl) as (_ & Hlike & _).
    destruct Hlike as [Hanswer Hrows]; [intros (fields & Hjson & _); discriminate|].
    split; [exact Hanswer|].
    rewrite (Hrows 2%nat Sample.news eq_refl eq_refl). reflexivity.
  - destruct (like_unless_unlike
                (Sample.request "POST" "/api/article/1/like" [] []
                   (Sample.jsonBody (JS.JObject [("action", JS.JString "unlike")])))
                Sample.env 1 (Env.cols Sample.hello) eq_refl) as (_ & _ & Hunlike & _).
    apply Hunlike. eexists. split; reflexivity.
Defined.

(** ** Uploads *)

Section Uploads.

Import JS Response Env Upload Spec.

Lemma handleUpload_file (request : Http.Request) (env : Env) (timestamp : Z)
    (random type : string) (buffer : Http.ArrayBuffer) :
  Http.method request = "POST" ->
  uploadedFile request = Some (type, buffer) ->
  handleUpload request env timestamp random
  = if negb (isValidImageType type) then (badRequest invalidTypeMessage, env)
    else if negb (isValidFileSize (Z.of_N (Http.byteLength buffer)))
         then (badRequest tooLargeMessage, env)
         else store env type buffer timestamp random.
Proof.
  intros Hm. unfold uploadedFile, handleUpload. rewrite Hm.
  change (negb (String.eqb "POST" "POST")) with false. cbv iota.
  destruct (includes _ "multipart/form-data").
  - destruct (Http.formData (Http.body request)) as [[[f|s]|]|]; try discriminate.
    intros [= <- <-]. reflexivity.
  - destruct (Http.arrayBuffer (Http.body request)) as [b|]; [|discriminate].
    intros [= <- <-]. reflexivity.
Qed.

Lemma mentions_limit : includes tooLargeMessage "10MB" = true.
Proof. reflexivity. Qed.

Lemma mentions_type : includes invalidTypeMessage "Invalid file type" = true.
Proof. reflexivity. Qed.

End Uploads.

Section UploadRoute.

Import JS Response Env Auth Security Index Upload Spec.

Context {J : Jwt.Jose} {B : Login.Bcrypt}.

(** An authorized [POST /api/upload] is the body-size check of the
    dispatcher followed by [handleUpload]. *)
Lemma serve_upload request env clock reads store user :
  Http.pathname request = "/api/upload" -> Http.method request = "POST" ->
  authMiddleware request env (atVerify clock) = User user ->
  fst (serve request env clock reads store)
  = if negb (valid (checkRequestBodySize request MAX_UPLOAD_SIZE))
    then Answered (payloadTooLarge "File too large. Maximum size: 10MB") env
    else answered (handleUpload request env (uploadTimestamp reads) (uploadRandom reads)).
Proof.
  intros Hp Hm Hauth. unfold serve.
  rewrite handleRequest_protected by now rewrite Hp.
  rewrite Hauth. unfold protectedRoutes. rewrite Hp, Hm.
  change (same "/api/upload" "/api/upload" && same "POST" "POST") with true.
  cbn [route otherwise]. now destruct (negb _).
Qed.

End UploadRoute.

(** C7, as the code has it. For an authorized [POST /api/upload]: when the
    request declares a [Content-Length] that is not at most 10 MB
    (10 * 1024 * 1024), the dispatcher answers 413 PAYLOAD_TOO_LARGE with
    a message naming the 10 MB limit and the handler does not run.
    Otherwise the handler checks the type first: a file whose MIME type is
    outside the allow-list gets 400 BAD_REQUEST naming the invalid file
    type; a file of an allowed type larger than 10 MB gets 400 BAD_REQUEST
    naming the 10 MB limit; a file of an allowed type of exactly 10 MB is
    answered 201 and stored in the bucket under the returned filename. *)
Theorem upload_size_and_type_limits (J : Jwt.Jose) (B : Login.Bcrypt)
    (request : Http.Request) (env : Env.Env) (clock : Index.Clock) (reads : Index.Reads)
    (store : gmap string Security.RateLimitRecord) (user : Response.JWTPayload) :
  Http.pathname request = "/api/upload" -> Http.method request = "POST" ->
  Auth.authMiddleware request env (Index.atVerify clock) = Auth.User user ->
  let declared := Security.checkRequestBodySize request Security.MAX_UPLOAD_SIZE in
  let result := fst (Index.serve request env clock reads store) in
  (Security.valid declared = false ->
   exists message,
     result = Index.Answered (Response.payloadTooLarge message) env
     /\ JS.includes message "10MB" = true)
  /\ (Security.valid declared = true ->
      forall type buffer, Spec.uploadedFile request = Some (type, buffer) ->
      let size := Z.of_N (Http.byteLength buffer) in
      (Upload.isValidImageType type = false ->
       exists message,
         result = Index.Answered (Response.badRequest message) env
         /\ JS.includes message "Invalid file type" = true)
      /\ (Upload.isValidImageType type = true -> 10 * 1024 * 1024 < size ->
          exists message,
            result = Index.Answered (Response.badRequest message) env
            /\ JS.includes message "10MB" = true)
      /\ (Upload.isValidImageType type = true -> size = 10 * 1024 * 1024 ->
          exists url filename env',
            result = Index.Answered (Response.success (Response.DUpload url filename) 201) env'
            /\ Env.BUCKET env' !! filename
               = Some {| Env.o_body := buffer; Env.o_contentType := type |})).
Proof.
  intros Hp Hm Hauth declared result. subst result.
  rewrite (serve_upload request env clock reads store user Hp Hm Hauth). fold declared.
  split.
  - intros ->. cbn [negb]. eexists. split; reflexivity.
  - intros -> type buffer Hfile size. cbn [negb].
    rewrite (handleUpload_file _ _ _ _ _ _ Hm Hfile). fold size. repeat split.
    + intros ->. cbn [negb]. eexists. split; [reflexivity | apply mentions_type].
    + intros -> Hbig. cbn [negb].
      replace (Upload.isValidFileSize size) with false.
      * eexists. split; [reflexivity | apply mentions_limit].
      * symmetry. unfold Upload.isValidFileSize, Upload.MAX_FILE_SIZE.
        apply andb_false_iff. right. apply Z.leb_gt. lia.
    + intros -> Hsize. cbn [negb].
      replace (Upload.isValidFileSize size) with true by now rewrite Hsize.
      cbn [negb]. unfold Upload.store, Index.answered. cbn [fst snd].
      do 3 eexists. split; [reflexivity|]. unfold Upload.put. cbn [Env.BUCKET].
      apply lookup_insert_eq.
Qed.

(** C7, as stated, fails twice. An 11 MB PNG sent with its
    [Content-Length] is answered 413 PAYLOAD_TOO_LARGE by the dispatcher,
    not 400 BAD_REQUEST.  An 11 MB [application/pdf] reaches the handler
    and is answered 400 for its type, with a message that does not name
    the 10 MB limit. *)
Lemma upload_oversize_is_not_always_400_with_limit_message :
  let png := Sample.upload "image/png" 11534336 [("Content-Length", "11534336")] in
  let pdf := Sample.upload "application/pdf" 11534336 [] in
  let serve request :=
    fst (Index.serve (H := Reference.jose) (H0 := Reference.bcrypt) request Sample.env
           (Sample.at_ 2000000) Sample.reads ∅) in
  (10 * 1024 * 1024 < 11534336)
  /\ serve png
     = Index.Answered
         (Response.error "PAYLOAD_TOO_LARGE" "File too large. Maximum size: 10MB" 413)
         Sample.env
  /\ (exists message,
         serve pdf = Index.Answered (Response.badRequest message) Sample.env
         /\ JS.includes message "10MB" = false).
Proof.
  split; [reflexivity|]. split; [vm_compute; reflexivity|].
  eexists. split; vm_compute; reflexivity.
Qed.

Lemma upload_size_and_type_limits_witness :
  let png := Sample.upload "image/png" 10485760 [("Content-Length", "10485760")] in
  exists url filename env',
    fst (Index.serve (H := Reference.jose) (H0 := Reference.bcrypt) png Sample.env
           (Sample.at_ 2000000) Sample.reads ∅)
    = Index.Answered (Response.success (Response.DUpload url filename) 201) env'
    /\ Env.BUCKET env' !! filename
       = Some {| Env.o_body := {| Http.byteLength := 10485760; Http.contents := "image" |};
                 Env.o_contentType := "image/png" |}.
Proof.
  intros png.
  destruct (upload_size_and_type_limits Reference.jose Reference.bcrypt png Sample.env
              (Sample.at_ 2000000) Sample.reads ∅
              {| Response.sub := "1"; Response.username := "admin";
                 Response.iat := 1000; Response.exp := 87400 |}
              eq_refl eq_refl) as [_ Hhandler].
  - vm_compute. reflexivity.
  - destruct (Hhandler eq_refl "image/png"
                {| Http.byteLength := 10485760; Http.contents := "image" |} eq_refl)
      as (_ & _ & Hstored).
    apply Hstored; reflexivity.
Defined.

(** ** Login *)

Section LoginToken.

Import JS Response Env Jwt Security Login.

Context {J : Jose} {B : Bcrypt}.

Lemma find_first {A} (test : A -> bool) (l : list A) (x : A) :
  List.find test l = Some x ->
  exists before after,
    l = (before ++ x :: after)%list /\ test x = true
    /\ Forall (fun y => test y = false) before.
Proof.
  induction l as [|y l IH]; [discriminate|]. cbn [List.find].
  destruct (test y) eqn:Hy.
  - intros [= ->]. exists [], l. auto.
  - intros Hx. destruct (IH Hx) as (before & after & -> & Htest & Hbefore).
    exists (y :: before), after. auto.
Qed.

Lemma requiredString_Some (name : string) (fields : list (string * JSON)) (s : string) :
  requiredString name fields = Some s <->
  Articles.property name fields = Some (JString s) /\ s <> "".
Proof.
  unfold requiredString.
  destruct (Articles.property name fields) as [[| | |v| |]|];
    try (split; [discriminate | intros [[=] _]]).
  destruct (truthy v) eqn:Hv.
  - apply truthy_true in Hv. split; [intros [= <-]; auto | intros [[= <-] _]; reflexivity].
  - apply truthy_false in Hv. subst v.
    split; [discriminate | intros [[= <-] Hne]; now contradiction Hne].
Qed.

(** The administrator a login looks up: the first row with the username. *)
Lemma selectAdmin_Some (username : string) (db : D1Database) (admin : Admin) :
  selectAdmin username db = Some admin ->
  exists before after,
    admins db = (before ++ admin :: after)%list
    /\ ad_username admin = username
    /\ Forall (fun a => ad_username a <> username) before.
Proof.
  unfold selectAdmin. intros Hfind.
  destruct (find_first _ _ _ Hfind) as (before & after & Hsplit & Hname & Hbefore).
  exists before, after. split; [exact Hsplit|]. split; [now apply String.eqb_eq|].
  eapply Forall_impl; [exact Hbefore|]. intros a Ha. now apply String.eqb_neq.
Qed.

(** A login whose form passes the checks is decided by the lookup, the
    comparison and the signature. *)
Lemma handleLogin_form (request : Http.Request) (env : Env) (signedAt expiryAt : Z)
    (fields : list (string * JSON)) (username password : string) :
  Http.method request = "POST" ->
  Http.json (Http.body request) = Some (JObject fields) ->
  requiredString "username" fields = Some username ->
  requiredString "password" fields = Some password ->
  validateStringLength username f_username = None ->
  validateStringLength password f_password = None ->
  handleLogin request env signedAt expiryAt
  = Some
      match selectAdmin username (DB env) with
      | None => unauthorized "Invalid username or password"
      | Some result =>
          match compare password (ad_password_hash result) with
          | None => internalError "An error occurred during login"
          | Some false => unauthorized "Invalid username or password"
          | Some true =>
              match signToken (pretty (ad_id result)) (ad_username result)
                      (JWT_SECRET env) signedAt with
              | None => internalError "An error occurred during login"
              | Some token =>
                  success
                    (DLogin token (floorDiv1000 expiryAt + getTokenExpirationSeconds)) 200
              end
          end
      end.
Proof.
  intros Hm Hjson Hu Hp Hvu Hvp. unfold handleLogin.
  rewrite Hm, Hjson, Hu, Hp, Hvu, Hvp.
  change (negb (String.eqb "POST" "POST")) with false. cbv iota.
  destruct (selectAdmin username (DB env)) as [result|]; [|reflexivity].
  destruct (compare password (ad_password_hash result)) as [[|]|]; try reflexivity.
  now destruct (signToken _ _ _ _).
Qed.

(** A login answers with a success envelope only after it has found the
    administrator by the username sent, matched the password sent against
    the hash, and signed the token. *)
Lemma handleLogin_success (request : Http.Request) (env : Env) (signedAt expiryAt : Z)
    (response : Response) (d : Data) :
  handleLogin request env signedAt expiryAt = Some response ->
  r_body response = Success d ->
  exists fields username password admin token,
    Http.json (Http.body request) = Some (JObject fields)
    /\ requiredString "username" fields = Some username
    /\ requiredString "password" fields = Some password
    /\ selectAdmin username (DB env) = Some admin
    /\ compare password (ad_password_hash admin) = Some true
    /\ signToken (pretty (ad_id admin)) (ad_username admin) (JWT_SECRET env) signedAt
       = Some token
    /\ response
       = success (DLogin token (floorDiv1000 expiryAt + getTokenExpirationSeconds)) 200.
Proof.
  intros H Hbody.
  destruct (String.eqb_spec (Http.method request) "POST") as [Hm|Hm].
  2:{ unfold handleLogin in H. apply String.eqb_neq in Hm. rewrite Hm in H.
      injection H as <-. discriminate. }
  destruct (Http.json (Http.body request)) as [body|] eqn:Hjson.
  2:{ unfold handleLogin in H. rewrite Hm, Hjson in H. injection H as <-. discriminate. }
  assert (Hfields : exists fields, body = JObject fields
                    \/ (requiredString "username" fields = None
                        /\ handleLogin request env signedAt expiryAt
                           = Some (badRequest "Username is required"))).
  { destruct body as [| | | | |fields].
    6:{ exists fields. now left. }
    1:{ unfold handleLogin in H. rewrite Hm, Hjson in H. discriminate H. }
    all: exists []; right; split; [reflexivity|];
      unfold handleLogin; rewrite Hm, Hjson; reflexivity. }
  destruct Hfields as [fields [-> | [_ Hbad]]].
  2:{ rewrite Hbad in H. injection H as <-. discriminate. }
  destruct (requiredString "username" fields) as [username|] eqn:Hu.
  2:{ unfold handleLogin in H. rewrite Hm, Hjson, Hu in H. injection H as <-. discriminate. }
  destruct (requiredString "password" fields) as [password|] eqn:Hp.
  2:{ unfold handleLogin in H. rewrite Hm, Hjson, Hu, Hp in H. injection H as <-.
      discriminate. }
  destruct (validateStringLength username f_username) eqn:Hvu.
  { unfold handleLogin in H. rewrite Hm, Hjson, Hu, Hp, Hvu in H. injection H as <-.
    discriminate. }
  destruct (validateStringLength password f_password) eqn:Hvp.
  { unfold handleLogin in H. rewrite Hm, Hjson, Hu, Hp, Hvu, Hvp in H. injection H as <-.
    discriminate. }
  rewrite (handleLogin_form _ _ _ _ _ _ _ Hm Hjson Hu Hp Hvu Hvp) in H.
  destruct (selectAdmin username (DB env)) as [admin|] eqn:Hadmin;
    [|injection H as <-; discriminate].
  destruct (compare password (ad_password_hash admin)) as [[|]|] eqn:Hpw;
    try (injection H as <-; discriminate).
  destruct (signToken _ _ _ _) as [token|] eqn:Htoken;
    [|injection H as <-; discriminate].
  injection H as <-. exists fields, username, password, admin, token. auto 10.
Qed.

Context {L : JoseLaws J}.

(** A token that [signToken] issued verifies under the same secret for the
    86 400 seconds that follow, and carries what was signed. *)
Lemma verifyToken_signToken (sub username secret token : string) (signedAt nowMs : Z) :
  signToken sub username secret signedAt = Some token ->
  floorDiv1000 nowMs < floorDiv1000 signedAt + TOKEN_EXPIRATION_SECONDS ->
  verifyToken token secret nowMs
  = Some {| Response.sub := sub; Response.username := username;
            iat := floorDiv1000 signedAt;
            exp := floorDiv1000 signedAt + TOKEN_EXPIRATION_SECONDS |}.
Proof.
  unfold signToken. destruct (jose_signs secret); [|discriminate].
  intros [= <-] Hlive. unfold verifyToken.
  rewrite (verify_signed _ _ (floorDiv1000 signedAt + TOKEN_EXPIRATION_SECONDS))
    by (reflexivity || assumption).
  reflexivity.
Qed.

End LoginToken.

(** C8. When a login succeeds, the body was a JSON object with a username
    and a password, the administrator is the first row of [admins] with
    that username, and [compare] matched that password against the row's
    hash.  The token issued decodes under the same secret, at issue time
    and at any time before its expiry, to a payload with
    [exp - iat = 86400] whose subject is that administrator's id as a
    string and whose username is the username sent. *)
Theorem login_token_expires_after_24h (J : Jwt.Jose) (L : Jwt.JoseLaws J) (B : Login.Bcrypt)
    (request : Http.Request) (env : Env.Env) (signedAt expiryAt : Z)
    (response : Response.Response) (token : string) (expiresAt : Z) :
  Login.handleLogin request env signedAt expiryAt = Some response ->
  Response.r_body response = Response.Success (Response.DLogin token expiresAt) ->
  exists fields username password admin before after payload,
    Http.json (Http.body request) = Some (JS.JObject fields)
    /\ Articles.property "username" fields = Some (JS.JString username)
    /\ Articles.property "password" fields = Some (JS.JString password)
    /\ Env.admins (Env.DB env) = (before ++ admin :: after)%list
    /\ Forall (fun a => Env.ad_username a <> username) before
    /\ Env.ad_username admin = username
    /\ Login.compare password (Env.ad_password_hash admin) = Some true
    /\ Jwt.verifyToken token (Env.JWT_SECRET env) signedAt = Some payload
    /\ payload = {| Response.sub := pretty (Env.ad_id admin);
                    Response.username := username;
                    Response.iat := JS.floorDiv1000 signedAt;
                    Response.exp := JS.floorDiv1000 signedAt + 86400 |}
    /\ Response.exp payload - Response.iat payload = 86400
    /\ expiresAt = JS.floorDiv1000 expiryAt + 86400
    /\ Response.r_status response = 200
    /\ (forall nowMs, JS.floorDiv1000 nowMs < Response.exp payload ->
          Jwt.verifyToken token (Env.JWT_SECRET env) nowMs = Some payload).
Proof.
  intros Hlogin Hbody.
  destruct (handleLogin_success request env signedAt expiryAt response _ Hlogin Hbody)
    as (fields & username & password & admin & token' & Hjson & Hu & Hp & Hadmin & Hpw
        & Htoken & ->).
  cbn [Response.r_body Response.success] in Hbody. injection Hbody as <- <-.
  apply requiredString_Some in Hu as [Hu _]. apply requiredString_Some in Hp as [Hp _].
  destruct (selectAdmin_Some _ _ _ Hadmin) as (before & after & Hsplit & Hname & Hfirst).
  rewrite Hname in Htoken.
  exists fields, username, password, admin, before, after.
  eexists. split; [exact Hjson|]. split; [exact Hu|]. split; [exact Hp|].
  split; [exact Hsplit|]. split; [exact Hfirst|]. split; [exact Hname|].
  split; [exact Hpw|]. split.
  { apply (verifyToken_signToken _ _ _ _ _ _ Htoken).
    unfold Jwt.TOKEN_EXPIRATION_SECONDS. lia. }
  cbn [Response.exp Response.iat].
  unfold Jwt.TOKEN_EXPIRATION_SECONDS, Jwt.getTokenExpirationSeconds.
  repeat split; try reflexivity; try lia.
  intros nowMs Hlive. now apply (verifyToken_signToken _ _ _ _ _ _ Htoken).
Qed.

Lemma login_token_expires_after_24h_witness :
  exists response token payload,
    Login.handleLogin (H := Reference.jose) (H0 := Reference.bcrypt)
      (Sample.login "203.0.113.7") Sample.env 1000000 1000000 = Some response
    /\ Response.r_body response = Response.Success (Response.DLogin token 87400)
    /\ Jwt.verifyToken (H := Reference.jose) token "s3cret" 5000000 = Some payload
    /\ Response.exp payload - Response.iat payload = 86400
    /\ Response.username payload = "admin".
Proof.
  destruct (login_token_expires_after_24h Reference.jose reference_laws Reference.bcrypt
              (Sample.login "203.0.113.7") Sample.env 1000000 1000000
              (Response.success (Response.DLogin Sample.token 87400) 200)
              Sample.token 87400)
    as (fields & username & password & admin & before & after & payload & Hjson & Hu & _
        & _ & _ & _ & _ & Hnow & Hpayload & Hlife & _ & _ & Hlater).
  - vm_compute. reflexivity.
  - reflexivity.
  - exists (Response.success (Response.DLogin Sample.token 87400) 200), Sample.token, payload.
    split; [vm_compute; reflexivity|]. split; [reflexivity|]. split; [|split; [exact Hlife|]].
    + apply Hlater. rewrite Hpayload. cbn [Response.exp]. vm_compute. reflexivity.
    + injection Hjson as <-. cbn in Hu. injection Hu as <-. now rewrite Hpayload.
Defined.

(** * Further properties *)

(** ** Response headers *)

Section Headers.

Import JS Response Reply.

Lemma headers_lookup_set (name k v : string) (l : list (string * string)) :
  Http.headers_lookup name (headers_set k v l)
  = if String.eqb (toLowerCase k) (toLowerCase name) then Some v
    else Http.headers_lookup name l.
Proof.
  induction l as [|[k0 v0] rest IH]; cbn [headers_set Http.headers_lookup].
  - reflexivity.
  - destruct (String.eqb (toLowerCase k0) (toLowerCase k)) eqn:Hk;
      cbn [Http.headers_lookup].
    + apply String.eqb_eq in Hk. rewrite Hk.
      now destruct (String.eqb (toLowerCase k) (toLowerCase name)).
    + rewrite IH.
      destruct (String.eqb (toLowerCase k0) (toLowerCase name)) eqn:Hn; [|reflexivity].
      apply String.eqb_eq in Hn. rewrite <- Hn, String.eqb_sym, Hk. reflexivity.
Qed.

Lemma headers_lookup_app (name : string) (a b : list (string * string)) :
  Http.headers_lookup name (a ++ b)
  = match Http.headers_lookup name a with
    | Some v => Some v
    | None => Http.headers_lookup name b
    end.
Proof.
  induction a as [|[k v] a IH]; cbn [app Http.headers_lookup]; [reflexivity|].
  now destruct (String.eqb _ _).
Qed.

(** The last [set] of a name wins; a name that is not set keeps the value
    it had. *)
Lemma headers_lookup_setAll (name : string) (entries l : list (string * string)) :
  Http.headers_lookup name (setAll entries l)
  = match Http.headers_lookup name (rev entries) with
    | Some v => Some v
    | None => Http.headers_lookup name l
    end.
Proof.
  unfold setAll. revert l.
  induction entries as [|[k v] entries IH]; intros l; cbn [fold_left rev fst snd].
  - reflexivity.
  - rewrite IH, headers_lookup_app, headers_lookup_set. cbn [Http.headers_lookup].
    destruct (Http.headers_lookup name (rev entries)); [reflexivity|].
    now destruct (String.eqb (toLowerCase k) (toLowerCase name)).
Qed.

End Headers.

Section HeadersOfReplies.

Import JS Response Reply.

Lemma headers_lookup_None (name : string) (l : list (string * string)) :
  Http.headers_lookup name l = None
  <-> Forall (fun kv => String.eqb (toLowerCase (fst kv)) (toLowerCase name) = false) l.
Proof.
  induction l as [|[k v] l IH]; cbn [Http.headers_lookup].
  - split; [constructor | reflexivity].
  - rewrite Forall_cons. cbn [fst].
    destruct (String.eqb (toLowerCase k) (toLowerCase name)).
    + split; [discriminate | intros [? _]; discriminate].
    + rewrite IH. tauto.
Qed.

Lemma headers_lookup_rev_None (name : string) (l : list (string * string)) :
  Http.headers_lookup name l = None -> Http.headers_lookup name (rev l) = None.
Proof. rewrite !headers_lookup_None. apply Forall_rev. Qed.

(** A name that none of the entries sets keeps its value. *)
Lemma setAll_other (name : string) (entries l : list (string * string)) :
  Http.headers_lookup name entries = None ->
  Http.headers_lookup name (setAll entries l) = Http.headers_lookup name l.
Proof.
  intros H. rewrite headers_lookup_setAll. now rewrite (headers_lookup_rev_None _ _ H).
Qed.

End HeadersOfReplies.

(** ** The Worker's entry point *)

Section Fetch.

Import JS Response Env Reply Hardening Cors.

Context {J : Jwt.Jose} {B : Login.Bcrypt}.

Lemma fetch_options request clock reads w :
  Http.method request = "OPTIONS" ->
  Worker.fetch request clock reads w
  = Replied (handlePreflight request defaultCORSConfig) w.
Proof. intros Hm. unfold Worker.fetch, corsMiddleware. now rewrite Hm. Qed.

Lemma fetch_other request clock reads w :
  Http.method request <> "OPTIONS" ->
  Worker.fetch request clock reads w
  = match Worker.handleRequest request clock reads w with
    | Replied response w' =>
        Replied (addCORSHeaders (addSecurityHeaders response) request defaultCORSConfig) w'
    | Thrown w' => Thrown w'
    | Unmodelled => Unmodelled
    end.
Proof.
  intros Hm. unfold Worker.fetch, corsMiddleware.
  apply String.eqb_neq in Hm. rewrite Hm.
  now destruct (Worker.handleRequest request clock reads w).
Qed.

(** With the default configuration the CORS headers do not depend on the
    request. *)
Lemma default_cors_headers (origin : option string) :
  getCORSHeaders origin defaultCORSConfig
  = [("Access-Control-Allow-Origin", "*");
     ("Access-Control-Allow-Methods", "GET, POST, PUT, DELETE, OPTIONS");
     ("Access-Control-Allow-Headers", "Content-Type, Authorization");
     ("Access-Control-Max-Age", "86400")].
Proof. reflexivity. Qed.

End Fetch.

(** X1. An OPTIONS request is answered by the CORS middleware alone, on
    every path and whatever its headers: 204 with no body and the CORS
    headers of the default configuration.  Neither the dispatcher nor the
    authorization gate nor the login limiter runs (the bindings and the
    rate-limit store are as before), and the answer carries none of the
    security headers. *)
Theorem preflight_is_answered_by_cors_alone (J : Jwt.Jose) (B : Login.Bcrypt)
    (request : Http.Request) (clock : Index.Clock) (reads : Worker.Reads)
    (w : Worker.World) :
  Http.method request = "OPTIONS" ->
  exists reply,
    Worker.fetch request clock reads w = Reply.Replied reply w
    /\ Reply.rp_status reply = 204
    /\ Reply.rp_body reply = Reply.NoBody
    /\ Reply.header reply "Access-Control-Allow-Origin" = Some "*"
    /\ Reply.header reply "Access-Control-Allow-Methods"
       = Some "GET, POST, PUT, DELETE, OPTIONS"
    /\ Reply.header reply "Access-Control-Allow-Headers" = Some "Content-Type, Authorization"
    /\ Reply.header reply "Access-Control-Max-Age" = Some "86400"
    /\ Reply.header reply "Access-Control-Allow-Credentials" = None
    /\ Forall (fun kv => Reply.header reply (fst kv) = None) Hardening.SECURITY_HEADERS.
Proof.
  intros Hm. eexists. split; [apply (fetch_options _ _ _ _ Hm)|].
  unfold Cors.handlePreflight, Reply.header. cbn [Reply.rp_status Reply.rp_body Reply.rp_headers].
  rewrite default_cors_headers.
  repeat split; try reflexivity.
  repeat constructor.
Qed.

Lemma preflight_is_answered_by_cors_alone_witness :
  exists reply,
    Worker.fetch (H := Reference.jose) (H0 := Reference.bcrypt)
      (Sample.request "OPTIONS" "/api/admin/articles" [] [] Sample.noBody)
      (Sample.at_ 2000000)
      {| Worker.handlerReads := Sample.reads; Worker.rowid := 9;
         Worker.currentTimestamp := "2024-02-01 00:00:00" |}
      (Sample.env, ∅)
    = Reply.Replied reply (Sample.env, ∅)
    /\ Reply.rp_status reply = 204.
Proof.
  destruct (preflight_is_answered_by_cors_alone Reference.jose Reference.bcrypt
              (Sample.request "OPTIONS" "/api/admin/articles" [] [] Sample.noBody)
              (Sample.at_ 2000000)
              {| Worker.handlerReads := Sample.reads; Worker.rowid := 9;
                 Worker.currentTimestamp := "2024-02-01 00:00:00" |}
              (Sample.env, ∅) eq_refl) as (reply & Hfetch & Hstatus & _).
  exists reply. split; assumption.
Defined.

(** X2. Every other request is answered with what [handleRequest]
    answers, same status and same body, after the six security headers and
    then the four CORS headers of the default configuration have been set
    on it; a header of the handler's response with another name (its
    [Content-Type], the [Retry-After] of a 429) is kept.  An exception of
    the handler is not caught on the way. *)
Theorem answers_carry_security_and_cors_headers (J : Jwt.Jose) (B : Login.Bcrypt)
    (request : Http.Request) (clock : Index.Clock) (reads : Worker.Reads)
    (w : Worker.World) :
  Http.method request <> "OPTIONS" ->
  (forall response w',
     Worker.handleRequest request clock reads w = Reply.Replied response w' ->
     exists reply,
       Worker.fetch request clock reads w = Reply.Replied reply w'
       /\ Reply.rp_status reply = Reply.rp_status response
       /\ Reply.rp_body reply = Reply.rp_body response
       /\ Forall (fun kv => Reply.header reply (fst kv) = Some (snd kv))
            Hardening.SECURITY_HEADERS
       /\ Reply.header reply "Access-Control-Allow-Origin" = Some "*"
       /\ Reply.header reply "Access-Control-Allow-Methods"
          = Some "GET, POST, PUT, DELETE, OPTIONS"
       /\ Reply.header reply "Access-Control-Allow-Headers"
          = Some "Content-Type, Authorization"
       /\ Reply.header reply "Access-Control-Max-Age" = Some "86400"
       /\ Reply.header reply "Content-Type" = Reply.header response "Content-Type"
       /\ Reply.header reply "Retry-After" = Reply.header response "Retry-After"
       /\ (forall name,
             Http.headers_lookup name
               (Hardening.SECURITY_HEADERS
                ++ Cors.getCORSHeaders None Cors.defaultCORSConfig) = None ->
             Reply.header reply name = Reply.header response name))
  /\ (forall w',
        Worker.handleRequest request clock reads w = Reply.Thrown w' ->
        Worker.fetch request clock reads w = Reply.Thrown w').
Proof.
  intros Hm. rewrite (fetch_other _ _ _ _ Hm). split.
  - intros response w' ->. eexists. split; [reflexivity|].
    unfold Cors.addCORSHeaders, Hardening.addSecurityHeaders, Reply.header.
    cbn [Reply.rp_status Reply.rp_body Reply.rp_headers].
    rewrite default_cors_headers.
    assert (Hother : forall name,
              Http.headers_lookup name
                (Hardening.SECURITY_HEADERS
                 ++ Cors.getCORSHeaders None Cors.defaultCORSConfig) = None ->
              Http.headers_lookup name
                (Reply.setAll
                   [("Access-Control-Allow-Origin", "*");
                    ("Access-Control-Allow-Methods", "GET, POST, PUT, DELETE, OPTIONS");
                    ("Access-Control-Allow-Headers", "Content-Type, Authorization");
                    ("Access-Control-Max-Age", "86400")]
                   (Reply.setAll Hardening.SECURITY_HEADERS (Reply.rp_headers response)))
              = Http.headers_lookup name (Reply.rp_headers response)).
    { intros name Hname. rewrite headers_lookup_app in Hname.
      destruct (Http.headers_lookup name Hardening.SECURITY_HEADERS) eqn:Hsec;
        [discriminate|].
      rewrite setAll_other by exact Hname. now apply setAll_other. }
    split; [reflexivity|]. split; [reflexivity|].
    split.
    { repeat constructor; cbn [fst snd];
        rewrite !headers_lookup_setAll; reflexivity. }
    repeat split; try (rewrite !headers_lookup_setAll; reflexivity);
      try (apply Hother; reflexivity).
  - now intros w' ->.
Qed.

Lemma answers_carry_security_and_cors_headers_witness :
  exists reply,
    Worker.fetch (H := Reference.jose) (H0 := Reference.bcrypt)
      (Sample.request "GET" "/api/health" [] [] Sample.noBody)
      (Sample.at_ 2000000)
      {| Worker.handlerReads := Sample.reads; Worker.rowid := 9;
         Worker.currentTimestamp := "2024-02-01 00:00:00" |}
      (Sample.env, ∅)
    = Reply.Replied reply (Sample.env, ∅)
    /\ Reply.rp_status reply = 200
    /\ Reply.header reply "Access-Control-Allow-Origin" = Some "*".
Proof.
  destruct (answers_carry_security_and_cors_headers Reference.jose Reference.bcrypt
              (Sample.request "GET" "/api/health" [] [] Sample.noBody)
              (Sample.at_ 2000000)
              {| Worker.handlerReads := Sample.reads; Worker.rowid := 9;
                 Worker.currentTimestamp := "2024-02-01 00:00:00" |}
              (Sample.env, ∅)) as [Hreplied _].
  - discriminate.
  - destruct (Hreplied
                (Reply.ofResponse (Response.success (Response.DHealth 2000000) 200))
                (Sample.env, ∅) eq_refl)
      as (reply & Hfetch & Hstatus & _ & _ & Horigin & _).
    exists reply. repeat split; assumption.
Defined.

(** ** CORS with a list of origins *)

Section CorsOrigins.

Import JS Response Reply Cors.

Lemma listIncludes_In (l : list string) (s : string) :
  listIncludes l s = true <-> In s l.
Proof.
  unfold listIncludes. rewrite existsb_exists. split.
  - intros (x & Hin & Heq). apply String.eqb_eq in Heq. now subst.
  - intros Hin. exists s. split; [exact Hin | apply String.eqb_refl].
Qed.

(** The origin the headers name, when the list has no wildcard. *)
Lemma getCORSHeaders_origin (origin : option string) (config : CORSConfig) :
  listIncludes (allowOrigins config) "*" = false ->
  let echoed :=
    match origin with
    | Some o => if truthy o && listIncludes (allowOrigins config) o then Some o else None
    | None => None
    end in
  let headers := getCORSHeaders origin config in
  Http.headers_lookup "Access-Control-Allow-Origin" headers = echoed
  /\ Http.headers_lookup "Access-Control-Allow-Origin" (rev headers) = echoed
  /\ Http.headers_lookup "Vary" headers = option_map (fun _ => "Origin") echoed
  /\ Http.headers_lookup "Vary" (rev headers) = option_map (fun _ => "Origin") echoed.
Proof.
  intros Hstar. unfold getCORSHeaders. rewrite Hstar.
  destruct origin as [o|]; [destruct (truthy o && listIncludes (allowOrigins config) o)|];
    destruct (maxAge config); destruct (allowCredentials config) as [[|]|];
    repeat split; reflexivity.
Qed.

End CorsOrigins.

(** X3. When the list of allowed origins has no wildcard, a CORS answer (a
    preflight answer, or a response that did not name an origin before the
    headers were added) names an origin only if it is the request's
    [Origin], not empty and on the list, and then it also carries
    [Vary: Origin]; a request from a listed origin always gets its origin
    back. An origin outside the list is never echoed. *)
Theorem cors_echoes_only_listed_origins (request : Http.Request) (response : Reply.Reply)
    (config : Cors.CORSConfig) (reply : Reply.Reply) :
  Cors.listIncludes (Cors.allowOrigins config) "*" = false ->
  Reply.header response "Access-Control-Allow-Origin" = None ->
  reply = Cors.handlePreflight request config
  \/ reply = Cors.addCORSHeaders response request config ->
  (forall o,
     Reply.header reply "Access-Control-Allow-Origin" = Some o ->
     Http.headers_get request "Origin" = Some o
     /\ o <> ""
     /\ In o (Cors.allowOrigins config)
     /\ Reply.header reply "Vary" = Some "Origin")
  /\ (forall o,
        Http.headers_get request "Origin" = Some o -> o <> "" ->
        In o (Cors.allowOrigins config) ->
        Reply.header reply "Access-Control-Allow-Origin" = Some o).
Proof.
  intros Hstar Hnone Hreply.
  destruct (getCORSHeaders_origin (Http.headers_get request "Origin") config Hstar)
    as (Ho & Hor & Hv & Hvr).
  assert (Hheader :
    Reply.header reply "Access-Control-Allow-Origin"
    = match Http.headers_get request "Origin" with
      | Some o =>
          if JS.truthy o && Cors.listIncludes (Cors.allowOrigins config) o
          then Some o else None
      | None => None
      end
    /\ (Reply.header reply "Access-Control-Allow-Origin" <> None ->
        Reply.header reply "Vary" = Some "Origin")).
  { destruct Hreply as [-> | ->]; unfold Reply.header, Cors.handlePreflight,
      Cors.addCORSHeaders; cbn [Reply.rp_headers].
    - rewrite Ho, Hv. split; [reflexivity|].
      now destruct (match Http.headers_get request "Origin" with Some _ => _ | None => _ end).
    - rewrite !headers_lookup_setAll, Hor, Hvr. unfold Reply.header in Hnone.
      rewrite Hnone.
      destruct (match Http.headers_get request "Origin" with Some _ => _ | None => _ end);
        split; try reflexivity; congruence. }
  destruct Hheader as [Hheader Hvary]. split.
  - intros o Hsome. rewrite Hheader in Hsome.
    destruct (Http.headers_get request "Origin") as [o'|]; [|discriminate].
    destruct (JS.truthy o' && Cors.listIncludes (Cors.allowOrigins config) o') eqn:Hok;
      [|discriminate].
    injection Hsome as ->. apply andb_true_iff in Hok as [Ht Hin].
    repeat split.
    + now apply truthy_true.
    + now apply listIncludes_In.
    + apply Hvary. rewrite Hheader. discriminate.
  - intros o Horigin Hne Hin. rewrite Hheader, Horigin.
    apply truthy_true in Hne. apply listIncludes_In in Hin. now rewrite Hne, Hin.
Qed.

Lemma cors_echoes_only_listed_origins_witness :
  let config :=
    {| Cors.allowOrigins := ["https://blog.example"];
       Cors.allowMethods := ["GET"];
       Cors.allowHeaders := ["Content-Type"];
       Cors.maxAge := None;
       Cors.allowCredentials := Some true |} in
  let request origin :=
    Sample.request "GET" "/api/articles" [] [("Origin", origin)] Sample.noBody in
  let response := Reply.success Reply.PNull 200 in
  Reply.header (Cors.addCORSHeaders response (request "https://blog.example") config)
    "Access-Control-Allow-Origin" = Some "https://blog.example"
  /\ Reply.header (Cors.addCORSHeaders response (request "https://evil.example") config)
       "Access-Control-Allow-Origin" <> Some "https://evil.example".
Proof.
  intros config request response. split.
  - destruct (cors_echoes_only_listed_origins (request "https://blog.example") response
                config (Cors.addCORSHeaders response (request "https://blog.example") config)
                eq_refl eq_refl (or_intror eq_refl)) as [_ Hback].
    apply Hback; [reflexivity | discriminate | left; reflexivity].
  - destruct (cors_echoes_only_listed_origins (request "https://evil.example") response
                config (Cors.addCORSHeaders response (request "https://evil.example") config)
                eq_refl eq_refl (or_intror eq_refl)) as [Honly _].
    intros Hsome. destruct (Honly _ Hsome) as (_ & _ & [Hin | []] & _). discriminate Hin.
Defined.

(** ** Sanitising and random tokens *)

Section Sanitize.

Import JS Hardening Terms.

Lemma append_empty_r (a : string) : a +:+ "" = a.
Proof. induction a as [|c a IH]; [reflexivity|]. now rewrite append_cons, IH. Qed.

Lemma replaceAll_app (c : ascii) (by_ a b : string) :
  replaceAll c by_ (a +:+ b) = replaceAll c by_ a +:+ replaceAll c by_ b.
Proof.
  induction a as [|d a IH]; [now rewrite !append_empty|].
  rewrite append_cons. cbn [replaceAll]. rewrite IH.
  destruct (Ascii.eqb d c); [now rewrite append_assoc | now rewrite append_cons].
Qed.

Lemma replaceAll_other (c d : ascii) (by_ s : string) :
  Ascii.eqb d c = false -> replaceAll c by_ (String d s) = String d (replaceAll c by_ s).
Proof. intros H. cbn [replaceAll]. now rewrite H. Qed.

(** The five passes amount to one: no pass touches what an earlier pass
    wrote. *)
Lemma sanitizeString_escapeAll (input : string) : sanitizeString input = escapeAll input.
Proof.
  induction input as [|d s IH]; [reflexivity|].
  cbn [escapeAll]. rewrite <- IH. unfold sanitizeString, escape.
  destruct (Ascii.eqb d "<") eqn:H1.
  { apply Ascii.eqb_eq in H1. subst d. cbn [replaceAll]. rewrite Ascii.eqb_refl.
    now rewrite !replaceAll_app. }
  rewrite (replaceAll_other "<") by exact H1.
  destruct (Ascii.eqb d ">") eqn:H2.
  { apply Ascii.eqb_eq in H2. subst d. cbn [replaceAll]. rewrite Ascii.eqb_refl.
    now rewrite !replaceAll_app. }
  rewrite (replaceAll_other ">") by exact H2.
  destruct (Ascii.eqb d "034") eqn:H3.
  { apply Ascii.eqb_eq in H3. subst d. cbn [replaceAll]. rewrite Ascii.eqb_refl.
    now rewrite !replaceAll_app. }
  rewrite (replaceAll_other "034") by exact H3.
  destruct (Ascii.eqb d "'") eqn:H4.
  { apply Ascii.eqb_eq in H4. subst d. cbn [replaceAll]. rewrite Ascii.eqb_refl.
    now rewrite !replaceAll_app. }
  rewrite (replaceAll_other "'") by exact H4.
  destruct (Ascii.eqb d "/") eqn:H5.
  { apply Ascii.eqb_eq in H5. subst d. cbn [replaceAll]. now rewrite Ascii.eqb_refl. }
  now rewrite (replaceAll_other "/") by exact H5.
Qed.

Lemma list_ascii_app (a b : string) :
  list_ascii_of_string (a +:+ b)
  = (list_ascii_of_string a ++ list_ascii_of_string b)%list.
Proof.
  induction a as [|c a IH]; [now rewrite append_empty|].
  rewrite append_cons. cbn [list_ascii_of_string app]. now rewrite IH.
Qed.

Lemma escape_plain (c : ascii) : Forall (fun d => special d = false) (list_ascii_of_string (escape c)).
Proof.
  unfold escape.
  destruct (Ascii.eqb c "<") eqn:H1; [repeat constructor|].
  destruct (Ascii.eqb c ">") eqn:H2; [repeat constructor|].
  destruct (Ascii.eqb c "034") eqn:H3; [repeat constructor|].
  destruct (Ascii.eqb c "'") eqn:H4; [repeat constructor|].
  destruct (Ascii.eqb c "/") eqn:H5; [repeat constructor|].
  repeat constructor. unfold special. cbn [existsb]. now rewrite H1, H2, H3, H4, H5.
Qed.

Lemma escapeAll_plain (s : string) :
  Forall (fun d => special d = false) (list_ascii_of_string (escapeAll s)).
Proof.
  induction s as [|c s IH]; [constructor|].
  cbn [escapeAll]. rewrite list_ascii_app. apply Forall_app. split; [apply escape_plain | exact IH].
Qed.

Lemma escapeAll_fixed (s : string) :
  Forall (fun d => special d = false) (list_ascii_of_string s) -> escapeAll s = s.
Proof.
  induction s as [|c s IH]; [reflexivity|].
  cbn [list_ascii_of_string escapeAll]. rewrite Forall_cons. intros [Hc Hs].
  rewrite (IH Hs). unfold special in Hc. cbn [existsb] in Hc.
  repeat (apply orb_false_iff in Hc as [? Hc]). unfold escape.
  now repeat match goal with H : Ascii.eqb c _ = false |- _ => rewrite H; clear H end.
Qed.

Lemma escapeAll_app (a b : string) : escapeAll (a +:+ b) = escapeAll a +:+ escapeAll b.
Proof.
  induction a as [|c a IH]; [now rewrite !append_empty|].
  rewrite append_cons. cbn [escapeAll]. now rewrite IH, append_assoc.
Qed.

Lemma escape_length (c : ascii) : (1 <= String.length (escape c))%nat.
Proof.
  unfold escape.
  repeat match goal with |- context [if ?b then _ else _] => destruct b end;
    cbn [String.length]; lia.
Qed.

Lemma append_length (a b : string) :
  String.length (a +:+ b) = (String.length a + String.length b)%nat.
Proof.
  induction a as [|c a IH]; [now rewrite append_empty|].
  rewrite append_cons. cbn [String.length]. now rewrite IH.
Qed.

End Sanitize.

(** X4. What [sanitizeString] returns has none of the five characters it
    replaces ([<], [>], the double quote, the single quote, [/]), so
    sanitising twice is sanitising once; a string without them is returned
    as it is; the result is never shorter than the input; and sanitising a
    concatenation is concatenating the sanitised parts: the five passes act
    as one character-by-character pass, because no pass rewrites what an
    earlier one produced. *)
Theorem sanitizeString_leaves_no_markup :
  (forall input c,
     Terms.special c = true ->
     ~ In c (list_ascii_of_string (Hardening.sanitizeString input)))
  /\ (forall input,
        Hardening.sanitizeString (Hardening.sanitizeString input)
        = Hardening.sanitizeString input)
  /\ (forall input,
        (forall c, In c (list_ascii_of_string input) -> Terms.special c = false) ->
        Hardening.sanitizeString input = input)
  /\ (forall input,
        (String.length input <= String.length (Hardening.sanitizeString input))%nat)
  /\ (forall a b,
        Hardening.sanitizeString (a +:+ b)
        = Hardening.sanitizeString a +:+ Hardening.sanitizeString b)
  /\ (forall input, Hardening.sanitizeString input = Terms.escapeAll input).
Proof.
  split; [|split; [|split; [|split; [|split]]]].
  - intros input c Hc Hin. rewrite sanitizeString_escapeAll in Hin.
    pose proof (escapeAll_plain input) as Hall. rewrite List.Forall_forall in Hall.
    apply Hall in Hin. congruence.
  - intros input. rewrite !sanitizeString_escapeAll.
    apply escapeAll_fixed, escapeAll_plain.
  - intros input Hplain. rewrite sanitizeString_escapeAll.
    apply escapeAll_fixed, List.Forall_forall, Hplain.
  - intros input. rewrite sanitizeString_escapeAll.
    induction input as [|c s IH]; [reflexivity|].
    cbn [Terms.escapeAll String.length]. rewrite append_length.
    pose proof (escape_length c). lia.
  - intros a b. rewrite !sanitizeString_escapeAll. apply escapeAll_app.
  - apply sanitizeString_escapeAll.
Qed.

Section SecureToken.

Import JS Hardening Terms.

Lemma join_empty_cons (x : string) (l : list string) : join "" (x :: l) = x +:+ join "" l.
Proof.
  destruct l as [|y l]; cbn [join].
  - now rewrite append_empty_r.
  - now rewrite append_empty.
Qed.

(** A byte is written as two lower-case hexadecimal digits that spell it. *)
Lemma parseHex_byte (b : Byte.byte) (rest : string) :
  parseHex (padStart 2 "0" (toString16 b) +:+ rest)
  = match parseHex rest with Some bytes => Some (b :: bytes) | None => None end.
Proof. destruct b; reflexivity. Qed.

Lemma byte_length (b : Byte.byte) : String.length (padStart 2 "0" (toString16 b)) = 2%nat.
Proof. destruct b; reflexivity. Qed.

Lemma byte_digits (b : Byte.byte) :
  Forall (fun c => hexValue c <> None)
    (list_ascii_of_string (padStart 2 "0" (toString16 b))).
Proof. destruct b; repeat constructor; discriminate. Qed.

Lemma parseHex_generateSecureToken (array : list Byte.byte) :
  parseHex (generateSecureToken array) = Some array.
Proof.
  unfold generateSecureToken.
  induction array as [|b array IH]; [reflexivity|].
  cbn [map]. now rewrite join_empty_cons, parseHex_byte, IH.
Qed.

End SecureToken.

(** X5. [generateSecureToken] writes every random byte as exactly two
    lower-case hexadecimal digits, a byte below 16 with a leading zero: the
    token has twice as many characters as bytes were drawn, all of them in
    [0-9a-f], and the bytes can be read back from it, so two different
    draws never give the same token. *)
Theorem generateSecureToken_is_two_hex_digits_per_byte :
  (forall array,
     String.length (Hardening.generateSecureToken array) = (2 * length array)%nat)
  /\ (forall array,
        Forall (fun c => Terms.hexValue c <> None)
          (list_ascii_of_string (Hardening.generateSecureToken array)))
  /\ (forall array, Terms.parseHex (Hardening.generateSecureToken array) = Some array)
  /\ (forall a b,
        Hardening.generateSecureToken a = Hardening.generateSecureToken b -> a = b).
Proof.
  split; [|split; [|split]].
  - intros array. unfold Hardening.generateSecureToken.
    induction array as [|b array IH]; [reflexivity|].
    cbn [map length]. rewrite join_empty_cons, append_length, byte_length, IH. lia.
  - intros array. unfold Hardening.generateSecureToken.
    induction array as [|b array IH]; [constructor|].
    cbn [map]. rewrite join_empty_cons, list_ascii_app. apply Forall_app.
    split; [apply byte_digits | exact IH].
  - apply parseHex_generateSecureToken.
  - intros a b Heq.
    pose proof (parseHex_generateSecureToken a) as Ha.
    rewrite Heq, parseHex_generateSecureToken in Ha. congruence.
Qed.

(** ** The login limiter across clients and requests *)

Section LimiterStore.

Import JS Response Env Security Index Spec.

Lemma checkRateLimit_other (key k : string) (config : RateLimitConfig) (now : Z)
    (store : gmap string RateLimitRecord) :
  k <> key -> snd (checkRateLimit key config now store) !! k = store !! k.
Proof.
  intros Hk. unfold checkRateLimit.
  destruct (store !! key) as [record|] eqn:Hrec.
  - destruct (resetTime record <? now).
    + rewrite lookup_delete_eq. cbn [snd].
      rewrite lookup_insert_ne, lookup_delete_ne by congruence. reflexivity.
    + rewrite Hrec. destruct (maxRequests config <=? count record); cbn [snd];
        [reflexivity|]. now rewrite lookup_insert_ne by congruence.
  - rewrite Hrec. cbn [snd]. now rewrite lookup_insert_ne by congruence.
Qed.

Lemma checkRateLimit_same (key : string) (config : RateLimitConfig) (now : Z)
    (store store' : gmap string RateLimitRecord) :
  store' !! key = store !! key ->
  fst (checkRateLimit key config now store') = fst (checkRateLimit key config now store).
Proof.
  intros Heq. unfold checkRateLimit. rewrite Heq.
  destruct (store !! key) as [record|] eqn:Hrec.
  - destruct (resetTime record <? now).
    + now rewrite !lookup_delete_eq.
    + rewrite Heq, Hrec. now destruct (maxRequests config <=? count record).
  - now rewrite Heq, Hrec.
Qed.

(** The record of the key after a call: a new window, or the record that
    was there, counted once more unless it had reached the maximum. *)
Lemma checkRateLimit_key (key : string) (config : RateLimitConfig) (now : Z)
    (store : gmap string RateLimitRecord) :
  exists r',
    snd (checkRateLimit key config now store) !! key = Some r'
    /\ (r' = {| count := 1; resetTime := now + windowMs config |}
        \/ exists r,
             store !! key = Some r
             /\ resetTime r' = resetTime r
             /\ (r' = r /\ maxRequests config <= count r
                 \/ count r' = count r + 1 /\ count r < maxRequests config)).
Proof.
  unfold checkRateLimit.
  destruct (store !! key) as [record|] eqn:Hrec.
  - destruct (resetTime record <? now).
    + rewrite lookup_delete_eq. cbn [snd]. rewrite lookup_insert_eq. eauto.
    + rewrite Hrec. destruct (maxRequests config <=? count record) eqn:Hmax; cbn [snd].
      * rewrite Hrec. apply Z.leb_le in Hmax. eexists. split; [reflexivity|].
        right. exists record. auto.
      * rewrite lookup_insert_eq. apply Z.leb_gt in Hmax. eexists. split; [reflexivity|].
        right. exists record. cbn [count resetTime]. auto.
  - rewrite Hrec. cbn [snd]. rewrite lookup_insert_eq. eauto.
Qed.

Context {J : Jwt.Jose}.

Lemma handleRequest_login request env clock store :
  Http.pathname request = "/api/login" -> Http.method request = "POST" ->
  handleRequest request env clock store = loginRoute request clock store.
Proof. intros Hp Hm. unfold handleRequest. now rewrite Hp, Hm. Qed.

Lemma handleRequest_not_login request env clock store :
  ~ (Http.pathname request = "/api/login" /\ Http.method request = "POST") ->
  snd (handleRequest request env clock store) = store.
Proof.
  intros Hno. unfold handleRequest, same.
  destruct (String.eqb_spec (Http.pathname request) "/api/login") as [Hp|Hp];
    [destruct (String.eqb_spec (Http.method request) "POST") as [Hm|Hm]|];
    cbn [andb]; try reflexivity.
  now destruct Hno.
Qed.

Lemma loginRoute_store request clock store :
  snd (loginRoute request clock store)
  = snd (checkRateLimit ("login:" +:+ getClientIP request)
           {| maxRequests := 5; windowMs := 60000 |} (atRateLimit clock) store).
Proof.
  unfold loginRoute. destruct (checkRateLimit _ _ _ store) as [result store'].
  cbn [snd]. destruct (negb (allowed result)); [reflexivity|].
  now destruct (negb (valid _)).
Qed.

Lemma loginRoute_answer request clock store store' :
  fst (checkRateLimit ("login:" +:+ getClientIP request)
         {| maxRequests := 5; windowMs := 60000 |} (atRateLimit clock) store')
  = fst (checkRateLimit ("login:" +:+ getClientIP request)
           {| maxRequests := 5; windowMs := 60000 |} (atRateLimit clock) store) ->
  fst (loginRoute request clock store') = fst (loginRoute request clock store).
Proof.
  unfold loginRoute.
  destruct (checkRateLimit _ _ _ store') as [result' s'].
  destruct (checkRateLimit _ _ _ store) as [result s]. cbn [fst]. intros ->.
  destruct (negb (allowed result)); [reflexivity|].
  now destruct (negb (valid _)).
Qed.

Lemma login_key_inj (a b : string) : "login:" +:+ a = "login:" +:+ b -> a = b.
Proof. rewrite !append_cons, !append_empty. now intros [= ->]. Qed.

End LimiterStore.

(** X6. The rate-limit store is written by [POST /api/login] only, and a
    login attempt writes only the record of its own client address (the
    key ["login:" + getClientIP(request)]), which exists afterwards; every
    other record stays as it was, expired or not.  The answer to a login
    attempt depends on the store only through the record of its own
    client, so the attempts of one address never use up or reset the
    allowance of another. *)
Theorem login_limit_is_per_client (J : Jwt.Jose) (request : Http.Request) (env : Env.Env)
    (clock : Index.Clock) (store : gmap string Security.RateLimitRecord) :
  let key := "login:" +:+ Security.getClientIP request in
  let after := snd (Index.handleRequest request env clock store) in
  (~ (Http.pathname request = "/api/login" /\ Http.method request = "POST") ->
   after = store)
  /\ (forall k, k <> key -> after !! k = store !! k)
  /\ (Http.pathname request = "/api/login" -> Http.method request = "POST" ->
      is_Some (after !! key))
  /\ (forall store',
        store' !! key = store !! key ->
        fst (Index.handleRequest request env clock store')
        = fst (Index.handleRequest request env clock store))
  /\ (forall other clock',
        Security.getClientIP other <> Security.getClientIP request ->
        fst (Index.handleRequest request env clock
               (snd (Index.handleRequest other env clock' store)))
        = fst (Index.handleRequest request env clock store)).
Proof.
  intros key after.
  assert (Hnot : ~ (Http.pathname request = "/api/login" /\ Http.method request = "POST") ->
                 after = store) by apply handleRequest_not_login.
  assert (Hother : forall request' clock' k,
            k <> "login:" +:+ Security.getClientIP request' ->
            snd (Index.handleRequest request' env clock' store) !! k = store !! k).
  { intros request' clock' k Hk.
    destruct (String.eqb_spec (Http.pathname request') "/api/login") as [Hp|Hp];
      [destruct (String.eqb_spec (Http.method request') "POST") as [Hm|Hm]|].
    - rewrite (handleRequest_login _ _ _ _ Hp Hm), loginRoute_store.
      now apply checkRateLimit_other.
    - rewrite handleRequest_not_login; tauto.
    - rewrite handleRequest_not_login; tauto. }
  assert (Hsame : forall store',
            store' !! key = store !! key ->
            fst (Index.handleRequest request env clock store')
            = fst (Index.handleRequest request env clock store)).
  { intros store' Heq. unfold Index.handleRequest.
    destruct (Index.same (Http.pathname request) "/api/login"
              && Index.same (Http.method request) "POST"); [|reflexivity].
    apply loginRoute_answer, checkRateLimit_same, Heq. }
  split; [exact Hnot|]. split; [apply Hother|]. split; [|split; [exact Hsame|]].
  - intros Hp Hm. subst after. rewrite (handleRequest_login _ _ _ _ Hp Hm), loginRoute_store.
    destruct (checkRateLimit_key key {| Security.maxRequests := 5; Security.windowMs := 60000 |}
                (Index.atRateLimit clock) store) as (r' & Hr' & _).
    fold key. rewrite Hr'. eauto.
  - intros other clock' Hip. apply Hsame, Hother. subst key.
    intros Heq. apply login_key_inj in Heq. congruence.
Qed.

Section LimiterInvariant.

Import JS Response Env Security Index Spec Terms.

Context {J : Jwt.Jose}.

Lemma recorded_step seen request clock env store :
  recorded seen store ->
  recorded (seen ++ [(request, clock)]) (snd (handleRequest request env clock store)).
Proof.
  intros Hrec k r Hk.
  assert (Hold : forall k r, store !! k = Some r ->
            1 <= count r <= 5
            /\ exists request' clock',
                 In (request', clock') (seen ++ [(request, clock)])
                 /\ Http.pathname request' = "/api/login" /\ Http.method request' = "POST"
                 /\ k = "login:" +:+ getClientIP request'
                 /\ resetTime r = atRateLimit clock' + 60000).
  { intros k0 r0 Hk0. destruct (Hrec k0 r0 Hk0) as (Hc & rq & cl & Hin & Hrest).
    split; [exact Hc|]. exists rq, cl. split; [apply in_or_app; now left | exact Hrest]. }
  destruct (String.eqb_spec (Http.pathname request) "/api/login") as [Hp|Hp];
    [destruct (String.eqb_spec (Http.method request) "POST") as [Hm|Hm]|];
    try (rewrite handleRequest_not_login in Hk by tauto; now apply Hold).
  rewrite (handleRequest_login _ _ _ _ Hp Hm), loginRoute_store in Hk.
  destruct (String.eqb_spec k ("login:" +:+ getClientIP request)) as [->|Hne].
  - destruct (checkRateLimit_key ("login:" +:+ getClientIP request)
                {| maxRequests := 5; windowMs := 60000 |} (atRateLimit clock) store)
      as (r' & Hr' & Hcases).
    rewrite Hr' in Hk. injection Hk as <-.
    destruct Hcases as [-> | (r0 & Hr0 & Hreset & Hcount)].
    + cbn [count resetTime maxRequests windowMs]. split; [lia|].
      exists request, clock. split; [apply in_or_app; right; now left | auto].
    + destruct (Hold _ _ Hr0) as (Hc & rq & cl & Hin & Hrp & Hrm & Hrk & Hrt).
      cbn [maxRequests] in Hcount. split.
      * destruct Hcount as [[-> _] | [-> Hlt]]; lia.
      * exists rq, cl. rewrite Hreset. auto.
  - rewrite checkRateLimit_other in Hk by exact Hne. now apply Hold.
Qed.

Lemma recorded_all env requests seen store :
  recorded seen store ->
  recorded (seen ++ requests) (snd (handleAll env requests store)).
Proof.
  revert seen store. induction requests as [|[request clock] rest IH]; intros seen store Hrec.
  - cbn [handleAll snd]. now rewrite app_nil_r.
  - cbn [handleAll].
    pose proof (recorded_step seen request clock env store Hrec) as Hstep.
    destruct (handleRequest request env clock store) as [o store1]. cbn [snd] in Hstep.
    specialize (IH _ _ Hstep).
    destruct (handleAll env rest store1) as [os store2]. cbn [snd] in *.
    now rewrite <- app_assoc in IH.
Qed.

End LimiterInvariant.

(** X7. Whatever requests an isolate has handled since it started with an
    empty rate-limit store, every record of the store belongs to a
    [POST /api/login] that was handled: its key is ["login:"] followed by
    the client address of that request, its window ends 60 000 ms after
    that request's reading of the clock, and its count is between 1 and 5.
    The limiter never counts past its maximum. *)
Theorem login_counters_stay_between_one_and_five (J : Jwt.Jose) (env : Env.Env)
    (requests : list (Http.Request * Index.Clock)) (k : string)
    (r : Security.RateLimitRecord) :
  snd (Spec.handleAll env requests ∅) !! k = Some r ->
  1 <= Security.count r <= 5
  /\ exists request clock,
       In (request, clock) requests
       /\ Http.pathname request = "/api/login" /\ Http.method request = "POST"
       /\ k = "login:" +:+ Security.getClientIP request
       /\ Security.resetTime r = Index.atRateLimit clock + 60000.
Proof.
  intros Hk.
  refine (recorded_all env requests [] ∅ _ k r Hk).
  intros k0 r0 H0. rewrite lookup_empty in H0. discriminate.
Qed.

Lemma login_counters_stay_between_one_and_five_witness :
  exists r,
    snd (Spec.handleAll (H := Reference.jose) Sample.env
           [(Sample.login "203.0.113.7", Sample.at_ 1000);
            (Sample.login "203.0.113.7", Sample.at_ 2000)] ∅)
    !! "login:203.0.113.7" = Some r
    /\ 1 <= Security.count r <= 5.
Proof.
  exists {| Security.count := 2; Security.resetTime := 61000 |}.
  assert (Hk : snd (Spec.handleAll (H := Reference.jose) Sample.env
                      [(Sample.login "203.0.113.7", Sample.at_ 1000);
                       (Sample.login "203.0.113.7", Sample.at_ 2000)] ∅)
               !! "login:203.0.113.7"
               = Some {| Security.count := 2; Security.resetTime := 61000 |})
    by (vm_compute; reflexivity).
  split; [exact Hk|].
  exact (proj1 (login_counters_stay_between_one_and_five Reference.jose Sample.env _ _ _ Hk)).
Defined.

(** ** From login to the gate *)

Section LoginThenGate.

Import JS Response Env Jwt Auth Security Index Spec.

Context {J : Jose} {L : JoseLaws J}.

Lemma signToken_Some (sub username secret token : string) (signedAt : Z) :
  signToken sub username secret signedAt = Some token ->
  token = jose_sign {| j_sub := CString sub;
                       j_username := CString username;
                       j_iat := CNumber (floorDiv1000 signedAt);
                       j_exp := CNumber (floorDiv1000 signedAt + TOKEN_EXPIRATION_SECONDS) |}
            secret.
Proof. unfold signToken. destruct (jose_signs secret); [now intros [= <-] | discriminate]. Qed.

Lemma bearer_token_extracts request sub username secret signedAt token :
  signToken sub username secret signedAt = Some token ->
  bearer request token ->
  extractBearerToken (Http.headers_get request "Authorization") = Some token.
Proof. intros Ht. rewrite (signToken_Some _ _ _ _ _ Ht). apply bearer_signed_extracts. Qed.

Lemma verifyToken_expired (sub username secret token : string) (signedAt nowMs : Z) :
  signToken sub username secret signedAt = Some token ->
  floorDiv1000 signedAt + TOKEN_EXPIRATION_SECONDS <= floorDiv1000 nowMs ->
  verifyToken token secret nowMs = None.
Proof.
  intros Ht Hlate. rewrite (signToken_Some _ _ _ _ _ Ht). apply verifyToken_refused.
  apply (verify_expired _ _ (floorDiv1000 signedAt + TOKEN_EXPIRATION_SECONDS));
    [reflexivity | exact Hlate].
Qed.

Lemma verifyToken_other_secret (sub username secret secret' token : string)
    (signedAt nowMs : Z) :
  signToken sub username secret signedAt = Some token ->
  secret <> secret' ->
  verifyToken token secret' nowMs = None.
Proof.
  intros Ht Hne. rewrite (signToken_Some _ _ _ _ _ Ht). apply verifyToken_refused.
  now apply verify_other_key.
Qed.

Lemma accepted_is_not401 request env clock store user :
  isProtectedPath (Http.pathname request) = true ->
  authMiddleware request env (atVerify clock) = User user ->
  not401 (fst (handleRequest request env clock store)).
Proof.
  intros Hp Ha. rewrite (handleRequest_protected _ _ _ _ Hp), Ha. cbn [fst].
  destruct (protectedRoutes request) as [o|] eqn:Hr.
  - now apply (protectedRoutes_not401 request).
  - apply fallThrough_not401.
Qed.

End LoginThenGate.

(** X8. The token a successful login returns opens the gate for the
    administrator who logged in, and only while it lasts.  The
    administrator is the first row of [admins] whose username is the one
    the login body sent, and [compare] matched the password sent against
    that row's hash.  Sent as [Authorization: Bearer <token>] on a
    protected path, the token makes [authMiddleware] return that
    administrator's id (as a string) and the username sent as long as the
    verifier's clock is before second [floor(signedAt / 1000) + 86400],
    and the dispatcher does not answer 401; from that second on the
    dispatcher answers 401 ["Invalid or expired token"], and it does so at
    any time once [JWT_SECRET] has been changed.  The [expiresAt] that the
    login reports is computed from a later reading of the clock, so it is
    never before the token's own expiry. *)
Theorem login_token_opens_the_gate_until_it_expires (J : Jwt.Jose) (L : Jwt.JoseLaws J)
    (B : Login.Bcrypt) (login : Http.Request) (env : Env.Env) (signedAt expiryAt : Z)
    (response : Response.Response) (token : string) (expiresAt : Z)
    (request : Http.Request) (clock : Index.Clock)
    (store : gmap string Security.RateLimitRecord) :
  Login.handleLogin login env signedAt expiryAt = Some response ->
  Response.r_body response = Response.Success (Response.DLogin token expiresAt) ->
  Index.isProtectedPath (Http.pathname request) = true ->
  Spec.bearer request token ->
  let expiry := JS.floorDiv1000 signedAt + 86400 in
  exists fields username password admin before after,
    Http.json (Http.body login) = Some (JS.JObject fields)
    /\ Articles.property "username" fields = Some (JS.JString username)
    /\ Articles.property "password" fields = Some (JS.JString password)
    /\ Env.admins (Env.DB env) = (before ++ admin :: after)%list
    /\ Forall (fun a => Env.ad_username a <> username) before
    /\ Env.ad_username admin = username
    /\ Login.compare password (Env.ad_password_hash admin) = Some true
    /\ (JS.floorDiv1000 (Index.atVerify clock) < expiry ->
        Auth.authMiddleware request env (Index.atVerify clock)
        = Auth.User {| Response.sub := pretty (Env.ad_id admin);
                       Response.username := username;
                       Response.iat := JS.floorDiv1000 signedAt;
                       Response.exp := expiry |}
        /\ Spec.not401 (fst (Index.handleRequest request env clock store)))
    /\ (expiry <= JS.floorDiv1000 (Index.atVerify clock) ->
        Index.handleRequest request env clock store
        = (Index.Respond (Response.unauthorized "Invalid or expired token"), store))
    /\ (forall secret,
          secret <> Env.JWT_SECRET env ->
          Index.handleRequest request
            {| Env.DB := Env.DB env; Env.BUCKET := Env.BUCKET env;
               Env.JWT_SECRET := secret |}
            clock store
          = (Index.Respond (Response.unauthorized "Invalid or expired token"), store))
    /\ (signedAt <= expiryAt -> expiry <= expiresAt).
Proof.
  intros Hlogin Hbody Hp Hb expiry.
  destruct (handleLogin_success login env signedAt expiryAt response _ Hlogin Hbody)
    as (fields & username & password & admin & token' & Hjson & Hu & Hpass & Hadmin & Hpw
        & Htoken & ->).
  cbn [Response.r_body Response.success] in Hbody. injection Hbody as <- <-.
  apply requiredString_Some in Hu as [Hu _]. apply requiredString_Some in Hpass as [Hpass _].
  destruct (selectAdmin_Some _ _ _ Hadmin) as (before & after & Hsplit & Hname & Hfirst).
  rewrite Hname in Htoken.
  pose proof (bearer_token_extracts _ _ _ _ _ _ Htoken Hb) as Hextract.
  exists fields, username, password, admin, before, after.
  split; [exact Hjson|]. split; [exact Hu|]. split; [exact Hpass|].
  split; [exact Hsplit|]. split; [exact Hfirst|]. split; [exact Hname|].
  split; [exact Hpw|]. split; [|split; [|split]].
  - intros Hlive.
    assert (Hauth : Auth.authMiddleware request env (Index.atVerify clock)
                    = Auth.User {| Response.sub := pretty (Env.ad_id admin);
                                   Response.username := username;
                                   Response.iat := JS.floorDiv1000 signedAt;
                                   Response.exp := expiry |}).
    { unfold Auth.authMiddleware. rewrite Hextract.
      now rewrite (verifyToken_signToken _ _ _ _ _ _ Htoken) by exact Hlive. }
    split; [exact Hauth|].
    now apply (accepted_is_not401 request env clock store _ Hp Hauth).
  - intros Hlate. apply (rejected_by_gate _ _ _ _ _ Hp).
    apply (authMiddleware_bad_token _ _ _ _ Hextract).
    now apply (verifyToken_expired _ _ _ _ _ _ Htoken).
  - intros secret Hne. apply (rejected_by_gate _ _ _ _ _ Hp).
    apply (authMiddleware_bad_token _ _ _ _ Hextract).
    cbn [Env.JWT_SECRET]. apply (verifyToken_other_secret _ _ _ _ _ _ _ Htoken). congruence.
  - intros Hclock. unfold Jwt.getTokenExpirationSeconds, Jwt.TOKEN_EXPIRATION_SECONDS.
    subst expiry. unfold JS.floorDiv1000.
    pose proof (Z.div_le_mono signedAt expiryAt 1000 ltac:(lia) Hclock). lia.
Qed.

Lemma login_token_opens_the_gate_until_it_expires_witness :
  let request :=
    Sample.request "GET" "/api/admin/articles" []
      [("Authorization", "Bearer " +:+ Sample.token)] Sample.noBody in
  Auth.authMiddleware (H := Reference.jose) request Sample.env 2000000
  = Auth.User {| Response.sub := "1"; Response.username := "admin";
                 Response.iat := 1000; Response.exp := 87400 |}
  /\ Spec.not401
       (fst (Index.handleRequest (H := Reference.jose) request Sample.env
               (Sample.at_ 2000000) ∅))
  /\ Index.handleRequest (H := Reference.jose) request Sample.env (Sample.at_ 87400000) ∅
     = (Index.Respond (Response.unauthorized "Invalid or expired token"), ∅).
Proof.
  intros request.
  destruct (login_token_opens_the_gate_until_it_expires Reference.jose reference_laws
              Reference.bcrypt (Sample.login "203.0.113.7") Sample.env 1000000 1000000
              (Response.success (Response.DLogin Sample.token 87400) 200)
              Sample.token 87400 request)
    with (clock := Sample.at_ 2000000) (store := (∅ : gmap string Security.RateLimitRecord))
    as (fields & username & password & admin & before & after & Hjson & Hu & _ & Hsplit
        & Hfirst & Hname & _ & Hlive & _);
    [vm_compute; reflexivity | reflexivity | reflexivity | reflexivity |].
  destruct (login_token_opens_the_gate_until_it_expires Reference.jose reference_laws
              Reference.bcrypt (Sample.login "203.0.113.7") Sample.env 1000000 1000000
              (Response.success (Response.DLogin Sample.token 87400) 200)
              Sample.token 87400 request)
    with (clock := Sample.at_ 87400000) (store := (∅ : gmap string Security.RateLimitRecord))
    as (_ & _ & _ & _ & _ & _ & _ & _ & _ & _ & _ & _ & _ & _ & Hlate & _);
    [vm_compute; reflexivity | reflexivity | reflexivity | reflexivity |].
  injection Hjson as <-. cbn in Hu. injection Hu as <-.
  assert (Hadmin : admin = Sample.root).
  { destruct before as [|a before].
    - cbn in Hsplit. now injection Hsplit as <-.
    - cbn in Hsplit. injection Hsplit as <- Hrest. apply Forall_cons in Hfirst as [Hne _].
      now contradiction Hne. }
  subst admin.
  destruct Hlive as [Hauth Hnot]; [vm_compute; reflexivity|].
  split; [exact Hauth|]. split; [exact Hnot|].
  apply Hlate. vm_compute. discriminate.
Defined.

(** ** Routes *)

Section Routes.

Import JS Response Env Jwt Auth Security Index Spec Terms.

Lemma isDigit_value (c : ascii) :
  isDigit c = true ->
  digitValue c = Some (Z.of_N (N_of_ascii c) - 48) /\ 0 <= Z.of_N (N_of_ascii c) - 48 < 10.
Proof.
  unfold isDigit, digitValue. intros H. apply andb_true_iff in H as [H1 H2].
  apply N.leb_le in H1, H2.
  replace ((48 <=? Z.of_N (N_of_ascii c)) && (Z.of_N (N_of_ascii c) <=? 57)) with true
    by (symmetry; apply andb_true_iff; split; apply Z.leb_le; lia).
  split; [reflexivity | lia].
Qed.

Lemma decimalFrom_nonneg (s : string) (a : Z) :
  allDigits s = true -> 0 <= a -> 0 <= decimalFrom a s.
Proof.
  revert a. induction s as [|c s IH]; intros a Hall Ha; [exact Ha|].
  cbn [allDigits] in Hall. apply andb_true_iff in Hall as [Hc Hs].
  destruct (isDigit_value c Hc) as [_ Hrange]. cbn [decimalFrom]. apply IH; [exact Hs | lia].
Qed.

Lemma parseDigits_allDigits (s : string) (acc : option Z) :
  allDigits s = true ->
  match acc with Some a => True | None => s <> "" end ->
  parseDigits 10 s acc = Some (decimalFrom (match acc with Some a => a | None => 0 end) s).
Proof.
  revert acc. induction s as [|c s IH]; intros acc Hall Hacc.
  - destruct acc as [a|]; [reflexivity | congruence].
  - cbn [allDigits] in Hall. apply andb_true_iff in Hall as [Hc Hs].
    destruct (isDigit_value c Hc) as [Hd Hrange].
    cbn [parseDigits decimalFrom]. rewrite Hd.
    replace (Z.of_N (N_of_ascii c) - 48 <? 10) with true by (symmetry; apply Z.ltb_lt; lia).
    rewrite IH by (exact Hs || exact I). f_equal. f_equal. destruct acc as [a|]; lia.
Qed.

Lemma isDigit_plain (c : ascii) (s : string) :
  isDigit c = true ->
  trimStart (String c s) = String c s /\ c <> "-"%char /\ c <> "+"%char
  /\ (c = "0"%char \/ startsWith (String c s) "0x" = false /\ startsWith (String c s) "0X" = false).
Proof.
  intros H. unfold isDigit in H.
  destruct c as [[] [] [] [] [] [] [] []]; try discriminate H;
    repeat split; try discriminate; auto.
Qed.

(** A non-empty run of digits reads, in radix 10, as the double nearest to
    the integer it spells. *)
Lemma parseInt_digits (digits : string) :
  isDigits1 digits = true ->
  parseInt digits (Some 10) = toDouble (decimal digits) /\ 0 <= decimal digits.
Proof.
  destruct digits as [|c s]; [discriminate|]. cbn [isDigits1]. intros Hall.
  assert (Hc : isDigit c = true) by (cbn [allDigits] in Hall; now apply andb_true_iff in Hall).
  split; [|now apply decimalFrom_nonneg].
  pose proof (parseDigits_allDigits (String c s) None Hall ltac:(discriminate)) as Hm.
  destruct (isDigit_plain c s Hc) as (Htrim & Hminus & Hplus & _).
  unfold parseInt. rewrite Htrim.
  assert (Hsign : match String c s with
                  | String "-"%char r => (-1, r)
                  | String "+"%char r => (1, r)
                  | _ => (1, String c s)
                  end = (1, String c s)).
  { destruct c as [[] [] [] [] [] [] [] []]; try reflexivity; congruence. }
  rewrite Hsign. cbn -[parseDigits startsWith slice toDouble Z.mul]. rewrite Hm.
  now rewrite Z.mul_1_l.
Qed.

(** What a handler is called with is never [NaN] and never negative, and
    it is the integer the digits spell as long as that is at most 2^53. *)
Lemma toDouble_decimal (digits : string) :
  isDigits1 digits = true ->
  (toDouble (decimal digits) = Infinity
   \/ exists z, toDouble (decimal digits) = Num z /\ 0 <= z)
  /\ (decimal digits <= 2 ^ 53 -> toDouble (decimal digits) = Num (decimal digits)).
Proof.
  intros Hd. destruct (parseInt_digits digits Hd) as [_ Hpos]. split.
  - destruct (toDouble_nonneg _ Hpos) as [Hi | (z & Hz & Hz0 & _)]; [now left | right; eauto].
  - intros Hsmall. apply toDouble_exact. now rewrite Z.abs_eq.
Qed.

End Routes.

Section RouteTable.

Import JS Response Env Jwt Auth Security Index Spec Terms.

Lemma spanDigits_spec (s : string) :
  s = fst (spanDigits s) +:+ snd (spanDigits s) /\ allDigits (fst (spanDigits s)) = true.
Proof.
  induction s as [|c s [IH1 IH2]]; [split; reflexivity|].
  cbn [spanDigits]. destruct (isDigit c) eqn:Hc.
  - destruct (spanDigits s) as [d rest]. cbn [fst snd] in *.
    rewrite append_cons, <- IH1. cbn [allDigits]. now rewrite Hc, IH2.
  - cbn [fst snd]. rewrite append_empty. split; reflexivity.
Qed.

Lemma extractIdFromPath_Some (pathname prefix : string) (i : number) :
  extractIdFromPath pathname prefix = Some i ->
  exists digits,
    pathname = (prefix +:+ "/") +:+ digits +:+ ""
    /\ isDigits1 digits = true
    /\ i = toDouble (decimal digits).
Proof.
  unfold extractIdFromPath.
  destruct (startsWith pathname (prefix +:+ "/")) eqn:Hstart; [|discriminate].
  apply startsWith_app in Hstart as [rest ->].
  replace (String.length prefix + 1)%nat with (String.length (prefix +:+ "/"))
    by (rewrite append_length; reflexivity).
  rewrite slice_app.
  destruct (isDigits1 rest) eqn:Hd; [|discriminate]. intros [= <-].
  destruct (parseInt_digits rest Hd) as [Hz _].
  exists rest. rewrite append_empty_r. auto.
Qed.

Lemma matchIdWithSuffix_Some (pathname prefix suffix : string) (i : number) :
  matchIdWithSuffix pathname prefix suffix = Some i ->
  exists digits,
    pathname = (prefix +:+ "/") +:+ digits +:+ suffix
    /\ isDigits1 digits = true
    /\ i = toDouble (decimal digits).
Proof.
  unfold matchIdWithSuffix.
  destruct (startsWith pathname (prefix +:+ "/")) eqn:Hstart; [|discriminate].
  apply startsWith_app in Hstart as [rest ->].
  replace (String.length prefix + 1)%nat with (String.length (prefix +:+ "/"))
    by (rewrite append_length; reflexivity).
  rewrite slice_app.
  destruct (spanDigits_spec rest) as [Hrest Hall].
  destruct (spanDigits rest) as [digits after]. cbn [fst snd] in *.
  destruct (truthy digits && String.eqb after suffix) eqn:Hok; [|discriminate].
  apply andb_true_iff in Hok as [Ht Hs]. apply String.eqb_eq in Hs. subst after.
  intros [= <-].
  assert (Hd : isDigits1 digits = true).
  { destruct digits; [discriminate Ht | exact Hall]. }
  destruct (parseInt_digits digits Hd) as [Hz _].
  exists digits. rewrite Hrest. auto.
Qed.

Lemma route_inv (b : bool) (o o' : Outcome) : route b o = Some o' -> b = true /\ o' = o.
Proof. unfold route. destruct b; [now intros [= <-] | discriminate]. Qed.

Lemma routeId_inv matched ok h o :
  routeId matched ok h = Some o -> exists i, matched = Some i /\ ok = true /\ o = Invoke (h i).
Proof.
  unfold routeId. destruct matched as [i|]; [|discriminate].
  destruct ok; [intros [= <-]; eauto | discriminate].
Qed.

Lemma same_true (a b : string) : same a b = true -> a = b.
Proof. apply String.eqb_eq. Qed.

Ltac split_table H :=
  repeat (apply otherwise_Some in H; destruct H as [H | H]).

(** One line of the route table that leads to a handler. *)
Ltac on_route H :=
  first
    [ apply route_inv in H as [Hb Ho];
      apply andb_true_iff in Hb as [Hp Hm]; apply same_true in Hp, Hm;
      first [ injection Ho as ->
            | destruct (negb _); [discriminate Ho | injection Ho as ->] ];
      split; [exact Hm | exact Hp]
    | apply routeId_inv in H as (i & Hi & Hm & Ho); apply same_true in Hm;
      injection Ho as ->;
      split; [exact Hm|];
      first [ apply extractIdFromPath_Some in Hi | apply matchIdWithSuffix_Some in Hi ];
      exact Hi ].

Lemma publicRoutes_Invoke (request : Http.Request) (h : Handler) :
  publicRoutes request = Some (Invoke h) -> onRouteOf request h.
Proof. unfold publicRoutes. intros H. split_table H; on_route H. Qed.

Lemma protectedRoutes_Invoke (request : Http.Request) (h : Handler) :
  protectedRoutes request = Some (Invoke h) -> onRouteOf request h.
Proof. unfold protectedRoutes. intros H. split_table H; on_route H. Qed.

End RouteTable.

Section Dispatch.

Import JS Response Env Jwt Auth Security Index Spec Terms.

Context {J : Jose}.

Lemma publicRoutes_outcome (request : Http.Request) (o : Outcome) :
  publicRoutes request = Some o -> exists h, o = Invoke h.
Proof.
  unfold publicRoutes. intros H.
  repeat (apply otherwise_Some in H; destruct H as [H | H]);
    first [ apply route_inv in H as [_ ->]; eauto
          | apply routeId_inv in H as (i & _ & _ & ->); eauto ].
Qed.

Lemma startsWith_shorter (s a b : string) :
  startsWith s (a +:+ b) = true -> startsWith s a = true.
Proof.
  rewrite !startsWith_app. intros [rest ->]. exists (b +:+ rest). apply append_assoc.
Qed.

Lemma onRouteOf_api (request : Http.Request) (h : Handler) :
  onRouteOf request h -> startsWith (Http.pathname request) "/api/" = true.
Proof.
  intros [_ Hpath].
  destruct h; cbn [idOf pathOf fst snd] in Hpath;
    try (rewrite Hpath; reflexivity);
    destruct Hpath as (digits & -> & _); reflexivity.
Qed.

Lemma loginRoute_Invoke request clock store h :
  fst (loginRoute request clock store) = Invoke h -> h = HLogin.
Proof.
  unfold loginRoute. destruct (checkRateLimit _ _ _ store) as [result store'].
  destruct (negb (allowed result)); [discriminate|].
  destruct (negb (valid _)); [discriminate|]. cbn [fst]. congruence.
Qed.

(** A handler runs only for a request on its own route. *)
Lemma handleRequest_Invoke request env clock store h store' :
  handleRequest request env clock store = (Invoke h, store') -> onRouteOf request h.
Proof.
  unfold handleRequest.
  destruct (same (Http.pathname request) "/api/login" && same (Http.method request) "POST")
    eqn:Hlogin.
  - intros H. apply andb_true_iff in Hlogin as [Hp Hm]. apply same_true in Hp, Hm.
    assert (Hh : h = HLogin) by (apply (loginRoute_Invoke request clock store); now rewrite H).
    subst h. split; [exact Hm | exact Hp].
  - assert (Hfall : fallThrough request clock <> Invoke h)
      by (unfold fallThrough;
          destruct (same (Http.pathname request) "/api/health"
                    && same (Http.method request) "GET"); discriminate).
    intros [= H _]. destruct (publicRoutes request) as [o|] eqn:Hpublic.
    + subst o. now apply publicRoutes_Invoke.
    + destruct (isProtectedPath (Http.pathname request)); [|contradiction].
      destruct (authMiddleware request env (atVerify clock)); [|discriminate].
      destruct (protectedRoutes request) as [o|] eqn:Hprotected; [|contradiction].
      subst o. now apply protectedRoutes_Invoke.
Qed.

End Dispatch.

(** X9. The dispatcher delegates to a handler only for a request on that
    handler's own route: the request has the handler's method, and its
    path is the handler's path, where the id, if the handler takes one, is
    written as a non-empty run of decimal digits.  So a GET request only
    ever reaches the handlers that read, and a request with another method
    than GET, POST, PUT or DELETE reaches none.  The id a handler is
    called with is what [parseInt] makes of the digits: the double nearest
    to the integer they spell, which is that very integer as long as it is
    at most 2^53, is never [NaN] and never negative, and is [Infinity] for
    a run that is long enough. *)
Theorem handlers_run_only_on_their_routes (J : Jwt.Jose) (request : Http.Request)
    (env : Env.Env) (clock : Index.Clock) (store store' : gmap string Security.RateLimitRecord)
    (h : Index.Handler) :
  Index.handleRequest request env clock store = (Index.Invoke h, store') ->
  Http.method request = Terms.methodOf h
  /\ match Terms.idOf h with
     | None => Http.pathname request = fst (Terms.pathOf h)
     | Some i =>
         exists digits,
           Http.pathname request
           = fst (Terms.pathOf h) +:+ digits +:+ snd (Terms.pathOf h)
           /\ JS.isDigits1 digits = true
           /\ i = JS.parseInt digits (Some 10)
           /\ i = JS.toDouble (Terms.decimal digits)
           /\ (Terms.decimal digits <= 2 ^ 53 -> i = JS.Num (Terms.decimal digits))
           /\ (i = JS.Infinity \/ exists z, i = JS.Num z /\ 0 <= z)
     end.
Proof.
  intros Hrun. destruct (handleRequest_Invoke _ _ _ _ _ _ Hrun) as [Hm Hpath].
  split; [exact Hm|]. destruct (Terms.idOf h) as [i|]; [|exact Hpath].
  destruct Hpath as (digits & Hp & Hd & ->). exists digits.
  destruct (parseInt_digits digits Hd) as [Hparse _].
  destruct (toDouble_decimal digits Hd) as [Hsign Hexact]. auto 10.
Qed.

Lemma handlers_run_only_on_their_routes_witness :
  Http.method (Sample.request "DELETE" "/api/admin/article/42" []
                 [("Authorization", "Bearer " +:+ Sample.token)] Sample.noBody)
  = Terms.methodOf (Index.HDeleteArticle (JS.Num 42)).
Proof.
  exact (proj1 (handlers_run_only_on_their_routes Reference.jose
                  (Sample.request "DELETE" "/api/admin/article/42" []
                     [("Authorization", "Bearer " +:+ Sample.token)] Sample.noBody)
                  Sample.env (Sample.at_ 2000000) ∅ ∅
                  (Index.HDeleteArticle (JS.Num 42)) eq_refl)).
Defined.

(** X10. A request whose path does not begin with [/api/] is answered
    404 NOT_FOUND ["Endpoint not found"] whatever its method, headers and
    body: no handler runs, the gate is not consulted, and the rate-limit
    store is left as it was. *)
Theorem paths_outside_api_are_not_found (J : Jwt.Jose) (request : Http.Request)
    (env : Env.Env) (clock : Index.Clock) (store : gmap string Security.RateLimitRecord) :
  JS.startsWith (Http.pathname request) "/api/" = false ->
  Index.handleRequest request env clock store
  = (Index.Respond (Response.notFound "Endpoint not found"), store).
Proof.
  intros Hout.
  assert (Hsame : forall p, JS.startsWith p "/api/" = true ->
                            Index.same (Http.pathname request) p = false).
  { intros p Hp. unfold Index.same.
    destruct (String.eqb_spec (Http.pathname request) p) as [Heq|]; [|reflexivity].
    rewrite Heq in Hout. congruence. }
  unfold Index.handleRequest. rewrite (Hsame "/api/login") by reflexivity. cbn [andb].
  destruct (Index.publicRoutes request) as [o|] eqn:Hpublic.
  { destruct (publicRoutes_outcome _ _ Hpublic) as [h ->].
    apply publicRoutes_Invoke, onRouteOf_api in Hpublic. congruence. }
  unfold Index.isProtectedPath. rewrite (Hsame "/api/upload") by reflexivity.
  destruct (JS.startsWith (Http.pathname request) "/api/admin/") eqn:Hadmin.
  { apply (startsWith_shorter _ "/api/" "admin/") in Hadmin. congruence. }
  cbn [orb]. unfold Index.fallThrough. now rewrite (Hsame "/api/health") by reflexivity.
Qed.

Lemma paths_outside_api_are_not_found_witness :
  Index.handleRequest (H := Reference.jose)
    (Sample.request "POST" "/login" [] [] Sample.noBody) Sample.env (Sample.at_ 0) ∅
  = (Index.Respond (Response.notFound "Endpoint not found"), ∅).
Proof.
  apply (paths_outside_api_are_not_found Reference.jose
           (Sample.request "POST" "/login" [] [] Sample.noBody)).
  reflexivity.
Defined.

(** ** Articles: the administrator's delete, pin and detail *)

Section AdminArticleFacts.

Import JS Response Env Reply Articles AdminArticles Spec.

Lemma find_filter_out {A} (test : A -> bool) (l : list A) :
  List.find test (List.filter (fun x => negb (test x)) l) = None.
Proof.
  induction l as [|x l IH]; [reflexivity|]. cbn [List.filter].
  destruct (test x) eqn:Hx; cbn [negb]; [exact IH|]. cbn [List.find]. now rewrite Hx.
Qed.

Lemma filter_out_In {A} (test : A -> bool) (l : list A) (x : A) :
  In x (List.filter (fun x => negb (test x)) l) <-> In x l /\ test x = false.
Proof. rewrite filter_In, negb_true_iff. reflexivity. Qed.

Lemma selectArticle_deleted (i : Z) (db : D1Database) :
  selectArticle i (deleteArticle i db) = None.
Proof. unfold selectArticle, deleteArticle. cbn [articles]. apply find_filter_out. Qed.

Lemma selectPublished_without_row (i : Z) (db : D1Database) :
  selectArticle i db = None -> selectPublished i db = None.
Proof.
  unfold selectArticle. intros Hnone. apply selectPublished_None. intros r Hin Hid.
  apply (find_none _ _ Hnone) in Hin. rewrite Hid, Z.eqb_refl in Hin. discriminate.
Qed.

Lemma links_deleted (i : Z) (t : Tag) (links : list ArticleTag) :
  List.filter (fun at' => (t_id t =? tag_id at') && (article_id at' =? i))
    (List.filter (fun at' => negb (article_id at' =? i)) links) = [].
Proof.
  induction links as [|l ls IH]; [reflexivity|].
  cbn [List.filter]. destruct (article_id l =? i) eqn:Hl; cbn [negb]; [exact IH|].
  cbn [List.filter]. rewrite Hl, andb_false_r. exact IH.
Qed.

Lemma tagsOf_deleted (i : Z) (db : D1Database) : tagsOf (deleteArticle i db) i = [].
Proof.
  unfold tagsOf, deleteArticle. cbn [tags_table article_tags].
  induction (tags_table db) as [|t ts IH]; [reflexivity|]. cbn [flat_map].
  now rewrite IH, links_deleted.
Qed.

End AdminArticleFacts.

(** X11. [DELETE /api/admin/article/:id] answers 404 and changes nothing
    when no article has the id.  Otherwise it answers 200 [{deleted:
    true}] and removes exactly the rows of [articles] with that id and the
    rows of [article_tags] that link it to tags; the other rows keep their
    order, and categories, tags, administrators and the bucket are as
    before.  Afterwards the article has no tags, the administrator's
    detail and the public detail answer 404 for the id, and deleting again
    answers 404. *)
Theorem delete_article_removes_row_and_links (env : Env.Env) (i : Z) :
  let reply := fst (AdminArticles.handleDeleteArticle env i) in
  let env' := snd (AdminArticles.handleDeleteArticle env i) in
  (Articles.selectArticle i (Env.DB env) = None ->
   reply = Reply.ofResponse (Response.notFound "Article not found") /\ env' = env)
  /\ (forall row,
        Articles.selectArticle i (Env.DB env) = Some row ->
        reply = Reply.success (Reply.PData Response.DDeleted) 200
        /\ (forall r, In r (Env.articles (Env.DB env'))
                      <-> In r (Env.articles (Env.DB env)) /\ Response.id (Env.cols r) <> i)
        /\ (forall l, In l (Env.article_tags (Env.DB env'))
                      <-> In l (Env.article_tags (Env.DB env)) /\ Env.article_id l <> i)
        /\ Env.articles (Env.DB env') `sublist_of` Env.articles (Env.DB env)
        /\ Env.categories (Env.DB env') = Env.categories (Env.DB env)
        /\ Env.tags_table (Env.DB env') = Env.tags_table (Env.DB env)
        /\ Env.admins (Env.DB env') = Env.admins (Env.DB env)
        /\ Env.BUCKET env' = Env.BUCKET env
        /\ Articles.tagsOf (Env.DB env') i = []
        /\ AdminArticles.handleGetAdminArticle env' i
           = Reply.ofResponse (Response.notFound "Article not found")
        /\ fst (Articles.handleGetArticle env' i) = Response.notFound "Article not found"
        /\ fst (AdminArticles.handleDeleteArticle env' i)
           = Reply.ofResponse (Response.notFound "Article not found")).
Proof.
  intros reply env'. subst reply env'. split.
  - intros Hnone. unfold AdminArticles.handleDeleteArticle. rewrite Hnone.
    split; reflexivity.
  - intros row Hrow.
    replace (AdminArticles.handleDeleteArticle env i)
      with (Reply.success (Reply.PData Response.DDeleted) 200,
            Env.with_DB env (AdminArticles.deleteArticle i (Env.DB env)))
      by (unfold AdminArticles.handleDeleteArticle; now rewrite Hrow).
    cbn [fst snd Env.DB Env.with_DB Env.BUCKET].
    split; [reflexivity|].
    split; [intros r; unfold AdminArticles.deleteArticle; cbn [Env.articles];
            rewrite filter_out_In, Z.eqb_neq; reflexivity|].
    split; [intros l; unfold AdminArticles.deleteArticle; cbn [Env.article_tags];
            rewrite filter_out_In, Z.eqb_neq; reflexivity|].
    split; [apply filter_sublist|].
    do 4 (split; [reflexivity|]).
    split; [apply tagsOf_deleted|].
    pose proof (selectArticle_deleted i (Env.DB env)) as Hgone.
    split; [|split].
    + unfold AdminArticles.handleGetAdminArticle. cbn [Env.DB Env.with_DB]. now rewrite Hgone.
    + unfold Articles.handleGetArticle. cbn [Env.DB Env.with_DB].
      pose proof (selectPublished_without_row i _ Hgone) as Hnone.
      rewrite (incrementViews_unseen _ _ Hnone), Hnone. reflexivity.
    + unfold AdminArticles.handleDeleteArticle. cbn [Env.DB Env.with_DB]. now rewrite Hgone.
Qed.

Section PinFacts.

Import JS Response Env Reply Articles AdminArticles Spec.

Lemma selectArticle_setPinned (i n : Z) (db : D1Database) :
  selectArticle i (setPinned i n db)
  = option_map (fun r => {| cols := cols r; is_pinned := n |}) (selectArticle i db).
Proof.
  unfold selectArticle, setPinned. cbn [articles with_articles].
  rewrite find_map_stable.
  - destruct (List.find _ (articles db)) as [r|] eqn:Hr; [|reflexivity].
    apply find_some in Hr as [_ Hid]. cbn [option_map]. now rewrite Hid.
  - intros r. now destruct (id (cols r) =? i) eqn:Hid.
Qed.

Lemma selectArticle_In (i : Z) (db : D1Database) (row : ArticleRow) :
  selectArticle i db = Some row -> In row (articles db) /\ id (cols row) = i.
Proof.
  unfold selectArticle. intros H. apply find_some in H as [Hin Hid].
  split; [exact Hin | now apply Z.eqb_eq].
Qed.

(** With a primary key, the row of an id is the one the SELECT finds. *)
Lemma primaryKey_row (i : Z) (db : D1Database) (row r : ArticleRow) :
  primaryKey db -> selectArticle i db = Some row ->
  In r (articles db) -> id (cols r) = i -> r = row.
Proof.
  intros Hpk Hrow Hin Hid. apply selectArticle_In in Hrow as [Hrin Hrid].
  apply (NoDup_inj_on (fun r => id (cols r)) (articles db)).
  - exact Hpk.
  - now apply list_elem_of_In.
  - now apply list_elem_of_In.
  - congruence.
Qed.

End PinFacts.

(** X12. [POST /api/admin/article/:id/pin] answers 404 and changes nothing
    when no article has the id.  Otherwise it turns the flag over: it
    answers 200 with [pinned] true and ["Article pinned"] when the flag was
    0, with [pinned] false and ["Article unpinned"] when it was anything
    else, writes 1 or 0 accordingly into the rows with that id, and leaves
    every other row, column and table alone.  A second call answers the
    opposite, and when ids are unique and the flag was 0 or 1 it puts the
    database back as it was. *)
Theorem pin_turns_the_flag_over (env : Env.Env) (i : Z) :
  let result := AdminArticles.handlePinArticle env i in
  (Articles.selectArticle i (Env.DB env) = None ->
   result = (Reply.ofResponse (Response.notFound "Article not found"), env))
  /\ (forall row,
        Articles.selectArticle i (Env.DB env) = Some row ->
        let wasPinned := negb (Env.is_pinned row =? 0) in
        fst result
        = Reply.success
            (Reply.PPinned (negb wasPinned)
               (if wasPinned then "Article unpinned" else "Article pinned")) 200
        /\ Env.articles (Env.DB (snd result))
           = map (fun r =>
                    if Response.id (Env.cols r) =? i
                    then {| Env.cols := Env.cols r;
                            Env.is_pinned := if wasPinned then 0 else 1 |}
                    else r)
               (Env.articles (Env.DB env))
        /\ Env.article_tags (Env.DB (snd result)) = Env.article_tags (Env.DB env)
        /\ Env.categories (Env.DB (snd result)) = Env.categories (Env.DB env)
        /\ Env.tags_table (Env.DB (snd result)) = Env.tags_table (Env.DB env)
        /\ Env.admins (Env.DB (snd result)) = Env.admins (Env.DB env)
        /\ Env.BUCKET (snd result) = Env.BUCKET env
        /\ fst (AdminArticles.handlePinArticle (snd result) i)
           = Reply.success
               (Reply.PPinned wasPinned
                  (if wasPinned then "Article pinned" else "Article unpinned")) 200
        /\ (Spec.primaryKey (Env.DB env) ->
            Env.is_pinned row = 0 \/ Env.is_pinned row = 1 ->
            snd (AdminArticles.handlePinArticle (snd result) i) = env)).
Proof.
  intros result. subst result. split.
  - intros Hnone. unfold AdminArticles.handlePinArticle. now rewrite Hnone.
  - intros row Hrow wasPinned.
    assert (Hfirst : AdminArticles.handlePinArticle env i
                     = (Reply.success
                          (Reply.PPinned (negb wasPinned)
                             (if wasPinned then "Article unpinned" else "Article pinned"))
                          200,
                        Env.with_DB env
                          (AdminArticles.setPinned i (if wasPinned then 0 else 1)
                             (Env.DB env)))).
    { unfold AdminArticles.handlePinArticle. rewrite Hrow. subst wasPinned.
      cbn [JS.truthyNum]. now destruct (Env.is_pinned row =? 0). }
    rewrite Hfirst. cbn [fst snd Env.DB Env.with_DB Env.BUCKET].
    do 7 (split; [reflexivity|]).
    assert (Hsecond : AdminArticles.handlePinArticle
                        (Env.with_DB env
                           (AdminArticles.setPinned i (if wasPinned then 0 else 1)
                              (Env.DB env))) i
                      = (Reply.success
                           (Reply.PPinned wasPinned
                              (if wasPinned then "Article pinned" else "Article unpinned"))
                           200,
                         Env.with_DB env
                           (AdminArticles.setPinned i (if wasPinned then 1 else 0)
                              (AdminArticles.setPinned i (if wasPinned then 0 else 1)
                                 (Env.DB env))))).
    { unfold AdminArticles.handlePinArticle. cbn [Env.DB Env.with_DB].
      rewrite selectArticle_setPinned, Hrow. cbn [option_map Env.is_pinned JS.truthyNum].
      now destruct wasPinned. }
    rewrite Hsecond. cbn [fst snd]. split; [reflexivity|].
    intros Hpk Hflag.
    replace (AdminArticles.setPinned i (if wasPinned then 1 else 0)
               (AdminArticles.setPinned i (if wasPinned then 0 else 1) (Env.DB env)))
      with (Env.DB env); [apply with_DB_same|].
    unfold AdminArticles.setPinned. cbn [Env.articles Env.with_articles].
    rewrite map_map. symmetry.
    etransitivity; [|apply with_articles_same]. unfold Env.with_articles. f_equal.
    etransitivity; [|apply map_id].
    apply map_ext_in. intros r Hin.
    destruct (Response.id (Env.cols r) =? i) eqn:Hid; cbn [Env.cols]; rewrite Hid; [|reflexivity].
    apply Z.eqb_eq in Hid.
    rewrite (primaryKey_row i (Env.DB env) row r Hpk Hrow Hin Hid).
    subst wasPinned. destruct row as [c p]. cbn [Env.cols Env.is_pinned] in *.
    destruct Hflag as [-> | ->]; reflexivity.
Qed.

(** ** What the readers see of a row *)

Section ReadersSeeColumns.

Import JS Response Env Reply Articles AdminArticles Spec.

(** A change of the rows of [articles] that keeps the selected columns. *)
Variable f : ArticleRow -> ArticleRow.
Hypothesis f_cols : forall r, cols (f r) = cols r.
Hypothesis f_update :
  forall g r, (forall a, id (g a) = id a) -> f (updateCols g r) = updateCols g (f r).

Lemma filter_map_same {A} (P : A -> bool) (F : A -> A) (l : list A) :
  (forall x, P (F x) = P x) -> List.filter P (map F l) = map F (List.filter P l).
Proof.
  intros HP. induction l as [|x l IH]; [reflexivity|]. cbn [map List.filter].
  rewrite HP. destruct (P x); cbn [map]; now rewrite IH.
Qed.

Lemma leftJoinTags_rows_changed (db : D1Database) :
  leftJoinTags (with_articles db (map f (articles db)))
  = map (fun p => (f (fst p), snd p)) (leftJoinTags db).
Proof.
  unfold leftJoinTags. cbn [articles article_tags with_articles].
  induction (articles db) as [|a rows IH]; [reflexivity|].
  change (map f (a :: rows)) with (f a :: map f rows). cbn [flat_map].
  rewrite map_app, IH, f_cols. f_equal.
  destruct (List.filter _ (article_tags db)) as [|l ls]; [reflexivity|].
  now rewrite map_map.
Qed.

Lemma fromArticles_rows_changed (db : D1Database) :
  fromArticles (with_articles db (map f (articles db)))
  = map (fun p => (f (fst p), snd p)) (fromArticles db).
Proof. unfold fromArticles. cbn [articles with_articles]. now rewrite !map_map. Qed.

Lemma publicMatches_rows_changed (db : D1Database) (params : ArticleListParams) :
  publicMatches (with_articles db (map f (articles db))) params
  = map (fun p => (f (fst p), snd p)) (publicMatches db params).
Proof.
  unfold publicMatches.
  destruct (activeFilter (p_tagId params));
    rewrite ?leftJoinTags_rows_changed, ?fromArticles_rows_changed;
    apply filter_map_same; intros p; unfold publicWhere; cbn [fst snd];
    now rewrite f_cols.
Qed.

Lemma publicRows_rows_changed (db : D1Database) (params : ArticleListParams) :
  publicRows (with_articles db (map f (articles db))) params = publicRows db params.
Proof.
  unfold publicRows. rewrite publicMatches_rows_changed, map_map. cbn [fst].
  do 2 f_equal. apply map_ext. intros p. apply f_cols.
Qed.

Lemma publicCount_rows_changed (db : D1Database) (params : ArticleListParams) :
  publicCount (with_articles db (map f (articles db))) params = publicCount db params.
Proof.
  unfold publicCount. rewrite publicMatches_rows_changed.
  destruct (activeFilter (p_tagId params)).
  - rewrite map_map. cbn [fst]. do 3 f_equal. apply map_ext. intros p. now rewrite f_cols.
  - now rewrite length_map.
Qed.

Lemma adminMatches_rows_changed (db : D1Database) (params : ArticleListParams) :
  adminMatches (with_articles db (map f (articles db))) params
  = map f (adminMatches db params).
Proof.
  unfold adminMatches. cbn [articles with_articles].
  apply filter_map_same. intros r. unfold adminWhere. now rewrite f_cols.
Qed.

Lemma adminRows_rows_changed (db : D1Database) (params : ArticleListParams) :
  adminRows (with_articles db (map f (articles db))) params = adminRows db params.
Proof.
  unfold adminRows. rewrite adminMatches_rows_changed, map_map. f_equal.
  apply map_ext. intros r. apply f_cols.
Qed.

Lemma adminCount_rows_changed (db : D1Database) (params : ArticleListParams) :
  adminCount (with_articles db (map f (articles db))) params = adminCount db params.
Proof. unfold adminCount. now rewrite adminMatches_rows_changed, length_map. Qed.

Lemma selectPublished_rows_changed (i : Z) (db : D1Database) :
  selectPublished i (with_articles db (map f (articles db))) = selectPublished i db.
Proof.
  unfold selectPublished. cbn [articles with_articles].
  rewrite find_map_stable by (intros r; now rewrite f_cols).
  destruct (List.find _ (articles db)); [|reflexivity]. cbn [option_map]. now rewrite f_cols.
Qed.

Lemma selectArticle_rows_changed (i : Z) (db : D1Database) :
  option_map cols (selectArticle i (with_articles db (map f (articles db))))
  = option_map cols (selectArticle i db).
Proof.
  unfold selectArticle. cbn [articles with_articles].
  rewrite find_map_stable by (intros r; now rewrite f_cols).
  destruct (List.find _ (articles db)); [|reflexivity]. cbn [option_map]. now rewrite f_cols.
Qed.

Lemma relatedArticlesOf_rows_changed (db : D1Database) (i : Z) (a : Article) :
  relatedArticlesOf (with_articles db (map f (articles db))) i a = relatedArticlesOf db i a.
Proof.
  unfold relatedArticlesOf. rewrite leftJoinTags_rows_changed.
  cbn [article_tags with_articles].
  rewrite filter_map_same by (intros p; cbn [fst snd]; now rewrite f_cols).
  rewrite map_map. cbn [fst]. do 3 f_equal. apply map_ext. intros p. now rewrite f_cols.
Qed.

Lemma incrementViews_rows_changed (i : Z) (db : D1Database) :
  incrementViews i (with_articles db (map f (articles db)))
  = with_articles (incrementViews i db) (map f (articles (incrementViews i db))).
Proof.
  unfold incrementViews. cbn [articles with_articles admins categories tags_table
                               article_tags].
  unfold with_articles. cbn [admins categories tags_table article_tags]. f_equal.
  rewrite !map_map. apply map_ext. intros r. rewrite f_cols.
  destruct ((id (cols r) =? i) && isPublished (cols r)); [|reflexivity].
  symmetry. apply f_update. reflexivity.
Qed.

Lemma handleGetArticles_rows_changed request env :
  handleGetArticles request (with_DB env (with_articles (DB env) (map f (articles (DB env)))))
  = handleGetArticles request env.
Proof.
  unfold handleGetArticles. cbn [DB with_DB].
  now rewrite publicRows_rows_changed, publicCount_rows_changed.
Qed.

Lemma handleGetAdminArticles_rows_changed request env :
  handleGetAdminArticles request
    (with_DB env (with_articles (DB env) (map f (articles (DB env)))))
  = handleGetAdminArticles request env.
Proof.
  unfold handleGetAdminArticles. cbn [DB with_DB].
  now rewrite adminRows_rows_changed, adminCount_rows_changed.
Qed.

Lemma handleGetArticle_rows_changed env i :
  fst (handleGetArticle (with_DB env (with_articles (DB env) (map f (articles (DB env))))) i)
  = fst (handleGetArticle env i).
Proof.
  unfold handleGetArticle. cbn [DB with_DB].
  rewrite incrementViews_rows_changed, selectPublished_rows_changed.
  destruct (selectPublished i (incrementViews i (DB env))) as [a|]; [|reflexivity].
  cbn [fst]. now rewrite relatedArticlesOf_rows_changed.
Qed.

Lemma handleGetAdminArticle_rows_changed env i :
  handleGetAdminArticle (with_DB env (with_articles (DB env) (map f (articles (DB env))))) i
  = handleGetAdminArticle env i.
Proof.
  unfold handleGetAdminArticle. cbn [DB with_DB].
  pose proof (selectArticle_rows_changed i (DB env)) as H.
  destruct (selectArticle i (with_articles _ _)) as [r'|];
    destruct (selectArticle i (DB env)) as [r|]; try discriminate H; [|reflexivity].
  cbn [option_map] in H. injection H as ->. reflexivity.
Qed.

Lemma handleLikeArticle_rows_changed request env i :
  fst (handleLikeArticle request
         (with_DB env (with_articles (DB env) (map f (articles (DB env))))) i)
  = fst (handleLikeArticle request env i).
Proof.
  unfold handleLikeArticle. cbn [DB with_DB]. rewrite selectPublished_rows_changed.
  destruct (selectPublished i (DB env)); [|reflexivity].
  now destruct (String.eqb (requestedAction request) "unlike").
Qed.

End ReadersSeeColumns.

(** X13. The pin flag is written and never read: after
    [POST /api/admin/article/:id/pin], whatever it answered, the public
    list, the administrator's list, the public detail, the administrator's
    detail and the like endpoint answer every request exactly as they
    would have before.  No list is ordered by the flag and no answer
    shows it. *)
Theorem pin_flag_is_never_read (env : Env.Env) (i : Z) :
  let env' := snd (AdminArticles.handlePinArticle env i) in
  (forall request,
     Articles.handleGetArticles request env' = Articles.handleGetArticles request env)
  /\ (forall request,
        Articles.handleGetAdminArticles request env'
        = Articles.handleGetAdminArticles request env)
  /\ (forall j, fst (Articles.handleGetArticle env' j) = fst (Articles.handleGetArticle env j))
  /\ (forall j,
        AdminArticles.handleGetAdminArticle env' j = AdminArticles.handleGetAdminArticle env j)
  /\ (forall request j,
        fst (Articles.handleLikeArticle request env' j)
        = fst (Articles.handleLikeArticle request env j)).
Proof.
  intros env'. subst env'. unfold AdminArticles.handlePinArticle.
  destruct (Articles.selectArticle i (Env.DB env)) as [row|]; cbn [snd];
    [|repeat split; reflexivity].
  unfold AdminArticles.setPinned.
  set (f := fun r : Env.ArticleRow =>
              if Response.id (Env.cols r) =? i
              then {| Env.cols := Env.cols r;
                      Env.is_pinned := if JS.truthyNum (JS.Num (Env.is_pinned row))
                                       then 0 else 1 |}
              else r).
  assert (Hcols : forall r, Env.cols (f r) = Env.cols r).
  { intros r. unfold f. now destruct (Response.id (Env.cols r) =? i). }
  assert (Hupdate : forall g r, (forall a, Response.id (g a) = Response.id a) ->
                    f (Articles.updateCols g r) = Articles.updateCols g (f r)).
  { intros g r Hg. unfold f, Articles.updateCols. cbn [Env.cols Env.is_pinned].
    rewrite Hg. now destruct (Response.id (Env.cols r) =? i). }
  split; [|split; [|split; [|split]]].
  - intros request. now apply handleGetArticles_rows_changed.
  - intros request. now apply handleGetAdminArticles_rows_changed.
  - intros j. now apply handleGetArticle_rows_changed.
  - intros j. now apply handleGetAdminArticle_rows_changed.
  - intros request j. now apply handleLikeArticle_rows_changed.
Qed.

(** ** Related articles, filters and order of the lists *)

Section Related.

Import JS Response Env Articles Spec.

Lemma leftJoinTags_link (db : D1Database) (a : ArticleRow) (l : ArticleTag) :
  In (a, Some l) (leftJoinTags db) ->
  In a (articles db) /\ In l (article_tags db) /\ article_id l = id (cols a).
Proof.
  unfold leftJoinTags. rewrite in_flat_map. intros (a' & Ha & Hr).
  destruct (List.filter _ (article_tags db)) as [|t ts] eqn:Hf.
  - destruct Hr as [[=] | []].
  - rewrite <- Hf in Hr. apply in_map_iff in Hr as (x & [= <- <-] & Hx).
    apply filter_In in Hx as [Hx Hid]. apply Z.eqb_eq in Hid. auto.
Qed.

End Related.

(** X14. The related articles of the public detail are at most four,
    without repetition, and each of them is another article (its id is not
    the requested one) that is published and that either has the category
    of the requested article (category 0 when it has none) or is linked to
    a tag the requested article is linked to.  A draft is never
    recommended, and neither is the article itself. *)
Theorem related_articles_are_published_neighbours (db : Env.D1Database) (i : Z)
    (a : Response.Article) :
  let related := Articles.relatedArticlesOf db i a in
  (length related <= 4)%nat
  /\ NoDup related
  /\ (forall x,
        In x related ->
        Response.r_id x <> i
        /\ exists row,
             In row (Env.articles db)
             /\ x = Articles.toRelated (Env.cols row)
             /\ Response.status (Env.cols row) = Response.published
             /\ (Response.category_id (Env.cols row)
                 = Some (match Response.category_id a with Some c => c | None => 0 end)
                 \/ exists t,
                      In {| Env.article_id := Response.id (Env.cols row); Env.tag_id := t |}
                        (Env.article_tags db)
                      /\ In {| Env.article_id := i; Env.tag_id := t |}
                           (Env.article_tags db))).
Proof.
  intros related. subst related. unfold Articles.relatedArticlesOf.
  split; [rewrite length_take; lia|]. split.
  - eapply sublist_NoDup; [|apply sublist_take].
    rewrite orderBy_Permutation. apply NoDup_remove_dups.
  - intros x Hx. apply list_elem_of_In in Hx.
    eapply elem_of_sublist in Hx; [|apply sublist_take].
    rewrite orderBy_Permutation, elem_of_remove_dups in Hx.
    apply list_elem_of_In, in_map_iff in Hx as ([row link] & <- & Hin).
    apply filter_In in Hin as [Hjoin Htest]. cbn [fst snd] in Htest.
    apply andb_true_iff in Htest as [Htest Hnear].
    apply andb_true_iff in Htest as [Hother Hpub].
    apply negb_true_iff, Z.eqb_neq in Hother.
    cbn [fst]. split; [exact Hother|]. exists row.
    split; [now apply (leftJoinTags_rows db (row, link))|].
    split; [reflexivity|].
    split; [unfold Articles.isPublished in Hpub; now destruct (Response.status (Env.cols row))|].
    apply orb_true_iff in Hnear as [Hcat | Htag].
    + left. now apply categoryIs_true.
    + right. destruct link as [l|]; [|discriminate].
      apply existsb_exists in Htag as (t & Ht & Heq). apply Z.eqb_eq in Heq.
      apply in_map_iff in Ht as (own & Hown & Hownin).
      apply filter_In in Hownin as [Hownin Hownid]. apply Z.eqb_eq in Hownid.
      apply leftJoinTags_link in Hjoin as (_ & Hl & Hlid).
      exists (Env.tag_id l). split.
      * destruct l as [la lt]. cbn [Env.article_id Env.tag_id] in *.
        rewrite <- Hlid. exact Hl.
      * destruct own as [oa ot]. cbn [Env.article_id Env.tag_id] in *.
        rewrite Heq, <- Hown, <- Hownid. exact Hownin.
Qed.

Section ListFilters.

Import JS Response Env Articles Spec.

(** A parameter that reads as a non-zero integer is the bound value. *)
Lemma activeFilter_number (v : option string) (s : string) (c : Z) :
  v = Some s -> parseInt s None = Num c -> c <> 0 ->
  activeFilter (optionalInt v) = Some (Num c).
Proof.
  intros -> Hparse Hc. unfold optionalInt.
  destruct (truthy s) eqn:Hs.
  - rewrite Hparse. cbn [activeFilter truthyNum]. apply Z.eqb_neq in Hc. now rewrite Hc.
  - apply truthy_false in Hs. subst s. discriminate Hparse.
Qed.

Lemma tagsOf_In (db : D1Database) (i : Z) (tag : Tag) :
  In tag (tagsOf db i)
  <-> In tag (tags_table db)
      /\ In {| article_id := i; tag_id := t_id tag |} (article_tags db).
Proof.
  unfold tagsOf. rewrite in_flat_map. split.
  - intros (t & Ht & Hin). apply in_map_iff in Hin as (l & <- & Hl).
    apply filter_In in Hl as [Hl Htest]. apply andb_true_iff in Htest as [H1 H2].
    apply Z.eqb_eq in H1, H2. split; [exact Ht|].
    destruct l as [la lt]. cbn [article_id tag_id] in *. now subst.
  - intros [Ht Hl]. exists tag. split; [exact Ht|]. apply in_map_iff.
    exists {| article_id := i; tag_id := t_id tag |}. split; [reflexivity|].
    apply filter_In. split; [exact Hl|]. cbn [article_id tag_id].
    now rewrite !Z.eqb_refl.
Qed.

(** What the public list returns: one selected row per element. *)
Lemma handleGetArticles_data request env p x :
  r_body (handleGetArticles request env) = Success (DArticles p) ->
  In x (data p) ->
  exists r,
    In r (publicMatches (DB env) (publicParams request))
    /\ x = withRelations (DB env) (cols (fst r)).
Proof.
  unfold handleGetArticles.
  destruct (limitOffset _ _ _) as [results|] eqn:Hq; [|discriminate].
  cbn [r_body success]. intros [= <-]. cbn [data]. intros Hx.
  apply in_map_iff in Hx as (a & <- & Ha).
  apply list_elem_of_In in Ha. eapply limitOffset_elem_of in Ha; [|exact Hq].
  apply publicRows_elem_of in Ha as (r & Hr & ->). eauto.
Qed.

End ListFilters.

(** X15. On the public list, a [categoryId] parameter that reads as a
    non-zero integer restricts the answer to articles of that category,
    and a [tagId] parameter that reads as a non-zero integer restricts it
    to articles linked to that tag; such an article shows the tag among
    its [tags] when the tag exists. *)
Theorem public_list_respects_category_and_tag (request : Http.Request) (env : Env.Env)
    (p : Response.PaginatedResponse Response.ArticleWithRelations) :
  Response.r_body (Articles.handleGetArticles request env)
  = Response.Success (Response.DArticles p) ->
  (forall s c,
     Http.searchParams_get request "categoryId" = Some s ->
     JS.parseInt s None = JS.Num c -> c <> 0 ->
     Forall (fun x => Response.category_id (Response.article x) = Some c) (Response.data p))
  /\ (forall s t,
        Http.searchParams_get request "tagId" = Some s ->
        JS.parseInt s None = JS.Num t -> t <> 0 ->
        Forall (fun x =>
                  In {| Env.article_id := Response.id (Response.article x); Env.tag_id := t |}
                    (Env.article_tags (Env.DB env))
                  /\ forall tag,
                       In tag (Env.tags_table (Env.DB env)) -> Response.t_id tag = t ->
                       In tag (Response.tags x))
          (Response.data p)).
Proof.
  intros Hbody. split.
  - intros s c Hs Hparse Hc. apply List.Forall_forall. intros x Hx.
    destruct (handleGetArticles_data _ _ _ _ Hbody Hx) as (r & Hr & ->).
    cbn [Articles.withRelations Response.article].
    unfold Articles.publicMatches in Hr. apply filter_In in Hr as [_ Hw].
    unfold Articles.publicWhere in Hw. apply andb_true_iff in Hw as [_ Hcat].
    unfold Articles.publicParams in Hcat. cbn [Articles.p_categoryId] in Hcat.
    rewrite (activeFilter_number _ s c Hs Hparse Hc) in Hcat.
    cbn [Articles.whenSome Articles.bound] in Hcat.
    now apply categoryIs_true.
  - intros s t Hs Hparse Ht. apply List.Forall_forall. intros x Hx.
    destruct (handleGetArticles_data _ _ _ _ Hbody Hx) as (r & Hr & ->).
    cbn [Articles.withRelations Response.article Response.tags].
    unfold Articles.publicMatches in Hr. apply filter_In in Hr as [Hjoin Hw].
    unfold Articles.publicParams in Hjoin, Hw. cbn [Articles.p_tagId] in Hjoin, Hw.
    rewrite (activeFilter_number _ s t Hs Hparse Ht) in Hjoin.
    unfold Articles.publicWhere in Hw. apply andb_true_iff in Hw as [Hw _].
    apply andb_true_iff in Hw as [_ Htag]. cbn [Articles.p_tagId] in Htag.
    rewrite (activeFilter_number _ s t Hs Hparse Ht) in Htag.
    cbn [Articles.whenSome Articles.bound] in Htag.
    destruct r as [row [l|]]; cbn [fst snd Articles.tagIs] in *; [|discriminate].
    apply Z.eqb_eq in Htag. apply leftJoinTags_link in Hjoin as (_ & Hl & Hid).
    assert (Hlink : In {| Env.article_id := Response.id (Env.cols row); Env.tag_id := t |}
                      (Env.article_tags (Env.DB env))).
    { destruct l as [la lt]. cbn [Env.article_id Env.tag_id] in *. now subst la lt. }
    split; [exact Hlink|]. intros tag Htable Htid. apply tagsOf_In.
    split; [exact Htable | now rewrite Htid].
Qed.

Lemma public_list_respects_category_and_tag_witness :
  exists p,
    Response.r_body
      (Articles.handleGetArticles
         (Sample.request "GET" "/api/articles" [("tagId", "7"); ("categoryId", "1")] []
            Sample.noBody) Sample.env)
    = Response.Success (Response.DArticles p)
    /\ length (Response.data p) = 2%nat
    /\ Forall (fun x => Response.category_id (Response.article x) = Some 1) (Response.data p).
Proof.
  eexists. split; [vm_compute; reflexivity|]. split; [reflexivity|].
  eapply (proj1 (public_list_respects_category_and_tag
                   (Sample.request "GET" "/api/articles"
                      [("tagId", "7"); ("categoryId", "1")] [] Sample.noBody)
                   Sample.env _ _) "1" 1).
  - reflexivity.
  - reflexivity.
  - discriminate.
  Unshelve. vm_compute. reflexivity.
Defined.

Section IgnoredFilters.

Import JS Response Env Articles Spec Terms.

Lemma searchParams_get_withoutParam (request : Http.Request) (name other : string) :
  Http.searchParams_get (withoutParam name request) other
  = if String.eqb other name then None else Http.searchParams_get request other.
Proof.
  unfold Http.searchParams_get, withoutParam. cbn [Http.searchParams].
  induction (Http.searchParams request) as [|[k v] rest IH]; cbn [List.filter Http.assoc fst].
  - now destruct (String.eqb other name).
  - destruct (String.eqb k name) eqn:Hk; cbn [negb Http.assoc].
    + apply String.eqb_eq in Hk. subst k. rewrite IH.
      now destruct (String.eqb other name).
    + rewrite IH. destruct (String.eqb other k) eqn:Ho; [|reflexivity].
      apply String.eqb_eq in Ho. subst other. now rewrite Hk.
Qed.

(** A parameter that does not read as a non-zero integer binds nothing. *)
Lemma activeFilter_inactive (v : option string) :
  (forall s, v = Some s -> parseInt s None = NaN \/ parseInt s None = Num 0) ->
  activeFilter (optionalInt v) = None.
Proof.
  intros Hv. destruct v as [s|]; [|reflexivity]. unfold optionalInt.
  destruct (truthy s); [|reflexivity].
  destruct (Hv s eq_refl) as [-> | ->]; reflexivity.
Qed.

(** The list queries read the two filters through [activeFilter] only. *)
Lemma publicRows_filters (db : D1Database) (params params' : ArticleListParams) :
  activeFilter (p_tagId params) = activeFilter (p_tagId params') ->
  activeFilter (p_categoryId params) = activeFilter (p_categoryId params') ->
  publicRows db params = publicRows db params'
  /\ publicCount db params = publicCount db params'.
Proof.
  intros Ht Hc. unfold publicRows, publicCount, publicMatches, publicWhere.
  rewrite Ht, Hc. split; reflexivity.
Qed.

Lemma adminRows_filters (db : D1Database) (params params' : ArticleListParams) :
  activeFilter (p_categoryId params) = activeFilter (p_categoryId params') ->
  p_status params = p_status params' ->
  adminRows db params = adminRows db params'
  /\ adminCount db params = adminCount db params'.
Proof.
  intros Hc Hs. unfold adminRows, adminCount, adminMatches, adminWhere.
  rewrite Hc, Hs. split; reflexivity.
Qed.

End IgnoredFilters.

(** X16. A [categoryId] or [tagId] parameter that does not read as a
    non-zero integer (empty, not a number, or 0) is ignored: both article
    lists answer exactly as if the parameter had not been sent, with the
    unfiltered list and its total, and not with an error or an empty
    page. *)
Theorem list_filter_that_is_not_an_id_is_ignored (request : Http.Request) (env : Env.Env)
    (name : string) :
  name = "categoryId" \/ name = "tagId" ->
  (forall s,
     Http.searchParams_get request name = Some s ->
     JS.parseInt s None = JS.NaN \/ JS.parseInt s None = JS.Num 0) ->
  Articles.handleGetArticles request env
  = Articles.handleGetArticles (Terms.withoutParam name request) env
  /\ Articles.handleGetAdminArticles request env
     = Articles.handleGetAdminArticles (Terms.withoutParam name request) env.
Proof.
  intros Hname Hvalue.
  pose proof (activeFilter_inactive _ Hvalue) as Hoff.
  assert (Hpublic : Articles.publicParams (Terms.withoutParam name request)
                    = {| Articles.p_page := Articles.p_page (Articles.publicParams request);
                         Articles.p_pageSize :=
                           Articles.p_pageSize (Articles.publicParams request);
                         Articles.p_categoryId :=
                           if String.eqb "categoryId" name then None
                           else Articles.p_categoryId (Articles.publicParams request);
                         Articles.p_tagId :=
                           if String.eqb "tagId" name then None
                           else Articles.p_tagId (Articles.publicParams request);
                         Articles.p_status := None |}).
  { unfold Articles.publicParams. rewrite !searchParams_get_withoutParam.
    destruct Hname as [-> | ->]; reflexivity. }
  assert (Hadmin : Articles.adminParams (Terms.withoutParam name request)
                   = {| Articles.p_page := Articles.p_page (Articles.adminParams request);
                        Articles.p_pageSize :=
                          Articles.p_pageSize (Articles.adminParams request);
                        Articles.p_categoryId :=
                          if String.eqb "categoryId" name then None
                          else Articles.p_categoryId (Articles.adminParams request);
                        Articles.p_tagId := None;
                        Articles.p_status := Articles.p_status (Articles.adminParams request) |}).
  { unfold Articles.adminParams. rewrite !searchParams_get_withoutParam.
    destruct Hname as [-> | ->]; reflexivity. }
  split.
  - unfold Articles.handleGetArticles. rewrite Hpublic. unfold Articles.offsetOf.
    cbn [Articles.p_page Articles.p_pageSize].
    match goal with
    | |- context [Articles.publicRows _ (Articles.Build_ArticleListParams ?a ?b ?c ?d ?e)] =>
        destruct (publicRows_filters (Env.DB env) (Articles.publicParams request)
                    (Articles.Build_ArticleListParams a b c d e))
          as [Hrows Hcount]
    end.
    + cbn [Articles.p_tagId]. destruct Hname as [-> | ->]; [reflexivity|].
      change (String.eqb "tagId" "tagId") with true. cbv iota.
      unfold Articles.publicParams. cbn [Articles.p_tagId]. exact Hoff.
    + cbn [Articles.p_categoryId]. destruct Hname as [-> | ->]; [|reflexivity].
      change (String.eqb "categoryId" "categoryId") with true. cbv iota.
      unfold Articles.publicParams. cbn [Articles.p_categoryId]. exact Hoff.
    + now rewrite <- Hrows, <- Hcount.
  - unfold Articles.handleGetAdminArticles. rewrite Hadmin. unfold Articles.offsetOf.
    cbn [Articles.p_page Articles.p_pageSize].
    match goal with
    | |- context [Articles.adminRows _ (Articles.Build_ArticleListParams ?a ?b ?c ?d ?e)] =>
        destruct (adminRows_filters (Env.DB env) (Articles.adminParams request)
                    (Articles.Build_ArticleListParams a b c d e))
          as [Hrows Hcount]
    end.
    + cbn [Articles.p_categoryId]. destruct Hname as [-> | ->]; [|reflexivity].
      change (String.eqb "categoryId" "categoryId") with true. cbv iota.
      unfold Articles.adminParams. cbn [Articles.p_categoryId]. exact Hoff.
    + reflexivity.
    + now rewrite <- Hrows, <- Hcount.
Qed.

Lemma list_filter_that_is_not_an_id_is_ignored_witness :
  Articles.handleGetArticles
    (Sample.request "GET" "/api/articles" [("categoryId", "tech")] [] Sample.noBody)
    Sample.env
  = Articles.handleGetArticles
      (Sample.request "GET" "/api/articles" [] [] Sample.noBody) Sample.env.
Proof.
  apply (list_filter_that_is_not_an_id_is_ignored
           (Sample.request "GET" "/api/articles" [("categoryId", "tech")] [] Sample.noBody)
           Sample.env "categoryId").
  - left. reflexivity.
  - intros s [= <-]. left. reflexivity.
Defined.

Section AdminStatus.

Import JS Response Env Articles Spec.

Lemma handleGetAdminArticles_data request env p :
  r_body (handleGetAdminArticles request env) = Success (DAdminArticles p) ->
  limitOffset (p_pageSize (adminParams request)) (offsetOf (adminParams request))
    (adminRows (DB env) (adminParams request)) = Some (data p)
  /\ total p = orZero (adminCount (DB env) (adminParams request)).
Proof.
  unfold handleGetAdminArticles.
  destruct (limitOffset _ _ _) as [results|] eqn:Hq; [|discriminate].
  cbn [r_body success]. intros [= <-]. cbn [data total]. auto.
Qed.

Lemma adminRows_elem_of (db : D1Database) (params : ArticleListParams) (a : Article) :
  a ∈ adminRows db params -> exists r, In r (adminMatches db params) /\ a = cols r.
Proof.
  unfold adminRows. rewrite orderBy_Permutation, list_elem_of_In, in_map_iff.
  intros (r & <- & Hr). eauto.
Qed.

Lemma limitOffset_nil {A} (limit offset : number) (results : list A) :
  limitOffset limit offset [] = Some results -> results = [].
Proof.
  intros Hq. apply limitOffset_Some in Hq as (l & o & ->).
  rewrite drop_nil. destruct (l <? 0); [reflexivity | apply take_nil].
Qed.

End AdminStatus.

(** X17. On the administrator's list, a non-empty [status] parameter
    restricts the answer to articles whose status is that very string. A
    value other than ["draft"] and ["published"] is not refused: it
    matches no article, and the answer is an empty page with total 0. *)
Theorem admin_list_filters_by_status (request : Http.Request) (env : Env.Env)
    (p : Response.PaginatedResponse Response.Article) (s : string) :
  Response.r_body (Articles.handleGetAdminArticles request env)
  = Response.Success (Response.DAdminArticles p) ->
  Http.searchParams_get request "status" = Some s -> s <> "" ->
  Forall (fun a => Response.statusToString (Response.status a) = s) (Response.data p)
  /\ (s <> "draft" -> s <> "published" -> Response.data p = [] /\ Response.total p = 0).
Proof.
  intros Hbody Hs Hne.
  destruct (handleGetAdminArticles_data _ _ _ Hbody) as [Hq Htotal].
  assert (Hstatus : Articles.p_status (Articles.adminParams request) = Some s).
  { unfold Articles.adminParams. cbn [Articles.p_status]. rewrite Hs.
    unfold Articles.optionalString. apply truthy_true in Hne. now rewrite Hne. }
  assert (Hmatch : forall r,
            In r (Articles.adminMatches (Env.DB env) (Articles.adminParams request)) ->
            Response.statusToString (Response.status (Env.cols r)) = s).
  { intros r Hr. unfold Articles.adminMatches in Hr. apply filter_In in Hr as [_ Hw].
    unfold Articles.adminWhere in Hw. apply andb_true_iff in Hw as [_ Hw].
    rewrite Hstatus in Hw. now apply String.eqb_eq in Hw. }
  split.
  - apply List.Forall_forall. intros a Ha. apply list_elem_of_In in Ha.
    eapply limitOffset_elem_of in Ha; [|exact Hq].
    apply adminRows_elem_of in Ha as (r & Hr & ->). now apply Hmatch.
  - intros Hd Hp.
    assert (Hnone : Articles.adminMatches (Env.DB env) (Articles.adminParams request) = []).
    { destruct (Articles.adminMatches _ _) as [|r rest]; [reflexivity|].
      specialize (Hmatch r (or_introl eq_refl)).
      destruct (Response.status (Env.cols r)); cbn in Hmatch; congruence. }
    unfold Articles.adminRows, Articles.adminCount in *. rewrite Hnone in *.
    split; [|exact Htotal]. now apply limitOffset_nil in Hq.
Qed.

Lemma admin_list_filters_by_status_witness :
  exists p,
    Response.r_body
      (Articles.handleGetAdminArticles
         (Sample.request "GET" "/api/admin/articles" [("status", "draft")] [] Sample.noBody)
         Sample.env)
    = Response.Success (Response.DAdminArticles p)
    /\ length (Response.data p) = 1%nat
    /\ Forall (fun a => Response.statusToString (Response.status a) = "draft")
         (Response.data p).
Proof.
  eexists. split; [vm_compute; reflexivity|]. split; [reflexivity|].
  eapply (proj1 (admin_list_filters_by_status
                   (Sample.request "GET" "/api/admin/articles" [("status", "draft")] []
                      Sample.noBody)
                   Sample.env _ "draft" _ eq_refl _)).
  Unshelve.
  - vm_compute. reflexivity.
  - discriminate.
Defined.

Section NewestFirst.

Import JS Response Env Articles Spec.

Lemma createdDesc_total : Total createdDesc.
Proof.
  intros a b. unfold createdDesc.
  destruct (String.leb_total (created_at a) (created_at b)); auto.
Qed.

Lemma HdRel_take {A} (R : A -> A -> Prop) (a : A) (n : nat) (l : list A) :
  HdRel R a l -> HdRel R a (take n l).
Proof. intros H. destruct n, l; cbn; try constructor. now inversion H. Qed.

Lemma Sorted_take {A} (R : A -> A -> Prop) (n : nat) (l : list A) :
  Sorted R l -> Sorted R (take n l).
Proof.
  revert n. induction l as [|a l IH]; intros n Hs; [now destruct n|].
  destruct n; [constructor|]. apply Sorted_inv in Hs as [Hs Hd]. cbn.
  constructor; [now apply IH | now apply HdRel_take].
Qed.

Lemma Sorted_drop {A} (R : A -> A -> Prop) (n : nat) (l : list A) :
  Sorted R l -> Sorted R (drop n l).
Proof.
  revert l. induction n as [|n IH]; intros l Hs; [exact Hs|].
  destruct l as [|a l]; [constructor|]. cbn. apply IH. now apply Sorted_inv in Hs.
Qed.

Lemma limitOffset_Sorted {A} (R : A -> A -> Prop) (limit offset : number)
    (rows results : list A) :
  limitOffset limit offset rows = Some results -> Sorted R rows -> Sorted R results.
Proof.
  intros Hq Hs. apply limitOffset_Some in Hq as (l & o & ->).
  destruct (l <? 0); [|apply Sorted_take]; now apply Sorted_drop.
Qed.

End NewestFirst.

(** X18. Both article lists come newest first: in the [data] of an
    answer, every article is followed by one whose [created_at] is not
    later (as strings, which is how the creation dates are stored and
    compared), on every page and under every filter. *)
Theorem article_lists_are_newest_first (request : Http.Request) (env : Env.Env) :
  (forall p,
     Response.r_body (Articles.handleGetArticles request env)
     = Response.Success (Response.DArticles p) ->
     Sorted (fun x y =>
               String.leb (Response.created_at (Response.article y))
                 (Response.created_at (Response.article x)) = true)
       (Response.data p))
  /\ (forall p,
        Response.r_body (Articles.handleGetAdminArticles request env)
        = Response.Success (Response.DAdminArticles p) ->
        Sorted (fun x y => String.leb (Response.created_at y) (Response.created_at x) = true)
          (Response.data p)).
Proof.
  split.
  - intros p. unfold Articles.handleGetArticles.
    destruct (Articles.limitOffset _ _ _) as [results|] eqn:Hq; [|discriminate].
    cbn [Response.r_body Response.success]. intros [= <-]. cbn [Response.data].
    apply (Sorted_fmap _ Articles.createdDesc); [intros x y Hxy; exact Hxy|].
    eapply limitOffset_Sorted; [exact Hq|].
    apply Sorted_orderBy, createdDesc_total.
  - intros p Hbody. destruct (handleGetAdminArticles_data _ _ _ Hbody) as [Hq _].
    eapply (limitOffset_Sorted Articles.createdDesc); [exact Hq|].
    apply Sorted_orderBy, createdDesc_total.
Qed.

(** ** Likes *)

Section LikeRoundTrip.

Import JS Response Env Articles Spec.

Lemma selectPublished_found (i : Z) (db : D1Database) (a : Article) :
  selectPublished i db = Some a ->
  exists row, In row (articles db) /\ cols row = a /\ id a = i.
Proof.
  unfold selectPublished. intros H.
  destruct (List.find _ (articles db)) as [row|] eqn:Hf; [|discriminate].
  injection H as <-. apply find_some in Hf as [Hin Htest].
  apply andb_true_iff in Htest as [Hid _]. apply Z.eqb_eq in Hid. eauto.
Qed.

Lemma setLikeCount_same (a : Article) (n m : Z) :
  like_count a = n -> setLikeCount (setLikeCount a m) n = a.
Proof. intros <-. now destruct a. Qed.

End LikeRoundTrip.

(** X19. [POST /api/article/:id/like] answers 404 and changes nothing when
    the id has no published article (a draft cannot be liked).  For a
    published article whose count is not negative, a like followed by an
    unlike reports the count it started from and, ids being unique, puts
    the database back exactly as it was. *)
Theorem like_then_unlike_restores_the_count (env : Env.Env) (i : Z)
    (like unlike : Http.Request) :
  (Articles.selectPublished i (Env.DB env) = None ->
   Articles.handleLikeArticle like env i = (Response.notFound "Article not found", env))
  /\ (forall a,
        Articles.selectPublished i (Env.DB env) = Some a ->
        0 <= Response.like_count a ->
        Spec.primaryKey (Env.DB env) ->
        ~ Spec.asksUnlike like -> Spec.asksUnlike unlike ->
        let liked := snd (Articles.handleLikeArticle like env i) in
        Articles.handleLikeArticle unlike liked i
        = (Response.success (Response.DLike false (Response.like_count a)) 200, env)).
Proof.
  split.
  - intros Hnone. unfold Articles.handleLikeArticle. now rewrite Hnone.
  - intros a Ha Hpos Hpk Hlike Hunlike liked. subst liked.
    unfold Articles.handleLikeArticle at 2.
    rewrite Ha, (requestedAction_like _ Hlike). cbn [String.eqb Ascii.eqb Bool.eqb snd].
    change (String.eqb "like" "unlike") with false. cbv iota. cbn [snd].
    unfold Articles.handleLikeArticle. cbn [Env.DB Env.with_DB].
    apply requestedAction_unlike in Hunlike. rewrite Hunlike.
    unfold Articles.incrementLikes at 1.
    rewrite (selectPublished_relike i (Env.DB env)
               (fun a => Articles.setLikeCount a (Response.like_count a + 1)))
      by (intros x; split; reflexivity).
    rewrite Ha. cbn [option_map Articles.setLikeCount Response.like_count].
    change (String.eqb "unlike" "unlike") with true. cbv iota.
    change (String.eqb "unlike" "like") with false.
    rewrite orZero_id.
    replace (Z.max 0 (Response.like_count a + 1 - 1)) with (Response.like_count a) by lia.
    f_equal.
    etransitivity; [|apply with_DB_same]. unfold Env.with_DB.
    cbn [Env.BUCKET Env.JWT_SECRET]. f_equal.
    unfold Articles.setLikes, Articles.incrementLikes.
    cbn [Env.articles Env.with_articles].
    etransitivity; [|apply with_articles_same]. unfold Env.with_articles.
    cbn [Env.admins Env.categories Env.tags_table Env.article_tags]. f_equal.
    rewrite map_map. etransitivity; [|apply map_id].
    apply map_ext_in. intros r Hin.
    destruct (Response.id (Env.cols r) =? i) eqn:Hid; [|now rewrite Hid].
    cbn [Env.cols Articles.updateCols Articles.setLikeCount Response.id]. rewrite Hid.
    apply Z.eqb_eq in Hid.
    destruct (selectPublished_found _ _ _ Ha) as (row & Hrow & Hcols & Hida).
    assert (Hr : r = row).
    { apply (NoDup_inj_on (fun r => Response.id (Env.cols r)) (Env.articles (Env.DB env)));
        [exact Hpk | now apply list_elem_of_In | now apply list_elem_of_In |].
      rewrite Hcols. congruence. }
    subst r. unfold Articles.updateCols. cbn [Env.cols Env.is_pinned].
    rewrite setLikeCount_same by (now rewrite Hcols). now destruct row.
Qed.

(** ** Uploads, case by case *)

Section UploadCases.

Import JS Response Env Upload Spec.

Lemma handleUpload_no_file (request : Http.Request) (env : Env) (timestamp : Z)
    (random : string) :
  Http.method request = "POST" -> uploadedFile request = None ->
  snd (handleUpload request env timestamp random) = env
  /\ r_status (fst (handleUpload request env timestamp random)) <> 201.
Proof.
  intros Hm. unfold uploadedFile, handleUpload. rewrite Hm.
  change (negb (String.eqb "POST" "POST")) with false. cbv iota.
  destruct (includes _ "multipart/form-data").
  - destruct (Http.formData (Http.body request)) as [[[f|s]|]|]; try discriminate; intros _.
    + destruct (negb (truthy s)); split; (reflexivity || discriminate).
    + split; (reflexivity || discriminate).
    + split; (reflexivity || discriminate).
  - destruct (Http.arrayBuffer (Http.body request)) as [b|]; [discriminate|]. intros _.
    destruct (negb (isValidImageType _)); split; (reflexivity || discriminate).
Qed.

(** An allowed type has its extension in the table. *)
Lemma generateUniqueFilename_allowed (type : string) (timestamp : Z) (random : string) :
  isValidImageType type = true ->
  exists ext,
    In (type, ext) MIME_TO_EXT
    /\ generateUniqueFilename type timestamp random
       = pretty timestamp +:+ "-" +:+ random +:+ ext.
Proof.
  unfold isValidImageType, ALLOWED_MIME_TYPES. cbn [existsb]. intros H.
  repeat (apply orb_true_iff in H as [H | H];
          [apply String.eqb_eq in H; subst type; eexists; split;
           [|reflexivity]; cbn; tauto|]).
  discriminate.
Qed.

End UploadCases.

(** X20. [handleUpload] writes to the bucket only when it answers 201,
    and it never touches the database.  It answers 201 exactly when the
    method is POST and the request carries a file (the [file] part of a
    multipart body, or the raw body) whose type is on the allow-list and
    whose size is between 1 byte and 10 MB; an empty file is refused.  The
    object is then stored with its bytes and type under
    [<timestamp>-<random><ext>], where [ext] is the extension the table
    gives for the type (never the fallback [.bin]), and the answer names
    that key and the URL [/uploads/<key>]; every other object of the
    bucket stays. *)
Theorem upload_writes_only_when_it_answers_201 (request : Http.Request) (env : Env.Env)
    (timestamp : Z) (random : string) :
  let result := Upload.handleUpload request env timestamp random in
  Env.DB (snd result) = Env.DB env
  /\ (Response.r_status (fst result) <> 201 -> snd result = env)
  /\ (Response.r_status (fst result) = 201
      <-> Http.method request = "POST"
          /\ exists type buffer,
               Spec.uploadedFile request = Some (type, buffer)
               /\ Upload.isValidImageType type = true
               /\ 0 < Z.of_N (Http.byteLength buffer) <= 10 * 1024 * 1024)
  /\ (Response.r_status (fst result) = 201 ->
      exists type buffer ext,
        Spec.uploadedFile request = Some (type, buffer)
        /\ In (type, ext) Upload.MIME_TO_EXT
        /\ let key := pretty timestamp +:+ "-" +:+ random +:+ ext in
           fst result = Response.success (Response.DUpload ("/uploads/" +:+ key) key) 201
           /\ Env.BUCKET (snd result)
              = <[key := {| Env.o_body := buffer; Env.o_contentType := type |}]>
                  (Env.BUCKET env)).
Proof.
  intros result. subst result.
  destruct (String.eqb_spec (Http.method request) "POST") as [Hm|Hm].
  2:{ assert (Hr : Upload.handleUpload request env timestamp random
                   = (Response.badRequest "Method not allowed", env)).
      { unfold Upload.handleUpload. apply String.eqb_neq in Hm. now rewrite Hm. }
      rewrite Hr. cbn [fst snd]. repeat split; try reflexivity; try discriminate.
      intros [Hpost _]. contradiction. }
  destruct (Spec.uploadedFile request) as [[type buffer]|] eqn:Hfile.
  2:{ destruct (handleUpload_no_file request env timestamp random Hm Hfile) as [Henv Hst].
      rewrite Henv. repeat split; try reflexivity; try contradiction.
      intros (_ & t & b & [=] & _). }
  rewrite (handleUpload_file _ _ _ _ _ _ Hm Hfile).
  destruct (Upload.isValidImageType type) eqn:Htype; cbn [negb].
  2:{ cbn [fst snd]. repeat split; try reflexivity; try discriminate.
      intros (_ & t & b & [= <- <-] & Hok & _). congruence. }
  destruct (Upload.isValidFileSize (Z.of_N (Http.byteLength buffer))) eqn:Hsize; cbn [negb].
  2:{ cbn [fst snd]. repeat split; try reflexivity; try discriminate.
      intros (_ & t & b & [= <- <-] & _ & Hrange).
      unfold Upload.isValidFileSize, Upload.MAX_FILE_SIZE in Hsize.
      apply andb_false_iff in Hsize as [H | H]; [apply Z.ltb_ge in H | apply Z.leb_gt in H];
        lia. }
  unfold Upload.store. cbn [fst snd Response.r_status Response.success].
  unfold Upload.put. cbn [Env.DB Env.BUCKET].
  split; [reflexivity|]. split; [intros H; now contradiction H|].
  split.
  - split; [|reflexivity]. intros _. split; [exact Hm|]. exists type, buffer.
    split; [reflexivity|]. split; [exact Htype|].
    unfold Upload.isValidFileSize, Upload.MAX_FILE_SIZE in Hsize.
    apply andb_true_iff in Hsize as [H1 H2]. apply Z.ltb_lt in H1. apply Z.leb_le in H2. lia.
  - intros _.
    destruct (generateUniqueFilename_allowed type timestamp random Htype) as (ext & Hext & Hname).
    exists type, buffer, ext. rewrite Hname. auto.
Qed.

(** ** Categories: create, update, list *)

Section CategoryFacts.

Import JS Response Env Reply Categories CategoryHandlers Spec.

(** What [handleCreateCategory] does once the body has a name and a slug. *)
Lemma handleCreateCategory_fields request env rowid now fields name slug :
  Http.json (Http.body request) = Some (JObject fields) ->
  requiredText "name" fields = Some name ->
  requiredText "slug" fields = Some slug ->
  handleCreateCategory request env rowid now
  = match selectBySlug slug (DB env) with
    | Some _ => Some (ofResponse (conflict "Category with this slug already exists"), env)
    | None =>
        match descriptionOf fields with
        | None => Some (ofResponse (internalError "Failed to create category"), env)
        | Some description =>
            match selectBySlug (trim slug) (DB env) with
            | Some _ => Some (ofResponse (internalError "Failed to create category"), env)
            | None =>
                let row := {| c_id := rowid; c_name := trim name; c_slug := trim slug;
                              c_description := description; c_created_at := now |} in
                Some (success (PCategory row) 201,
                      with_DB env (with_categories (DB env) (categories (DB env) ++ [row])))
            end
        end
    end.
Proof.
  intros Hjson Hname Hslug. unfold handleCreateCategory. rewrite Hjson, Hname, Hslug.
  destruct (selectBySlug slug (DB env)); [reflexivity|].
  destruct (descriptionOf fields) as [description|]; [|reflexivity].
  unfold insertCategory. now destruct (selectBySlug (trim slug) (DB env)).
Qed.

Lemma selectBySlug_None (slug : string) (db : D1Database) :
  selectBySlug slug db = None <-> ~ In slug (map c_slug (categories db)).
Proof.
  unfold selectBySlug. split.
  - intros Hnone Hin. apply in_map_iff in Hin as (c & Hc & Hin).
    apply (find_none _ _ Hnone) in Hin. rewrite Hc, String.eqb_refl in Hin. discriminate.
  - intros Hnot. destruct (List.find _ (categories db)) as [c|] eqn:Hf; [|reflexivity].
    apply find_some in Hf as [Hin Heq]. apply String.eqb_eq in Heq.
    destruct Hnot. apply in_map_iff. eauto.
Qed.

Lemma selectCategory_appended (i : Z) (db : D1Database) (row : Category) :
  (forall c, In c (categories db) -> c_id c <> i) -> c_id row = i ->
  selectCategory i (with_categories db (categories db ++ [row])) = Some row.
Proof.
  intros Hfresh Hid. unfold selectCategory. cbn [categories with_categories].
  induction (categories db) as [|c rest IH]; cbn [app List.find].
  - now rewrite Hid, Z.eqb_refl.
  - replace (c_id c =? i) with false
      by (symmetry; apply Z.eqb_neq, Hfresh; now left).
    apply IH. intros c' Hc'. apply Hfresh. now right.
Qed.

End CategoryFacts.

(** X21. [POST /api/admin/category] with a body that has a name and a
    slug (strings that are not blank) answers 409 exactly when a category
    already has the slug as it was sent, and writes nothing unless it
    answers 201.  When it answers 201 the new row is appended with the
    trimmed name and slug, the id and the timestamp the database assigns,
    and a description that is the trimmed text or NULL; the answer is that
    row, no other row changes, the slugs stay unique if they were, and
    [GET /api/category/:id] then returns the row for the new id.  A
    description that is neither a string nor null is answered 500. *)
Theorem create_category_appends_a_trimmed_row (request : Http.Request) (env : Env.Env)
    (rowid : Z) (now : string) (fields : list (string * JS.JSON)) (name slug : string) :
  Http.json (Http.body request) = Some (JS.JObject fields) ->
  CategoryHandlers.requiredText "name" fields = Some name ->
  CategoryHandlers.requiredText "slug" fields = Some slug ->
  exists reply env',
    CategoryHandlers.handleCreateCategory request env rowid now = Some (reply, env')
    /\ (Reply.rp_status reply = 409 <-> In slug (map Response.c_slug (Env.categories (Env.DB env))))
    /\ (Reply.rp_status reply <> 201 -> env' = env)
    /\ (CategoryHandlers.descriptionOf fields = None ->
        Reply.rp_status reply = 409 \/ Reply.rp_status reply = 500)
    /\ (NoDup (map Response.c_slug (Env.categories (Env.DB env))) ->
        NoDup (map Response.c_slug (Env.categories (Env.DB env'))))
    /\ (Reply.rp_status reply = 201 ->
        exists description,
          CategoryHandlers.descriptionOf fields = Some description
          /\ let row := {| Response.c_id := rowid; Response.c_name := JS.trim name;
                           Response.c_slug := JS.trim slug;
                           Response.c_description := description;
                           Response.c_created_at := now |} in
             Reply.rp_body reply = Reply.Ok (Reply.PCategory row)
             /\ Env.categories (Env.DB env')
                = (Env.categories (Env.DB env) ++ [row])%list
             /\ Env.articles (Env.DB env') = Env.articles (Env.DB env)
             /\ ~ In (JS.trim slug) (map Response.c_slug (Env.categories (Env.DB env)))
             /\ ((forall c, In c (Env.categories (Env.DB env)) -> Response.c_id c <> rowid) ->
                 CategoryHandlers.handleGetCategory env' rowid
                 = Reply.success (Reply.PCategory row) 200)).
Proof.
  intros Hjson Hname Hslug.
  rewrite (handleCreateCategory_fields _ _ _ _ _ _ _ Hjson Hname Hslug).
  destruct (CategoryHandlers.selectBySlug slug (Env.DB env)) as [c|] eqn:Hraw.
  { assert (Hin : In slug (map Response.c_slug (Env.categories (Env.DB env)))).
    { unfold CategoryHandlers.selectBySlug in Hraw. apply find_some in Hraw as [Hin Heq].
      apply String.eqb_eq in Heq. apply in_map_iff. eauto. }
    do 2 eexists. split; [reflexivity|]. cbn.
    repeat split; auto; try discriminate. }
  pose proof (proj1 (selectBySlug_None _ _) Hraw) as Hnotin.
  destruct (CategoryHandlers.descriptionOf fields) as [description|] eqn:Hd.
  2:{ do 2 eexists. split; [reflexivity|]. cbn.
      repeat split; auto; try discriminate. intros H. contradiction. }
  destruct (CategoryHandlers.selectBySlug (JS.trim slug) (Env.DB env)) as [c|] eqn:Htrim.
  { do 2 eexists. split; [reflexivity|]. cbn.
    repeat split; auto; try discriminate. intros H. contradiction. }
  pose proof (proj1 (selectBySlug_None _ _) Htrim) as Hfree.
  do 2 eexists. split; [reflexivity|].
  cbn [Reply.rp_status Reply.success Reply.rp_body Env.DB Env.with_DB Env.categories
       Env.with_categories Env.articles].
  split; [split; [discriminate | intros H; contradiction]|].
  split; [intros H; now contradiction H|].
  split; [discriminate|].
  split.
  - intros Hnd. rewrite map_app. cbn [map Response.c_slug].
    apply NoDup_app. split; [exact Hnd|]. split.
    + intros x Hx Hx'. apply list_elem_of_In in Hx, Hx'.
      destruct Hx' as [<- | []]. contradiction.
    + apply NoDup_singleton.
  - intros _. exists description. split; [reflexivity|].
    repeat split; try reflexivity; try exact Hfree.
    intros Hfresh. unfold CategoryHandlers.handleGetCategory.
    cbn [Env.DB Env.with_DB]. now rewrite selectCategory_appended.
Qed.

Lemma create_category_appends_a_trimmed_row_witness :
  exists reply env',
    CategoryHandlers.handleCreateCategory (Fixtures.form " News " "news") Sample.env 3
      "2024-02-01 00:00:00" = Some (reply, env')
    /\ (Reply.rp_status reply <> 201 -> env' = Sample.env).
Proof.
  destruct (create_category_appends_a_trimmed_row (Fixtures.form " News " "news") Sample.env 3
              "2024-02-01 00:00:00" [("name", JS.JString " News "); ("slug", JS.JString "news")]
              " News " "news" eq_refl eq_refl eq_refl)
    as (reply & env' & Hresult & _ & Hwrites & _).
  exists reply, env'. split; assumption.
Defined.

(** X22. The check for an existing slug compares the slug as it was sent,
    but the row is inserted with the trimmed slug.  So when the slug sent
    differs from every stored slug only by surrounding white space, the
    check passes, the UNIQUE constraint on [categories.slug] then refuses
    the row, and the answer is 500 ["Failed to create category"] instead
    of 409; nothing is written. *)
Theorem padded_duplicate_slug_is_answered_500 (request : Http.Request) (env : Env.Env)
    (rowid : Z) (now : string) (fields : list (string * JS.JSON)) (name slug : string) :
  Http.json (Http.body request) = Some (JS.JObject fields) ->
  CategoryHandlers.requiredText "name" fields = Some name ->
  CategoryHandlers.requiredText "slug" fields = Some slug ->
  ~ In slug (map Response.c_slug (Env.categories (Env.DB env))) ->
  In (JS.trim slug) (map Response.c_slug (Env.categories (Env.DB env))) ->
  CategoryHandlers.handleCreateCategory request env rowid now
  = Some (Reply.ofResponse (Response.internalError "Failed to create category"), env).
Proof.
  intros Hjson Hname Hslug Hraw Htrim.
  rewrite (handleCreateCategory_fields _ _ _ _ _ _ _ Hjson Hname Hslug).
  apply selectBySlug_None in Hraw. rewrite Hraw.
  destruct (CategoryHandlers.descriptionOf fields); [|reflexivity].
  destruct (CategoryHandlers.selectBySlug (JS.trim slug) (Env.DB env)) eqn:Hs; [reflexivity|].
  apply selectBySlug_None in Hs. contradiction.
Qed.

Lemma padded_duplicate_slug_is_answered_500_witness :
  CategoryHandlers.handleCreateCategory (Fixtures.form "Tech" " tech ") Sample.env 3
    "2024-02-01 00:00:00"
  = Some (Reply.ofResponse (Response.internalError "Failed to create category"), Sample.env).
Proof.
  apply (padded_duplicate_slug_is_answered_500 (Fixtures.form "Tech" " tech ") Sample.env 3
           "2024-02-01 00:00:00" [("name", JS.JString "Tech"); ("slug", JS.JString " tech ")]
           "Tech" " tech " eq_refl eq_refl eq_refl).
  - cbn. intros [H | [H | []]]; discriminate H.
  - cbn. left. reflexivity.
Defined.

Section CategoryUpdate.

Import JS Response Env Reply Categories CategoryHandlers Spec.

Lemma selectOtherBySlug_None (slug : string) (i : Z) (db : D1Database) :
  selectOtherBySlug slug i db = None
  <-> forall c, In c (categories db) -> c_slug c = slug -> c_id c = i.
Proof.
  unfold selectOtherBySlug. split.
  - intros Hnone c Hin Hslug. apply (find_none _ _ Hnone) in Hin.
    rewrite Hslug, String.eqb_refl in Hin. cbn [andb] in Hin.
    now apply negb_false_iff, Z.eqb_eq in Hin.
  - intros Hall. destruct (List.find _ (categories db)) as [c|] eqn:Hf; [|reflexivity].
    apply find_some in Hf as [Hin Htest]. apply andb_true_iff in Htest as [Hs Hid].
    apply String.eqb_eq in Hs. apply negb_true_iff, Z.eqb_neq in Hid.
    now specialize (Hall c Hin Hs).
Qed.

Lemma selectCategory_updated (i : Z) (db : D1Database) (set : Category -> Category) :
  (forall c, c_id (set c) = c_id c) ->
  selectCategory i
    (with_categories db (map (fun c => if c_id c =? i then set c else c) (categories db)))
  = option_map set (selectCategory i db).
Proof.
  intros Hset. unfold selectCategory. cbn [categories with_categories].
  rewrite find_map_stable.
  - destruct (List.find _ (categories db)) as [c|] eqn:Hf; [|reflexivity].
    apply find_some in Hf as [_ Hid]. cbn [option_map]. now rewrite Hid.
  - intros c. destruct (c_id c =? i) eqn:Hid; [|exact Hid]. now rewrite Hset.
Qed.

End CategoryUpdate.

(** X23. [PUT /api/admin/category/:id] with a body that has a name and a
    slug answers 404 when no category has the id, and 409 exactly when
    another category has the slug as it was sent: a category may keep its
    own slug.  It writes nothing unless it answers 200, and then it has
    rewritten the name, slug and description of the rows with that id and
    nothing else (the id and the creation date stay, and so do the
    articles that reference the category); the answer is the new row and
    [GET /api/category/:id] returns it. *)
Theorem update_category_rewrites_one_row (request : Http.Request) (env : Env.Env) (i : Z)
    (fields : list (string * JS.JSON)) (name slug : string) :
  Http.json (Http.body request) = Some (JS.JObject fields) ->
  CategoryHandlers.requiredText "name" fields = Some name ->
  CategoryHandlers.requiredText "slug" fields = Some slug ->
  (Categories.selectCategory i (Env.DB env) = None ->
   CategoryHandlers.handleUpdateCategory request env i
   = Some (Reply.ofResponse (Response.notFound "Category not found"), env))
  /\ (forall old,
        Categories.selectCategory i (Env.DB env) = Some old ->
        exists reply env',
          CategoryHandlers.handleUpdateCategory request env i = Some (reply, env')
          /\ (Reply.rp_status reply = 409
              <-> exists c, In c (Env.categories (Env.DB env))
                            /\ Response.c_slug c = slug /\ Response.c_id c <> i)
          /\ (Reply.rp_status reply <> 200 -> env' = env)
          /\ (Reply.rp_status reply = 200 ->
              exists description,
                CategoryHandlers.descriptionOf fields = Some description
                /\ let set c :=
                     {| Response.c_id := Response.c_id c; Response.c_name := JS.trim name;
                        Response.c_slug := JS.trim slug;
                        Response.c_description := description;
                        Response.c_created_at := Response.c_created_at c |} in
                   Reply.rp_body reply = Reply.Ok (Reply.PCategory (set old))
                   /\ Env.categories (Env.DB env')
                      = map (fun c => if Response.c_id c =? i then set c else c)
                          (Env.categories (Env.DB env))
                   /\ Env.articles (Env.DB env') = Env.articles (Env.DB env)
                   /\ CategoryHandlers.handleGetCategory env' i
                      = Reply.success (Reply.PCategory (set old)) 200)
          /\ (Response.c_slug old = slug -> JS.trim slug = slug ->
              (forall c, In c (Env.categories (Env.DB env)) ->
                         Response.c_slug c = slug -> Response.c_id c = i) ->
              CategoryHandlers.descriptionOf fields <> None ->
              Reply.rp_status reply = 200)).
Proof.
  intros Hjson Hname Hslug. split.
  - intros Hnone. unfold CategoryHandlers.handleUpdateCategory.
    now rewrite Hjson, Hname, Hslug, Hnone.
  - intros old Hold. unfold CategoryHandlers.handleUpdateCategory.
    rewrite Hjson, Hname, Hslug, Hold.
    destruct (CategoryHandlers.selectOtherBySlug slug i (Env.DB env)) as [other|] eqn:Hother.
    { assert (Hex : exists c, In c (Env.categories (Env.DB env))
                              /\ Response.c_slug c = slug /\ Response.c_id c <> i).
      { unfold CategoryHandlers.selectOtherBySlug in Hother.
        apply find_some in Hother as [Hin Htest]. apply andb_true_iff in Htest as [Hs Hid].
        apply String.eqb_eq in Hs. apply negb_true_iff, Z.eqb_neq in Hid. eauto. }
      do 2 eexists. split; [reflexivity|]. cbn.
      repeat split; auto; try discriminate.
      intros _ _ Hown _. destruct Hex as (c & Hin & Hs & Hid). now specialize (Hown c Hin Hs). }
    pose proof (proj1 (selectOtherBySlug_None _ _ _) Hother) as Hnone.
    assert (Hno409 : ~ exists c, In c (Env.categories (Env.DB env))
                                 /\ Response.c_slug c = slug /\ Response.c_id c <> i).
    { intros (c & Hin & Hs & Hid). now specialize (Hnone c Hin Hs). }
    destruct (CategoryHandlers.descriptionOf fields) as [description|] eqn:Hd.
    2:{ do 2 eexists. split; [reflexivity|]. cbn.
        repeat split; auto; try discriminate; try contradiction. }
    unfold CategoryHandlers.updateCategory.
    destruct (CategoryHandlers.selectOtherBySlug (JS.trim slug) i (Env.DB env))
      as [other|] eqn:Htrim.
    { rewrite Hold. do 2 eexists. split; [reflexivity|]. cbn.
      repeat split; auto; try discriminate; try contradiction.
      intros _ Hsame _ _. rewrite Hsame, Hother in Htrim. discriminate. }
    rewrite Hold. cbn [option_map].
    do 2 eexists. split; [reflexivity|].
    cbn [Reply.rp_status Reply.success Reply.rp_body Env.DB Env.with_DB Env.categories
         Env.with_categories Env.articles].
    split; [split; [discriminate | intros H; contradiction]|].
    split; [intros H; now contradiction H|].
    split; [|reflexivity].
    intros _. exists description. split; [reflexivity|].
    repeat split; try reflexivity.
    unfold CategoryHandlers.handleGetCategory. cbn [Env.DB Env.with_DB].
    rewrite selectCategory_updated by reflexivity. now rewrite Hold.
Qed.

Lemma update_category_rewrites_one_row_witness :
  exists reply env',
    CategoryHandlers.handleUpdateCategory (Fixtures.form "Technology" "tech") Sample.env 1
    = Some (reply, env')
    /\ Reply.rp_status reply = 200.
Proof.
  destruct (update_category_rewrites_one_row (Fixtures.form "Technology" "tech") Sample.env 1
              [("name", JS.JString "Technology"); ("slug", JS.JString "tech")]
              "Technology" "tech" eq_refl eq_refl eq_refl) as [_ Hsome].
  destruct (Hsome Sample.tech eq_refl) as (reply & env' & Hresult & _ & _ & _ & Hown).
  exists reply, env'. split; [exact Hresult|].
  apply Hown; try reflexivity.
  - cbn. intros c [<- | [<- | []]]; [reflexivity | discriminate].
  - discriminate.
Defined.

(** ** Category and tag lists *)

Section Taxonomies.

Import JS Response Env Reply.

Lemma categories_createdDesc_total : Total CategoryHandlers.createdDesc.
Proof.
  intros a b. unfold CategoryHandlers.createdDesc.
  destruct (String.leb_total (c_created_at a) (c_created_at b)); auto.
Qed.

Lemma tags_createdDesc_total : Total Tags.createdDesc.
Proof.
  intros a b. unfold Tags.createdDesc.
  destruct (String.leb_total (t_created_at a) (t_created_at b)); auto.
Qed.

End Taxonomies.

(** X24. [GET /api/categories] and [GET /api/tags] always answer 200 with
    every row of the table exactly once (the list is a permutation of the
    table, there is no paging and no filter), ordered so that no row is
    followed by one created later. *)
Theorem category_and_tag_lists_are_complete (env : Env.Env) :
  (exists rows,
     CategoryHandlers.handleGetCategories env = Reply.success (Reply.PCategories rows) 200
     /\ rows ≡ₚ Env.categories (Env.DB env)
     /\ Sorted (fun a b => String.leb (Response.c_created_at b) (Response.c_created_at a) = true)
          rows)
  /\ (exists rows,
        Tags.handleGetTags env = Reply.success (Reply.PTags rows) 200
        /\ rows ≡ₚ Env.tags_table (Env.DB env)
        /\ Sorted (fun a b => String.leb (Response.t_created_at b) (Response.t_created_at a) = true)
             rows).
Proof.
  split; eexists; (split; [reflexivity|]); split;
    try apply orderBy_Permutation.
  - apply Sorted_orderBy, categories_createdDesc_total.
  - apply Sorted_orderBy, tags_createdDesc_total.
Qed.

(** ** Tags: delete *)

Section TagDeletion.

Import JS Response Env Reply Articles Tags Spec.

Lemma selectTag_deleted (i : Z) (db : D1Database) : selectTag i (deleteTag i db) = None.
Proof. unfold selectTag, deleteTag. cbn [tags_table]. apply find_filter_out. Qed.

(** With a tag filter the public list reads the links only. *)
Lemma publicMatches_unlinked (db : D1Database) (params : ArticleListParams) (t : Z) :
  activeFilter (p_tagId params) = Some (Num t) ->
  (forall l, In l (article_tags db) -> tag_id l <> t) ->
  publicMatches db params = [].
Proof.
  intros Ht Hnone. unfold publicMatches. rewrite Ht.
  destruct (List.filter _ (leftJoinTags db)) as [|[row link] rest] eqn:Hf; [reflexivity|].
  assert (Hin : In (row, link) (List.filter (publicWhere params) (leftJoinTags db)))
    by (rewrite Hf; now left).
  apply filter_In in Hin as [Hjoin Hw]. unfold publicWhere in Hw.
  apply andb_true_iff in Hw as [Hw _]. apply andb_true_iff in Hw as [_ Htag].
  rewrite Ht in Htag. cbn [whenSome bound snd] in Htag.
  destruct link as [l|]; [|discriminate]. cbn [tagIs] in Htag. apply Z.eqb_eq in Htag.
  apply leftJoinTags_link in Hjoin as (_ & Hl & _). now specialize (Hnone l Hl).
Qed.

End TagDeletion.

(** X25. [DELETE /api/admin/tag/:id] answers 404 and changes nothing when
    no tag has the id.  Otherwise it is never refused, whether or not
    articles carry the tag: it answers 200 [{deleted: true}], removes the
    tag and every link of an article to it, and leaves the articles, the
    other links, the other tags and the categories as they were.
    Afterwards the tag is not found, no article shows it, and the public
    list filtered by that tag is empty with total 0. *)
Theorem delete_tag_unlinks_its_articles (env : Env.Env) (i : Z) :
  let reply := fst (Tags.handleDeleteTag env i) in
  let env' := snd (Tags.handleDeleteTag env i) in
  (Tags.selectTag i (Env.DB env) = None ->
   reply = Reply.ofResponse (Response.notFound "Tag not found") /\ env' = env)
  /\ (forall tag,
        Tags.selectTag i (Env.DB env) = Some tag ->
        reply = Reply.success (Reply.PData Response.DDeleted) 200
        /\ (forall t, In t (Env.tags_table (Env.DB env'))
                      <-> In t (Env.tags_table (Env.DB env)) /\ Response.t_id t <> i)
        /\ (forall l, In l (Env.article_tags (Env.DB env'))
                      <-> In l (Env.article_tags (Env.DB env)) /\ Env.tag_id l <> i)
        /\ Env.articles (Env.DB env') = Env.articles (Env.DB env)
        /\ Env.categories (Env.DB env') = Env.categories (Env.DB env)
        /\ Env.BUCKET env' = Env.BUCKET env
        /\ Tags.handleGetTag env' i = Reply.ofResponse (Response.notFound "Tag not found")
        /\ (forall articleId t, In t (Articles.tagsOf (Env.DB env') articleId) ->
                                Response.t_id t <> i)
        /\ (forall request s p,
              Http.searchParams_get request "tagId" = Some s ->
              JS.parseInt s None = JS.Num i -> i <> 0 ->
              Response.r_body (Articles.handleGetArticles request env')
              = Response.Success (Response.DArticles p) ->
              Response.data p = [] /\ Response.total p = 0)).
Proof.
  intros reply env'. subst reply env'. split.
  - intros Hnone. unfold Tags.handleDeleteTag. rewrite Hnone. split; reflexivity.
  - intros tag Htag.
    replace (Tags.handleDeleteTag env i)
      with (Reply.success (Reply.PData Response.DDeleted) 200,
            Env.with_DB env (Tags.deleteTag i (Env.DB env)))
      by (unfold Tags.handleDeleteTag; now rewrite Htag).
    cbn [fst snd Env.DB Env.with_DB Env.BUCKET].
    assert (Hlinks : forall l, In l (Env.article_tags (Tags.deleteTag i (Env.DB env)))
                               <-> In l (Env.article_tags (Env.DB env)) /\ Env.tag_id l <> i).
    { intros l. unfold Tags.deleteTag. cbn [Env.article_tags].
      rewrite filter_out_In, Z.eqb_neq. reflexivity. }
    split; [reflexivity|].
    split; [intros t; unfold Tags.deleteTag; cbn [Env.tags_table];
            rewrite filter_out_In, Z.eqb_neq; reflexivity|].
    split; [exact Hlinks|].
    do 3 (split; [reflexivity|]).
    split; [|split].
    + unfold Tags.handleGetTag. cbn [Env.DB Env.with_DB]. now rewrite selectTag_deleted.
    + intros articleId t Ht. apply tagsOf_In in Ht as [_ Hl].
      apply Hlinks in Hl as [_ Hid]. exact Hid.
    + intros request s p Hs Hparse Hi. unfold Articles.handleGetArticles.
      cbn [Env.DB Env.with_DB].
      assert (Hnone : Articles.publicMatches (Tags.deleteTag i (Env.DB env))
                        (Articles.publicParams request) = []).
      { apply (publicMatches_unlinked _ _ i).
        - unfold Articles.publicParams. cbn [Articles.p_tagId].
          now apply (activeFilter_number _ s).
        - intros l Hl. now apply Hlinks in Hl. }
      unfold Articles.publicRows, Articles.publicCount. rewrite Hnone.
      destruct (Articles.limitOffset _ _ _) as [results|] eqn:Hq; [|discriminate].
      cbn [Response.r_body Response.success]. intros [= <-]. cbn [Response.data Response.total].
      apply limitOffset_nil in Hq. subst results. split; [reflexivity|].
      now destruct (Articles.activeFilter _).
Qed.

(** ** Tags: create *)

Section TagCreation.

Import JS Response Env Reply Tags Spec.

Lemma tag_selectBySlug_None (slug : string) (db : D1Database) :
  selectBySlug slug db = None <-> ~ In slug (map t_slug (tags_table db)).
Proof.
  unfold selectBySlug. split.
  - intros Hnone Hin. apply in_map_iff in Hin as (c & Hc & Hin).
    apply (find_none _ _ Hnone) in Hin. rewrite Hc, String.eqb_refl in Hin. discriminate.
  - intros Hnot. destruct (List.find _ (tags_table db)) as [c|] eqn:Hf; [|reflexivity].
    apply find_some in Hf as [Hin Heq]. apply String.eqb_eq in Heq.
    destruct Hnot. apply in_map_iff. eauto.
Qed.

Lemma selectTag_appended (i : Z) (db : D1Database) (row : Tag) :
  (forall t, In t (tags_table db) -> t_id t <> i) -> t_id row = i ->
  selectTag i (with_tags db (tags_table db ++ [row])) = Some row.
Proof.
  intros Hfresh Hid. unfold selectTag. cbn [tags_table with_tags].
  induction (tags_table db) as [|c rest IH]; cbn [app List.find].
  - now rewrite Hid, Z.eqb_refl.
  - replace (t_id c =? i) with false
      by (symmetry; apply Z.eqb_neq, Hfresh; now left).
    apply IH. intros c' Hc'. apply Hfresh. now right.
Qed.

End TagCreation.

(** X26. [POST /api/admin/tag] with a body that has a name and a slug
    answers 409 exactly when a tag already has the slug as it was sent,
    and writes nothing unless it answers 201.  When it answers 201 the new
    tag is appended with the trimmed name and slug and the id and
    timestamp the database assigns, no article is linked to it yet, the
    slugs stay unique if they were, and [GET /api/tag/:id] then returns
    it. *)
Theorem create_tag_appends_a_trimmed_row (request : Http.Request) (env : Env.Env)
    (rowid : Z) (now : string) (fields : list (string * JS.JSON)) (name slug : string) :
  Http.json (Http.body request) = Some (JS.JObject fields) ->
  CategoryHandlers.requiredText "name" fields = Some name ->
  CategoryHandlers.requiredText "slug" fields = Some slug ->
  exists reply env',
    Tags.handleCreateTag request env rowid now = Some (reply, env')
    /\ (Reply.rp_status reply = 409 <-> In slug (map Response.t_slug (Env.tags_table (Env.DB env))))
    /\ (Reply.rp_status reply <> 201 -> env' = env)
    /\ (NoDup (map Response.t_slug (Env.tags_table (Env.DB env))) ->
        NoDup (map Response.t_slug (Env.tags_table (Env.DB env'))))
    /\ (Reply.rp_status reply = 201 ->
        let row := {| Response.t_id := rowid; Response.t_name := JS.trim name;
                      Response.t_slug := JS.trim slug; Response.t_created_at := now |} in
        Reply.rp_body reply = Reply.Ok (Reply.PTag row)
        /\ Env.tags_table (Env.DB env') = (Env.tags_table (Env.DB env) ++ [row])%list
        /\ Env.article_tags (Env.DB env') = Env.article_tags (Env.DB env)
        /\ Env.articles (Env.DB env') = Env.articles (Env.DB env)
        /\ ~ In (JS.trim slug) (map Response.t_slug (Env.tags_table (Env.DB env)))
        /\ ((forall t, In t (Env.tags_table (Env.DB env)) -> Response.t_id t <> rowid) ->
            Tags.handleGetTag env' rowid = Reply.success (Reply.PTag row) 200)).
Proof.
  intros Hjson Hname Hslug. unfold Tags.handleCreateTag. rewrite Hjson, Hname, Hslug.
  destruct (Tags.selectBySlug slug (Env.DB env)) as [c|] eqn:Hraw.
  { assert (Hin : In slug (map Response.t_slug (Env.tags_table (Env.DB env)))).
    { unfold Tags.selectBySlug in Hraw. apply find_some in Hraw as [Hin Heq].
      apply String.eqb_eq in Heq. apply in_map_iff. eauto. }
    do 2 eexists. split; [reflexivity|]. cbn.
    repeat split; auto; try discriminate. }
  pose proof (proj1 (tag_selectBySlug_None _ _) Hraw) as Hnotin.
  unfold Tags.insertTag.
  destruct (Tags.selectBySlug (JS.trim slug) (Env.DB env)) as [c|] eqn:Htrim.
  { do 2 eexists. split; [reflexivity|]. cbn.
    repeat split; auto; try discriminate. intros H. contradiction. }
  pose proof (proj1 (tag_selectBySlug_None _ _) Htrim) as Hfree.
  do 2 eexists. split; [reflexivity|].
  cbn [Reply.rp_status Reply.success Reply.rp_body Env.DB Env.with_DB Env.tags_table
       Tags.with_tags Env.articles Env.article_tags].
  split; [split; [discriminate | intros H; contradiction]|].
  split; [intros H; now contradiction H|].
  split.
  - intros Hnd. rewrite map_app. cbn [map Response.t_slug].
    apply NoDup_app. split; [exact Hnd|]. split.
    + intros x Hx Hx'. apply list_elem_of_In in Hx, Hx'.
      destruct Hx' as [<- | []]. contradiction.
    + apply NoDup_singleton.
  - intros _.
    repeat split; try reflexivity; try exact Hfree.
    intros Hfresh. unfold Tags.handleGetTag.
    cbn [Env.DB Env.with_DB]. now rewrite selectTag_appended.
Qed.

Lemma create_tag_appends_a_trimmed_row_witness :
  exists reply env',
    Tags.handleCreateTag (Fixtures.form "Proofs" " proofs ") Sample.env 8 "2024-02-01 00:00:00"
    = Some (reply, env')
    /\ (Reply.rp_status reply <> 201 -> env' = Sample.env).
Proof.
  destruct (create_tag_appends_a_trimmed_row (Fixtures.form "Proofs" " proofs ") Sample.env 8
              "2024-02-01 00:00:00"
              [("name", JS.JString "Proofs"); ("slug", JS.JString " proofs ")]
              "Proofs" " proofs " eq_refl eq_refl eq_refl)
    as (reply & env' & Hresult & _ & Hwrites & _).
  exists reply, env'. split; assumption.
Defined.

(** ** What a request can change *)

Section Changes.

Import JS Response Env Reply Jwt Auth Security Index Articles Spec Terms.

Lemma sameButCounters_refl (r : ArticleRow) : sameButCounters r r.
Proof. unfold sameButCounters. repeat split; reflexivity. Qed.

Lemma Forall2_map_same {A} (P : A -> A -> Prop) (g : A -> A) (l : list A) :
  (forall x, P x (g x)) -> Forall2 P l (map g l).
Proof. intros Hg. induction l; cbn [map]; constructor; auto. Qed.

Lemma onlyCountersChange_refl (env : Env) : onlyCountersChange env env.
Proof.
  unfold onlyCountersChange. repeat split; try reflexivity.
  rewrite <- (map_id (articles (DB env))) at 2.
  apply Forall2_map_same, sameButCounters_refl.
Qed.

(** An UPDATE of the counters of some rows. *)
Lemma onlyCountersChange_update (env : Env) (test : ArticleRow -> bool)
    (g : Article -> Article) :
  (forall a, sameButCounters {| cols := a; is_pinned := 0 |} {| cols := g a; is_pinned := 0 |}) ->
  onlyCountersChange env
    (with_DB env
       (with_articles (DB env)
          (map (fun r => if test r then updateCols g r else r) (articles (DB env))))).
Proof.
  intros Hg. unfold onlyCountersChange.
  cbn [BUCKET JWT_SECRET DB with_DB admins categories tags_table article_tags articles
       with_articles].
  repeat split; try reflexivity.
  apply Forall2_map_same. intros r. destruct (test r); [|apply sameButCounters_refl].
  specialize (Hg (cols r)). unfold sameButCounters, updateCols in *.
  cbn [cols is_pinned] in *. tauto.
Qed.

Lemma handleGetArticle_changes (env : Env) (i : Z) :
  onlyCountersChange env (snd (handleGetArticle env i)).
Proof.
  unfold handleGetArticle.
  assert (H : onlyCountersChange env (with_DB env (incrementViews i (DB env)))).
  { apply (onlyCountersChange_update env
             (fun r => (id (cols r) =? i) && isPublished (cols r))
             (fun a => setViewCount a (view_count a + 1))).
    intros a. unfold sameButCounters. cbn. repeat split; reflexivity. }
  now destruct (selectPublished i (incrementViews i (DB env))).
Qed.

Lemma handleLikeArticle_changes (request : Http.Request) (env : Env) (i : Z) :
  onlyCountersChange env (snd (handleLikeArticle request env i)).
Proof.
  unfold handleLikeArticle.
  destruct (selectPublished i (DB env)) as [a|]; [|apply onlyCountersChange_refl].
  destruct (String.eqb (requestedAction request) "unlike"); cbn [snd].
  - apply (onlyCountersChange_update env (fun r => id (cols r) =? i)
             (fun a' => setLikeCount a' (Z.max 0 (orZero (like_count a) - 1)))).
    intros a'. unfold sameButCounters. cbn. repeat split; reflexivity.
  - apply (onlyCountersChange_update env (fun r => id (cols r) =? i)
             (fun a' => setLikeCount a' (like_count a' + 1))).
    intros a'. unfold sameButCounters. cbn. repeat split; reflexivity.
Qed.

Context {J : Jose} {B : Login.Bcrypt}.

(** What running the handler of a public route changes. *)
Lemma publicRoutes_changes request h env reads store reply env' store' :
  publicRoutes request = Some (Invoke h) ->
  Worker.perform h request env reads store = Replied reply (env', store') ->
  onlyCountersChange env env'.
Proof.
  unfold publicRoutes. intros H.
  repeat (apply otherwise_Some in H; destruct H as [H | H]);
    first [ apply route_inv in H as [_ [= ->]]
          | apply routeId_inv in H as (i & Hi & _ & [= ->]);
            first [ apply extractIdFromPath_Some in Hi
                  | apply matchIdWithSuffix_Some in Hi ];
            destruct Hi as (digits & _ & _ & ->);
            destruct (toDouble (decimal digits)) as [|z| |] ];
    cbn [Worker.perform Worker.withId Worker.replied Index.perform Index.withId
         Index.answered fst snd];
    try discriminate;
    intros [= _ <- _]; try apply onlyCountersChange_refl.
  - apply handleGetArticle_changes.
  - apply handleLikeArticle_changes.
Qed.

Lemma loginRoute_outcome request clock store :
  (exists response, fst (loginRoute request clock store) = Respond response)
  \/ fst (loginRoute request clock store) = Invoke HLogin.
Proof.
  unfold loginRoute. destruct (checkRateLimit _ _ _ store) as [result store'].
  destruct (negb (allowed result)); [left; eexists; reflexivity|].
  destruct (negb (valid _)); [left; eexists; reflexivity | now right].
Qed.

End Changes.

(** X27. Without a token that the gate accepts, an exchange with the
    Worker can change the bindings in one way only: the view counter and
    the like counter of articles.  Whatever the method, path and body,
    every other column of every article, the rows themselves, the
    categories, the tags, the links, the administrators and the bucket are
    afterwards what they were. *)
Theorem without_a_token_only_counters_change (J : Jwt.Jose) (B : Login.Bcrypt)
    (request : Http.Request) (clock : Index.Clock) (reads : Worker.Reads)
    (env env' : Env.Env) (store store' : gmap string Security.RateLimitRecord)
    (reply : Reply.Reply) (refusal : Response.Response) :
  Auth.authMiddleware request env (Index.atVerify clock) = Auth.Rejected refusal ->
  Worker.fetch request clock reads (env, store) = Reply.Replied reply (env', store') ->
  Terms.onlyCountersChange env env'.
Proof.
  intros Hauth Hfetch.
  destruct (String.eqb_spec (Http.method request) "OPTIONS") as [Hm|Hm].
  { rewrite (fetch_options _ _ _ _ Hm) in Hfetch. injection Hfetch as _ <- _.
    apply onlyCountersChange_refl. }
  rewrite (fetch_other _ _ _ _ Hm) in Hfetch.
  destruct (Worker.handleRequest request clock reads (env, store)) as [response w| |] eqn:Hh;
    try discriminate.
  injection Hfetch as _ ->. clear reply.
  unfold Worker.handleRequest in Hh. cbn [fst snd] in Hh.
  unfold Index.handleRequest in Hh.
  destruct (Index.same (Http.pathname request) "/api/login"
            && Index.same (Http.method request) "POST").
  - destruct (loginRoute_outcome request clock store) as [[r Hr] | Hr];
      destruct (Index.loginRoute request clock store) as [o s]; cbn [fst] in Hr; subst o.
    + injection Hh as _ <- _. apply onlyCountersChange_refl.
    + cbn [Worker.perform Index.perform] in Hh.
      destruct (Login.handleLogin request env _ _); [|discriminate].
      injection Hh as _ <- _. apply onlyCountersChange_refl.
  - destruct (Index.publicRoutes request) as [o|] eqn:Hpublic.
    + destruct (publicRoutes_outcome _ _ Hpublic) as [h ->].
      now apply (publicRoutes_changes request h env reads store response env' store').
    + rewrite Hauth in Hh.
      assert (Hfall : exists r, Index.fallThrough request clock = Index.Respond r).
      { unfold Index.fallThrough. destruct (_ && _); eexists; reflexivity. }
      destruct Hfall as [r Hr]. rewrite Hr in Hh.
      destruct (Index.isProtectedPath (Http.pathname request));
        injection Hh as _ <- _; apply onlyCountersChange_refl.
Qed.

Lemma without_a_token_only_counters_change_witness :
  exists reply env',
    Worker.fetch (H := Reference.jose) (H0 := Reference.bcrypt)
      (Sample.request "GET" "/api/article/1" [] [] Sample.noBody)
      (Sample.at_ 2000000) Fixtures.reads (Sample.env, ∅)
    = Reply.Replied reply (env', ∅)
    /\ Terms.onlyCountersChange Sample.env env'.
Proof.
  do 2 eexists. split; [vm_compute; reflexivity|].
  eapply (without_a_token_only_counters_change Reference.jose Reference.bcrypt
            (Sample.request "GET" "/api/article/1" [] [] Sample.noBody)
            (Sample.at_ 2000000) Fixtures.reads Sample.env _ ∅ ∅).
  - vm_compute. reflexivity.
  - vm_compute. reflexivity.
Defined.

(** ** Login: the form is checked first *)

Section LoginForm.

Import JS Response Env Jwt Security Login.

Context {J : Jose} {B : Bcrypt}.

Lemma validateStringLength_None (value : string) (field : LimitedField) :
  validateStringLength value field = None
  <-> fst (INPUT_LIMITS field) <= Z.of_nat (String.length value) <= snd (INPUT_LIMITS field).
Proof.
  unfold validateStringLength. destruct (INPUT_LIMITS field) as [min max]. cbn [fst snd].
  destruct (Z.of_nat (String.length value) <? min) eqn:H1.
  - apply Z.ltb_lt in H1. split; [discriminate | lia].
  - apply Z.ltb_ge in H1. destruct (max <? Z.of_nat (String.length value)) eqn:H2.
    + apply Z.ltb_lt in H2. split; [discriminate | lia].
    + apply Z.ltb_ge in H2. split; [lia | reflexivity].
Qed.

Lemma requiredString_length (name : string) (fields : list (string * JSON)) (s : string) :
  requiredString name fields = Some s -> 1 <= Z.of_nat (String.length s).
Proof.
  intros Hs. apply requiredString_Some in Hs as [_ Hne].
  destruct s; [now contradiction Hne | cbn [String.length]; lia].
Qed.

Lemma selectAdmin_first (username : string) (db : D1Database) (before after : list Admin)
    (admin : Admin) :
  admins db = (before ++ admin :: after)%list ->
  Forall (fun a => ad_username a <> username) before ->
  ad_username admin = username ->
  selectAdmin username db = Some admin.
Proof.
  unfold selectAdmin. intros -> Hbefore Hname.
  induction before as [|a before IH]; cbn [app List.find].
  - subst username. now rewrite String.eqb_refl.
  - apply Forall_cons in Hbefore as [Ha Hbefore]. apply String.eqb_neq in Ha.
    rewrite Ha. now apply IH.
Qed.

Lemma selectAdmin_None (username : string) (db : D1Database) :
  (forall a, In a (admins db) -> ad_username a <> username) ->
  selectAdmin username db = None.
Proof.
  unfold selectAdmin. intros Hnone.
  destruct (List.find _ (admins db)) as [a|] eqn:Hfind; [|reflexivity].
  apply find_some in Hfind as [Hin Hname]. apply String.eqb_eq in Hname.
  now destruct (Hnone a Hin).
Qed.

End LoginForm.

(** X29. For a POST whose body is a JSON object, [handleLogin] answers
    400 exactly when the form is not acceptable: the username or the
    password is missing, not a string or empty, the username is longer
    than 50 code units, or the password is shorter than 6 or longer than
    100.  Such an answer is decided before the database, the password hash
    and the clock are looked at, so it is the same for every database.
    Otherwise the lookup, the comparison and the signature decide: 401
    when no administrator has the username sent or when [compare] does not
    match the password against the hash of the first administrator that
    has it; 500 INTERNAL_ERROR when [compare] or the signature rejects,
    as it does for an empty [JWT_SECRET] on the reference interface; 200
    with the signed token otherwise.  Every 401 is the same response
    ["Invalid username or password"], whether the username is unknown or
    the password is wrong, and every 500 is the same response. *)
Theorem login_checks_the_form_first (J : Jwt.Jose) (B : Login.Bcrypt)
    (request : Http.Request) (env : Env.Env) (signedAt expiryAt : Z)
    (fields : list (string * JS.JSON)) :
  Http.method request = "POST" ->
  Http.json (Http.body request) = Some (JS.JObject fields) ->
  let acceptable :=
    exists username password,
      Login.requiredString "username" fields = Some username
      /\ Login.requiredString "password" fields = Some password
      /\ Z.of_nat (String.length username) <= 50
      /\ 6 <= Z.of_nat (String.length password) <= 100 in
  exists response,
    Login.handleLogin request env signedAt expiryAt = Some response
    /\ (Response.r_status response = 400 <-> ~ acceptable)
    /\ (Response.r_status response = 400 ->
        forall (J' : Jwt.Jose) (B' : Login.Bcrypt) env' signedAt' expiryAt',
          Login.handleLogin (H := J') (H0 := B') request env' signedAt' expiryAt'
          = Some response)
    /\ (forall username password,
          Login.requiredString "username" fields = Some username ->
          Login.requiredString "password" fields = Some password ->
          acceptable ->
          ((forall a, In a (Env.admins (Env.DB env)) -> Env.ad_username a <> username) ->
           response = Response.unauthorized "Invalid username or password")
          /\ (forall before admin after,
                Env.admins (Env.DB env) = (before ++ admin :: after)%list ->
                Forall (fun a => Env.ad_username a <> username) before ->
                Env.ad_username admin = username ->
                match Login.compare password (Env.ad_password_hash admin) with
                | None => response = Response.internalError "An error occurred during login"
                | Some false => response = Response.unauthorized "Invalid username or password"
                | Some true =>
                    if Jwt.jose_signs (Env.JWT_SECRET env)
                    then response
                         = Response.success
                             (Response.DLogin
                                (Jwt.jose_sign
                                   {| Jwt.j_sub := Jwt.CString (pretty (Env.ad_id admin));
                                      Jwt.j_username := Jwt.CString username;
                                      Jwt.j_iat := Jwt.CNumber (JS.floorDiv1000 signedAt);
                                      Jwt.j_exp :=
                                        Jwt.CNumber (JS.floorDiv1000 signedAt + 86400) |}
                                   (Env.JWT_SECRET env))
                                (JS.floorDiv1000 expiryAt + 86400)) 200
                    else response
                         = Response.internalError "An error occurred during login"
                end))
    /\ (Response.r_status response = 400 \/ Response.r_status response = 401
        \/ Response.r_status response = 500 \/ Response.r_status response = 200)
    /\ (Response.r_status response = 401 ->
        response = Response.unauthorized "Invalid username or password")
    /\ (Response.r_status response = 500 ->
        response = Response.internalError "An error occurred during login").
Proof.
  intros Hm Hjson acceptable. subst acceptable.
  destruct (Login.requiredString "username" fields) as [username|] eqn:Hu.
  2:{ eexists. split; [unfold Login.handleLogin; rewrite Hm, Hjson, Hu; reflexivity|].
      cbn. split; [split; [intros _ (u & p & [=] & _) | reflexivity]|].
      split; [intros _ J' B' env' s' e'; unfold Login.handleLogin;
              rewrite Hm, Hjson, Hu; reflexivity|].
      split; [intros u p [=]|]. repeat split; auto; discriminate. }
  destruct (Login.requiredString "password" fields) as [password|] eqn:Hp.
  2:{ eexists. split; [unfold Login.handleLogin; rewrite Hm, Hjson, Hu, Hp; reflexivity|].
      cbn. split; [split; [intros _ (u & p & _ & [=] & _) | reflexivity]|].
      split; [intros _ J' B' env' s' e'; unfold Login.handleLogin;
              rewrite Hm, Hjson, Hu, Hp; reflexivity|].
      split; [intros u p _ [=]|]. repeat split; auto; discriminate. }
  pose proof (requiredString_length _ _ _ Hu) as Hlen.
  destruct (Security.validateStringLength username Security.f_username) as [m|] eqn:Hvu.
  { assert (Hbad : ~ Z.of_nat (String.length username) <= 50).
    { intros Hok.
      assert (Hnone : Security.validateStringLength username Security.f_username = None)
        by (apply validateStringLength_None; cbn; lia).
      congruence. }
    eexists. split; [unfold Login.handleLogin; rewrite Hm, Hjson, Hu, Hp, Hvu; reflexivity|].
    cbn. split; [split; [intros _ (u & p & [= <-] & _ & Hok & _); contradiction
                        | reflexivity]|].
    split; [intros _ J' B' env' s' e'; unfold Login.handleLogin;
            rewrite Hm, Hjson, Hu, Hp, Hvu; reflexivity|].
    split; [intros u p _ _ (u' & p' & [= <-] & _ & Hok & _); contradiction|].
    repeat split; auto; discriminate. }
  destruct (Security.validateStringLength password Security.f_password) as [m|] eqn:Hvp.
  { assert (Hbad : ~ 6 <= Z.of_nat (String.length password) <= 100).
    { intros Hok.
      assert (Hnone : Security.validateStringLength password Security.f_password = None)
        by (apply validateStringLength_None; cbn; lia).
      congruence. }
    eexists.
    split; [unfold Login.handleLogin; rewrite Hm, Hjson, Hu, Hp, Hvu, Hvp; reflexivity|].
    cbn. split; [split; [intros _ (u & p & _ & [= <-] & _ & Hok); contradiction
                        | reflexivity]|].
    split; [intros _ J' B' env' s' e'; unfold Login.handleLogin;
            rewrite Hm, Hjson, Hu, Hp, Hvu, Hvp; reflexivity|].
    split; [intros u p _ _ (u' & p' & _ & [= <-] & _ & Hok); contradiction|].
    repeat split; auto; discriminate. }
  pose proof Hvu as Hvu'. pose proof Hvp as Hvp'.
  apply validateStringLength_None in Hvu'. cbn [fst snd Security.INPUT_LIMITS] in Hvu'.
  apply validateStringLength_None in Hvp'. cbn [fst snd Security.INPUT_LIMITS] in Hvp'.
  assert (Hok : exists u p,
            Some username = Some u /\ Some password = Some p
            /\ Z.of_nat (String.length u) <= 50 /\ 6 <= Z.of_nat (String.length p) <= 100).
  { exists username, password. repeat split; try reflexivity; lia. }
  eexists. split; [apply (handleLogin_form _ _ _ _ _ _ _ Hm Hjson Hu Hp Hvu Hvp)|].
  assert (Hlookup :
    forall u p, Some username = Some u -> Some password = Some p ->
      forall response,
        response
        = match Login.selectAdmin username (Env.DB env) with
          | None => Response.unauthorized "Invalid username or password"
          | Some result =>
              match Login.compare password (Env.ad_password_hash result) with
              | None => Response.internalError "An error occurred during login"
              | Some false => Response.unauthorized "Invalid username or password"
              | Some true =>
                  match Jwt.signToken (pretty (Env.ad_id result)) (Env.ad_username result)
                          (Env.JWT_SECRET env) signedAt with
                  | None => Response.internalError "An error occurred during login"
                  | Some token =>
                      Response.success
                        (Response.DLogin token
                           (JS.floorDiv1000 expiryAt + Jwt.getTokenExpirationSeconds)) 200
                  end
              end
          end ->
        ((forall a, In a (Env.admins (Env.DB env)) -> Env.ad_username a <> u) ->
         response = Response.unauthorized "Invalid username or password")
        /\ (forall before admin after,
              Env.admins (Env.DB env) = (before ++ admin :: after)%list ->
              Forall (fun a => Env.ad_username a <> u) before ->
              Env.ad_username admin = u ->
              match Login.compare p (Env.ad_password_hash admin) with
              | None => response = Response.internalError "An error occurred during login"
              | Some false => response = Response.unauthorized "Invalid username or password"
              | Some true =>
                  if Jwt.jose_signs (Env.JWT_SECRET env)
                  then response
                       = Response.success
                           (Response.DLogin
                              (Jwt.jose_sign
                                 {| Jwt.j_sub := Jwt.CString (pretty (Env.ad_id admin));
                                    Jwt.j_username := Jwt.CString u;
                                    Jwt.j_iat := Jwt.CNumber (JS.floorDiv1000 signedAt);
                                    Jwt.j_exp :=
                                      Jwt.CNumber (JS.floorDiv1000 signedAt + 86400) |}
                                 (Env.JWT_SECRET env))
                              (JS.floorDiv1000 expiryAt + 86400)) 200
                  else response
                       = Response.internalError "An error occurred during login"
              end)).
  { intros u p [= <-] [= <-] response ->. split.
    - intros Hnone. now rewrite (selectAdmin_None _ _ Hnone).
    - intros before admin after Hsplit Hfirst Hname.
      rewrite (selectAdmin_first _ _ _ _ _ Hsplit Hfirst Hname).
      destruct (Login.compare password (Env.ad_password_hash admin)) as [[|]|];
        try reflexivity.
      unfold Jwt.signToken. rewrite Hname.
      destruct (Jwt.jose_signs (Env.JWT_SECRET env)); reflexivity. }
  split.
  { split; [|intros H; now contradiction H].
    destruct (Login.selectAdmin username (Env.DB env)) as [admin|]; [|discriminate].
    destruct (Login.compare password (Env.ad_password_hash admin)) as [[|]|];
      try discriminate.
    destruct (Jwt.signToken _ _ _ _); discriminate. }
  split.
  { destruct (Login.selectAdmin username (Env.DB env)) as [admin|]; [|discriminate].
    destruct (Login.compare password (Env.ad_password_hash admin)) as [[|]|];
      try discriminate.
    destruct (Jwt.signToken _ _ _ _); discriminate. }
  split; [intros u p Hu' Hp' _; now apply (Hlookup u p)|].
  destruct (Login.selectAdmin username (Env.DB env)) as [admin|];
    [|cbn; repeat split; auto; discriminate].
  destruct (Login.compare password (Env.ad_password_hash admin)) as [[|]|];
    try (cbn; repeat split; auto; discriminate).
  destruct (Jwt.signToken _ _ _ _); cbn; repeat split; auto; discriminate.
Qed.

Lemma login_checks_the_form_first_witness :
  (exists response,
      Login.handleLogin (H := Reference.jose) (H0 := Reference.bcrypt)
        (Sample.request "POST" "/api/login" [] []
           (Sample.jsonBody (JS.JObject [("username", JS.JString "admin");
                                         ("password", JS.JString "12345")])))
        Sample.env 1000000 1000000 = Some response
      /\ Response.r_status response = 400)
  /\ Login.handleLogin (H := Reference.jose) (H0 := Reference.bcrypt)
       (Sample.login "203.0.113.7")
       {| Env.DB := Sample.db; Env.BUCKET := ∅; Env.JWT_SECRET := "" |} 1000000 1000000
     = Some (Response.internalError "An error occurred during login").
Proof.
  split.
  - destruct (login_checks_the_form_first Reference.jose Reference.bcrypt
                (Sample.request "POST" "/api/login" [] []
                   (Sample.jsonBody (JS.JObject [("username", JS.JString "admin");
                                                 ("password", JS.JString "12345")])))
                Sample.env 1000000 1000000
                [("username", JS.JString "admin"); ("password", JS.JString "12345")]
                eq_refl eq_refl) as (response & Hresult & Hbad & _).
    exists response. split; [exact Hresult|]. apply Hbad.
    intros (u & p & _ & [= <-] & _ & Hlen & _). cbn in Hlen. lia.
  - destruct (login_checks_the_form_first Reference.jose Reference.bcrypt
                (Sample.login "203.0.113.7")
                {| Env.DB := Sample.db; Env.BUCKET := ∅; Env.JWT_SECRET := "" |}
                1000000 1000000
                [("username", JS.JString "admin"); ("password", JS.JString "admin123")]
                eq_refl eq_refl) as (response & Hresult & _ & _ & Hdecided & _).
    rewrite Hresult. f_equal.
    destruct (Hdecided "admin" "admin123" eq_refl eq_refl) as [_ Hfound].
    { exists "admin", "admin123". repeat split; try reflexivity; cbn; lia. }
    exact (Hfound [] Sample.root [] eq_refl (List.Forall_nil _) eq_refl).
Defined.

(** ** Every route is reachable *)

Section Reachable.

Import JS Response Env Jwt Auth Security Index Spec Terms.

Context {J : Jose}.

Lemma isDigits1_allDigits (d : string) : isDigits1 d = true -> allDigits d = true /\ d <> "".
Proof. destruct d; [discriminate|]. intros H. split; [exact H | discriminate]. Qed.

Lemma allDigits_suffix (d : string) (c : ascii) (rest : string) :
  isDigit c = false -> allDigits (d +:+ String c rest) = false.
Proof.
  intros Hc. induction d as [|x d IH].
  - rewrite append_empty. cbn [allDigits]. now rewrite Hc.
  - rewrite append_cons. cbn [allDigits]. rewrite IH. apply andb_false_r.
Qed.

Lemma isDigits1_suffix (d : string) (c : ascii) (rest : string) :
  isDigit c = false -> isDigits1 (d +:+ String c rest) = false.
Proof.
  intros Hc. destruct d as [|x d].
  - rewrite append_empty. cbn [isDigits1 allDigits]. now rewrite Hc.
  - rewrite append_cons. cbn [isDigits1].
    change (allDigits (String x (d +:+ String c rest)))
      with (isDigit x && allDigits (d +:+ String c rest)).
    rewrite allDigits_suffix by exact Hc. apply andb_false_r.
Qed.

Lemma spanDigits_suffix (d : string) (c : ascii) (rest : string) :
  allDigits d = true -> isDigit c = false ->
  spanDigits (d +:+ String c rest) = (d, String c rest).
Proof.
  intros Hd Hc. induction d as [|x d IH].
  - rewrite append_empty. cbn [spanDigits]. now rewrite Hc.
  - cbn [allDigits] in Hd. apply andb_true_iff in Hd as [Hx Hd].
    rewrite append_cons. cbn [spanDigits]. now rewrite Hx, (IH Hd).
Qed.

Lemma spanDigits_all (d : string) : allDigits d = true -> spanDigits d = (d, "").
Proof.
  intros Hd. induction d as [|x d IH]; [reflexivity|].
  cbn [allDigits] in Hd. apply andb_true_iff in Hd as [Hx Hd].
  cbn [spanDigits]. now rewrite Hx, (IH Hd).
Qed.

Lemma routeId_other_method matched h : routeId matched false h = None.
Proof. now destruct matched. Qed.

End Reachable.

Section ReachableRoutes.

Import JS Response Env Jwt Auth Security Index Spec Terms.

Context {J : Jose}.

(** Evaluate the route table on a path that is known up to its digits. *)
Ltac evaluate_routes :=
  rewrite ?append_empty_r;
  unfold same, extractIdFromPath, matchIdWithSuffix;
  rewrite ?append_cons, ?append_empty;
  cbn -[parseInt String.append isDigits1 spanDigits allDigits authMiddleware];
  rewrite ?isDigits1_suffix by reflexivity;
  rewrite ?spanDigits_suffix by (reflexivity || assumption).

Lemma public_route_reached request env clock store h :
  onRouteOf request h -> h <> HLogin ->
  isProtectedPath (Http.pathname request) = false ->
  handleRequest request env clock store = (Invoke h, store).
Proof.
  intros [Hm Hpath] Hlogin Hpublic.
  destruct h; cbn [methodOf idOf pathOf fst snd] in Hm, Hpath; try congruence;
    try (destruct Hpath as (digits & Hp & Hd & ->);
         destruct (parseInt_digits _ Hd) as [Hz _];
         destruct (isDigits1_allDigits _ Hd) as [Hall Hne];
         apply truthy_true in Hne);
    try (rename Hpath into Hp);
    try (rewrite Hp in Hpublic; revert Hpublic; unfold isProtectedPath;
         evaluate_routes; discriminate);
    unfold handleRequest, publicRoutes; rewrite Hp, Hm; evaluate_routes;
    rewrite ?Hd, ?Hz, ?Hne; reflexivity.
Qed.

Lemma protected_route_reached request env clock store h user :
  onRouteOf request h -> h <> HUpload ->
  isProtectedPath (Http.pathname request) = true ->
  authMiddleware request env (atVerify clock) = User user ->
  handleRequest request env clock store = (Invoke h, store).
Proof.
  intros [Hm Hpath] Hupload Hprotected Hauth.
  rewrite (handleRequest_protected _ _ _ _ Hprotected), Hauth.
  destruct h; cbn [methodOf idOf pathOf fst snd] in Hm, Hpath; try congruence;
    try (destruct Hpath as (digits & Hp & Hd & ->);
         destruct (parseInt_digits _ Hd) as [Hz _];
         destruct (isDigits1_allDigits _ Hd) as [Hall Hne];
         apply truthy_true in Hne);
    try (rename Hpath into Hp);
    try (rewrite Hp in Hprotected; revert Hprotected; unfold isProtectedPath;
         evaluate_routes; discriminate);
    unfold protectedRoutes; rewrite Hp, Hm; evaluate_routes;
    rewrite ?Hd, ?Hz, ?Hne; reflexivity.
Qed.

End ReachableRoutes.

(** X30. No route of the table is shadowed by an earlier one.  A request
    on the route of a handler (the handler's method and path, the id
    written as a non-empty run of decimal digits, leading zeros allowed)
    is delegated to that handler, provided, for a route behind the gate,
    that the gate accepts the request.  The id the handler gets is what
    [parseInt] makes of the digits, the double nearest to the integer they
    spell: that integer itself up to 2^53, and a neighbour above (the path
    [.../9007199254740993] calls the handler with 9007199254740992).  The
    two routes with a guard of their own, login (rate limit and body size)
    and upload (body size), are left out. *)
Theorem routes_reach_their_handlers (J : Jwt.Jose) (request : Http.Request) (env : Env.Env)
    (clock : Index.Clock) (store : gmap string Security.RateLimitRecord)
    (h : Index.Handler) :
  Terms.onRouteOf request h ->
  h <> Index.HLogin -> h <> Index.HUpload ->
  (Index.isProtectedPath (Http.pathname request) = true ->
   exists user, Auth.authMiddleware request env (Index.atVerify clock) = Auth.User user) ->
  Index.handleRequest request env clock store = (Index.Invoke h, store)
  /\ match Terms.idOf h with
     | None => Http.pathname request = fst (Terms.pathOf h)
     | Some i =>
         exists digits,
           Http.pathname request
           = fst (Terms.pathOf h) +:+ digits +:+ snd (Terms.pathOf h)
           /\ JS.isDigits1 digits = true
           /\ i = JS.parseInt digits (Some 10)
           /\ (Terms.decimal digits <= 2 ^ 53 -> i = JS.Num (Terms.decimal digits))
           /\ (i = JS.Infinity \/ exists z, i = JS.Num z /\ 0 <= z)
     end.
Proof.
  intros Hroute Hlogin Hupload Hgate. split.
  - destruct (Index.isProtectedPath (Http.pathname request)) eqn:Hp.
    + destruct (Hgate eq_refl) as [user Hauth].
      now apply (protected_route_reached request env clock store h user).
    + now apply public_route_reached.
  - destruct Hroute as [_ Hpath]. destruct (Terms.idOf h) as [i|]; [|exact Hpath].
    destruct Hpath as (digits & Hp & Hd & ->). exists digits.
    destruct (parseInt_digits digits Hd) as [Hparse _].
    destruct (toDouble_decimal digits Hd) as [Hsign Hexact]. auto 10.
Qed.

Lemma routes_reach_their_handlers_witness :
  Index.handleRequest (H := Reference.jose)
    (Sample.request "DELETE" "/api/admin/category/007" []
       [("Authorization", "Bearer " +:+ Sample.token)] Sample.noBody)
    Sample.env (Sample.at_ 2000000) ∅
  = (Index.Invoke (Index.HDeleteCategory (JS.Num 7)), ∅)
  /\ Index.handleRequest (H := Reference.jose)
       (Sample.request "GET" "/api/article/9007199254740993" [] [] Sample.noBody)
       Sample.env (Sample.at_ 2000000) ∅
     = (Index.Invoke (Index.HGetArticle (JS.Num 9007199254740992)), ∅).
Proof.
  split.
  - apply (routes_reach_their_handlers Reference.jose
             (Sample.request "DELETE" "/api/admin/category/007" []
                [("Authorization", "Bearer " +:+ Sample.token)] Sample.noBody)).
    + split; [reflexivity|]. exists "007". repeat split; reflexivity.
    + discriminate.
    + discriminate.
    + intros _. eexists. vm_compute. reflexivity.
  - apply (routes_reach_their_handlers Reference.jose
             (Sample.request "GET" "/api/article/9007199254740993" [] [] Sample.noBody)).
    + split; [reflexivity|]. exists "9007199254740993".
      repeat split; reflexivity.
    + discriminate.
    + discriminate.
    + intros Hprotected. discriminate Hprotected.
Defined.

(** ** GET requests *)

Section GetRequests.

Import JS Response Env Reply Jwt Auth Security Index Articles Spec Terms.

Context {J : Jose} {B : Login.Bcrypt}.

(** The rows after the guarded UPDATE of the public detail. *)
Lemma incrementViews_lookup (z : Z) (db : D1Database) (k : nat) (row : ArticleRow) :
  articles db !! k = Some row ->
  articles (incrementViews z db) !! k
  = Some (if id (cols row) =? z
          then match status (cols row) with
               | published =>
                   {| cols :=
                        {| id := id (cols row); title := title (cols row);
                           content := content (cols row); cover := cover (cols row);
                           category_id := category_id (cols row);
                           description := description (cols row);
                           keywords := keywords (cols row); status := status (cols row);
                           view_count := view_count (cols row) + 1;
                           like_count := like_count (cols row);
                           created_at := created_at (cols row);
                           updated_at := updated_at (cols row) |};
                      is_pinned := is_pinned row |}
               | draft => row
               end
          else row).
Proof.
  intros Hk. unfold incrementViews. cbn [articles with_articles].
  rewrite list_lookup_fmap, Hk. cbn [fmap option_fmap option_map]. f_equal.
  destruct (id (cols row) =? z); [|reflexivity]. unfold isPublished.
  destruct (status (cols row)) eqn:Hs; cbn [andb ArticleStatus_eqb]; [reflexivity|].
  unfold updateCols, setViewCount. now rewrite Hs.
Qed.

(** [GET /api/article/<digits>] is the route of the public detail. *)
Lemma detail_route request env clock store digits :
  Http.method request = "GET" ->
  Http.pathname request = "/api/article/" +:+ digits ->
  isDigits1 digits = true ->
  handleRequest request env clock store
  = (Invoke (HGetArticle (toDouble (decimal digits))), store).
Proof.
  intros Hm Hp Hd. apply public_route_reached.
  - split; [exact Hm|]. exists digits. cbn [idOf pathOf fst snd].
    rewrite append_empty_r. auto.
  - discriminate.
  - rewrite Hp. reflexivity.
Qed.

(** What running a handler of a GET route gives. *)
Lemma perform_get request h env reads store :
  onRouteOf request h -> methodOf h = "GET" ->
  (Worker.perform h request env reads store = Unmodelled /\ idOf h = Some Infinity)
  \/ exists reply,
       Worker.perform h request env reads store
       = Replied reply
           (match h with
            | HGetArticle (Num z) => with_DB env (incrementViews z (DB env))
            | _ => env
            end, store).
Proof.
  intros [_ Hpath] Hm.
  destruct h; try discriminate Hm; cbn [idOf] in Hpath;
    try (destruct Hpath as (digits & _ & Hd & ->);
         destruct (toDouble_decimal digits Hd) as [[-> | (z & -> & _)] _]);
    cbn [Worker.perform Worker.withId Worker.replied Index.perform Index.withId
         Index.answered fst snd];
    try (left; split; reflexivity);
    try (right; eexists; reflexivity).
  right. eexists. f_equal. f_equal.
  unfold handleGetArticle. now destruct (selectPublished z _).
Qed.

End GetRequests.

(** X28. A GET request never touches the rate-limit store, and it is
    always answered (no handler of a GET route throws), except that a
    request whose path ends in an id so long that [parseInt] reads it as
    [Infinity] is left out.  The answer leaves the bindings as they were,
    with one exception, the public detail [GET /api/article/:id]: there,
    every published row whose id is the one in the path has its
    [view_count] raised by exactly 1, and every other column, row and
    table is as it was. *)
Theorem get_requests_change_only_the_view_counter (J : Jwt.Jose) (B : Login.Bcrypt)
    (request : Http.Request) (clock : Index.Clock) (reads : Worker.Reads)
    (env : Env.Env) (store : gmap string Security.RateLimitRecord) :
  Http.method request = "GET" ->
  (Worker.fetch request clock reads (env, store) = Reply.Unmodelled
   /\ exists prefix digits,
        Http.pathname request = prefix +:+ digits
        /\ JS.isDigits1 digits = true
        /\ JS.parseInt digits (Some 10) = JS.Infinity)
  \/ exists reply env',
       Worker.fetch request clock reads (env, store) = Reply.Replied reply (env', store)
       /\ Env.BUCKET env' = Env.BUCKET env
       /\ Env.JWT_SECRET env' = Env.JWT_SECRET env
       /\ Env.admins (Env.DB env') = Env.admins (Env.DB env)
       /\ Env.categories (Env.DB env') = Env.categories (Env.DB env)
       /\ Env.tags_table (Env.DB env') = Env.tags_table (Env.DB env)
       /\ Env.article_tags (Env.DB env') = Env.article_tags (Env.DB env)
       /\ length (Env.articles (Env.DB env')) = length (Env.articles (Env.DB env))
       /\ ((forall digits,
              Http.pathname request = "/api/article/" +:+ digits ->
              JS.isDigits1 digits = false) ->
           env' = env)
       /\ (forall digits z,
             Http.pathname request = "/api/article/" +:+ digits ->
             JS.isDigits1 digits = true ->
             JS.parseInt digits (Some 10) = JS.Num z ->
             forall k row,
               Env.articles (Env.DB env) !! k = Some row ->
               Env.articles (Env.DB env') !! k
               = Some
                   (if Response.id (Env.cols row) =? z
                    then
                      match Response.status (Env.cols row) with
                      | Response.published =>
                          {| Env.cols :=
                               {| Response.id := Response.id (Env.cols row);
                                  Response.title := Response.title (Env.cols row);
                                  Response.content := Response.content (Env.cols row);
                                  Response.cover := Response.cover (Env.cols row);
                                  Response.category_id :=
                                    Response.category_id (Env.cols row);
                                  Response.description :=
                                    Response.description (Env.cols row);
                                  Response.keywords := Response.keywords (Env.cols row);
                                  Response.status := Response.status (Env.cols row);
                                  Response.view_count :=
                                    Response.view_count (Env.cols row) + 1;
                                  Response.like_count :=
                                    Response.like_count (Env.cols row);
                                  Response.created_at :=
                                    Response.created_at (Env.cols row);
                                  Response.updated_at :=
                                    Response.updated_at (Env.cols row) |};
                             Env.is_pinned := Env.is_pinned row |}
                      | Response.draft => row
                      end
                    else row)).
Proof.
  intros Hm.
  rewrite fetch_other by (rewrite Hm; discriminate).
  unfold Worker.handleRequest. cbn [fst snd].
  pose proof (handleRequest_not_login request env clock store) as Hstore.
  pose proof (handleRequest_Invoke request env clock store) as Hroute.
  pose proof (fun digits => detail_route request env clock store digits Hm) as Hdetail.
  destruct (Index.handleRequest request env clock store) as [[response|h] store1].
  - cbn [snd] in Hstore. rewrite Hstore by (rewrite Hm; intros [_ H]; discriminate H).
    right. do 2 eexists. split; [reflexivity|]. do 7 (split; [reflexivity|]).
    split; [reflexivity|].
    intros digits z Hp Hd _. specialize (Hdetail digits Hp Hd). discriminate Hdetail.
  - cbn [snd] in Hstore. rewrite Hstore by (rewrite Hm; intros [_ H]; discriminate H).
    specialize (Hroute h store1 eq_refl).
    assert (Hget : Terms.methodOf h = "GET") by (destruct Hroute as [<- _]; exact Hm).
    destruct (perform_get request h env reads store Hroute Hget) as [[Hun Hinf] | [reply Hp]].
    + left. rewrite Hun. split; [reflexivity|].
      destruct Hroute as [_ Hpath]. rewrite Hinf in Hpath.
      destruct Hpath as (digits & Hpath & Hd & Hi).
      exists (fst (Terms.pathOf h)), digits.
      split; [|split; [exact Hd|]].
      * rewrite Hpath. destruct h; try discriminate Hget; cbn [Terms.pathOf fst snd];
          now rewrite append_empty_r.
      * now rewrite (proj1 (parseInt_digits digits Hd)).
    + right. rewrite Hp. do 2 eexists. split; [reflexivity|].
      assert (Hshape :
        forall env', env' = match h with
                            | Index.HGetArticle (JS.Num z) =>
                                Env.with_DB env (Articles.incrementViews z (Env.DB env))
                            | _ => env
                            end ->
        env' = env
        \/ exists z, h = Index.HGetArticle (JS.Num z)
                     /\ env' = Env.with_DB env (Articles.incrementViews z (Env.DB env))).
      { intros env' ->. destruct h; try (now left).
        match goal with i : JS.number |- _ => destruct i end; eauto. }
      destruct (Hshape _ eq_refl) as [Hsame | (z & Hh & Hviewed)].
      * rewrite Hsame. do 7 (split; [reflexivity|]). split; [reflexivity|].
        intros digits z Hpath Hd Hparse k row Hk.
        specialize (Hdetail digits Hpath Hd). injection Hdetail as Hdetail.
        rewrite <- (proj1 (parseInt_digits digits Hd)), Hparse in Hdetail.
        subst h. cbn iota in Hsame. specialize (Hshape _ eq_refl).
        rewrite <- Hsame. now apply incrementViews_lookup.
      * rewrite Hviewed. do 6 (split; [reflexivity|]).
        split; [unfold Articles.incrementViews; cbn [Env.DB Env.with_DB Env.articles
                                                       Env.with_articles];
                apply length_map|].
        split.
        -- intros Hnot. subst h. destruct Hroute as [_ (digits & Hpath & Hd & _)].
           cbn [Terms.pathOf fst snd] in Hpath. rewrite append_empty_r in Hpath.
           rewrite (Hnot digits Hpath) in Hd. discriminate Hd.
        -- intros digits z' Hpath Hd Hparse k row Hk.
           specialize (Hdetail digits Hpath Hd). subst h. injection Hdetail as Hdetail.
           rewrite <- (proj1 (parseInt_digits digits Hd)), Hparse in Hdetail.
           injection Hdetail as <-. cbn [Env.DB Env.with_DB].
           now apply incrementViews_lookup.
Qed.

Lemma get_requests_change_only_the_view_counter_witness :
  exists reply env',
    Worker.fetch (H := Reference.jose) (H0 := Reference.bcrypt)
      (Sample.request "GET" "/api/article/1" [] [] Sample.noBody)
      (Sample.at_ 2000000) Fixtures.reads (Sample.env, ∅)
    = Reply.Replied reply (env', ∅)
    /\ option_map (fun row => Response.view_count (Env.cols row))
         (Env.articles (Env.DB env') !! 0%nat) = Some 1
    /\ Env.articles (Env.DB env') !! 1%nat = Some Sample.notes.
Proof.
  destruct (get_requests_change_only_the_view_counter Reference.jose Reference.bcrypt
              (Sample.request "GET" "/api/article/1" [] [] Sample.noBody)
              (Sample.at_ 2000000) Fixtures.reads Sample.env ∅ eq_refl)
    as [[Hun _] | (reply & env' & Hfetch & _ & _ & _ & _ & _ & _ & _ & _ & Hrows)].
  - vm_compute in Hun. discriminate Hun.
  - exists reply, env'. split; [exact Hfetch|]. split.
    + rewrite (Hrows "1" 1 eq_refl eq_refl eq_refl 0%nat Sample.hello eq_refl). reflexivity.
    + rewrite (Hrows "1" 1 eq_refl eq_refl eq_refl 1%nat Sample.notes eq_refl). reflexivity.
Defined.

(** * The repository's middleware tests, replayed *)

Section MiddlewareTests.

Import JS Reply Hardening Cors.

(** middleware/cors.test.ts, "getCORSHeaders" *)
Example cors_default_headers :
  getCORSHeaders None defaultCORSConfig
  = [("Access-Control-Allow-Origin", "*");
     ("Access-Control-Allow-Methods", "GET, POST, PUT, DELETE, OPTIONS");
     ("Access-Control-Allow-Headers", "Content-Type, Authorization");
     ("Access-Control-Max-Age", "86400")].
Proof. vm_compute. reflexivity. Qed.

Example cors_custom_config :
  getCORSHeaders (Some "https://example.com")
    {| allowOrigins := ["https://example.com"]; allowMethods := ["GET"; "POST"];
       allowHeaders := ["Content-Type"]; maxAge := Some (Num 3600);
       allowCredentials := Some true |}
  = [("Access-Control-Allow-Origin", "https://example.com");
     ("Vary", "Origin");
     ("Access-Control-Allow-Methods", "GET, POST");
     ("Access-Control-Allow-Headers", "Content-Type");
     ("Access-Control-Max-Age", "3600");
     ("Access-Control-Allow-Credentials", "true")].
Proof. vm_compute. reflexivity. Qed.

Example cors_unlisted_origin :
  Http.headers_lookup "Access-Control-Allow-Origin"
    (getCORSHeaders (Some "https://other.com")
       {| allowOrigins := ["https://example.com"]; allowMethods := ["GET"];
          allowHeaders := ["Content-Type"]; maxAge := None; allowCredentials := None |})
  = None.
Proof. vm_compute. reflexivity. Qed.

(** middleware/cors.test.ts, "handlePreflight" *)
Example preflight_is_204 :
  let response :=
    handlePreflight
      (Sample.request "OPTIONS" "/api/test" [] [("Origin", "https://client.com")] Sample.noBody)
      defaultCORSConfig in
  rp_status response = 204
  /\ header response "Access-Control-Allow-Origin" = Some "*"
  /\ header response "Access-Control-Allow-Methods" = Some "GET, POST, PUT, DELETE, OPTIONS".
Proof. vm_compute. repeat split. Qed.

Example preflight_custom_config :
  let response :=
    handlePreflight
      (Sample.request "OPTIONS" "/api/test" [] [("Origin", "https://client.com")] Sample.noBody)
      {| allowOrigins := ["https://client.com"]; allowMethods := ["GET"];
         allowHeaders := ["X-Custom-Header"]; maxAge := None; allowCredentials := None |} in
  header response "Access-Control-Allow-Origin" = Some "https://client.com"
  /\ header response "Access-Control-Allow-Methods" = Some "GET"
  /\ header response "Access-Control-Allow-Headers" = Some "X-Custom-Header".
Proof. vm_compute. repeat split. Qed.

(** middleware/cors.test.ts, "addCORSHeaders" *)
Example cors_keeps_status_headers_and_body :
  let response :=
    addCORSHeaders (success PNull 200)
      (Sample.request "GET" "/api/test" [] [("Origin", "https://client.com")] Sample.noBody)
      defaultCORSConfig in
  rp_status response = 200
  /\ header response "Content-Type" = Some "application/json"
  /\ header response "Access-Control-Allow-Origin" = Some "*"
  /\ rp_body response = Ok PNull.
Proof. vm_compute. repeat split. Qed.

(** middleware/cors.test.ts, "corsMiddleware" *)
Example cors_options_skips_the_handler :
  corsMiddleware (Sample.request "OPTIONS" "/api/test" [] [] Sample.noBody)
    (fun called : bool => Replied (success PNull 200) true) defaultCORSConfig false
  = Replied (handlePreflight (Sample.request "OPTIONS" "/api/test" [] [] Sample.noBody)
               defaultCORSConfig) false.
Proof. reflexivity. Qed.

Example cors_post_calls_the_handler :
  match corsMiddleware (Sample.request "POST" "/api/test" [] [] Sample.noBody)
          (fun called : bool => Replied (success PNull 201) true) defaultCORSConfig false with
  | Replied response handlerCalled =>
      handlerCalled = true /\ rp_status response = 201
      /\ header response "Access-Control-Allow-Origin" = Some "*"
  | _ => False
  end.
Proof. vm_compute. repeat split. Qed.

(** middleware/security.test.ts, "addSecurityHeaders" *)
Example security_headers_added :
  let secured := addSecurityHeaders (success PNull 404) in
  rp_status secured = 404
  /\ header secured "X-Content-Type-Options" = Some "nosniff"
  /\ header secured "X-Frame-Options" = Some "DENY"
  /\ header secured "X-XSS-Protection" = Some "1; mode=block"
  /\ header secured "Referrer-Policy" = Some "strict-origin-when-cross-origin"
  /\ (exists policy, header secured "Content-Security-Policy" = Some policy
                     /\ truthy policy = true)
  /\ (exists policy, header secured "Permissions-Policy" = Some policy
                     /\ truthy policy = true).
Proof. vm_compute. repeat split; eexists; split; reflexivity. Qed.

(** middleware/security.test.ts, "sanitizeString" *)
Example sanitize_script :
  sanitizeString ("<script>alert(" +:+ String "034" "xss" +:+ String "034" ")</script>")
  = "&lt;script&gt;alert(&quot;xss&quot;)&lt;&#x2F;script&gt;".
Proof. vm_compute. reflexivity. Qed.

Example sanitize_quotes :
  sanitizeString ("test " +:+ String "034" "quoted" +:+ String "034" " and 'single'")
  = "test &quot;quoted&quot; and &#x27;single&#x27;".
Proof. vm_compute. reflexivity. Qed.

(** middleware/security.test.ts, "generateSecureToken" *)
Example secure_token_of_16_bytes :
  generateSecureToken
    [Byte.x00; Byte.x01; Byte.x0f; Byte.x10; Byte.x7f; Byte.x80; Byte.xa5; Byte.xff;
     Byte.x00; Byte.x01; Byte.x0f; Byte.x10; Byte.x7f; Byte.x80; Byte.xa5; Byte.xff]
  = "00010f107f80a5ff00010f107f80a5ff".
Proof. vm_compute. reflexivity. Qed.

End MiddlewareTests.
